(** * NTFS_Parser: the binary decoders, embedded and verified

  A shallow embedding of the decoding layer of NTFS_Parser
  (src/constants.py, src/mft_parser.py, src/usnjrnl_parser.py,
  src/logfile_parser.py, src/image_handler.py, src/analyzer.py).

  Conventions.
  - A Python [int] is a [Z]; [bytes] is a [list byte]; a Python [str] is
    the list of its code points.
  - A Python [dict] with string keys is a [gmap string value]; a key that
    was never assigned is absent from the map, and [d.get(k, default)] is
    a lookup with a default.
  - A function that can raise ([struct.error], [IndexError], [OSError],
    [ValueError], [RecursionError], [OverflowError], [MemoryError]) returns
    a [res]: [Ok v], [Raise e], or [OutOfFuel].
  - A [while] loop whose bound is not structural takes a [nat] of fuel and
    answers [OutOfFuel] when it is used up; the wrappers supply a bound and
    the theorems show where it suffices. *)

From Stdlib Require Import ZArith Lia List Strings.Byte Strings.String Strings.Ascii
  Sorting.Sorted.
From stdpp Require Import base option list gmap strings.
Import ListNotations.
Local Open Scope Z_scope.

#[global] Instance byte_eq_decision : EqDecision byte := byte_eq_dec.

(** ** Python values: bytes, slices, [struct.unpack] *)
Module Py.

Definition bytes := list byte.
Definition str := list Z.

Definition len {A} (l : list A) : Z := Z.of_nat (length l).

(** [l[a:b]] for [0 <= a]: the bounds are clamped to the length. *)
Definition slice {A} (l : list A) (a b : Z) : list A :=
  take (Z.to_nat (b - a)) (drop (Z.to_nat a) l).

(** [l[a:]] for [0 <= a]. *)
Definition slice_from {A} (l : list A) (a : Z) : list A :=
  drop (Z.to_nat a) l.

(** [l[-n:]] for [0 < n]. *)
Definition slice_last {A} (l : list A) (n : Z) : list A :=
  drop (length l - Z.to_nat n)%nat l.

(** The outcome of a call: a value, a raised exception, or (for the loops
    that take fuel) the fuel ran out before the loop ended. *)
Inductive exn :=
  StructError | IndexError | OSError | ValueError | RecursionError
  | OverflowError | MemoryError.

Inductive res (A : Type) : Type :=
| Ok (a : A)
| Raise (e : exn)
| OutOfFuel.
Arguments Ok {A} a.
Arguments Raise {A} e.
Arguments OutOfFuel {A}.

#[global] Instance res_ret : MRet res := fun A a => Ok a.
#[global] Instance res_bind : MBind res := fun A B f m =>
  match m with
  | Ok a => f a
  | Raise e => Raise e
  | OutOfFuel => OutOfFuel
  end.
#[global] Instance res_fmap : FMap res := fun A B f m =>
  match m with
  | Ok a => Ok (f a)
  | Raise e => Raise e
  | OutOfFuel => OutOfFuel
  end.

(** The interpreter's recursion limit, as the program meets it: where it
    starts a recursion, [call_depth] nested calls of a Python function are
    still possible, and the call after them raises [RecursionError]. (The
    limit is [sys.getrecursionlimit()], 1000 unless it is changed, less the
    frames that are on the stack already; the program never changes it.) *)
Class PyRecursion := {
  call_depth : nat
}.

(** [range(start, stop, step)] for [0 < step] *)
Definition range (start stop step : Z) : list Z :=
  (fun k => start + step * k) <$> seqZ 0 ((stop - start + step - 1) `div` step).

(** [l[i]] for [0 <= i]. *)
Definition index {A} (l : list A) (i : Z) : res A :=
  match l !! Z.to_nat i with
  | Some x => Ok x
  | None => Raise IndexError
  end.

(** [l[a:b] = v] on a [bytearray], for [0 <= a <= b]. *)
Definition slice_assign {A} (l : list A) (a b : Z) (v : list A) : list A :=
  take (Z.to_nat a) l ++ v ++ drop (Z.to_nat b) l.

Definition u8 (b : byte) : Z := Z.of_N (Byte.to_N b).

(** [int.from_bytes(bs, 'little')] *)
Fixpoint from_bytes_little (bs : bytes) : Z :=
  match bs with
  | [] => 0
  | b :: rest => u8 b + 256 * from_bytes_little rest
  end.

(** [struct.unpack('<H' | '<I' | '<Q', s)[0]]: the buffer must have exactly
    the size of the format. *)
Definition unpack_u (n : nat) (s : bytes) : res Z :=
  if decide (length s = n) then Ok (from_bytes_little s) else Raise StructError.

Definition unpack_H := unpack_u 2.
Definition unpack_I := unpack_u 4.
Definition unpack_Q := unpack_u 8.

(** [struct.unpack('<b', s)[0]] *)
Definition unpack_b (s : bytes) : res Z :=
  v ← unpack_u 1 s; Ok (if v <? 128 then v else v - 256).

(** A [str] literal and a [bytes] literal. *)
Definition lit (s : string) : str :=
  map (fun a => Z.of_nat (nat_of_ascii a)) (list_ascii_of_string s).

Definition blit (s : string) : bytes := list_byte_of_string s.

(** [struct.pack] of an unsigned little-endian field of [n] bytes, used to
    write concrete inputs down. *)
Fixpoint pack_u (n : nat) (v : Z) : bytes :=
  match n with
  | O => []
  | S k =>
      match Byte.of_N (Z.to_N (v mod 256)) with
      | Some b => b :: pack_u k (v / 256)
      | None => x00 :: pack_u k (v / 256)
      end
  end.

Definition zeros (n : nat) : bytes := replicate n x00.

(** *** UTF-16LE decoding ([bytes.decode('utf-16-le', errors=...)]) *)

Inductive errors := Strict | Ignore | Replace.

Definition is_high_surrogate (u : Z) : bool := (0xD800 <=? u) && (u <=? 0xDBFF).
Definition is_low_surrogate (u : Z) : bool := (0xDC00 <=? u) && (u <=? 0xDFFF).

(** The 16-bit units of a byte string, and whether a lone byte is left. *)
Fixpoint units (bs : bytes) : list Z * bool :=
  match bs with
  | [] => ([], false)
  | [_] => ([], true)
  | lo :: hi :: rest =>
      let '(us, odd) := units rest in ((u8 lo + 256 * u8 hi) :: us, odd)
  end.

(** What the error handler makes of one undecodable range, given the
    decoding of what follows it. *)
Definition on_error (h : errors) (k : option str) : option str :=
  match h with
  | Strict => None
  | Ignore => k
  | Replace => cons 0xFFFD <$> k
  end.

Fixpoint decode_units (h : errors) (odd : bool) (us : list Z) : option str :=
  match us with
  | [] => if odd then on_error h (Some []) else Some []
  | u :: rest =>
      if is_high_surrogate u then
        match rest with
        | [] => on_error h (Some [])
        | u2 :: rest2 =>
            if is_low_surrogate u2
            then cons (0x10000 + (u - 0xD800) * 1024 + (u2 - 0xDC00))
                   <$> decode_units h odd rest2
            else on_error h (decode_units h odd rest)
        end
      else if is_low_surrogate u then on_error h (decode_units h odd rest)
      else cons u <$> decode_units h odd rest
  end.

(** [None] is the [UnicodeDecodeError]. *)
Definition decode_utf16le (h : errors) (bs : bytes) : option str :=
  let '(us, odd) := units bs in decode_units h odd us.

End Py.

(** ** src/constants.py *)
Module Constants.
Import Py.

Definition MFT_ENTRY_SIZE : Z := 1024.
Definition MFT_SIGNATURE : bytes := blit "FILE".
Definition MFT_SIGNATURE_BAD : bytes := blit "BAAD".

Module AttrType.
Definition STANDARD_INFORMATION : Z := 0x10.
Definition ATTRIBUTE_LIST : Z := 0x20.
Definition FILE_NAME : Z := 0x30.
Definition DATA : Z := 0x80.
Definition INDEX_ROOT : Z := 0x90.
Definition INDEX_ALLOCATION : Z := 0xA0.
Definition END : Z := 0xFFFFFFFF.
End AttrType.

Module FileAttrFlags.
Definition READ_ONLY : Z := 0x0001.
Definition HIDDEN : Z := 0x0002.
Definition SYSTEM : Z := 0x0004.
Definition DIRECTORY : Z := 0x0010.
Definition ARCHIVE : Z := 0x0020.
Definition SPARSE_FILE : Z := 0x0200.
Definition REPARSE_POINT : Z := 0x0400.
Definition COMPRESSED : Z := 0x0800.
Definition ENCRYPTED : Z := 0x4000.
End FileAttrFlags.

Module MftRecordFlags.
Definition IN_USE : Z := 0x0001.
Definition DIRECTORY : Z := 0x0002.
End MftRecordFlags.

Module UsnReason.
Definition DATA_OVERWRITE : Z := 0x00000001.
Definition DATA_EXTEND : Z := 0x00000002.
Definition DATA_TRUNCATION : Z := 0x00000004.
Definition FILE_CREATE : Z := 0x00000100.
Definition FILE_DELETE : Z := 0x00000200.
Definition SECURITY_CHANGE : Z := 0x00000800.
Definition RENAME_OLD_NAME : Z := 0x00001000.
Definition RENAME_NEW_NAME : Z := 0x00002000.
Definition BASIC_INFO_CHANGE : Z := 0x00008000.
Definition HARD_LINK_CHANGE : Z := 0x00010000.
Definition CLOSE : Z := 0x80000000.
End UsnReason.

Module FileNamespace.
Definition POSIX : Z := 0.
Definition WIN32 : Z := 1.
Definition DOS : Z := 2.
Definition WIN32_AND_DOS : Z := 3.
End FileNamespace.

(** Python's [datetime] library, as far as the program uses it:
    [from_filetime ft] is [NTFS_EPOCH + timedelta(seconds=ft / 10_000_000)]
    moved to the KST zone ([None] when the library raises [OverflowError],
    [OSError] or [ValueError]), and [strftime dt] is
    [dt.strftime("%Y-%m-%d %H:%M:%S")]. The division is a floating-point
    one, so the library is taken as an interface. *)
Class PyDatetime := {
  datetime : Type;
  from_filetime : Z -> option datetime;
  strftime : datetime -> str
}.

Definition filetime_to_datetime `{PyDatetime} (filetime : Z) : option datetime :=
  if (filetime =? 0) || (filetime <? 0) then None
  else from_filetime filetime.

Definition format_timestamp `{PyDatetime} (dt : option datetime) : str :=
  match dt with
  | None => []
  | Some d => strftime d
  end.

(** [sep.join(parts)] *)
Fixpoint join (sep : str) (parts : list str) : str :=
  match parts with
  | [] => []
  | [p] => p
  | p :: rest => p ++ sep ++ join sep rest
  end.

(** [if flags & mask: attrs.append(name)] *)
Definition append_if (flags mask : Z) (name : string) (attrs : list str) : list str :=
  if Z.land flags mask =? 0 then attrs else attrs ++ [lit name].

Definition format_file_attr (flags : Z) : str :=
  let attrs := [] in
  let attrs := append_if flags FileAttrFlags.READ_ONLY "ReadOnly" attrs in
  let attrs := append_if flags FileAttrFlags.HIDDEN "Hidden" attrs in
  let attrs := append_if flags FileAttrFlags.SYSTEM "System" attrs in
  let attrs := append_if flags FileAttrFlags.DIRECTORY "Directory" attrs in
  let attrs := append_if flags FileAttrFlags.ARCHIVE "Archive" attrs in
  let attrs := append_if flags FileAttrFlags.COMPRESSED "Compressed" attrs in
  let attrs := append_if flags FileAttrFlags.ENCRYPTED "Encrypted" attrs in
  let attrs := append_if flags FileAttrFlags.SPARSE_FILE "Sparse" attrs in
  let attrs := append_if flags FileAttrFlags.REPARSE_POINT "ReparsePoint" attrs in
  match attrs with
  | [] => lit "Normal"
  | _ => join (lit "|") attrs
  end.

Definition digit_char (d : Z) : Z :=
  if d <? 10 then 48 + d else 65 + (d - 10).

(** The digits of [n >= 0] in base [b], most significant first. *)
Fixpoint digits (fuel : nat) (b n : Z) (acc : str) : str :=
  match fuel with
  | O => acc
  | S f =>
      let acc' := digit_char (n mod b) :: acc in
      if n / b =? 0 then acc' else digits f b (n / b) acc'
  end.

(** [str(n)] *)
Definition str_of_int (n : Z) : str :=
  if n <? 0 then 45 :: digits (S (Z.to_nat (Z.log2 (- n)))) 10 (- n) []
  else digits (S (Z.to_nat (Z.log2 n))) 10 n [].

(** [f"0x{n:08X}"] for [n >= 0] *)
Definition format_0x08X (n : Z) : str :=
  let ds := digits (S (Z.to_nat (Z.log2 n))) 16 n [] in
  lit "0x" ++ replicate (8 - length ds) 48 ++ ds.

Definition format_usn_reason (reason : Z) : str :=
  let reasons := [] in
  let reasons := append_if reason UsnReason.DATA_OVERWRITE "DataOverwrite" reasons in
  let reasons := append_if reason UsnReason.DATA_EXTEND "DataExtend" reasons in
  let reasons := append_if reason UsnReason.DATA_TRUNCATION "DataTruncation" reasons in
  let reasons := append_if reason UsnReason.FILE_CREATE "FileCreate" reasons in
  let reasons := append_if reason UsnReason.FILE_DELETE "FileDelete" reasons in
  let reasons := append_if reason UsnReason.RENAME_OLD_NAME "RenameOldName" reasons in
  let reasons := append_if reason UsnReason.RENAME_NEW_NAME "RenameNewName" reasons in
  let reasons := append_if reason UsnReason.SECURITY_CHANGE "SecurityChange" reasons in
  let reasons := append_if reason UsnReason.BASIC_INFO_CHANGE "BasicInfoChange" reasons in
  let reasons := append_if reason UsnReason.HARD_LINK_CHANGE "HardLinkChange" reasons in
  let reasons := append_if reason UsnReason.CLOSE "Close" reasons in
  match reasons with
  | [] => format_0x08X reason
  | _ => join (lit "|") reasons
  end.

Definition parse_file_reference (ref : Z) : Z * Z :=
  let entry_number := Z.land ref 0x0000FFFFFFFFFFFF in
  let sequence_number := Z.land (Z.shiftr ref 48) 0xFFFF in
  (entry_number, sequence_number).

Definition format_file_reference (ref : Z) : str :=
  let '(entry, seq) := parse_file_reference ref in
  str_of_int entry ++ lit "-" ++ str_of_int seq.

End Constants.

(** ** src/mft_parser.py: [MFTEntry] *)
Module MftParser.
Import Py Constants.

(** One decoded data run: the dict
    [{'start_cluster': .., 'length': .., 'sparse': ..}], which is always
    built with its three keys. *)
Record DataRun := {
  start_cluster : Z;
  run_length : Z;
  sparse : bool
}.

(** The values an attribute dict holds. *)
Inductive value :=
| VInt (z : Z)
| VBool (b : bool)
| VStr (s : str)
| VBytes (b : bytes)
| VRuns (l : list DataRun).

(** An attribute is a Python dict: a key that was never assigned is absent. *)
Abbreviation dict := (gmap string value).

(** [d.get(k, default)], at each of the types the program stores. *)
Definition get_int (d : dict) (k : string) (default : Z) : Z :=
  match d !! k with Some (VInt z) => z | _ => default end.

Definition get_bool (d : dict) (k : string) (default : bool) : bool :=
  match d !! k with Some (VBool b) => b | _ => default end.

Definition get_str (d : dict) (k : string) (default : str) : str :=
  match d !! k with Some (VStr s) => s | _ => default end.

Definition get_bytes (d : dict) (k : string) (default : bytes) : bytes :=
  match d !! k with Some (VBytes b) => b | _ => default end.

Definition get_runs (d : dict) (k : string) (default : list DataRun) : list DataRun :=
  match d !! k with Some (VRuns l) => l | _ => default end.

(** [l[-1]] *)
Definition index_last {A} (l : list A) : res A :=
  match last l with
  | Some x => Ok x
  | None => Raise IndexError
  end.

(** The [while offset < len(data)] loop of [_parse_data_runs]; every turn
    that does not leave the loop moves [offset] forward by at least 2. *)
Fixpoint data_runs_loop (fuel : nat) (data : bytes) (offset current_cluster : Z)
    (runs : list DataRun) : res (list DataRun) :=
  match fuel with
  | O => OutOfFuel
  | S fuel' =>
      if negb (offset <? len data) then Ok runs else
      header ← u8 <$> index data offset;
      if header =? 0 then Ok runs else
      let length_size := Z.land header 0x0F in
      let offset_size := Z.land (Z.shiftr header 4) 0x0F in
      if length_size =? 0 then Ok runs else
      if offset + 1 + length_size + offset_size >? len data then Ok runs else
      let length_bytes := slice data (offset + 1) (offset + 1 + length_size) in
      let run_length := from_bytes_little length_bytes in
      if offset_size >? 0 then
        let offset_bytes :=
          slice data (offset + 1 + length_size)
                     (offset + 1 + length_size + offset_size) in
        let run_offset := from_bytes_little offset_bytes in
        top ← index_last offset_bytes;
        let run_offset :=
          if Z.land (u8 top) 0x80 =? 0 then run_offset
          else run_offset - Z.shiftl 1 (offset_size * 8) in
        let current_cluster := current_cluster + run_offset in
        data_runs_loop fuel' data (offset + 1 + length_size + offset_size)
          current_cluster
          (runs ++ [{| start_cluster := current_cluster;
                       run_length := run_length;
                       sparse := false |}])
      else
        data_runs_loop fuel' data (offset + 1 + length_size + offset_size)
          current_cluster
          (runs ++ [{| start_cluster := 0;
                       run_length := run_length;
                       sparse := true |}])
  end.

Definition _parse_data_runs (data : bytes) : res (list DataRun) :=
  data_runs_loop (S (length data)) data 0 0 [].

Definition _parse_resident_attr (attr : dict) (data : bytes) : res dict :=
  if len data <? 24 then Ok attr else
  content_size ← unpack_I (slice data 16 20);
  content_offset ← unpack_H (slice data 20 22);
  if content_offset + content_size <=? len data
  then Ok (<["data" :=
              VBytes (slice data content_offset (content_offset + content_size))]> attr)
  else Ok (<["data" := VBytes []]> attr).

Definition _parse_non_resident_attr (attr : dict) (data : bytes) : res dict :=
  if len data <? 48 then Ok attr else
  start_vcn ← unpack_Q (slice data 16 24);
  let attr := <["start_vcn" := VInt start_vcn]> attr in
  end_vcn ← unpack_Q (slice data 24 32);
  let attr := <["end_vcn" := VInt end_vcn]> attr in
  run_offset ← unpack_H (slice data 32 34);
  let attr := <["run_offset" := VInt run_offset]> attr in
  compression_unit ← unpack_H (slice data 34 36);
  let attr := <["compression_unit" := VInt compression_unit]> attr in
  allocated_size ← unpack_Q (slice data 40 48);
  let attr := <["allocated_size" := VInt allocated_size]> attr in
  attr ←
    (if (get_int attr "start_vcn" 0 =? 0) && (len data >=? 64) then
       real_size ← unpack_Q (slice data 48 56);
       let attr := <["real_size" := VInt real_size]> attr in
       initialized_size ← unpack_Q (slice data 56 64);
       Ok (<["initialized_size" := VInt initialized_size]> attr)
     else
       let attr :=
         <["real_size" := VInt (get_int attr "allocated_size" 0)]> attr in
       Ok (<["initialized_size" := VInt (get_int attr "allocated_size" 0)]> attr));
  let run_offset := get_int attr "run_offset" 0 in
  if run_offset <? len data then
    runs ← _parse_data_runs (slice_from data run_offset);
    Ok (<["data_runs" := VRuns runs]> attr)
  else Ok attr.

Definition _parse_standard_info (attr : dict) : res dict :=
  let data := get_bytes attr "data" [] in
  if len data <? 48 then Ok attr else
  si_created ← unpack_Q (slice data 0 8);
  let attr := <["si_created" := VInt si_created]> attr in
  si_modified ← unpack_Q (slice data 8 16);
  let attr := <["si_modified" := VInt si_modified]> attr in
  si_mft_modified ← unpack_Q (slice data 16 24);
  let attr := <["si_mft_modified" := VInt si_mft_modified]> attr in
  si_accessed ← unpack_Q (slice data 24 32);
  let attr := <["si_accessed" := VInt si_accessed]> attr in
  si_flags ← unpack_I (slice data 32 36);
  Ok (<["si_flags" := VInt si_flags]> attr).

Definition _parse_filename (attr : dict) : res dict :=
  let data := get_bytes attr "data" [] in
  if len data <? 66 then Ok attr else
  parent_ref ← unpack_Q (slice data 0 8);
  let attr := <["parent_ref" := VInt parent_ref]> attr in
  fn_created ← unpack_Q (slice data 8 16);
  let attr := <["fn_created" := VInt fn_created]> attr in
  fn_modified ← unpack_Q (slice data 16 24);
  let attr := <["fn_modified" := VInt fn_modified]> attr in
  fn_mft_modified ← unpack_Q (slice data 24 32);
  let attr := <["fn_mft_modified" := VInt fn_mft_modified]> attr in
  fn_accessed ← unpack_Q (slice data 32 40);
  let attr := <["fn_accessed" := VInt fn_accessed]> attr in
  fn_allocated_size ← unpack_Q (slice data 40 48);
  let attr := <["fn_allocated_size" := VInt fn_allocated_size]> attr in
  fn_real_size ← unpack_Q (slice data 48 56);
  let attr := <["fn_real_size" := VInt fn_real_size]> attr in
  fn_flags ← unpack_I (slice data 56 60);
  let attr := <["fn_flags" := VInt fn_flags]> attr in
  fn_namespace ← u8 <$> index data 65;
  let attr := <["fn_namespace" := VInt fn_namespace]> attr in
  name_length ← u8 <$> index data 64;
  if len data >=? 66 + name_length * 2 then
    Ok (<["filename" :=
           VStr (default []
                   (decode_utf16le Strict (slice data 66 (66 + name_length * 2))))]>
          attr)
  else Ok attr.

(** [bool(x)] of an int *)
Definition truthy (x : Z) : bool := negb (x =? 0).

Definition _parse_attribute (attr_type : Z) (data : bytes) : res (option dict) :=
  if len data <? 16 then Ok None else
  non_resident ← u8 <$> index data 8;
  name_length ← u8 <$> index data 9;
  name_offset ← unpack_H (slice data 10 12);
  flags ← unpack_H (slice data 12 14);
  id ← unpack_H (slice data 14 16);
  let attr : dict :=
    <["id" := VInt id]>
      (<["flags" := VInt flags]>
         (<["name_offset" := VInt name_offset]>
            (<["name_length" := VInt name_length]>
               (<["non_resident" := VBool (truthy non_resident)]>
                  (<["length" := VInt (len data)]>
                     (<["type" := VInt attr_type]> ∅)))))) in
  let attr :=
    if name_length >? 0 then
      let name_start := name_offset in
      let name_end := name_start + name_length * 2 in
      if name_end <=? len data then
        <["name" :=
            VStr (default [] (decode_utf16le Strict (slice data name_start name_end)))]>
          attr
      else attr
    else <["name" := VStr []]> attr in
  attr ←
    (if get_bool attr "non_resident" false
     then _parse_non_resident_attr attr data
     else _parse_resident_attr attr data);
  attr ←
    (if attr_type =? AttrType.STANDARD_INFORMATION then _parse_standard_info attr
     else if attr_type =? AttrType.FILE_NAME then _parse_filename attr
     else Ok attr);
  Ok (Some attr).

(** The [while] loop of [_parse_attributes]; every turn that does not leave
    the loop moves [offset] forward by [attr_length >= 1]. *)
Fixpoint attributes_loop (fuel : nat) (data : bytes) (offset max_offset : Z)
    (attributes : list dict) : res (list dict) :=
  match fuel with
  | O => OutOfFuel
  | S fuel' =>
      if negb ((offset + 4 <=? len data) && (offset <? max_offset))
      then Ok attributes else
      attr_type ← unpack_I (slice data offset (offset + 4));
      if attr_type =? 0xFFFFFFFF then Ok attributes else
      if offset + 8 >? len data then Ok attributes else
      attr_length ← unpack_I (slice data (offset + 4) (offset + 8));
      if (attr_length =? 0) || (attr_length >? len data - offset)
      then Ok attributes else
      let attr_data := slice data offset (offset + attr_length) in
      attr ← _parse_attribute attr_type attr_data;
      let attributes :=
        match attr with
        | Some a => attributes ++ [a]
        | None => attributes
        end in
      attributes_loop fuel' data (offset + attr_length) max_offset attributes
  end.

Definition _parse_attributes (data : bytes) (attributes : list dict)
    (start_offset max_offset : Z) : res (list dict) :=
  attributes_loop (S (length data)) data start_offset max_offset attributes.

(** One turn of [for i in range(1, count)] in [_apply_fixup]. *)
Definition fixup_step (offset : Z) (data : bytes) (i : Z) : bytes :=
  let fixup_value := slice data (offset + i * 2) (offset + i * 2 + 2) in
  let sector_end := i * 512 - 2 in
  if sector_end + 2 <=? len data
  then slice_assign data sector_end (sector_end + 2) fixup_value
  else data.

(** [fixup_signature] is read and not used again. *)
Definition _apply_fixup (data : bytes) (offset count : Z) : bytes :=
  let fixup_signature := slice data offset (offset + 2) in
  foldl (fixup_step offset) data (seqZ 1 (count - 1)).

(** The dataclass [MFTRecord]. *)
Module MFTRecord.
Record t := {
  entry_number : Z;
  sequence_number : Z;
  flags : Z;
  in_use : bool;
  is_directory : bool;
  si_created : str;
  si_modified : str;
  si_mft_modified : str;
  si_accessed : str;
  si_flags : Z;
  filename : str;
  parent_ref : Z;
  fn_created : str;
  fn_modified : str;
  fn_mft_modified : str;
  fn_accessed : str;
  fn_flags : Z;
  fn_allocated_size : Z;
  fn_real_size : Z;
  data_size : Z;
  is_resident : bool;
  full_path : str
}.

Definition set_full_path (r : t) (p : str) : t :=
  {| entry_number := entry_number r; sequence_number := sequence_number r;
     flags := flags r; in_use := in_use r; is_directory := is_directory r;
     si_created := si_created r; si_modified := si_modified r;
     si_mft_modified := si_mft_modified r; si_accessed := si_accessed r;
     si_flags := si_flags r; filename := filename r; parent_ref := parent_ref r;
     fn_created := fn_created r; fn_modified := fn_modified r;
     fn_mft_modified := fn_mft_modified r; fn_accessed := fn_accessed r;
     fn_flags := fn_flags r; fn_allocated_size := fn_allocated_size r;
     fn_real_size := fn_real_size r; data_size := data_size r;
     is_resident := is_resident r; full_path := p |}.
End MFTRecord.

(** The class [MFTEntry]: its instance variables, [parse] and [to_record]. *)
Module MFTEntry.
Record t := {
  data : bytes;
  entry_number : Z;
  attributes : list dict;
  is_valid : bool;
  flags : Z;
  sequence : Z
}.

(** [MFTEntry(data, entry_number)] *)
Definition __init__ (data : bytes) (entry_number : Z) : t :=
  {| data := data; entry_number := entry_number; attributes := [];
     is_valid := false; flags := 0; sequence := 0 |}.

(** [parse] answers the returned bool and the object as it leaves it. *)
Definition parse (self : t) : res (bool * t) :=
  if len (data self) <? 48 then Ok (false, self) else
  let signature := slice (data self) 0 4 in
  if negb (bool_decide (signature ∈ [MFT_SIGNATURE; MFT_SIGNATURE_BAD]))
  then Ok (false, self) else
  if bool_decide (signature = MFT_SIGNATURE_BAD) then Ok (false, self) else
  fixup_offset ← unpack_H (slice (data self) 4 6);
  fixup_count ← unpack_H (slice (data self) 6 8);
  let data1 :=
    if (fixup_count >? 0) && (fixup_offset + fixup_count * 2 <=? len (data self))
    then _apply_fixup (data self) fixup_offset fixup_count
    else data self in
  sequence1 ← unpack_H (slice data1 16 18);
  flags1 ← unpack_H (slice data1 22 24);
  attr_offset ← unpack_H (slice data1 20 22);
  used_size ← unpack_I (slice data1 24 28);
  attributes1 ← _parse_attributes data1 (attributes self) attr_offset used_size;
  Ok (true,
      {| data := data1; entry_number := entry_number self;
         attributes := attributes1; is_valid := true;
         flags := flags1; sequence := sequence1 |}).

(** [attr['type'] == ty]: every dict in [attributes] was built by
    [_parse_attribute] with the key ['type']. *)
Definition has_type (ty : Z) (attr : dict) : bool :=
  match attr !! "type" with
  | Some (VInt z) => z =? ty
  | _ => false
  end.

(** [x is None] *)
Definition is_none {A} (x : option A) : bool :=
  match x with
  | None => true
  | Some _ => false
  end.

(** The loop that picks [best_filename]; [Some a] on the first line of a
    branch is the [break]. *)
Fixpoint select_best_filename (attributes : list dict) (best_filename : option dict)
    : option dict :=
  match attributes with
  | [] => best_filename
  | attr :: rest =>
      if has_type AttrType.FILE_NAME attr then
        let namespace := get_int attr "fn_namespace" 0 in
        if bool_decide (namespace ∈ [FileNamespace.WIN32; FileNamespace.WIN32_AND_DOS])
        then Some attr
        else if (namespace =? FileNamespace.POSIX)
                && is_none best_filename
        then select_best_filename rest (Some attr)
        else if is_none best_filename
        then select_best_filename rest (Some attr)
        else select_best_filename rest best_filename
      else select_best_filename rest best_filename
  end.

Section to_record.
Context `{PyDatetime}.

(** [format_timestamp(filetime_to_datetime(attr.get(k, 0)))] *)
Definition timestamp_of (attr : dict) (k : string) : str :=
  format_timestamp (filetime_to_datetime (get_int attr k 0)).

(** The three [for attr in self.attributes] loops of [to_record]; the first
    and the last stop at the first attribute that passes their test. *)
Definition to_record (self : t) : option MFTRecord.t :=
  if negb (is_valid self) then None else
  let si := List.find (has_type AttrType.STANDARD_INFORMATION) (attributes self) in
  let best_filename := select_best_filename (attributes self) None in
  let data_attr :=
    List.find
      (fun attr => has_type AttrType.DATA attr
                   && bool_decide (get_str attr "name" [] = []))
      (attributes self) in
  Some
    {| MFTRecord.entry_number := entry_number self;
       MFTRecord.sequence_number := sequence self;
       MFTRecord.flags := flags self;
       MFTRecord.in_use := truthy (Z.land (flags self) MftRecordFlags.IN_USE);
       MFTRecord.is_directory := truthy (Z.land (flags self) MftRecordFlags.DIRECTORY);
       MFTRecord.si_created := from_option (fun a => timestamp_of a "si_created") [] si;
       MFTRecord.si_modified := from_option (fun a => timestamp_of a "si_modified") [] si;
       MFTRecord.si_mft_modified :=
         from_option (fun a => timestamp_of a "si_mft_modified") [] si;
       MFTRecord.si_accessed := from_option (fun a => timestamp_of a "si_accessed") [] si;
       MFTRecord.si_flags := from_option (fun a => get_int a "si_flags" 0) 0 si;
       MFTRecord.filename :=
         from_option (fun a => get_str a "filename" []) [] best_filename;
       MFTRecord.parent_ref :=
         from_option (fun a => get_int a "parent_ref" 0) 0 best_filename;
       MFTRecord.fn_created :=
         from_option (fun a => timestamp_of a "fn_created") [] best_filename;
       MFTRecord.fn_modified :=
         from_option (fun a => timestamp_of a "fn_modified") [] best_filename;
       MFTRecord.fn_mft_modified :=
         from_option (fun a => timestamp_of a "fn_mft_modified") [] best_filename;
       MFTRecord.fn_accessed :=
         from_option (fun a => timestamp_of a "fn_accessed") [] best_filename;
       MFTRecord.fn_flags :=
         from_option (fun a => get_int a "fn_flags" 0) 0 best_filename;
       MFTRecord.fn_allocated_size :=
         from_option (fun a => get_int a "fn_allocated_size" 0) 0 best_filename;
       MFTRecord.fn_real_size :=
         from_option (fun a => get_int a "fn_real_size" 0) 0 best_filename;
       MFTRecord.data_size :=
         from_option
           (fun a => if get_bool a "non_resident" false
                     then get_int a "real_size" 0
                     else len (get_bytes a "data" []))
           0 data_attr;
       MFTRecord.is_resident :=
         from_option (fun a => negb (get_bool a "non_resident" false)) true data_attr;
       MFTRecord.full_path := [] |}.

End to_record.
End MFTEntry.

(** The class [MFTParser]. The file at [mft_path] is its bytes; reading it
    sequentially leaves the unread rest. *)
Module MFTParser.
Section MFTParser.
Context `{PyDatetime} `{PyRecursion}.

(** [self.entry_size] *)
Variable entry_size : Z.

(** [f.read(n)] for [0 <= n]: what was read, and the rest of the file. *)
Definition read (n : Z) (f : bytes) : bytes * bytes :=
  (take (Z.to_nat n) f, drop (Z.to_nat n) f).

(** The [while True] loop of [iter_entries]; [out] is what was yielded. *)
Fixpoint iter_entries_loop (fuel : nat) (f : bytes) (entry_number : Z)
    (include_deleted : bool) (out : list MFTRecord.t) : res (list MFTRecord.t) :=
  match fuel with
  | O => OutOfFuel
  | S fuel' =>
      let '(data, f) := read entry_size f in
      if len data <? entry_size then Ok out else
      let entry := MFTEntry.__init__ data entry_number in
      r ← MFTEntry.parse entry;
      let '(parsed, entry) := (r : bool * MFTEntry.t) in
      let out :=
        if parsed then
          match MFTEntry.to_record entry with
          | Some record =>
              if include_deleted || MFTRecord.in_use record
              then out ++ [record] else out
          | None => out
          end
        else out in
      iter_entries_loop fuel' f (entry_number + 1) include_deleted out
  end.

Definition iter_entries (file : bytes) (include_deleted : bool)
    : res (list MFTRecord.t) :=
  iter_entries_loop (S (length file)) file 0 include_deleted [].

(** The first pass of [build_path_cache]. [name_order] lists the keys of
    [name_map] in the order of their insertion, which is the order in which
    [for entry_num in name_map] visits them. *)
Fixpoint first_pass (fuel : nat) (f : bytes) (entry_number : Z)
    (parent_map : gmap Z Z) (name_map : gmap Z str) (name_order : list Z)
    : res (gmap Z Z * gmap Z str * list Z) :=
  match fuel with
  | O => OutOfFuel
  | S fuel' =>
      let '(data, f) := read entry_size f in
      if len data <? entry_size then Ok (parent_map, name_map, name_order) else
      let entry := MFTEntry.__init__ data entry_number in
      r ← MFTEntry.parse entry;
      let '(parsed, entry) := (r : bool * MFTEntry.t) in
      let '(parent_map, name_map, name_order) :=
        if parsed then
          match MFTEntry.to_record entry with
          | Some record =>
              if MFTRecord.in_use record then
                let '(parent_entry, _) :=
                  parse_file_reference (MFTRecord.parent_ref record) in
                (<[entry_number := parent_entry]> parent_map,
                 <[entry_number := MFTRecord.filename record]> name_map,
                 name_order ++ [entry_number])
              else (parent_map, name_map, name_order)
          | None => (parent_map, name_map, name_order)
          end
        else (parent_map, name_map, name_order) in
      first_pass fuel' f (entry_number + 1) parent_map name_map name_order
  end.

(** The nested function [get_path]. It answers the path and the
    [self.path_cache] it leaves; [visited] is the set the callers share,
    which no caller reads again after the call. [depth] is the number of
    nested calls the interpreter still allows, this one included: with none
    left the call raises [RecursionError], which nothing catches. *)
Fixpoint get_path (depth : nat) (name_map : gmap Z str) (parent_map : gmap Z Z)
    (entry_num : Z) (visited : gset Z) (path_cache : gmap Z str)
    : res (str * gmap Z str) :=
  match depth with
  | O => Raise RecursionError
  | S depth' =>
      match path_cache !! entry_num with
      | Some p => Ok (p, path_cache)
      | None =>
          match name_map !! entry_num with
          | None => Ok ([], path_cache)
          | Some name =>
              if bool_decide (entry_num ∈ visited) then Ok ([], path_cache) else
              let visited := {[entry_num]} ∪ visited in
              let parent := default 0 (parent_map !! entry_num) in
              r ←
                (if entry_num =? 5 then Ok (lit "\", path_cache)
                 else if (parent =? 5) || (parent =? entry_num)
                 then Ok (lit "\" ++ name, path_cache)
                 else
                   r ←
                     get_path depth' name_map parent_map parent visited path_cache;
                   let '(parent_path, path_cache) := r in
                   Ok (match parent_path with
                       | [] => lit "\" ++ name
                       | _ => parent_path ++ lit "\" ++ name
                       end, path_cache));
              let '(path, path_cache) := r in
              Ok (path, <[entry_num := path]> path_cache)
          end
      end
  end.

(** [for entry_num in name_map: get_path(entry_num)] *)
Fixpoint get_path_all (name_map : gmap Z str) (parent_map : gmap Z Z)
    (name_order : list Z) (path_cache : gmap Z str) : res (gmap Z str) :=
  match name_order with
  | [] => Ok path_cache
  | entry_num :: rest =>
      r ← get_path call_depth name_map parent_map entry_num ∅ path_cache;
      let '(_, path_cache) := r in
      get_path_all name_map parent_map rest path_cache
  end.

(** [build_path_cache] on the file [file], from the cache [path_cache];
    it answers the [self.path_cache] it leaves. *)
Definition build_path_cache (file : bytes) (path_cache : gmap Z str)
    : res (gmap Z str) :=
  r ← first_pass (S (length file)) file 0 ∅ ∅ [];
  let '(parent_map, name_map, name_order) := r in
  get_path_all name_map parent_map name_order path_cache.

(** [iter_entries_with_paths] from a fresh parser. *)
Definition iter_entries_with_paths (file : bytes) (include_deleted : bool)
    : res (list MFTRecord.t) :=
  path_cache ← build_path_cache file ∅;
  records ← iter_entries file include_deleted;
  Ok (map (fun record =>
             MFTRecord.set_full_path record
               (default [] (path_cache !! MFTRecord.entry_number record)))
          records).

End MFTParser.
End MFTParser.

End MftParser.

(** ** src/usnjrnl_parser.py *)
Module UsnJrnl.
Import Py Constants.

(** The dataclass [UsnRecord] and its properties. *)
Module UsnRecord.
Record t := {
  record_length : Z;
  major_version : Z;
  minor_version : Z;
  file_reference : Z;
  parent_file_reference : Z;
  usn : Z;
  timestamp : str;
  timestamp_raw : Z;
  reason : Z;
  source_info : Z;
  security_id : Z;
  file_attributes : Z;
  filename : str;
  filename_length : Z;
  filename_offset : Z;
  extra_info1 : Z;
  extra_info2 : Z
}.

Definition event (self : t) : str := format_usn_reason (reason self).
Definition file_attr_str (self : t) : str := format_file_attr (file_attributes self).
Definition file_ref_str (self : t) : str := format_file_reference (file_reference self).
Definition parent_ref_str (self : t) : str :=
  format_file_reference (parent_file_reference self).
End UsnRecord.

Definition BUFFER_SIZE : Z := 1024 * 1024.
Definition MIN_RECORD_SIZE_V2 : Z := 60.
Definition MIN_RECORD_SIZE_V3 : Z := 76.

(** [try: ... except struct.error: return None] *)
Definition except_struct_error {A} (body : res (option A)) : res (option A) :=
  match body with
  | Raise StructError => Ok None
  | r => r
  end.

(** [name_data.decode('utf-16-le')], and on any exception the same with
    [errors='replace']. *)
Definition decode_name (name_data : bytes) : str :=
  match decode_utf16le Strict name_data with
  | Some s => s
  | None => default [] (decode_utf16le Replace name_data)
  end.

Section parse_record.
Context `{PyDatetime}.

(** [record] holds the three header fields that [_parse_record] has set. *)
Definition _parse_v2_record (data : bytes) (record_length major_version minor_version : Z)
    : res (option UsnRecord.t) :=
  if len data <? MIN_RECORD_SIZE_V2 then Ok None else
  except_struct_error (
    file_reference ← unpack_Q (slice data 8 16);
    parent_file_reference ← unpack_Q (slice data 16 24);
    usn ← unpack_Q (slice data 24 32);
    timestamp_raw ← unpack_Q (slice data 32 40);
    let timestamp := format_timestamp (filetime_to_datetime timestamp_raw) in
    reason ← unpack_I (slice data 40 44);
    source_info ← unpack_I (slice data 44 48);
    security_id ← unpack_I (slice data 48 52);
    file_attributes ← unpack_I (slice data 52 56);
    filename_length ← unpack_H (slice data 56 58);
    filename_offset ← unpack_H (slice data 58 60);
    let filename :=
      if filename_offset + filename_length <=? len data
      then decode_name (slice data filename_offset (filename_offset + filename_length))
      else [] in
    Ok (Some
      {| UsnRecord.record_length := record_length;
         UsnRecord.major_version := major_version;
         UsnRecord.minor_version := minor_version;
         UsnRecord.file_reference := file_reference;
         UsnRecord.parent_file_reference := parent_file_reference;
         UsnRecord.usn := usn;
         UsnRecord.timestamp := timestamp;
         UsnRecord.timestamp_raw := timestamp_raw;
         UsnRecord.reason := reason;
         UsnRecord.source_info := source_info;
         UsnRecord.security_id := security_id;
         UsnRecord.file_attributes := file_attributes;
         UsnRecord.filename := filename;
         UsnRecord.filename_length := filename_length;
         UsnRecord.filename_offset := filename_offset;
         UsnRecord.extra_info1 := 0;
         UsnRecord.extra_info2 := 0 |})).

Definition _parse_v3_record (data : bytes) (record_length major_version minor_version : Z)
    : res (option UsnRecord.t) :=
  if len data <? MIN_RECORD_SIZE_V3 then Ok None else
  except_struct_error (
    file_reference ← unpack_Q (slice data 8 16);
    extra_info1 ← unpack_Q (slice data 16 24);
    parent_file_reference ← unpack_Q (slice data 24 32);
    extra_info2 ← unpack_Q (slice data 32 40);
    usn ← unpack_Q (slice data 40 48);
    timestamp_raw ← unpack_Q (slice data 48 56);
    let timestamp := format_timestamp (filetime_to_datetime timestamp_raw) in
    reason ← unpack_I (slice data 56 60);
    source_info ← unpack_I (slice data 60 64);
    security_id ← unpack_I (slice data 64 68);
    file_attributes ← unpack_I (slice data 68 72);
    filename_length ← unpack_H (slice data 72 74);
    filename_offset ← unpack_H (slice data 74 76);
    let filename :=
      if filename_offset + filename_length <=? len data
      then decode_name (slice data filename_offset (filename_offset + filename_length))
      else [] in
    Ok (Some
      {| UsnRecord.record_length := record_length;
         UsnRecord.major_version := major_version;
         UsnRecord.minor_version := minor_version;
         UsnRecord.file_reference := file_reference;
         UsnRecord.parent_file_reference := parent_file_reference;
         UsnRecord.usn := usn;
         UsnRecord.timestamp := timestamp;
         UsnRecord.timestamp_raw := timestamp_raw;
         UsnRecord.reason := reason;
         UsnRecord.source_info := source_info;
         UsnRecord.security_id := security_id;
         UsnRecord.file_attributes := file_attributes;
         UsnRecord.filename := filename;
         UsnRecord.filename_length := filename_length;
         UsnRecord.filename_offset := filename_offset;
         UsnRecord.extra_info1 := extra_info1;
         UsnRecord.extra_info2 := extra_info2 |})).

Definition _parse_v4_record := _parse_v3_record.

Definition _parse_record (data : bytes) : res (option UsnRecord.t) :=
  if len data <? MIN_RECORD_SIZE_V2 then Ok None else
  record_length ← unpack_I (slice data 0 4);
  major_version ← unpack_H (slice data 4 6);
  minor_version ← unpack_H (slice data 6 8);
  if major_version =? 2
  then _parse_v2_record data record_length major_version minor_version
  else if major_version =? 3
  then _parse_v3_record data record_length major_version minor_version
  else if major_version =? 4
  then _parse_v4_record data record_length major_version minor_version
  else Ok None.

(** What [iter_records] has in hand between two statements: the local
    [buffer], the counters of [self], and what was yielded so far, each
    record with the value [self.processed_bytes] had when it was yielded.
    [moves] is a ghost: the moves the scanner made, oldest first; no branch
    reads it. *)
Inductive move :=
| ZeroSkip (n : Z)
| ResyncHit (i : Z)
| ResyncMiss (n : Z)
| Consumed (record_length : Z).

Record state := {
  buffer : bytes;
  processed_bytes : Z;
  total_records : Z;
  yielded : list (Z * UsnRecord.t);
  moves : list move
}.

(** [self.processed_bytes += n; buffer = rest], after the move [m]. *)
Definition advance (s : state) (m : move) (n : Z) (rest : bytes) : state :=
  {| buffer := rest; processed_bytes := processed_bytes s + n;
     total_records := total_records s; yielded := yielded s;
     moves := moves s ++ [m] |}.

(** [self.total_records += 1; yield record] *)
Definition yield (s : state) (record : UsnRecord.t) : state :=
  {| buffer := buffer s; processed_bytes := processed_bytes s;
     total_records := total_records s + 1;
     yielded := yielded s ++ [(processed_bytes s, record)];
     moves := moves s |}.

(** [buffer += chunk] *)
Definition extend (s : state) (chunk : bytes) : state :=
  {| buffer := buffer s ++ chunk; processed_bytes := processed_bytes s;
     total_records := total_records s; yielded := yielded s;
     moves := moves s |}.

Definition zeros8 : bytes := zeros 8.

(** The [for i in range(0, len(buffer) - 8, 8)] loop with its [else]. *)
Definition find_zero_end (buffer : bytes) : Z :=
  match List.find (fun i => negb (bool_decide (slice buffer i (i + 8) = zeros8)))
                  (range 0 (len buffer - 8) 8) with
  | Some i => i
  | None => len buffer
  end.

(** The test of the resync loop at the offset [i]. *)
Definition plausible_header (buffer : bytes) (i : Z) : res bool :=
  potential_len ← unpack_I (slice buffer i (i + 4));
  if (MIN_RECORD_SIZE_V2 <=? potential_len) && (potential_len <=? 65536) then
    major ← unpack_H (slice buffer (i + 4) (i + 6));
    minor ← unpack_H (slice buffer (i + 6) (i + 8));
    Ok (bool_decide (major ∈ [2; 3; 4]) && (minor =? 0))
  else Ok false.

(** The [for i in range(8, len(buffer) - 8, 8)] loop: the [i] it breaks at. *)
Fixpoint resync_search (buffer : bytes) (candidates : list Z) : res (option Z) :=
  match candidates with
  | [] => Ok None
  | i :: rest =>
      hit ← plausible_header buffer i;
      if hit : bool then Ok (Some i) else resync_search buffer rest
  end.

(** How one turn of the inner [while] ends: [continue] (or the end of the
    body), or [break]. *)
Inductive flow :=
| Continue (s : state)
| Break (s : state).

(** The body of [while len(buffer) >= self.MIN_RECORD_SIZE_V2]. *)
Definition inner_body (skip_zeros : bool) (s : state) : res flow :=
  if skip_zeros && bool_decide (slice (buffer s) 0 8 = zeros8) then
    let zero_end := find_zero_end (buffer s) in
    let zero_end := (zero_end `div` 8) * 8 in
    if zero_end >? 0
    then Ok (Continue (advance s (ZeroSkip zero_end) zero_end
                         (slice_from (buffer s) zero_end)))
    else Ok (Break (advance s (ZeroSkip (len (buffer s))) (len (buffer s)) []))
  else
    record_length ← unpack_I (slice (buffer s) 0 4);
    if (record_length <? MIN_RECORD_SIZE_V2) || (record_length >? 65536) then
      found ← resync_search (buffer s) (range 8 (len (buffer s) - 8) 8);
      match found : option Z with
      | Some i =>
          Ok (Continue (advance s (ResyncHit i) i (slice_from (buffer s) i)))
      | None =>
          Ok (Continue (advance s (ResyncMiss (len (buffer s) - MIN_RECORD_SIZE_V2))
                          (len (buffer s) - MIN_RECORD_SIZE_V2)
                          (slice_last (buffer s) MIN_RECORD_SIZE_V2)))
      end
    else if len (buffer s) <? record_length then Ok (Break s)
    else
      let record_data := slice (buffer s) 0 record_length in
      record ← _parse_record record_data;
      let s :=
        match record : option UsnRecord.t with
        | Some r => yield s r
        | None => s
        end in
      Ok (Continue (advance s (Consumed record_length) record_length
                      (slice_from (buffer s) record_length))).

(** A run of the generator: it ended, or it was still running when the
    fuel ran out (the state is the one reached), or it raised. *)
Inductive run :=
| Finished (s : state)
| Unfinished (s : state)
| Raised (e : exn).

Fixpoint inner_loop (fuel : nat) (skip_zeros : bool) (s : state) : run :=
  match fuel with
  | O => Unfinished s
  | S fuel' =>
      if len (buffer s) >=? MIN_RECORD_SIZE_V2 then
        match inner_body skip_zeros s with
        | Ok (Continue s') => inner_loop fuel' skip_zeros s'
        | Ok (Break s') => Finished s'
        | Raise e => Raised e
        | OutOfFuel => Unfinished s
        end
      else Finished s
  end.

(** [f.read(n)] for [0 <= n]: what was read, and the rest of the file. *)
Definition read (n : Z) (f : bytes) : bytes * bytes :=
  (take (Z.to_nat n) f, drop (Z.to_nat n) f).

(** The outer [while True]. *)
Fixpoint outer_loop (fuel : nat) (skip_zeros : bool) (f : bytes) (s : state) : run :=
  match fuel with
  | O => Unfinished s
  | S fuel' =>
      let '(chunk, f) := read BUFFER_SIZE f in
      if bool_decide (chunk = []) then Finished s else
      match inner_loop fuel' skip_zeros (extend s chunk) with
      | Finished s' => outer_loop fuel' skip_zeros f s'
      | r => r
      end
  end.

(** [iter_records] of a fresh parser on the file [file]. *)
Definition iter_records (fuel : nat) (file : bytes) (skip_zeros : bool) : run :=
  outer_loop fuel skip_zeros file
    {| buffer := []; processed_bytes := 0; total_records := 0;
       yielded := []; moves := [] |}.

End parse_record.

End UsnJrnl.

(** ** src/logfile_parser.py *)
Module LogFile.
Import Py Constants.

(** Python's Unicode database, as far as the program uses it:
    [isprintable c] is [chr(c).isprintable()]. *)
Class PyUnicode := {
  isprintable : Z -> bool
}.

(** The dataclass [LogRecord]. *)
Module LogRecord.
Record t := {
  this_lsn : Z;
  previous_lsn : Z;
  client_undo_lsn : Z;
  client_data_length : Z;
  client_id : Z;
  record_type : Z;
  transaction_id : Z;
  flags : Z;
  redo_op : Z;
  undo_op : Z;
  redo_offset : Z;
  redo_length : Z;
  undo_offset : Z;
  undo_length : Z;
  target_attribute : Z;
  lcns_to_follow : Z;
  record_offset : Z;
  attribute_offset : Z;
  target_vcn : Z;
  target_lcn : Z;
  filename : str;
  file_reference : Z;
  parent_reference : Z;
  timestamp : str;
  event : str;
  file_attr : Z
}.

Definition lsn (self : t) : Z := this_lsn self.

(** [LogRecord()] *)
Definition __init__ : t :=
  {| this_lsn := 0; previous_lsn := 0; client_undo_lsn := 0;
     client_data_length := 0; client_id := 0; record_type := 0;
     transaction_id := 0; flags := 0; redo_op := 0; undo_op := 0;
     redo_offset := 0; redo_length := 0; undo_offset := 0; undo_length := 0;
     target_attribute := 0; lcns_to_follow := 0; record_offset := 0;
     attribute_offset := 0; target_vcn := 0; target_lcn := 0;
     filename := []; file_reference := 0; parent_reference := 0;
     timestamp := []; event := []; file_attr := 0 |}.

(** The four assignments [_scan_for_filename] makes when it accepts. *)
Definition set_name (r : t) (filename' : str) (parent_reference' : Z)
    (timestamp' : str) (file_attr' : Z) : t :=
  {| this_lsn := this_lsn r; previous_lsn := previous_lsn r;
     client_undo_lsn := client_undo_lsn r;
     client_data_length := client_data_length r; client_id := client_id r;
     record_type := record_type r; transaction_id := transaction_id r;
     flags := flags r; redo_op := redo_op r; undo_op := undo_op r;
     redo_offset := redo_offset r; redo_length := redo_length r;
     undo_offset := undo_offset r; undo_length := undo_length r;
     target_attribute := target_attribute r;
     lcns_to_follow := lcns_to_follow r; record_offset := record_offset r;
     attribute_offset := attribute_offset r; target_vcn := target_vcn r;
     target_lcn := target_lcn r;
     filename := filename'; file_reference := file_reference r;
     parent_reference := parent_reference'; timestamp := timestamp';
     event := event r; file_attr := file_attr' |}.
End LogRecord.

Section scan.
Context `{PyDatetime} `{PyUnicode}.

(** [c.isprintable() or c in ' .\t'] *)
Definition printable_or_blank (c : Z) : bool :=
  isprintable c || bool_decide (c ∈ [32; 46; 9]).

(** [try: ... except (struct.error, UnicodeDecodeError): continue] around
    one turn of the loop; [None] is "go on with the next offset". *)
Definition except_continue {A} (body : res (option A)) : res (option A) :=
  match body with
  | Raise StructError => Ok None
  | r => r
  end.

(** One turn of [for offset in range(0, len(data) - 0x44, 8)]: [Some r] is
    the [return], with the record as the turn leaves it. *)
Definition scan_at (record : LogRecord.t) (data : bytes) (offset : Z)
    : res (option LogRecord.t) :=
  except_continue (
    name_len ← u8 <$> index data (offset + 0x40);
    namespace ← u8 <$> index data (offset + 0x41);
    if (1 <=? name_len) && (name_len <=? 255) && (namespace <=? 3) then
      let name_end := offset + 0x42 + name_len * 2 in
      if name_end <=? len data then
        match decode_utf16le Ignore (slice data (offset + 0x42) name_end) with
        | None => Ok None
        | Some filename =>
            if negb (bool_decide (filename = [])) && (len filename >=? 1) then
              if forallb printable_or_blank filename then
                parent_ref ← unpack_Q (slice data offset (offset + 8));
                let parent_entry := Z.land parent_ref 0x0000FFFFFFFFFFFF in
                if parent_entry <? 0x1000000000 then
                  ts ← unpack_Q (slice data (offset + 0x08) (offset + 0x10));
                  let timestamp :=
                    if ts >? 0 then
                      match filetime_to_datetime ts with
                      | Some dt => format_timestamp (Some dt)
                      | None => LogRecord.timestamp record
                      end
                    else LogRecord.timestamp record in
                  file_attr ← unpack_I (slice data (offset + 0x38) (offset + 0x3C));
                  Ok (Some (LogRecord.set_name record filename parent_ref
                              timestamp file_attr))
                else Ok None
              else Ok None
            else Ok None
        end
      else Ok None
    else Ok None).

Fixpoint scan_loop (record : LogRecord.t) (data : bytes) (offsets : list Z)
    : res LogRecord.t :=
  match offsets with
  | [] => Ok record
  | offset :: rest =>
      r ← scan_at record data offset;
      match r : option LogRecord.t with
      | Some record' => Ok record'
      | None => scan_loop record data rest
      end
  end.

(** [_scan_for_filename(record, data)]: the record as the call leaves it. *)
Definition _scan_for_filename (record : LogRecord.t) (data : bytes)
    : res LogRecord.t :=
  if len data <? 0x44 then Ok record else
  scan_loop record data (range 0 (len data - 0x44) 8).

End scan.

(** *** Methods that change the object they are given

    A call that assigns to the fields of an object and may raise: the
    object is as the call left it whatever the outcome. *)
Definition Mut (S A : Type) : Type := S -> res A * S.

#[local] Instance mut_ret {S} : MRet (Mut S) := fun A a s => (Ok a, s).
#[local] Instance mut_bind {S} : MBind (Mut S) := fun A B f m s =>
  match m s with
  | (Ok a, s') => f a s'
  | (Raise e, s') => (Raise e, s')
  | (OutOfFuel, s') => (OutOfFuel, s')
  end.

(** An expression over the object, and an assignment to it. *)
Definition expr {S A} (e : S -> res A) : Mut S A := fun s => (e s, s).
Definition assign {S} (f : S -> S) : Mut S unit := fun s => (Ok tt, f s).

(** [try: body except struct.error: handler] (the handlers of this file
    name [UnicodeDecodeError] too, which [errors='ignore'] never raises). *)
Definition try_struct_error {S A} (body handler : Mut S A) : Mut S A := fun s =>
  match body s with
  | (Raise StructError, s') => handler s'
  | r => r
  end.

(** [OPCODE_NAMES] *)
Definition OPCODE_NAMES : list (Z * string) :=
  [ (0x00, "Noop"); (0x01, "CompensationLogRecord");
    (0x02, "InitializeFileRecordSegment"); (0x03, "DeallocateFileRecordSegment");
    (0x04, "WriteEndOfFileRecordSegment"); (0x05, "CreateAttribute");
    (0x06, "DeleteAttribute"); (0x07, "UpdateResidentValue");
    (0x08, "UpdateNonresidentValue"); (0x09, "UpdateMappingPairs");
    (0x0A, "DeleteDirtyClusters"); (0x0B, "SetNewAttributeSizes");
    (0x0C, "AddIndexEntryRoot"); (0x0D, "DeleteIndexEntryRoot");
    (0x0E, "AddIndexEntryAllocation"); (0x0F, "UpdateFileNameRoot");
    (0x10, "UpdateFileNameAllocation"); (0x11, "SetIndexEntryVcnAllocation");
    (0x12, "DeleteIndexEntryAllocation"); (0x13, "SetBitsInNonresidentBitMap");
    (0x14, "ClearBitsInNonresidentBitMap"); (0x15, "SetBitsInNonresidentBitMap2");
    (0x19, "PrepareTransaction"); (0x1A, "CommitTransaction");
    (0x1B, "ForgetTransaction"); (0x1C, "OpenNonresidentAttribute");
    (0x1F, "DirtyPageTableDump"); (0x20, "TransactionTableDump");
    (0x21, "UpdateRecordDataRoot") ]%string.

(** [f"Op0x{n:02X}"] for [n >= 0] *)
Definition format_Op0x02X (n : Z) : str :=
  let ds := digits (S (Z.to_nat (Z.log2 n))) 16 n [] in
  lit "Op0x" ++ replicate (2 - length ds) 48 ++ ds.

(** [OPCODE_NAMES.get(op, f"Op0x{op:02X}")] *)
Definition opcode_name (op : Z) : str :=
  match List.find (fun e => fst e =? op) OPCODE_NAMES with
  | Some e => lit (snd e)
  | None => format_Op0x02X op
  end.

(** The body of [for i in range(1, count)] is the one of
    [MFTEntry._apply_fixup], on [self.data]; the guard before it is new. *)
Definition apply_fixup_to (data : bytes) (offset count : Z) : bytes :=
  if offset + count * 2 >? len data then data
  else foldl (MftParser.fixup_step offset) data (seqZ 1 (count - 1)).

(** The class [RestartPage]. *)
Module RestartPage.
Record t := {
  data : bytes;
  is_valid : bool;
  system_page_size : Z;
  log_page_size : Z;
  restart_offset : Z;
  major_version : Z;
  minor_version : Z;
  current_lsn : Z;
  log_clients : Z
}.

Definition __init__ (data : bytes) : t :=
  {| data := data; is_valid := false; system_page_size := 4096;
     log_page_size := 4096; restart_offset := 0; major_version := 0;
     minor_version := 0; current_lsn := 0; log_clients := 0 |}.

Definition set_data (v : bytes) (self : t) : t :=
  {| data := v; is_valid := is_valid self;
     system_page_size := system_page_size self;
     log_page_size := log_page_size self; restart_offset := restart_offset self;
     major_version := major_version self; minor_version := minor_version self;
     current_lsn := current_lsn self; log_clients := log_clients self |}.
Definition set_is_valid (v : bool) (self : t) : t :=
  {| data := data self; is_valid := v;
     system_page_size := system_page_size self;
     log_page_size := log_page_size self; restart_offset := restart_offset self;
     major_version := major_version self; minor_version := minor_version self;
     current_lsn := current_lsn self; log_clients := log_clients self |}.
Definition set_system_page_size (v : Z) (self : t) : t :=
  {| data := data self; is_valid := is_valid self;
     system_page_size := v;
     log_page_size := log_page_size self; restart_offset := restart_offset self;
     major_version := major_version self; minor_version := minor_version self;
     current_lsn := current_lsn self; log_clients := log_clients self |}.
Definition set_log_page_size (v : Z) (self : t) : t :=
  {| data := data self; is_valid := is_valid self;
     system_page_size := system_page_size self;
     log_page_size := v; restart_offset := restart_offset self;
     major_version := major_version self; minor_version := minor_version self;
     current_lsn := current_lsn self; log_clients := log_clients self |}.
Definition set_restart_offset (v : Z) (self : t) : t :=
  {| data := data self; is_valid := is_valid self;
     system_page_size := system_page_size self;
     log_page_size := log_page_size self; restart_offset := v;
     major_version := major_version self; minor_version := minor_version self;
     current_lsn := current_lsn self; log_clients := log_clients self |}.
Definition set_major_version (v : Z) (self : t) : t :=
  {| data := data self; is_valid := is_valid self;
     system_page_size := system_page_size self;
     log_page_size := log_page_size self; restart_offset := restart_offset self;
     major_version := v; minor_version := minor_version self;
     current_lsn := current_lsn self; log_clients := log_clients self |}.
Definition set_minor_version (v : Z) (self : t) : t :=
  {| data := data self; is_valid := is_valid self;
     system_page_size := system_page_size self;
     log_page_size := log_page_size self; restart_offset := restart_offset self;
     major_version := major_version self; minor_version := v;
     current_lsn := current_lsn self; log_clients := log_clients self |}.
Definition set_current_lsn (v : Z) (self : t) : t :=
  {| data := data self; is_valid := is_valid self;
     system_page_size := system_page_size self;
     log_page_size := log_page_size self; restart_offset := restart_offset self;
     major_version := major_version self; minor_version := minor_version self;
     current_lsn := v; log_clients := log_clients self |}.
Definition set_log_clients (v : Z) (self : t) : t :=
  {| data := data self; is_valid := is_valid self;
     system_page_size := system_page_size self;
     log_page_size := log_page_size self; restart_offset := restart_offset self;
     major_version := major_version self; minor_version := minor_version self;
     current_lsn := current_lsn self; log_clients := v |}.

Definition _apply_fixup (offset count : Z) : Mut t unit :=
  assign (fun self => set_data (apply_fixup_to (data self) offset count) self).

(** [self.field = struct.unpack(fmt, self.data[a:b])[0]] *)
Definition read_field (unpack : bytes -> res Z) (a b : Z) (set : Z -> t -> t)
    : Mut t unit :=
  v ← expr (fun self => unpack (slice (data self) a b));
  assign (set v).

Definition parse : Mut t bool := fun self =>
  if len (data self) <? 0x40 then (Ok false, self) else
  if negb (bool_decide (slice (data self) 0 4 = blit "RSTR")) then (Ok false, self) else
  try_struct_error (
    fixup_offset ← expr (fun self => unpack_H (slice (data self) 0x04 0x06));
    fixup_count ← expr (fun self => unpack_H (slice (data self) 0x06 0x08));
    _ ← (if (fixup_count >? 1) && (fixup_offset >? 0)
         then _apply_fixup fixup_offset fixup_count else mret tt);
    _ ← read_field unpack_I 0x10 0x14 set_system_page_size;
    _ ← read_field unpack_I 0x14 0x18 set_log_page_size;
    _ ← read_field unpack_H 0x18 0x1A set_restart_offset;
    _ ← read_field unpack_H 0x1A 0x1C set_minor_version;
    _ ← read_field unpack_H 0x1C 0x1E set_major_version;
    _ ← read_field unpack_Q 0x30 0x38 set_current_lsn;
    _ ← read_field unpack_H 0x38 0x3A set_log_clients;
    _ ← assign (set_is_valid true);
    mret true)
  (mret false) self.
End RestartPage.

(** The class [RecordPage]. *)
Module RecordPage.
Record t := {
  data : bytes;
  page_offset : Z;
  is_valid : bool;
  last_lsn : Z;
  flags : Z;
  page_count : Z;
  page_position : Z;
  next_record_offset : Z;
  last_end_lsn : Z
}.

Definition HEADER_SIZE : Z := 0x30.

Definition __init__ (data : bytes) (page_offset : Z) : t :=
  {| data := data; page_offset := page_offset; is_valid := false;
     last_lsn := 0; flags := 0; page_count := 0; page_position := 0;
     next_record_offset := 0; last_end_lsn := 0 |}.

Definition set_data (v : bytes) (self : t) : t :=
  {| data := v; page_offset := page_offset self; is_valid := is_valid self;
     last_lsn := last_lsn self; flags := flags self;
     page_count := page_count self; page_position := page_position self;
     next_record_offset := next_record_offset self;
     last_end_lsn := last_end_lsn self |}.
Definition set_is_valid (v : bool) (self : t) : t :=
  {| data := data self; page_offset := page_offset self; is_valid := v;
     last_lsn := last_lsn self; flags := flags self;
     page_count := page_count self; page_position := page_position self;
     next_record_offset := next_record_offset self;
     last_end_lsn := last_end_lsn self |}.
Definition set_last_lsn (v : Z) (self : t) : t :=
  {| data := data self; page_offset := page_offset self;
     is_valid := is_valid self;
     last_lsn := v; flags := flags self;
     page_count := page_count self; page_position := page_position self;
     next_record_offset := next_record_offset self;
     last_end_lsn := last_end_lsn self |}.
Definition set_flags (v : Z) (self : t) : t :=
  {| data := data self; page_offset := page_offset self;
     is_valid := is_valid self;
     last_lsn := last_lsn self; flags := v;
     page_count := page_count self; page_position := page_position self;
     next_record_offset := next_record_offset self;
     last_end_lsn := last_end_lsn self |}.
Definition set_page_count (v : Z) (self : t) : t :=
  {| data := data self; page_offset := page_offset self;
     is_valid := is_valid self;
     last_lsn := last_lsn self; flags := flags self;
     page_count := v; page_position := page_position self;
     next_record_offset := next_record_offset self;
     last_end_lsn := last_end_lsn self |}.
Definition set_page_position (v : Z) (self : t) : t :=
  {| data := data self; page_offset := page_offset self;
     is_valid := is_valid self;
     last_lsn := last_lsn self; flags := flags self;
     page_count := page_count self; page_position := v;
     next_record_offset := next_record_offset self;
     last_end_lsn := last_end_lsn self |}.
Definition set_next_record_offset (v : Z) (self : t) : t :=
  {| data := data self; page_offset := page_offset self;
     is_valid := is_valid self;
     last_lsn := last_lsn self; flags := flags self;
     page_count := page_count self; page_position := page_position self;
     next_record_offset := v;
     last_end_lsn := last_end_lsn self |}.
Definition set_last_end_lsn (v : Z) (self : t) : t :=
  {| data := data self; page_offset := page_offset self;
     is_valid := is_valid self;
     last_lsn := last_lsn self; flags := flags self;
     page_count := page_count self; page_position := page_position self;
     next_record_offset := next_record_offset self;
     last_end_lsn := v |}.

Definition _apply_fixup (offset count : Z) : Mut t unit :=
  assign (fun self => set_data (apply_fixup_to (data self) offset count) self).

(** [self.field = struct.unpack(fmt, self.data[a:b])[0]] *)
Definition read_field (unpack : bytes -> res Z) (a b : Z) (set : Z -> t -> t)
    : Mut t unit :=
  v ← expr (fun self => unpack (slice (data self) a b));
  assign (set v).

Definition parse : Mut t bool := fun self =>
  if len (data self) <? HEADER_SIZE then (Ok false, self) else
  if negb (bool_decide (slice (data self) 0 4 = blit "RCRD")) then (Ok false, self) else
  try_struct_error (
    fixup_offset ← expr (fun self => unpack_H (slice (data self) 0x04 0x06));
    fixup_count ← expr (fun self => unpack_H (slice (data self) 0x06 0x08));
    _ ← (if (fixup_count >? 1) && (fixup_offset >? 0)
         then _apply_fixup fixup_offset fixup_count else mret tt);
    _ ← read_field unpack_Q 0x08 0x10 set_last_lsn;
    _ ← read_field unpack_I 0x10 0x14 set_flags;
    _ ← read_field unpack_H 0x14 0x16 set_page_count;
    _ ← read_field unpack_H 0x16 0x18 set_page_position;
    _ ← read_field unpack_H 0x18 0x1A set_next_record_offset;
    _ ← read_field unpack_Q 0x20 0x28 set_last_end_lsn;
    _ ← assign (set_is_valid true);
    mret true)
  (mret false) self.
End RecordPage.

(** The assignments to single fields of a [LogRecord]. *)
Definition with_filename (v : str) (r : LogRecord.t) : LogRecord.t :=
  LogRecord.set_name r v (LogRecord.parent_reference r) (LogRecord.timestamp r)
    (LogRecord.file_attr r).
Definition with_parent_reference (v : Z) (r : LogRecord.t) : LogRecord.t :=
  LogRecord.set_name r (LogRecord.filename r) v (LogRecord.timestamp r)
    (LogRecord.file_attr r).
Definition with_timestamp (v : str) (r : LogRecord.t) : LogRecord.t :=
  LogRecord.set_name r (LogRecord.filename r) (LogRecord.parent_reference r) v
    (LogRecord.file_attr r).
Definition with_file_attr (v : Z) (r : LogRecord.t) : LogRecord.t :=
  LogRecord.set_name r (LogRecord.filename r) (LogRecord.parent_reference r)
    (LogRecord.timestamp r) v.
Definition with_file_reference (v : Z) (r : LogRecord.t) : LogRecord.t :=
  {| LogRecord.this_lsn := LogRecord.this_lsn r;
     LogRecord.previous_lsn := LogRecord.previous_lsn r;
     LogRecord.client_undo_lsn := LogRecord.client_undo_lsn r;
     LogRecord.client_data_length := LogRecord.client_data_length r;
     LogRecord.client_id := LogRecord.client_id r;
     LogRecord.record_type := LogRecord.record_type r;
     LogRecord.transaction_id := LogRecord.transaction_id r;
     LogRecord.flags := LogRecord.flags r;
     LogRecord.redo_op := LogRecord.redo_op r;
     LogRecord.undo_op := LogRecord.undo_op r;
     LogRecord.redo_offset := LogRecord.redo_offset r;
     LogRecord.redo_length := LogRecord.redo_length r;
     LogRecord.undo_offset := LogRecord.undo_offset r;
     LogRecord.undo_length := LogRecord.undo_length r;
     LogRecord.target_attribute := LogRecord.target_attribute r;
     LogRecord.lcns_to_follow := LogRecord.lcns_to_follow r;
     LogRecord.record_offset := LogRecord.record_offset r;
     LogRecord.attribute_offset := LogRecord.attribute_offset r;
     LogRecord.target_vcn := LogRecord.target_vcn r;
     LogRecord.target_lcn := LogRecord.target_lcn r;
     LogRecord.filename := LogRecord.filename r;
     LogRecord.file_reference := v;
     LogRecord.parent_reference := LogRecord.parent_reference r;
     LogRecord.timestamp := LogRecord.timestamp r;
     LogRecord.event := LogRecord.event r;
     LogRecord.file_attr := LogRecord.file_attr r |}.

(** [bool(s)] for a [str] *)
Definition is_set (s : str) : bool := negb (bool_decide (s = [])).

Definition LOG_RECORD_HEADER_SIZE : Z := 0x58.
Definition DEFAULT_PAGE_SIZE : Z := 4096.

Section parser.
Context `{PyDatetime} `{PyUnicode}.

(** [_scan_for_filename(record, data)] as a call on the record. *)
Definition scan_for_filename (data : bytes) : Mut LogRecord.t unit := fun record =>
  match _scan_for_filename record data with
  | Ok record' => (Ok tt, record')
  | Raise e => (Raise e, record)
  | OutOfFuel => (OutOfFuel, record)
  end.

(** [_parse_filename_attribute(record, data, offset)] for [0 <= offset] *)
Definition _parse_filename_attribute (data : bytes) (offset : Z)
    : Mut LogRecord.t unit :=
  if offset + 0x44 >? len data then mret tt else
  try_struct_error (
    name_len ← expr (fun _ => u8 <$> index data (offset + 0x40));
    namespace ← expr (fun _ => u8 <$> index data (offset + 0x41));
    if (name_len <? 1) || (name_len >? 255) || (namespace >? 3) then mret tt else
    let name_end := offset + 0x42 + name_len * 2 in
    if name_end >? len data then mret tt else
    match decode_utf16le Ignore (slice data (offset + 0x42) name_end) with
    | None => mret tt
    | Some filename =>
        if bool_decide (filename = []) then mret tt else
        if negb (forallb printable_or_blank filename) then mret tt else
        _ ← assign (with_filename filename);
        parent_reference ← expr (fun _ =>
          unpack_Q (slice data (offset + 0x00) (offset + 0x08)));
        _ ← assign (with_parent_reference parent_reference);
        creation_time ← expr (fun _ =>
          unpack_Q (slice data (offset + 0x08) (offset + 0x10)));
        _ ← (if creation_time >? 0 then
               match filetime_to_datetime creation_time with
               | Some dt => assign (with_timestamp (format_timestamp (Some dt)))
               | None => mret tt
               end
             else mret tt);
        file_attr ← expr (fun _ =>
          unpack_I (slice data (offset + 0x38) (offset + 0x3C)));
        assign (with_file_attr file_attr)
    end)
  (mret tt).

(** [bool(record.filename)] *)
Definition has_filename : Mut LogRecord.t bool :=
  expr (fun record => Ok (is_set (LogRecord.filename record))).

(** [_extract_filename_from_index_entry(record, data)]; [returned] is the
    [return] inside the [try]. *)
Definition _extract_filename_from_index_entry (data : bytes)
    : Mut LogRecord.t unit :=
  if len data <? 0x52 then _parse_filename_attribute data 0 else
  try_struct_error (
    file_ref ← expr (fun _ => unpack_Q (slice data 0x00 0x08));
    entry_len ← expr (fun _ => unpack_H (slice data 0x08 0x0A));
    filename_attr_len ← expr (fun _ => unpack_H (slice data 0x0A 0x0C));
    let file_entry := Z.land file_ref 0x0000FFFFFFFFFFFF in
    returned ←
      (if (file_entry <? 0x1000000000) && (entry_len >? 0x10)
          && (filename_attr_len >? 0) then
         _ ← assign (with_file_reference file_ref);
         if len data >=? 0x10 + 0x44 then
           _ ← _parse_filename_attribute data 0x10;
           has_filename
         else mret false
       else mret false);
    if returned : bool then mret tt else _parse_filename_attribute data 0)
  (_parse_filename_attribute data 0).

Definition _parse_attribute_for_filename (data : bytes) : Mut LogRecord.t unit :=
  if len data <? 0x18 then mret tt else
  try_struct_error (
    attr_type ← expr (fun _ => unpack_I (slice data 0 4));
    if attr_type =? 0x30 then
      attr_length ← expr (fun _ => unpack_I (slice data 4 8));
      if (attr_length >? 0x18) && (len data >? 0x18)
      then _parse_filename_attribute data 0x18
      else mret tt
    else scan_for_filename data)
  (scan_for_filename data).

Definition filename_ops : list Z := [0x0C; 0x0D; 0x0E; 0x0F; 0x10; 0x12].

(** [if cond(record): body], the condition being read on the record as it
    is at that point *)
Definition when (cond : LogRecord.t -> bool) (body : Mut LogRecord.t unit)
    : Mut LogRecord.t unit :=
  c ← expr (fun record => Ok (cond record));
  if c : bool then body else mret tt.

Definition no_filename (record : LogRecord.t) : bool :=
  negb (is_set (LogRecord.filename record)).

(** [record.redo_length > 0 and
     record.redo_offset + record.redo_length <= len(data)] and the like *)
Definition part_inside (offset length : LogRecord.t -> Z) (data : bytes)
    (record : LogRecord.t) : bool :=
  (length record >? 0) && (offset record + length record <=? len data).

(** [data[record.redo_offset:record.redo_offset + record.redo_length]] *)
Definition part (offset length : LogRecord.t -> Z) (data : bytes)
    (record : LogRecord.t) : bytes :=
  slice data (offset record) (offset record + length record).

(** [f(record, data[part])], the bounds being fields of the record *)
Definition on_part (offset length : LogRecord.t -> Z) (data : bytes)
    (f : bytes -> Mut LogRecord.t unit) : Mut LogRecord.t unit :=
  fun record => f (part offset length data record) record.

Definition _parse_client_data (data : bytes) : Mut LogRecord.t unit :=
  if len data =? 0 then mret tt else
  _ ← when (fun record => bool_decide (LogRecord.redo_op record ∈ filename_ops)) (
        _ ← when (part_inside LogRecord.redo_offset LogRecord.redo_length data)
              (on_part LogRecord.redo_offset LogRecord.redo_length data
                 _extract_filename_from_index_entry);
        when no_filename (_extract_filename_from_index_entry data));
  _ ← when (fun record => no_filename record
              && bool_decide (LogRecord.undo_op record ∈ filename_ops)) (
        when (part_inside LogRecord.undo_offset LogRecord.undo_length data)
          (on_part LogRecord.undo_offset LogRecord.undo_length data
             _extract_filename_from_index_entry));
  _ ← when (fun record => no_filename record
              && (LogRecord.redo_op record =? 0x02)) (
        _ ← when (part_inside LogRecord.redo_offset LogRecord.redo_length data)
              (on_part LogRecord.redo_offset LogRecord.redo_length data
                 scan_for_filename);
        when no_filename (scan_for_filename data));
  _ ← when (fun record => no_filename record
              && bool_decide (LogRecord.redo_op record ∈ [0x05; 0x06])) (
        _ ← when (part_inside LogRecord.redo_offset LogRecord.redo_length data)
              (on_part LogRecord.redo_offset LogRecord.redo_length data
                 _parse_attribute_for_filename);
        when no_filename (_parse_attribute_for_filename data));
  when (fun record => no_filename record && (len data >=? 0x44))
    (scan_for_filename data).

(** [try: ... except struct.error: return None] *)
Definition except_return_none {A} (body : res (option A)) : res (option A) :=
  match body with
  | Raise StructError => Ok None
  | r => r
  end.

(** [_parse_log_record(data, offset)] for [0 <= offset]. The record is
    local to the call until it is returned, so its header fields are
    written down at once, where the reads are done; the two [return None]
    are at their places among the reads. *)
Definition _parse_log_record (data : bytes) (offset : Z) : res (option LogRecord.t) :=
  if offset + LOG_RECORD_HEADER_SIZE >? len data then Ok None else
  except_return_none (
    this_lsn ← unpack_Q (slice data (offset + 0x00) (offset + 0x08));
    if this_lsn =? 0 then Ok None else
    previous_lsn ← unpack_Q (slice data (offset + 0x08) (offset + 0x10));
    client_undo_lsn ← unpack_Q (slice data (offset + 0x10) (offset + 0x18));
    client_data_length ← unpack_I (slice data (offset + 0x18) (offset + 0x1C));
    if client_data_length >? 0x10000 then Ok None else
    client_id ← unpack_I (slice data (offset + 0x1C) (offset + 0x20));
    record_type ← unpack_I (slice data (offset + 0x20) (offset + 0x24));
    transaction_id ← unpack_I (slice data (offset + 0x24) (offset + 0x28));
    flags ← unpack_H (slice data (offset + 0x28) (offset + 0x2A));
    redo_op ← unpack_H (slice data (offset + 0x30) (offset + 0x32));
    undo_op ← unpack_H (slice data (offset + 0x32) (offset + 0x34));
    redo_offset ← unpack_H (slice data (offset + 0x34) (offset + 0x36));
    redo_length ← unpack_H (slice data (offset + 0x36) (offset + 0x38));
    undo_offset ← unpack_H (slice data (offset + 0x38) (offset + 0x3A));
    undo_length ← unpack_H (slice data (offset + 0x3A) (offset + 0x3C));
    target_attribute ← unpack_H (slice data (offset + 0x3C) (offset + 0x3E));
    lcns_to_follow ← unpack_H (slice data (offset + 0x3E) (offset + 0x40));
    record_offset ← unpack_H (slice data (offset + 0x40) (offset + 0x42));
    attribute_offset ← unpack_H (slice data (offset + 0x42) (offset + 0x44));
    target_vcn ← unpack_Q (slice data (offset + 0x48) (offset + 0x50));
    target_lcn ← unpack_I (slice data (offset + 0x50) (offset + 0x54));
    let record :=
      {| LogRecord.this_lsn := this_lsn;
         LogRecord.previous_lsn := previous_lsn;
         LogRecord.client_undo_lsn := client_undo_lsn;
         LogRecord.client_data_length := client_data_length;
         LogRecord.client_id := client_id;
         LogRecord.record_type := record_type;
         LogRecord.transaction_id := transaction_id;
         LogRecord.flags := flags;
         LogRecord.redo_op := redo_op;
         LogRecord.undo_op := undo_op;
         LogRecord.redo_offset := redo_offset;
         LogRecord.redo_length := redo_length;
         LogRecord.undo_offset := undo_offset;
         LogRecord.undo_length := undo_length;
         LogRecord.target_attribute := target_attribute;
         LogRecord.lcns_to_follow := lcns_to_follow;
         LogRecord.record_offset := record_offset;
         LogRecord.attribute_offset := attribute_offset;
         LogRecord.target_vcn := target_vcn;
         LogRecord.target_lcn := target_lcn;
         LogRecord.filename := LogRecord.filename LogRecord.__init__;
         LogRecord.file_reference := LogRecord.file_reference LogRecord.__init__;
         LogRecord.parent_reference :=
           LogRecord.parent_reference LogRecord.__init__;
         LogRecord.timestamp := LogRecord.timestamp LogRecord.__init__;
         LogRecord.event := opcode_name redo_op;
         LogRecord.file_attr := LogRecord.file_attr LogRecord.__init__ |} in
    let client_offset := offset + LOG_RECORD_HEADER_SIZE in
    if (client_data_length >? 0)
       && (client_offset + client_data_length <=? len data) then
      let client_data := slice data client_offset (client_offset + client_data_length) in
      match _parse_client_data client_data record with
      | (Ok _, record') => Ok (Some record')
      | (Raise e, _) => Raise e
      | (OutOfFuel, _) => OutOfFuel
      end
    else Ok (Some record)).

(** The [while] of [_parse_page_records]; [out] is what was yielded. *)
Fixpoint page_records_loop (fuel : nat) (data : bytes) (offset : Z)
    (out : list LogRecord.t) : res (list LogRecord.t) :=
  match fuel with
  | O => OutOfFuel
  | S fuel' =>
      if offset + LOG_RECORD_HEADER_SIZE <=? len data then
        if bool_decide (slice data offset (offset + 8) = zeros 8) then Ok out else
        record ← _parse_log_record data offset;
        match record : option LogRecord.t with
        | Some record =>
            let out := out ++ [record] in
            let record_size :=
              LOG_RECORD_HEADER_SIZE + LogRecord.client_data_length record in
            let record_size := Z.land (record_size + 7) (Z.lnot 7) in
            page_records_loop fuel' data (offset + record_size) out
        | None => page_records_loop fuel' data (offset + 8) out
        end
      else Ok out
  end.

Definition _parse_page_records (page : RecordPage.t) : res (list LogRecord.t) :=
  let data := RecordPage.data page in
  page_records_loop (S (length data)) data RecordPage.HEADER_SIZE [].

End parser.

(** The class [LogFileParser]; [file] is the content of the file at
    [logfile_path]. *)
Module LogFileParser.
Record t := {
  restart_page : option RestartPage.t;
  page_size : Z;
  current_lsn : Z
}.

Definition __init__ : t :=
  {| restart_page := None; page_size := DEFAULT_PAGE_SIZE; current_lsn := 0 |}.

(** [f.read(n)] for [0 <= n]: what was read, and the rest of the file. *)
Definition read (n : Z) (f : bytes) : bytes * bytes :=
  (take (Z.to_nat n) f, drop (Z.to_nat n) f).

(** [self.restart_page = RestartPage(data)] and [self.restart_page.parse()]:
    the page the parser holds is the one [parse] has changed. *)
Definition parse_page (data : bytes) : Mut t bool := fun self =>
  let '(r, page) := RestartPage.parse (RestartPage.__init__ data) in
  (r, {| restart_page := Some page; page_size := page_size self;
         current_lsn := current_lsn self |}).

(** The two assignments after a restart page was parsed. *)
Definition take_over : Mut t unit :=
  assign (fun self =>
    match restart_page self with
    | Some page =>
        {| restart_page := restart_page self;
           page_size :=
             (if RestartPage.log_page_size page =? 0 then DEFAULT_PAGE_SIZE
              else RestartPage.log_page_size page);
           current_lsn := RestartPage.current_lsn page |}
    | None => self
    end).

Definition parse_restart_area (file : bytes) : Mut t bool :=
  let '(data, f) := read DEFAULT_PAGE_SIZE file in
  first ← parse_page data;
  if negb first then
    let '(data, f) := read DEFAULT_PAGE_SIZE f in
    second ← parse_page data;
    if negb second then mret false else
    _ ← take_over; mret true
  else
    _ ← take_over; mret true.

(** The [while] of [iter_records]; [out] is what was yielded. [f.seek] and
    [f.read] give a slice of the file. *)
Fixpoint pages_loop `{PyDatetime} `{PyUnicode} (fuel : nat) (file : bytes)
    (page_size page_offset : Z) (out : list LogRecord.t)
    : res (list LogRecord.t) :=
  match fuel with
  | O => OutOfFuel
  | S fuel' =>
      if page_offset <? len file then
        let page_data := slice file page_offset (page_offset + page_size) in
        if len page_data <? page_size then Ok out else
        if bool_decide (slice page_data 0 4 = zeros 4) then
          pages_loop fuel' file page_size (page_offset + page_size) out
        else
          let page := RecordPage.__init__ page_data page_offset in
          match RecordPage.parse page with
          | (Ok true, page) =>
              records ← _parse_page_records page;
              pages_loop fuel' file page_size (page_offset + page_size)
                (out ++ records)
          | (Ok false, _) =>
              pages_loop fuel' file page_size (page_offset + page_size) out
          | (Raise e, _) => Raise e
          | (OutOfFuel, _) => OutOfFuel
          end
      else Ok out
  end.

(** [iter_records] of a fresh parser: the records it yields. *)
Definition iter_records `{PyDatetime} `{PyUnicode} (file : bytes)
    : res (list LogRecord.t) :=
  match parse_restart_area file __init__ with
  | (Ok true, self) =>
      pages_loop (S (length file)) file (page_size self) (page_size self * 2) []
  | (Ok false, _) => Ok []
  | (Raise e, _) => Raise e
  | (OutOfFuel, _) => OutOfFuel
  end.
End LogFileParser.

End LogFile.

(** ** src/image_handler.py *)
Module ImageHandler.
Import Py Constants.
Import MftParser.

(** A raw image is its bytes. A computation on an image takes the log of
    the [image.read(offset, size)] calls made so far and answers its
    outcome with the log it leaves. *)
Definition IO (A : Type) : Type := list (Z * Z) -> res A * list (Z * Z).

#[global] Instance io_ret : MRet IO := fun A a log => (Ok a, log).
#[global] Instance io_bind : MBind IO := fun A B f m log =>
  match m log with
  | (Ok a, log') => f a log'
  | (Raise e, log') => (Raise e, log')
  | (OutOfFuel, log') => (OutOfFuel, log')
  end.

(** A step that touches no image. *)
Definition pure {A} (r : res A) : IO A := fun log => (r, log).

(** The file object under a raw image, [open(image_path, 'rb')] of 64-bit
    CPython. The operating system lets the handle seek to the offsets from
    0 to [max_seek], a limit of the file system that is below 2^63. A read
    allocates a buffer of the size asked for; [max_read] is the largest the
    interpreter can allocate, which is at least a sector and at most the
    largest bytes object, of 2^63 - 34 bytes. *)
Class PyFile := {
  max_seek : Z;
  max_read : Z;
  max_seek_range : 0 <= max_seek < 2 ^ 63;
  max_read_range : 512 <= max_read <= 2 ^ 63 - 34
}.

(** [self._handle.seek(offset)]: [ValueError] for an offset that is no
    signed 64-bit number, [OSError] before the start of the file and past
    [max_seek]. *)
Definition seek `{PyFile} (offset : Z) : res unit :=
  if (offset <? - 2 ^ 63) || (2 ^ 63 <=? offset) then Raise ValueError
  else if (offset <? 0) || (max_seek <? offset) then Raise OSError
  else Ok tt.

(** [self._handle.read(size)] with the handle at [offset]: [OverflowError]
    for a size that no bytes object can have, [ValueError] for a negative
    size other than -1, which asks for the rest of the file, [MemoryError]
    past [max_read]; reading past the end of the file comes back short. *)
Definition read_at_handle `{PyFile} (image : bytes) (offset size : Z) : res bytes :=
  if (size <? - 2 ^ 63) || (2 ^ 63 - 34 <? size) then Raise OverflowError
  else if size <? -1 then Raise ValueError
  else if size =? -1 then Ok (slice image offset (len image))
  else if max_read <? size then Raise MemoryError
  else Ok (slice image offset (offset + size)).

(** [image.read(offset, size)] of a raw image. *)
Definition read `{PyFile} (image : bytes) (offset size : Z) : IO bytes := fun log =>
  (_ ← seek offset; read_at_handle image offset size,
   log ++ [(offset, size)]).

(** The class [NTFSPartition], without the image it points to. *)
Module NTFSPartition.
Record t := {
  offset : Z;
  bytes_per_sector : Z;
  sectors_per_cluster : Z;
  cluster_size : Z;
  mft_offset : Z;
  mft_entry_size : Z
}.

(** [NTFSPartition(image, offset)] *)
Definition __init__ (offset : Z) : t :=
  {| offset := offset; bytes_per_sector := 512; sectors_per_cluster := 8;
     cluster_size := 4096; mft_offset := 0; mft_entry_size := 1024 |}.

(** [parse_boot_sector] answers the returned bool and the object as the
    call leaves it. *)
Definition parse_boot_sector `{PyFile} (image : bytes) (self : t)
    : IO (bool * t) :=
  data ← read image (offset self) 512;
  if negb (bool_decide (slice data 3 11 = blit "NTFS    "))
  then mret (false, self) else
  bytes_per_sector1 ← pure (unpack_H (slice data 0x0B 0x0D));
  sectors_per_cluster1 ← pure (u8 <$> index data 0x0D);
  let cluster_size1 := bytes_per_sector1 * sectors_per_cluster1 in
  mft_cluster ← pure (unpack_Q (slice data 0x30 0x38));
  let mft_offset1 := offset self + mft_cluster * cluster_size1 in
  mft_entry_size_raw ← pure (unpack_b (slice data 0x40 0x41));
  let mft_entry_size1 :=
    if mft_entry_size_raw >? 0 then mft_entry_size_raw * cluster_size1
    else Z.shiftl 1 (- mft_entry_size_raw) in
  mret (true,
        {| offset := offset self; bytes_per_sector := bytes_per_sector1;
           sectors_per_cluster := sectors_per_cluster1;
           cluster_size := cluster_size1; mft_offset := mft_offset1;
           mft_entry_size := mft_entry_size1 |}).

Definition read_mft_entry `{PyFile} (image : bytes) (self : t)
    (entry_number : Z) : IO bytes :=
  read image (mft_offset self + entry_number * mft_entry_size self)
       (mft_entry_size self).

Definition read_cluster `{PyFile} (image : bytes) (self : t)
    (cluster_number : Z) : IO bytes :=
  read image (offset self + cluster_number * cluster_size self) (cluster_size self).
End NTFSPartition.

(** [partition = NTFSPartition(image, offset);
     if partition.parse_boot_sector(): partitions.append(partition)] *)
Definition probe `{PyFile} (image : bytes) (offset : Z)
    (partitions : list NTFSPartition.t)
    : IO (list NTFSPartition.t) :=
  r ← NTFSPartition.parse_boot_sector image (NTFSPartition.__init__ offset);
  let '(found, partition) := (r : bool * NTFSPartition.t) in
  mret (if found then partitions ++ [partition] else partitions).

(** [for i in range(4)] over the MBR entries. *)
Fixpoint mbr_loop `{PyFile} (image mbr : bytes) (indices : list Z)
    (partitions : list NTFSPartition.t)
    : IO (list NTFSPartition.t) :=
  match indices with
  | [] => mret partitions
  | i :: rest =>
      let entry_offset := 446 + i * 16 in
      let entry := slice mbr entry_offset (entry_offset + 16) in
      partition_type ← pure (u8 <$> index entry 4);
      partitions ←
        (if bool_decide (partition_type ∈ [0x07; 0x17; 0x27]) then
           lba_start ← pure (unpack_I (slice entry 8 12));
           probe image (lba_start * 512) partitions
         else mret partitions);
      mbr_loop image mbr rest partitions
  end.

(** [bytes.fromhex('A2A0D0EBE5B9334487C068B6B72699C7')] *)
Definition ntfs_guid : bytes :=
  [xa2; xa0; xd0; xeb; xe5; xb9; x33; x44; x87; xc0; x68; xb6; xb7; x26; x99; xc7].

(** [for i in range(min(num_entries, 128))] over the GPT entries. *)
Fixpoint gpt_loop `{PyFile} (image : bytes) (partition_entry_lba entry_size : Z)
    (indices : list Z)
    (partitions : list NTFSPartition.t) : IO (list NTFSPartition.t) :=
  match indices with
  | [] => mret partitions
  | i :: rest =>
      let entry_offset := partition_entry_lba * 512 + i * entry_size in
      entry ← read image entry_offset entry_size;
      let partition_type_guid := slice entry 0 16 in
      partitions ←
        (if bool_decide (partition_type_guid = ntfs_guid)
            || negb (bool_decide (slice entry 0 16 = zeros 16)) then
           start_lba ← pure (unpack_Q (slice entry 32 40));
           if start_lba >? 0 then probe image (start_lba * 512) partitions
           else mret partitions
         else mret partitions);
      gpt_loop image partition_entry_lba entry_size rest partitions
  end.

Definition find_ntfs_partitions `{PyFile} (image : bytes)
    : IO (list NTFSPartition.t) :=
  let partitions := [] in
  mbr ← read image 0 512;
  if negb (bool_decide (slice mbr 510 512 = [x55; xaa])) then
    probe image 0 partitions
  else
    partitions ← mbr_loop image mbr (range 0 4 1) partitions;
    gpt_header ← read image 512 512;
    if bool_decide (slice gpt_header 0 8 = blit "EFI PART") then
      partition_entry_lba ← pure (unpack_Q (slice gpt_header 72 80));
      num_entries ← pure (unpack_I (slice gpt_header 80 84));
      entry_size ← pure (unpack_I (slice gpt_header 84 88));
      gpt_loop image partition_entry_lba entry_size
        (range 0 (Z.min num_entries 128) 1) partitions
    else mret partitions.

(** The class [NTFSExtractor]: [_extract_from_data_runs]. The output file
    is the bytes written to it so far, in order. *)
Module NTFSExtractor.
Section extract.
Context `{PyFile}.

(** [self.partition] and the image behind it *)
Variable image : bytes.
Variable partition : NTFSPartition.t.

(** [for _ in range(run['length'])] of a sparse run that is filled with
    zeros; [n] turns are left. *)
Fixpoint zero_fill (n : nat) (real_size : Z) (zero_chunk : bytes)
    (out_file : bytes) (written : Z) : bytes * Z :=
  match n with
  | O => (out_file, written)
  | S n' =>
      if real_size >? 0 then
        let remaining := real_size - written in
        if remaining <=? 0 then (out_file, written)
        else if remaining <? len zero_chunk then
          zero_fill n' real_size zero_chunk
            (out_file ++ slice zero_chunk 0 remaining) (written + remaining)
        else
          zero_fill n' real_size zero_chunk
            (out_file ++ zero_chunk) (written + len zero_chunk)
      else
        zero_fill n' real_size zero_chunk
          (out_file ++ zero_chunk) (written + len zero_chunk)
  end.

(** [for i in range(length)] of a run that is read from the image; [n]
    turns are left and [i] is the next index. *)
Fixpoint copy_clusters (n : nat) (cluster i real_size : Z)
    (out_file : bytes) (written : Z) : IO (bytes * Z) :=
  match n with
  | O => mret (out_file, written)
  | S n' =>
      if (real_size >? 0) && (written >=? real_size)
      then mret (out_file, written) else
      cluster_data ← NTFSPartition.read_cluster image partition (cluster + i);
      if real_size >? 0 then
        let remaining := real_size - written in
        if remaining <? len cluster_data then
          copy_clusters n' cluster (i + 1) real_size
            (out_file ++ slice cluster_data 0 remaining) (written + remaining)
        else
          copy_clusters n' cluster (i + 1) real_size
            (out_file ++ cluster_data) (written + len cluster_data)
      else
        copy_clusters n' cluster (i + 1) real_size
          (out_file ++ cluster_data) (written + len cluster_data)
  end.

(** [for run in data_runs], from the file and the count [written] so far;
    it answers the file and the count it leaves. *)
Fixpoint extract_runs (data_runs : list DataRun) (real_size : Z)
    (out_file : bytes) (written : Z) (skip_sparse : bool) : IO (bytes * Z) :=
  match data_runs with
  | [] => mret (out_file, written)
  | run :: rest =>
      if (real_size >? 0) && (written >=? real_size)
      then mret (out_file, written) else
      if sparse run || (start_cluster run =? 0) then
        let sparse_size := run_length run * NTFSPartition.cluster_size partition in
        if skip_sparse then
          extract_runs rest real_size out_file (written + sparse_size) skip_sparse
        else
          let zero_chunk :=
            zeros (Z.to_nat (NTFSPartition.cluster_size partition)) in
          let '(out_file, written) :=
            zero_fill (Z.to_nat (run_length run)) real_size zero_chunk
              out_file written in
          extract_runs rest real_size out_file written skip_sparse
      else
        let cluster := start_cluster run in
        let length := run_length run in
        r ← copy_clusters (Z.to_nat length) cluster 0 real_size out_file written;
        let '(out_file, written) := (r : bytes * Z) in
        extract_runs rest real_size out_file written skip_sparse
  end.

(** [_extract_from_data_runs(data_runs, real_size, out_file, skip_sparse)]
    on a file just opened for writing: what the file holds afterwards. *)
Definition _extract_from_data_runs (data_runs : list DataRun) (real_size : Z)
    (skip_sparse : bool) : IO bytes :=
  r ← extract_runs data_runs real_size [] 0 skip_sparse;
  mret (fst (r : bytes * Z)).

(** [for i in range(length)] of [_extract_non_resident]; [n] turns are left
    and [i] is the next index. The [break] leaves this loop only. *)
Fixpoint copy_run (n : nat) (cluster i real_size : Z)
    (out_file : bytes) (written : Z) : IO (bytes * Z) :=
  match n with
  | O => mret (out_file, written)
  | S n' =>
      if written >=? real_size then mret (out_file, written) else
      cluster_data ← NTFSPartition.read_cluster image partition (cluster + i);
      let remaining := real_size - written in
      if remaining <? len cluster_data then
        copy_run n' cluster (i + 1) real_size
          (out_file ++ slice cluster_data 0 remaining) (written + remaining)
      else
        copy_run n' cluster (i + 1) real_size
          (out_file ++ cluster_data) (written + len cluster_data)
  end.

(** [for run in data_runs] of [_extract_non_resident]. *)
Fixpoint non_resident_runs (data_runs : list DataRun) (real_size : Z)
    (out_file : bytes) (written : Z) : IO (bytes * Z) :=
  match data_runs with
  | [] => mret (out_file, written)
  | run :: rest =>
      let cluster := start_cluster run in
      let length := run_length run in
      r ← copy_run (Z.to_nat length) cluster 0 real_size out_file written;
      let '(out_file, written) := (r : bytes * Z) in
      non_resident_runs rest real_size out_file written
  end.

(** [_extract_non_resident(attr, out_file)] on a file just opened for
    writing: what the file holds afterwards. *)
Definition _extract_non_resident (attr : dict) : IO bytes :=
  let data_runs := get_runs attr "data_runs" [] in
  let real_size := get_int attr "real_size" 0 in
  r ← non_resident_runs data_runs real_size [] 0;
  mret (fst (r : bytes * Z)).

End extract.

(** The [while] of [_parse_index_entries], with [verbose] left at [False].
    The second test of [offset + 16 > len(data)] is the one the source makes
    inside the loop; [found] is the [return] inside the [try], whose bare
    [except] passes over a name that cannot be decoded. *)
Fixpoint index_entries_loop (fuel : nat) (data : bytes) (offset : Z)
    (target_name : str) : res (option Z) :=
  match fuel with
  | O => OutOfFuel
  | S fuel' =>
      if offset + 16 <=? len data then
        if offset + 16 >? len data then Ok None else
        mft_ref ← unpack_Q (slice data offset (offset + 8));
        entry_length ← unpack_H (slice data (offset + 8) (offset + 10));
        content_length ← unpack_H (slice data (offset + 10) (offset + 12));
        entry_flags ← unpack_I (slice data (offset + 12) (offset + 16));
        if entry_length =? 0 then Ok None else
        if negb (Z.land entry_flags 0x02 =? 0) then Ok None else
        let fn_offset := offset + 16 in
        found ←
          (if (fn_offset + 66 <=? len data) && (content_length >=? 66) then
             name_len ← u8 <$> index data (fn_offset + 64);
             if fn_offset + 66 + name_len * 2 <=? len data then
               match decode_utf16le Strict
                       (slice data (fn_offset + 66)
                          (fn_offset + 66 + name_len * 2)) with
               | Some name =>
                   if bool_decide (name = target_name)
                   then Ok (Some (Z.land mft_ref 0x0000FFFFFFFFFFFF))
                   else Ok None
               | None => Ok None
               end
             else Ok None
           else Ok None);
        match found : option Z with
        | Some entry => Ok (Some entry)
        | None => index_entries_loop fuel' data (offset + entry_length) target_name
        end
      else Ok None
  end.

(** [_parse_index_entries(data, offset, target_name)] for [0 <= offset] *)
Definition _parse_index_entries (data : bytes) (offset : Z) (target_name : str)
    : res (option Z) :=
  index_entries_loop (S (length data)) data offset target_name.

(** The loop is the one of [MFTEntry._apply_fixup]. *)
Definition _apply_fixup_to_index (data : bytes) : res bytes :=
  if len data <? 48 then Ok data else
  fixup_offset ← unpack_H (slice data 4 6);
  fixup_count ← unpack_H (slice data 6 8);
  if (fixup_count =? 0) || (fixup_offset + fixup_count * 2 >? len data)
  then Ok data
  else Ok (foldl (MftParser.fixup_step fixup_offset) data
             (seqZ 1 (fixup_count - 1))).

(** The [while] of [_parse_attribute_list]; a name that cannot be decoded
    leaves [attr_name] empty. *)
Fixpoint attribute_list_loop (fuel : nat) (data : bytes) (offset : Z)
    (entries : list dict) : res (list dict) :=
  match fuel with
  | O => OutOfFuel
  | S fuel' =>
      if offset + 26 <=? len data then
        attr_type ← unpack_I (slice data offset (offset + 4));
        record_length ← unpack_H (slice data (offset + 4) (offset + 6));
        if (record_length =? 0) || (offset + record_length >? len data)
        then Ok entries else
        name_length ← u8 <$> index data (offset + 6);
        name_offset ← u8 <$> index data (offset + 7);
        start_vcn ← unpack_Q (slice data (offset + 8) (offset + 16));
        mft_reference ← unpack_Q (slice data (offset + 16) (offset + 24));
        let attr_name :=
          if (name_length >? 0)
             && (offset + name_offset + name_length * 2 <=? len data)
          then
            match decode_utf16le Strict
                    (slice data (offset + name_offset)
                       (offset + name_offset + name_length * 2)) with
            | Some name => name
            | None => []
            end
          else [] in
        let entry : dict :=
          <["mft_reference" := VInt mft_reference]>
            (<["start_vcn" := VInt start_vcn]>
               (<["name" := VStr attr_name]>
                  (<["type" := VInt attr_type]> ∅))) in
        attribute_list_loop fuel' data (offset + record_length) (entries ++ [entry])
      else Ok entries
  end.

Definition _parse_attribute_list (attr : dict) (base_entry_num : Z)
    : res (list dict) :=
  if get_bool attr "non_resident" false then Ok [] else
  let data := get_bytes attr "data" [] in
  attribute_list_loop (S (length data)) data 0 [].

End NTFSExtractor.

End ImageHandler.

(** ** src/analyzer.py: [UnifiedAnalyzer._iter_all_records] *)
Module Analyzer.
Import Py Constants.
Import MftParser UsnJrnl LogFile.

(** [file_attr] holds an int for the MFT events ([record.si_flags]) and a
    str for the others. *)
Inductive int_or_str :=
| AnInt (z : Z)
| AStr (s : str).

(** The dataclass [UnifiedRecord]. *)
Module UnifiedRecord.
Record t := {
  timestamp : str;
  source : str;
  event : str;
  filename : str;
  full_path : str;
  file_attr : int_or_str;
  file_reference : str;
  parent_reference : str;
  extra_info : str
}.
End UnifiedRecord.

(** [bool(s)] of a str, and of an optional path *)
Definition nonempty (s : str) : bool := negb (bool_decide (s = [])).

Definition given (path : option str) : bool :=
  match path with
  | Some p => nonempty p
  | None => false
  end.

(** A run of the generator: it ended, or it was still running when the
    fuel of the journal parser ran out, or it raised. [out] is what it has
    yielded; of a run that raised, only the exception is kept. *)
Inductive outcome :=
| Returned (out : list UnifiedRecord.t)
| Running (out : list UnifiedRecord.t)
| Failed (e : exn).

Section _iter_all_records.
Context `{PyDatetime} `{PyUnicode} `{PyRecursion}.

(** The file system, as far as the iterator sees it: whether a path
    exists, and the bytes of the file at a path that does (a path that
    exists is taken to be a file that can be read). *)
Variable path_exists : str -> bool.
Variable content : str -> bytes.

(** [if p and Path(p).exists()] *)
Definition usable (path : option str) : bool :=
  match path with
  | Some p => nonempty p && path_exists p
  | None => false
  end.

Definition path_str (path : option str) : str := default [] path.

(** The two [UnifiedRecord(...)] the MFT loop builds. *)
Definition mft_event (timestamp event : str) (record : MFTRecord.t)
    : UnifiedRecord.t :=
  {| UnifiedRecord.timestamp := timestamp;
     UnifiedRecord.source := lit "MFT";
     UnifiedRecord.event := event;
     UnifiedRecord.filename := MFTRecord.filename record;
     UnifiedRecord.full_path := MFTRecord.full_path record;
     UnifiedRecord.file_attr := AnInt (MFTRecord.si_flags record);
     UnifiedRecord.file_reference :=
       str_of_int (MFTRecord.entry_number record) ++ lit "-"
       ++ str_of_int (MFTRecord.sequence_number record);
     UnifiedRecord.parent_reference := str_of_int (MFTRecord.parent_ref record);
     UnifiedRecord.extra_info := [] |}.

Definition mft_create_event (record : MFTRecord.t) : UnifiedRecord.t :=
  mft_event (MFTRecord.si_created record) (lit "FileCreate (SI)") record.

Definition mft_modify_event (record : MFTRecord.t) : UnifiedRecord.t :=
  mft_event (MFTRecord.si_modified record) (lit "FileModify (SI)") record.

(** The body of [for record in parser.iter_entries_with_paths()]; [out] is
    what the generator has yielded. *)
Definition mft_body (out : list UnifiedRecord.t) (record : MFTRecord.t)
    : list UnifiedRecord.t :=
  let out :=
    if nonempty (MFTRecord.si_created record)
    then out ++ [mft_create_event record]
    else out in
  if nonempty (MFTRecord.si_modified record)
     && negb (bool_decide (MFTRecord.si_modified record = MFTRecord.si_created record))
  then out ++ [mft_modify_event record]
  else out.

(** [UsnJrnlParserWithMFT.build_path_cache_from_mft]: the
    [self.path_cache] it leaves, from the empty one. *)
Definition build_path_cache_from_mft (mft_path : str) : res (gmap Z str) :=
  if negb (nonempty mft_path) || negb (path_exists mft_path) then Ok ∅
  else MFTParser.build_path_cache MFT_ENTRY_SIZE (content mft_path) ∅.

(** [UsnJrnlParserWithMFT.get_full_path] *)
Definition get_full_path (path_cache : gmap Z str) (file_ref : Z) : str :=
  let '(entry_number, _) := parse_file_reference file_ref in
  default [] (path_cache !! entry_number).

(** The [UnifiedRecord(...)] the journal loop builds; [path_cache] is the
    one of the parser when it is a [UsnJrnlParserWithMFT]. *)
Definition usn_event (mft_path : option str) (path_cache : gmap Z str)
    (record : UsnRecord.t) : UnifiedRecord.t :=
  let full_path :=
    if given mft_path
    then get_full_path path_cache (UsnRecord.file_reference record)
    else [] in
  {| UnifiedRecord.timestamp := UsnRecord.timestamp record;
     UnifiedRecord.source := lit "UsnJrnl";
     UnifiedRecord.event := UsnRecord.event record;
     UnifiedRecord.filename := UsnRecord.filename record;
     UnifiedRecord.full_path := full_path;
     UnifiedRecord.file_attr := AStr (UsnRecord.file_attr_str record);
     UnifiedRecord.file_reference := UsnRecord.file_ref_str record;
     UnifiedRecord.parent_reference := UsnRecord.parent_ref_str record;
     UnifiedRecord.extra_info :=
       lit "USN:" ++ str_of_int (UsnRecord.usn record) |}.

(** The body of [for record in parser.iter_records()] of the journal. *)
Definition usn_body (mft_path : option str) (path_cache : gmap Z str)
    (out : list UnifiedRecord.t) (record : UsnRecord.t) : list UnifiedRecord.t :=
  out ++ [usn_event mft_path path_cache record].

(** The [UnifiedRecord(...)] the log loop builds. *)
Definition log_event (record : LogRecord.t) : UnifiedRecord.t :=
  {| UnifiedRecord.timestamp := LogRecord.timestamp record;
     UnifiedRecord.source := lit "LogFile";
     UnifiedRecord.event := LogRecord.event record;
     UnifiedRecord.filename := LogRecord.filename record;
     UnifiedRecord.full_path := [];
     UnifiedRecord.file_attr := AStr [];
     UnifiedRecord.file_reference :=
       if truthy (LogRecord.file_reference record)
       then str_of_int (LogRecord.file_reference record) else [];
     UnifiedRecord.parent_reference :=
       if truthy (LogRecord.parent_reference record)
       then str_of_int (LogRecord.parent_reference record) else [];
     UnifiedRecord.extra_info :=
       lit "LSN:" ++ str_of_int (LogRecord.lsn record) |}.

(** The body of [for record in parser.iter_records()] of the log. *)
Definition log_body (out : list UnifiedRecord.t) (record : LogRecord.t)
    : list UnifiedRecord.t :=
  if nonempty (LogRecord.filename record) || nonempty (LogRecord.event record)
  then out ++ [log_event record]
  else out.

(** The third block, [if logfile_path and Path(logfile_path).exists()],
    after [out] was yielded. *)
Definition log_block (logfile_path : option str) (out : list UnifiedRecord.t)
    : outcome :=
  if usable logfile_path then
    match LogFileParser.iter_records (content (path_str logfile_path)) with
    | Ok records => Returned (foldl log_body out records)
    | Raise e => Failed e
    | OutOfFuel => Running out
    end
  else Returned out.

(** The second block, [if usnjrnl_path and Path(usnjrnl_path).exists()],
    and what follows it. The path cache is built before the first record
    of the journal is asked for; the journal parser runs on [fuel]. *)
Definition usn_block (fuel : nat) (mft_path logfile_path usnjrnl_path : option str)
    (out : list UnifiedRecord.t) : outcome :=
  if usable usnjrnl_path then
    match (if given mft_path
           then build_path_cache_from_mft (path_str mft_path)
           else Ok ∅) with
    | Ok path_cache =>
        match UsnJrnl.iter_records fuel (content (path_str usnjrnl_path)) true with
        | UsnJrnl.Finished s =>
            log_block logfile_path
              (foldl (usn_body mft_path path_cache) out (map snd (UsnJrnl.yielded s)))
        | UsnJrnl.Unfinished s =>
            Running
              (foldl (usn_body mft_path path_cache) out (map snd (UsnJrnl.yielded s)))
        | UsnJrnl.Raised e => Failed e
        end
    | Raise e => Failed e
    | OutOfFuel => Running out
    end
  else log_block logfile_path out.

(** The generator. [iter_entries_with_paths] builds the path cache before
    its first record, and [iter_entries] raises nowhere, so an MFT parser
    that raises does so before anything is yielded. *)
Definition _iter_all_records (fuel : nat)
    (mft_path logfile_path usnjrnl_path : option str) : outcome :=
  if usable mft_path then
    match MFTParser.iter_entries_with_paths MFT_ENTRY_SIZE
            (content (path_str mft_path)) true with
    | Ok records =>
        usn_block fuel mft_path logfile_path usnjrnl_path (foldl mft_body [] records)
    | Raise e => Failed e
    | OutOfFuel => Running []
    end
  else usn_block fuel mft_path logfile_path usnjrnl_path [].

End _iter_all_records.
End Analyzer.

(** ** Concrete inputs

    The byte strings the examples of the second part run the decoders on,
    and the instances they take for the library interfaces. *)
Module Examples.
Import Py Constants MftParser.

(** A stand-in for [datetime] in the examples: a datetime is its tick
    count, printed in decimal. *)
Definition ticks_datetime : PyDatetime :=
  {| datetime := Z; from_filetime := Some; strftime := str_of_int |}.

(** [isprintable] on the ASCII range, where it holds from the space to the
    tilde; the examples use no other character. *)
Definition ascii_unicode : LogFile.PyUnicode :=
  {| LogFile.isprintable := fun c => (32 <=? c) && (c <=? 126) |}.

(** The nested calls the examples allow: CPython's default recursion limit
    of 1000, less the frames that are in use when a parser is called. *)
Definition python_recursion : PyRecursion :=
  {| call_depth := 900 |}.

(** The image file of the examples: it can be positioned up to 16 TiB less
    a block, the largest file of an ext4 file system, and read 4 GiB at a
    time. *)
Definition image_file : ImageHandler.PyFile :=
  {| ImageHandler.max_seek := 2 ^ 44 - 4096;
     ImageHandler.max_read := 2 ^ 32;
     ImageHandler.max_seek_range := ltac:(lia);
     ImageHandler.max_read_range := ltac:(lia) |}.

(** An image of 64 bytes that has the NTFS mark and stops one byte before
    the entry size of the boot sector. *)
Definition short_ntfs_image : bytes :=
  zeros 3 ++ blit "NTFS    " ++ zeros 53.

(** An ASCII string in UTF-16LE. *)
Definition utf16 (s : string) : bytes :=
  flat_map (fun b => [b; x00]) (blit s).

(** The 48-byte header of an MFT entry and its update sequence array at
    offset 48: the signature word [usn] and the two saved words. The
    attributes start at offset 56. *)
Definition entry_header (sequence flags used_size : Z) (usn saved1 saved2 : bytes)
    : bytes :=
  blit "FILE" ++ pack_u 2 48 ++ pack_u 2 3 ++ zeros 8
  ++ pack_u 2 sequence ++ pack_u 2 1 ++ pack_u 2 56 ++ pack_u 2 flags
  ++ pack_u 4 used_size ++ pack_u 4 1024 ++ zeros 8
  ++ pack_u 2 0 ++ zeros 2 ++ pack_u 4 0
  ++ usn ++ saved1 ++ saved2 ++ zeros 2.

(** A 1024-byte entry: the header, the attributes, the end marker, and the
    words [tail1] and [tail2] at the ends of its two sectors. *)
Definition entry_of (sequence flags : Z) (usn saved1 saved2 : bytes)
    (attrs tail1 tail2 : bytes) : bytes :=
  let body :=
    entry_header sequence flags (56 + len attrs + 8) usn saved1 saved2
    ++ attrs ++ pack_u 4 0xFFFFFFFF in
  body ++ zeros (510 - length body) ++ tail1 ++ zeros 510 ++ tail2.

(** A resident [$FILE_NAME] attribute with an ASCII name. *)
Definition file_name_attr (namespace parent_ref : Z) (name : string) : bytes :=
  let content :=
    pack_u 8 parent_ref ++ zeros 56
    ++ pack_u 1 (len (blit name)) ++ pack_u 1 namespace ++ utf16 name in
  let padding := zeros (Z.to_nat ((8 - (24 + len content) mod 8) mod 8)) in
  pack_u 4 0x30 ++ pack_u 4 (24 + len content + len padding)
  ++ [x00; x00] ++ pack_u 2 24 ++ pack_u 2 0 ++ pack_u 2 0
  ++ pack_u 4 (len content) ++ pack_u 2 24 ++ [x01; x00]
  ++ content ++ padding.

(** A resident [$STANDARD_INFORMATION] attribute with the two times. *)
Definition standard_information_attr (created modified : Z) : bytes :=
  pack_u 4 0x10 ++ pack_u 4 72 ++ [x00; x00] ++ pack_u 2 24 ++ pack_u 2 0
  ++ pack_u 2 0 ++ pack_u 4 48 ++ pack_u 2 24 ++ [x00; x00]
  ++ pack_u 8 created ++ pack_u 8 modified ++ zeros 32.

(** An entry whose update sequence number is 01 00 while both sector tails
    hold 00 00: a torn write. *)
Definition torn_entry : bytes :=
  entry_of 7 1 [x01; x00] [xaa; xbb] [xcc; xdd] [] [x00; x00] [x00; x00].

(** An intact entry with a DOS name followed by a POSIX name and no Win32
    name. *)
Definition dos_then_posix_entry : bytes :=
  entry_of 1 1 [x01; x00] [x00; x00] [x00; x00]
    (file_name_attr FileNamespace.DOS 5 "A~1"
     ++ file_name_attr FileNamespace.POSIX 5 "abc")
    [x01; x00] [x01; x00].

(** An intact in-use entry with one Win32 name. *)
Definition named_entry (parent_ref : Z) (name : string) : bytes :=
  entry_of 1 1 [x01; x00] [x00; x00] [x00; x00]
    (file_name_attr FileNamespace.WIN32 parent_ref name)
    [x01; x00] [x01; x00].

(** A small MFT: entries 0 to 6; entry 5 is the root, entry 1 lies under
    entry 0, entries 2 and 3 point at each other, entry 6 at itself. *)
Definition small_mft : bytes :=
  named_entry 5 "top" ++ named_entry 0 "sub" ++ named_entry 3 "x"
  ++ named_entry 2 "y" ++ zeros 1024 ++ named_entry 5 "."
  ++ named_entry 6 "self".

(** A non-resident [$DATA] attribute of 40 bytes: type 0x80, length 40,
    non-resident flag 1. *)
Definition attr_40_bytes : bytes :=
  pack_u 4 0x80 ++ pack_u 4 40 ++ [x01; x00] ++ zeros 30.

(** A continuation extent of 48 bytes: [start_vcn] 16, [allocated_size]
    65536, no run list. *)
Definition attr_48_bytes : bytes :=
  pack_u 4 0x80 ++ pack_u 4 48 ++ [x01; x00] ++ zeros 6
  ++ pack_u 8 16 ++ pack_u 8 31 ++ pack_u 2 48 ++ zeros 6 ++ pack_u 8 65536.

(** An image that is one NTFS boot sector: 512 bytes per sector, 8 sectors
    per cluster, the MFT at cluster 4, entries of [1 << 10] bytes; its last
    two bytes are 00 00. *)
Definition ntfs_boot_image : bytes :=
  zeros 3 ++ blit "NTFS    " ++ pack_u 2 512 ++ [x08] ++ zeros 34
  ++ pack_u 8 4 ++ zeros 8 ++ [xf6] ++ zeros 447.

(** One cluster of 4096 bytes that starts with the boot sector. *)
Definition boot_cluster_image : bytes := ntfs_boot_image ++ zeros 3584.

(** Three clusters: the boot cluster, a cluster of A and a cluster of B. *)
Definition three_cluster_image : bytes :=
  boot_cluster_image ++ replicate 4096 x41 ++ replicate 4096 x42.

(** A sparse run of one cluster, then the clusters 1 and 2. *)
Definition sparse_then_two_clusters : list DataRun :=
  [{| start_cluster := 0; run_length := 1; sparse := true |};
   {| start_cluster := 1; run_length := 2; sparse := false |}].

(** $LogFile payloads for the fallback scan: one candidate at offset 0
    whose parent reference has entry number 2^36, and one whose first
    acceptable candidate sits at offset 8. *)
Definition scan_payload_parent_2_36 : bytes :=
  pack_u 8 (2 ^ 36) ++ zeros 56 ++ [x01; x01] ++ utf16 "A" ++ zeros 4.

Definition scan_payload_ok : bytes :=
  zeros 8 ++ pack_u 8 5 ++ zeros 56 ++ [x05; x01] ++ utf16 "a.txt" ++ zeros 6.

(** $UsnJrnl streams: a version-2 record of 60 bytes with an empty name, one
    of 64 bytes with a two-letter name, two short records back to back, a
    journal where every record length is a multiple of 8, and a run of
    [0xFF] bytes. *)
Definition usn_record_60 : bytes :=
  pack_u 4 60 ++ pack_u 2 2 ++ pack_u 2 0 ++ zeros 52.

Definition usn_record_64 (name : string) : bytes :=
  pack_u 4 64 ++ pack_u 2 2 ++ pack_u 2 0 ++ zeros 48
  ++ pack_u 2 4 ++ pack_u 2 60 ++ utf16 name.

Definition two_short_records : bytes := usn_record_60 ++ usn_record_60.

Definition aligned_journal : bytes :=
  zeros 16 ++ usn_record_64 "ab" ++ blit "garbage!" ++ usn_record_64 "cd"
  ++ zeros 8.

Definition all_ff (n : nat) : bytes := replicate n xff.

(** An MFT of one entry, created 9 seconds (of 10^7 ticks) after the start
    of the FILETIME era and modified 12 seconds after it, and a journal
    record with a time. *)
Definition timed_mft : bytes :=
  entry_of 1 1 [x01; x00] [x00; x00] [x00; x00]
    (standard_information_attr 90000000 120000000
     ++ file_name_attr FileNamespace.WIN32 5 "a.txt")
    [x01; x00] [x01; x00].

Definition usn_record_at (timestamp : Z) (name : string) : bytes :=
  pack_u 4 64 ++ pack_u 2 2 ++ pack_u 2 0 ++ zeros 24 ++ pack_u 8 timestamp
  ++ zeros 16 ++ pack_u 2 4 ++ pack_u 2 60 ++ utf16 name.

End Examples.

(** ** Definitions that follow the words of the specification

    They are what the theorems of the second part compare the decoders to. *)
Module Spec.

(** "read [O] bytes as a signed offset (two's complement in
    little-endian)": the value of the [n]-byte field whose unsigned reading
    is [u]. *)
Definition sign_extend (n u : Z) : Z :=
  (u + 2 ^ (8 * n - 1)) mod 2 ^ (8 * n) - 2 ^ (8 * n - 1).

(** "resolved path starts with [\]" *)
Definition begins_with_backslash (p : Py.str) : Prop := head p = Some 92.

(** "write zero bytes for sparse clusters, real bytes for non-sparse.
    Output is truncated to [real_size]". *)
Section j_stream.
Variable image : Py.bytes.
Variable partition : ImageHandler.NTFSPartition.t.

(** The bytes of the cluster [n] of the partition. *)
Definition cluster_bytes (n : Z) : Py.bytes :=
  let offset :=
    ImageHandler.NTFSPartition.offset partition
    + n * ImageHandler.NTFSPartition.cluster_size partition in
  Py.slice image offset
    (offset + ImageHandler.NTFSPartition.cluster_size partition).

(** The runs the extractor fills with zeros: those flagged sparse, and
    those that start at cluster 0. *)
Definition treated_as_sparse (run : MftParser.DataRun) : bool :=
  MftParser.sparse run || (MftParser.start_cluster run =? 0).

(** What one run adds to the stream. *)
Definition contribution (run : MftParser.DataRun) : Py.bytes :=
  if treated_as_sparse run
  then Py.zeros (Z.to_nat (MftParser.run_length run)
                 * Z.to_nat (ImageHandler.NTFSPartition.cluster_size partition))
  else concat (map (fun i => cluster_bytes (MftParser.start_cluster run + i))
                   (seqZ 0 (MftParser.run_length run))).

(** The stream, cut at [real_size]. *)
Definition j_stream (data_runs : list MftParser.DataRun) (real_size : Z)
    : Py.bytes :=
  take (Z.to_nat real_size) (concat (map contribution data_runs)).
End j_stream.

(** "concatenates (in this order): MFT events (create and modify from SI,
    modify emitted only if distinct from create), UsnJrnl events (one per
    record), LogFile events (only when filename or event is non-empty)". *)
Section timeline.
Import Py Constants MftParser UsnJrnl LogFile Analyzer.
Context `{PyDatetime} `{PyUnicode} `{PyRecursion}.

(** The file system: the paths that exist and the files there. *)
Variable path_exists : str -> bool.
Variable content : str -> bytes.

(** A source is present when its path is given, is not empty and
    exists. *)
Definition present (path : option str) : bool :=
  match path with
  | Some p => negb (bool_decide (p = [])) && path_exists p
  | None => false
  end.

(** The records of the MFT decoder: those of [iter_entries_with_paths] on
    the MFT with entries of 1024 bytes, deleted entries included; none for
    a source that is not present. *)
Definition mft_records (mft_path : option str) : res (list MFTRecord.t) :=
  match mft_path with
  | Some p =>
      if present mft_path
      then MFTParser.iter_entries_with_paths 1024 (content p) true
      else Ok []
  | None => Ok []
  end.

(** The path cache of the MFT decoder; it is empty without an MFT. *)
Definition path_cache (mft_path : option str) : res (gmap Z str) :=
  match mft_path with
  | Some p =>
      if present mft_path
      then MFTParser.build_path_cache 1024 (content p) ∅
      else Ok ∅
  | None => Ok ∅
  end.

(** The records of the journal decoder, when its run on [fuel] ends. *)
Definition usn_records (fuel : nat) (usnjrnl_path : option str)
    : option (list UsnRecord.t) :=
  match usnjrnl_path with
  | Some p =>
      if present usnjrnl_path then
        match UsnJrnl.iter_records fuel (content p) true with
        | UsnJrnl.Finished s => Some (map snd (UsnJrnl.yielded s))
        | _ => None
        end
      else Some []
  | None => Some []
  end.

(** The records of the log decoder. *)
Definition log_records (logfile_path : option str) : res (list LogRecord.t) :=
  match logfile_path with
  | Some p =>
      if present logfile_path
      then LogFileParser.iter_records (content p)
      else Ok []
  | None => Ok []
  end.

(** "MFT events (create and modify from SI, modify emitted only if
    distinct from create)": an event of the source MFT at the time [time],
    with the name, the path and the references of the record. *)
Definition mft_event_at (label : string) (time : str)
    (record : MFTRecord.t) : UnifiedRecord.t :=
  {| UnifiedRecord.timestamp := time;
     UnifiedRecord.source := lit "MFT";
     UnifiedRecord.event := lit label;
     UnifiedRecord.filename := MFTRecord.filename record;
     UnifiedRecord.full_path := MFTRecord.full_path record;
     UnifiedRecord.file_attr := AnInt (MFTRecord.si_flags record);
     UnifiedRecord.file_reference :=
       str_of_int (MFTRecord.entry_number record) ++ lit "-"
       ++ str_of_int (MFTRecord.sequence_number record);
     UnifiedRecord.parent_reference := str_of_int (MFTRecord.parent_ref record);
     UnifiedRecord.extra_info := [] |}.

Definition mft_events (record : MFTRecord.t) : list UnifiedRecord.t :=
  let created := MFTRecord.si_created record in
  let modified := MFTRecord.si_modified record in
  match created with
  | [] => []
  | _ => [mft_event_at "FileCreate (SI)" created record]
  end
  ++ match modified with
     | [] => []
     | _ =>
         if bool_decide (modified = created) then []
         else [mft_event_at "FileModify (SI)" modified record]
     end.

(** "UsnJrnl events (one per record)": an event of the source UsnJrnl with
    the time, the reason label and the name of the record, the path the
    cache has for the entry number of its file reference (the low 48
    bits), and [USN:<n>] as extra information. *)
Definition usn_event (cache : gmap Z str) (record : UsnRecord.t)
    : UnifiedRecord.t :=
  {| UnifiedRecord.timestamp := UsnRecord.timestamp record;
     UnifiedRecord.source := lit "UsnJrnl";
     UnifiedRecord.event := UsnRecord.event record;
     UnifiedRecord.filename := UsnRecord.filename record;
     UnifiedRecord.full_path :=
       match cache !! (UsnRecord.file_reference record mod 2 ^ 48) with
       | Some path => path
       | None => []
       end;
     UnifiedRecord.file_attr := AStr (UsnRecord.file_attr_str record);
     UnifiedRecord.file_reference := UsnRecord.file_ref_str record;
     UnifiedRecord.parent_reference := UsnRecord.parent_ref_str record;
     UnifiedRecord.extra_info := lit "USN:" ++ str_of_int (UsnRecord.usn record) |}.

(** "LogFile events (only when filename or event is non-empty)": an event
    of the source LogFile with the time, the operation and the name of the
    record, no path, the references when they are not 0, and [LSN:<n>] as
    extra information. *)
Definition log_kept (record : LogRecord.t) : bool :=
  match LogRecord.filename record, LogRecord.event record with
  | [], [] => false
  | _, _ => true
  end.

Definition reference_label (reference : Z) : str :=
  if reference =? 0 then [] else str_of_int reference.

Definition log_event (record : LogRecord.t) : UnifiedRecord.t :=
  {| UnifiedRecord.timestamp := LogRecord.timestamp record;
     UnifiedRecord.source := lit "LogFile";
     UnifiedRecord.event := LogRecord.event record;
     UnifiedRecord.filename := LogRecord.filename record;
     UnifiedRecord.full_path := [];
     UnifiedRecord.file_attr := AStr [];
     UnifiedRecord.file_reference :=
       reference_label (LogRecord.file_reference record);
     UnifiedRecord.parent_reference :=
       reference_label (LogRecord.parent_reference record);
     UnifiedRecord.extra_info := lit "LSN:" ++ str_of_int (LogRecord.lsn record) |}.

(** "concatenates (in this order)": the events of the three sources, one
    source after the other, each in the order of its records. *)
Definition timeline (cache : gmap Z str) (mft : list MFTRecord.t)
    (usn : list UsnRecord.t) (log : list LogRecord.t) : list UnifiedRecord.t :=
  concat (map mft_events mft)
  ++ map (usn_event cache) usn
  ++ map log_event (List.filter log_kept log).
End timeline.

(** The fallback scan of the $LogFile heuristic, candidate by candidate:
    the fields of the candidate at [offset] and the test that accepts it,
    with the bound on the parent entry number left open. *)
Section fallback_scan.
Context `{LogFile.PyUnicode}.

Definition byte_at (data : list byte) (i : Z) : Z :=
  match data !! Z.to_nat i with
  | Some b => Py.u8 b
  | None => 0
  end.

Definition fn_name (data : Py.bytes) (offset : Z) : Py.str :=
  match Py.decode_utf16le Py.Ignore
          (Py.slice data (offset + 0x42)
             (offset + 0x42 + byte_at data (offset + 0x40) * 2)) with
  | Some name => name
  | None => []
  end.

Definition fn_parent (data : Py.bytes) (offset : Z) : Z :=
  Py.from_bytes_little (Py.slice data offset (offset + 8)).

Definition acceptable (bound : Z) (data : Py.bytes) (offset : Z) : bool :=
  let name_len := byte_at data (offset + 0x40) in
  let namespace := byte_at data (offset + 0x41) in
  (1 <=? name_len) && (name_len <=? 255) && (namespace <=? 3)
  && (offset + 0x42 + name_len * 2 <=? Py.len data)
  && negb (bool_decide (fn_name data offset = []))
  && forallb LogFile.printable_or_blank (fn_name data offset)
  && (Z.land (fn_parent data offset) 0x0000FFFFFFFFFFFF <? bound).

(** "namespace byte <= 3, name length 1..255, parent-reference entry
    portion < 2^40, and whose decoded UTF-16LE name is fully printable" *)
Definition claimed_acceptable (data : Py.bytes) (offset : Z) : bool :=
  let name_len := byte_at data (offset + 0x40) in
  let namespace := byte_at data (offset + 0x41) in
  (namespace <=? 3) && (1 <=? name_len) && (name_len <=? 255)
  && forallb LogFile.isprintable (fn_name data offset)
  && (Z.land (fn_parent data offset) 0x0000FFFFFFFFFFFF <? 2 ^ 40).
End fallback_scan.

(** The $UsnJrnl scanner: a move is aligned when it consumes a record length
    or drops, at a resynchronisation that found no header, a byte count that
    is a multiple of 8; and a yielded record sits at a position of the file
    when it is what [_parse_record] makes of the bytes from that position
    on. *)
Definition aligned (m : UsnJrnl.move) : Prop :=
  match m with
  | UsnJrnl.Consumed n | UsnJrnl.ResyncMiss n => n mod 8 = 0
  | UsnJrnl.ZeroSkip _ | UsnJrnl.ResyncHit _ => True
  end.

Section usn_positions.
Context `{Constants.PyDatetime}.

Definition at_position (file : Py.bytes) (y : Z * UsnJrnl.UsnRecord.t) : Prop :=
  0 <= y.1 /\ y.1 + UsnJrnl.UsnRecord.record_length y.2 <= Py.len file
  /\ UsnJrnl._parse_record
       (Py.slice file y.1 (y.1 + UsnJrnl.UsnRecord.record_length y.2))
     = Py.Ok (Some y.2).
End usn_positions.

End Spec.

(** * Part II: theorems *)

Import Py.

(** ** Facts about bytes and slices *)

Lemma u8_range (b : byte) : 0 <= u8 b < 256.
Proof.
  unfold u8. pose proof (Byte.to_N_bounded b). lia.
Qed.

Lemma from_bytes_little_range (bs : bytes) :
  0 <= from_bytes_little bs < 256 ^ len bs.
Proof.
  unfold len. induction bs as [|b bs IH]; simpl from_bytes_little.
  - simpl. lia.
  - rewrite length_cons, Nat2Z.inj_succ, Z.pow_succ_r by lia.
    pose proof (u8_range b). lia.
Qed.

Lemma from_bytes_little_app (xs ys : bytes) :
  from_bytes_little (xs ++ ys)
  = from_bytes_little xs + 256 ^ len xs * from_bytes_little ys.
Proof.
  unfold len. induction xs as [|x xs IH]; simpl from_bytes_little.
  - simpl. lia.
  - rewrite IH, length_cons, Nat2Z.inj_succ, Z.pow_succ_r by lia. ring.
Qed.

Lemma len_nonneg {A} (l : list A) : 0 <= len l.
Proof. unfold len. lia. Qed.

Lemma len_app {A} (l k : list A) : len (l ++ k) = len l + len k.
Proof. unfold len. rewrite length_app. lia. Qed.

Lemma len_slice {A} (l : list A) (a b : Z) :
  0 <= a -> a <= b -> b <= len l -> len (slice l a b) = b - a.
Proof.
  unfold len, slice. intros Ha Hab Hb.
  rewrite length_take, length_drop. lia.
Qed.

Lemma len_slice_le {A} (l : list A) (a b : Z) :
  a <= b -> len (slice l a b) <= b - a.
Proof.
  unfold len, slice. intros Hab. rewrite length_take. lia.
Qed.

Lemma unpack_u_slice (n : nat) (l : bytes) (a : Z) :
  0 <= a -> a + Z.of_nat n <= len l ->
  unpack_u n (slice l a (a + Z.of_nat n))
  = Ok (from_bytes_little (slice l a (a + Z.of_nat n))).
Proof.
  intros Ha Hb. unfold unpack_u.
  pose proof (len_slice l a (a + Z.of_nat n) Ha ltac:(lia) Hb) as Hl.
  unfold len in Hl. rewrite decide_True by lia. reflexivity.
Qed.

Lemma index_Ok {A} (l : list A) (i : Z) (x : A) :
  l !! Z.to_nat i = Some x -> index l i = Ok x.
Proof. unfold index. intros ->. reflexivity. Qed.

Lemma nibble_range (h : Z) : 0 <= Z.land h 0x0F < 16.
Proof.
  change 0x0F with (Z.ones 4). rewrite Z.land_ones by lia.
  change (2 ^ 4) with 16. apply Z.mod_pos_bound. lia.
Qed.

Lemma land_0x80 (b : byte) : (Z.land (u8 b) 0x80 =? 0) = (u8 b <? 128).
Proof. destruct b; reflexivity. Qed.

Lemma from_bytes_little_snoc (bs : bytes) (t : byte) :
  from_bytes_little (bs ++ [t]) = from_bytes_little bs + 256 ^ len bs * u8 t.
Proof. rewrite from_bytes_little_app. simpl. lia. Qed.

Lemma pow256 (n : Z) : 0 <= n -> 256 ^ n = 2 ^ (8 * n).
Proof.
  intros Hn. change 256 with (2 ^ 8). rewrite <- Z.pow_mul_r by lia. reflexivity.
Qed.

(** The test [offset_bytes[-1] & 0x80] reads the sign bit of the whole
    little-endian field. *)
Lemma top_bit_test (bs : bytes) (t : byte) :
  last bs = Some t ->
  (Z.land (u8 t) 0x80 =? 0) = (from_bytes_little bs <? 2 ^ (8 * len bs - 1)).
Proof.
  intros Hl. destruct (last_Some bs t) as [Hs _].
  destruct (Hs Hl) as [init ->].
  rewrite land_0x80, from_bytes_little_snoc, len_app.
  change (len [t]) with 1.
  pose proof (from_bytes_little_range init) as Hr.
  pose proof (u8_range t) as Ht.
  pose proof (len_nonneg init) as Hn.
  replace (8 * (len init + 1) - 1) with (7 + 8 * len init) by lia.
  rewrite Z.pow_add_r by lia. rewrite <- pow256 by lia.
  change (2 ^ 7) with 128.
  assert (0 < 256 ^ len init) by (apply Z.pow_pos_nonneg; lia).
  destruct (Z.ltb_spec (u8 t) 128),
    (Z.ltb_spec (from_bytes_little init + 256 ^ len init * u8 t)
                (128 * 256 ^ len init));
    try reflexivity; nia.
Qed.

(** ** The data-run decoder *)

Import Constants MftParser.

Lemma sign_extend_cases (n u : Z) :
  0 < n -> 0 <= u < 2 ^ (8 * n) ->
  Spec.sign_extend n u = if u <? 2 ^ (8 * n - 1) then u else u - 2 ^ (8 * n).
Proof.
  intros Hn Hu. unfold Spec.sign_extend.
  assert (Hp : 2 ^ (8 * n) = 2 * 2 ^ (8 * n - 1)).
  { rewrite <- Z.pow_succ_r by lia. f_equal. lia. }
  assert (0 < 2 ^ (8 * n - 1)) by (apply Z.pow_pos_nonneg; lia).
  destruct (Z.ltb_spec u (2 ^ (8 * n - 1))).
  - rewrite Z.mod_small by lia. lia.
  - replace (u + 2 ^ (8 * n - 1))
      with ((u - 2 ^ (8 * n - 1)) + 1 * 2 ^ (8 * n)) by lia.
    rewrite Z.mod_add by lia. rewrite Z.mod_small by lia. lia.
Qed.

(** [sign_extend n u] is the one integer of [n] bytes, read as two's
    complement, that agrees with [u] modulo [2 ^ (8 n)]. *)
Lemma sign_extend_spec (n u : Z) :
  0 < n ->
  - 2 ^ (8 * n - 1) <= Spec.sign_extend n u < 2 ^ (8 * n - 1)
  /\ Spec.sign_extend n u mod 2 ^ (8 * n) = u mod 2 ^ (8 * n).
Proof.
  intros Hn. unfold Spec.sign_extend.
  assert (Hp : 2 ^ (8 * n) = 2 * 2 ^ (8 * n - 1)).
  { rewrite <- Z.pow_succ_r by lia. f_equal. lia. }
  assert (Hpos : 0 < 2 ^ (8 * n - 1)) by (apply Z.pow_pos_nonneg; lia).
  pose proof (Z.mod_pos_bound (u + 2 ^ (8 * n - 1)) (2 ^ (8 * n)) ltac:(lia)) as Hb.
  split; [lia|].
  rewrite Zminus_mod_idemp_l, Z.add_simpl_r. reflexivity.
Qed.

Lemma index_last_Ok {A} (l : list A) :
  l <> [] -> exists x, last l = Some x /\ index_last l = Ok x.
Proof.
  intros Hne. unfold index_last.
  destruct (last l) as [x|] eqn:E; [eauto|].
  apply last_None in E. contradiction.
Qed.

Lemma data_runs_loop_S fuel data offset current_cluster runs :
  data_runs_loop (S fuel) data offset current_cluster runs =
      if negb (offset <? len data) then Ok runs else
      header ← u8 <$> index data offset;
      if header =? 0 then Ok runs else
      let length_size := Z.land header 0x0F in
      let offset_size := Z.land (Z.shiftr header 4) 0x0F in
      if length_size =? 0 then Ok runs else
      if offset + 1 + length_size + offset_size >? len data then Ok runs else
      let length_bytes := slice data (offset + 1) (offset + 1 + length_size) in
      let run_length := from_bytes_little length_bytes in
      if offset_size >? 0 then
        let offset_bytes :=
          slice data (offset + 1 + length_size)
                     (offset + 1 + length_size + offset_size) in
        let run_offset := from_bytes_little offset_bytes in
        top ← index_last offset_bytes;
        let run_offset :=
          if Z.land (u8 top) 0x80 =? 0 then run_offset
          else run_offset - Z.shiftl 1 (offset_size * 8) in
        let current_cluster := current_cluster + run_offset in
        data_runs_loop fuel data (offset + 1 + length_size + offset_size)
          current_cluster
          (runs ++ [{| start_cluster := current_cluster;
                       run_length := run_length;
                       sparse := false |}])
      else
        data_runs_loop fuel data (offset + 1 + length_size + offset_size)
          current_cluster
          (runs ++ [{| start_cluster := 0;
                       run_length := run_length;
                       sparse := true |}]).
Proof. reflexivity. Qed.

(** One turn of the decoder on a well-formed run header: the length is the
    unsigned field, the offset is the sign-extended field added to the
    running cluster, and a header without offset bytes gives a sparse run
    and leaves the running cluster alone. *)
Lemma data_run_turn fuel data offset cur runs hb :
  0 <= offset ->
  data !! Z.to_nat offset = Some hb ->
  let header := u8 hb in
  let L := Z.land header 0x0F in
  let O := Z.land (Z.shiftr header 4) 0x0F in
  header <> 0 -> L <> 0 -> offset + 1 + L + O <= len data ->
  let run_len := from_bytes_little (slice data (offset + 1) (offset + 1 + L)) in
  let delta :=
    Spec.sign_extend O
      (from_bytes_little (slice data (offset + 1 + L) (offset + 1 + L + O))) in
  data_runs_loop (S fuel) data offset cur runs =
  if O =? 0 then
    data_runs_loop fuel data (offset + 1 + L) cur
      (runs ++ [{| start_cluster := 0; run_length := run_len; sparse := true |}])
  else
    data_runs_loop fuel data (offset + 1 + L + O) (cur + delta)
      (runs ++ [{| start_cluster := cur + delta; run_length := run_len;
                   sparse := false |}]).
Proof.
  intros Hoff Hhb header L O.
  pose proof (eq_refl : header = u8 hb) as EH.
  pose proof (eq_refl : L = Z.land header 0x0F) as EL.
  pose proof (eq_refl : O = Z.land (Z.shiftr header 4) 0x0F) as EO.
  assert (HO : 0 <= O < 16) by apply nibble_range.
  assert (HLr : 0 <= L < 16) by apply nibble_range.
  clearbody header L O.
  intros Hh HL Hfit run_len delta.
  rewrite data_runs_loop_S.
  pose proof (lookup_lt_Some _ _ _ Hhb) as Hlt.
  assert (Hin : (offset <? len data) = true) by (apply Z.ltb_lt; unfold len; lia).
  rewrite Hin. cbn [negb].
  rewrite (index_Ok _ _ _ Hhb). cbn [fmap res_fmap mbind res_bind].
  rewrite <- EH. cbv zeta. rewrite <- EL, <- EO.
  destruct (Z.eqb_spec header 0) as [|_]; [contradiction|].
  destruct (Z.eqb_spec L 0) as [|_]; [contradiction|].
  destruct (Z.gtb_spec (offset + 1 + L + O) (len data)) as [|_]; [lia|].
  fold run_len.
  destruct (Z.eqb_spec O 0) as [HO0|HO0].
  - rewrite HO0. cbn [Z.gtb Z.compare]. rewrite Z.add_0_r. reflexivity.
  - destruct (Z.gtb_spec O 0) as [_|]; [|lia].
    set (offset_bytes := slice data (offset + 1 + L) (offset + 1 + L + O)) in *.
    assert (Hlen : len offset_bytes = O).
    { unfold offset_bytes. rewrite len_slice; lia. }
    destruct (index_last_Ok offset_bytes) as (top & Hlast & ->).
    { intros E. rewrite E in Hlen. unfold len in Hlen. simpl in Hlen. lia. }
    cbn [mbind res_bind].
    rewrite (top_bit_test _ _ Hlast), Hlen.
    assert (Hd : (if from_bytes_little offset_bytes <? 2 ^ (8 * O - 1)
                  then from_bytes_little offset_bytes
                  else from_bytes_little offset_bytes - Z.shiftl 1 (O * 8))
                 = delta).
    { unfold delta. rewrite sign_extend_cases.
      - rewrite Z.shiftl_1_l. replace (O * 8) with (8 * O) by lia. reflexivity.
      - lia.
      - pose proof (from_bytes_little_range offset_bytes) as Hr.
        rewrite Hlen, pow256 in Hr by lia. exact Hr. }
    rewrite Hd. reflexivity.
Qed.

(** The loop of [_parse_data_runs] ends within the fuel its wrapper gives
    it, and raises nothing. *)
Lemma data_runs_loop_total (fuel : nat) data offset cur runs :
  0 <= offset -> (0 < fuel)%nat -> len data - offset < Z.of_nat fuel ->
  exists r, data_runs_loop fuel data offset cur runs = Ok r.
Proof.
  revert offset cur runs.
  induction fuel as [|fuel IH]; intros offset cur runs Hoff Hpos Hfuel; [lia|].
  destruct (Z.ltb_spec offset (len data)) as [Hlt|Hge].
  2:{ rewrite data_runs_loop_S.
      destruct (Z.ltb_spec offset (len data)); [lia|]. cbn. eauto. }
  destruct (data !! Z.to_nat offset) as [hb|] eqn:Hhb.
  2:{ apply lookup_ge_None in Hhb. unfold len in Hlt. lia. }
  destruct (Z.eq_dec (u8 hb) 0) as [Hz|Hnz].
  { rewrite data_runs_loop_S.
    destruct (Z.ltb_spec offset (len data)); [|lia]. cbn [negb].
    rewrite (index_Ok _ _ _ Hhb). cbn [fmap res_fmap mbind res_bind].
    rewrite Hz. cbn. eauto. }
  destruct (Z.eq_dec (Z.land (u8 hb) 0x0F) 0) as [HL|HL].
  { rewrite data_runs_loop_S.
    destruct (Z.ltb_spec offset (len data)); [|lia]. cbn [negb].
    rewrite (index_Ok _ _ _ Hhb). cbn [fmap res_fmap mbind res_bind].
    destruct (Z.eqb_spec (u8 hb) 0); [contradiction|].
    cbv zeta. rewrite HL. cbn. eauto. }
  destruct (Z_le_gt_dec
              (offset + 1 + Z.land (u8 hb) 0x0F + Z.land (Z.shiftr (u8 hb) 4) 0x0F)
              (len data)) as [Hfit|Hfit].
  2:{ rewrite data_runs_loop_S.
      destruct (Z.ltb_spec offset (len data)); [|lia]. cbn [negb].
      rewrite (index_Ok _ _ _ Hhb). cbn [fmap res_fmap mbind res_bind].
      destruct (Z.eqb_spec (u8 hb) 0); [contradiction|].
      cbv zeta.
      destruct (Z.eqb_spec (Z.land (u8 hb) 15) 0); [contradiction|].
      destruct (Z.gtb_spec
                  (offset + 1 + Z.land (u8 hb) 15 + Z.land (Z.shiftr (u8 hb) 4) 15)
                  (len data)); [|lia].
      eauto. }
  rewrite (data_run_turn fuel data offset cur runs hb Hoff Hhb Hnz HL Hfit).
  pose proof (nibble_range (u8 hb)).
  pose proof (nibble_range (Z.shiftr (u8 hb) 4)).
  destruct (Z.land (Z.shiftr (u8 hb) 4) 15 =? 0); apply IH; lia.
Qed.

Lemma _parse_data_runs_total data : exists runs, _parse_data_runs data = Ok runs.
Proof.
  unfold _parse_data_runs. apply data_runs_loop_total; [lia|lia|].
  unfold len. lia.
Qed.



(** ** Attribute dicts *)

Lemma unpack_u_ok (n : nat) (data : bytes) (a b : Z) :
  0 <= a -> b = a + Z.of_nat n -> b <= len data ->
  unpack_u n (slice data a b) = Ok (from_bytes_little (slice data a b)).
Proof. intros Ha -> Hb. apply unpack_u_slice; assumption. Qed.

(** Every [struct.unpack] of a slice that lies inside the data succeeds. *)
Ltac unpack_ok :=
  unfold unpack_Q, unpack_I, unpack_H;
  repeat match goal with
  | |- context [unpack_u ?n (slice ?d ?a ?b)] =>
      rewrite (unpack_u_ok n d a b) by (try reflexivity; lia)
  end.

Lemma get_int_insert_eq (m : dict) (k : string) (v d : Z) :
  get_int (<[k := VInt v]> m) k d = v.
Proof. unfold get_int. rewrite lookup_insert_eq. reflexivity. Qed.

Lemma get_int_insert_ne (m : dict) (k k' : string) (x : value) (d : Z) :
  k' <> k -> get_int (<[k' := x]> m) k d = get_int m k d.
Proof.
  intros Hne. unfold get_int. rewrite lookup_insert_ne by done. reflexivity.
Qed.

(** Reading a key back through the assignments made after it. *)
Ltac dict_eq :=
  repeat first
    [ rewrite get_int_insert_eq
    | rewrite get_int_insert_ne by done
    | rewrite lookup_insert_eq
    | rewrite lookup_insert_ne by done ].

(** ** Non-resident attributes *)

Import Examples.

(** C10 as stated fails: a non-resident attribute of 40 bytes is shorter
    than 64 bytes, and the decoder leaves its [real_size] and
    [initialized_size] absent. *)
Lemma C10_counterexample :
  len attr_40_bytes < 64 /\
  exists attr, _parse_attribute 0x80 attr_40_bytes = Ok (Some attr)
    /\ get_bool attr "non_resident" false = true
    /\ attr !! "real_size" = None
    /\ attr !! "initialized_size" = None.
Proof.
  split; [reflexivity|].
  eexists. split; [vm_compute; reflexivity|].
  vm_compute. auto.
Qed.

(** C10, amended. For a non-resident attribute of at least 48 bytes the
    decoder returns, having set [allocated_size] from bytes 40..48; when
    [start_vcn] is 0 and at least 64 bytes are present it reads [real_size]
    and [initialized_size] from bytes 48..56 and 56..64, and otherwise it
    sets both to [allocated_size]. For an attribute shorter than 48 bytes
    it leaves the dict as it found it. *)
Theorem C10_non_resident_sizes (attr : dict) (data : bytes) :
  (48 <= len data ->
   let start_vcn := from_bytes_little (slice data 16 24) in
   let allocated_size := from_bytes_little (slice data 40 48) in
   exists attr',
     _parse_non_resident_attr attr data = Ok attr'
     /\ attr' !! "allocated_size" = Some (VInt allocated_size)
     /\ (if (start_vcn =? 0) && (64 <=? len data)
         then attr' !! "real_size"
                = Some (VInt (from_bytes_little (slice data 48 56)))
              /\ attr' !! "initialized_size"
                = Some (VInt (from_bytes_little (slice data 56 64)))
         else attr' !! "real_size" = Some (VInt allocated_size)
              /\ attr' !! "initialized_size" = Some (VInt allocated_size)))
  /\ (len data < 48 -> _parse_non_resident_attr attr data = Ok attr).
Proof.
  split.
  2:{ intros Hlt. unfold _parse_non_resident_attr.
      destruct (Z.ltb_spec (len data) 48); [reflexivity|lia]. }
  intros Hlen start_vcn allocated_size.
  unfold _parse_non_resident_attr.
  destruct (Z.ltb_spec (len data) 48) as [|_]; [lia|].
  unpack_ok. cbn [mbind res_bind].
  fold start_vcn allocated_size.
  dict_eq.
  replace (len data >=? 64) with (64 <=? len data)
    by (rewrite Z.geb_leb; reflexivity).
  destruct ((start_vcn =? 0) && (64 <=? len data)) eqn:Hc.
  - apply andb_true_iff in Hc as [_ H64]. apply Z.leb_le in H64.
    unpack_ok. cbn [mbind res_bind]. dict_eq.
    match goal with |- context [if ?c then _ else _] => destruct c end.
    + destruct (_parse_data_runs_total
                  (slice_from data (from_bytes_little (slice data 32 34))))
        as [runs ->].
      cbn [mbind res_bind]. eexists. split; [reflexivity|]. dict_eq. auto.
    + eexists. split; [reflexivity|]. dict_eq. auto.
  - cbn [mbind res_bind]. dict_eq.
    match goal with |- context [if ?c then _ else _] => destruct c end.
    + destruct (_parse_data_runs_total
                  (slice_from data (from_bytes_little (slice data 32 34))))
        as [runs ->].
      cbn [mbind res_bind]. eexists. split; [reflexivity|]. dict_eq. auto.
    + eexists. split; [reflexivity|]. dict_eq. auto.
Qed.

(** C10 at a 48-byte continuation extent: both sizes are the allocated
    size. *)
Lemma C10_non_resident_sizes_witness :
  exists attr',
    _parse_non_resident_attr ∅ attr_48_bytes = Ok attr'
    /\ attr' !! "allocated_size" = Some (VInt 65536)
    /\ attr' !! "real_size" = Some (VInt 65536)
    /\ attr' !! "initialized_size" = Some (VInt 65536).
Proof.
  destruct (proj1 (C10_non_resident_sizes ∅ attr_48_bytes) ltac:(vm_compute; discriminate))
    as (attr' & Hp & Ha & Hr & Hi).
  exists attr'. repeat split; assumption.
Defined.

(** ** [MFTEntry.parse] returns on every entry *)

Lemma index_total {A} (l : list A) (i : Z) :
  0 <= i < len l -> exists x, index l i = Ok x.
Proof.
  intros Hi. unfold index.
  destruct (l !! Z.to_nat i) as [x|] eqn:E; [eauto|].
  apply lookup_ge_None in E. unfold len in Hi. lia.
Qed.

Ltac index_ok :=
  repeat match goal with
  | |- context [index ?d ?i] =>
      let x := fresh "b" in
      let Hx := fresh "Hb" in
      destruct (index_total d i ltac:(lia)) as [x Hx]; rewrite Hx;
      cbn [fmap res_fmap mbind res_bind]
  end.

Lemma _parse_resident_attr_total attr data :
  exists a, _parse_resident_attr attr data = Ok a.
Proof.
  unfold _parse_resident_attr.
  destruct (Z.ltb_spec (len data) 24); [eauto|].
  unpack_ok. cbn [mbind res_bind].
  match goal with |- context [if ?c then _ else _] => destruct c end; eauto.
Qed.

Lemma _parse_non_resident_attr_total attr data :
  exists a, _parse_non_resident_attr attr data = Ok a.
Proof.
  destruct (Z_lt_ge_dec (len data) 48) as [Hlt|Hge].
  - exists attr. unfold _parse_non_resident_attr.
    destruct (Z.ltb_spec (len data) 48); [reflexivity|lia].
  - unfold _parse_non_resident_attr.
    destruct (Z.ltb_spec (len data) 48) as [|_]; [lia|].
    unpack_ok. cbn [mbind res_bind]. dict_eq.
    destruct (Z.geb_spec (len data) 64).
    + unpack_ok. 
      match goal with |- context [if ?c then _ else _] => destruct c end;
      cbn [mbind res_bind]; dict_eq;
      match goal with |- context [if ?c then _ else _] => destruct c end;
      try (destruct (_parse_data_runs_total
                  (slice_from data (from_bytes_little (slice data 32 34))))
        as [runs ->]); cbn [mbind res_bind]; eauto.
    + rewrite andb_false_r. cbn [mbind res_bind]; dict_eq;
      match goal with |- context [if ?c then _ else _] => destruct c end;
      try (destruct (_parse_data_runs_total
                  (slice_from data (from_bytes_little (slice data 32 34))))
        as [runs ->]); cbn [mbind res_bind]; eauto.
Qed.

Lemma _parse_standard_info_total attr :
  exists a, _parse_standard_info attr = Ok a.
Proof.
  unfold _parse_standard_info.
  destruct (Z.ltb_spec (len (get_bytes attr "data" [])) 48); [eauto|].
  unpack_ok. cbn [mbind res_bind]. eauto.
Qed.

Lemma _parse_filename_total attr :
  exists a, _parse_filename attr = Ok a.
Proof.
  unfold _parse_filename.
  destruct (Z.ltb_spec (len (get_bytes attr "data" [])) 66); [eauto|].
  unpack_ok. cbn [mbind res_bind]. index_ok.
  match goal with |- context [if ?c then _ else _] => destruct c end; eauto.
Qed.

Lemma _parse_attribute_total ty data :
  exists r, _parse_attribute ty data = Ok r.
Proof.
  unfold _parse_attribute.
  destruct (Z.ltb_spec (len data) 16); [eauto|].
  index_ok. unpack_ok. cbn [mbind res_bind].
  match goal with |- context [get_bool ?a "non_resident" false] =>
    destruct (get_bool a "non_resident" false);
    [destruct (_parse_non_resident_attr_total a data) as [a1 ->]
    |destruct (_parse_resident_attr_total a data) as [a1 ->]]
  end; cbn [mbind res_bind].
  all: destruct (ty =? AttrType.STANDARD_INFORMATION);
    [destruct (_parse_standard_info_total a1) as [a2 ->]; cbn [mbind res_bind]; eauto|].
  all: destruct (ty =? AttrType.FILE_NAME);
    [destruct (_parse_filename_total a1) as [a2 ->]; cbn [mbind res_bind]; eauto|].
  all: cbn [mbind res_bind]; eauto.
Qed.

Lemma attributes_loop_S fuel data offset max_offset attributes :
  attributes_loop (S fuel) data offset max_offset attributes =
      if negb ((offset + 4 <=? len data) && (offset <? max_offset))
      then Ok attributes else
      attr_type ← unpack_I (slice data offset (offset + 4));
      if attr_type =? 0xFFFFFFFF then Ok attributes else
      if offset + 8 >? len data then Ok attributes else
      attr_length ← unpack_I (slice data (offset + 4) (offset + 8));
      if (attr_length =? 0) || (attr_length >? len data - offset)
      then Ok attributes else
      let attr_data := slice data offset (offset + attr_length) in
      attr ← _parse_attribute attr_type attr_data;
      let attributes :=
        match attr with
        | Some a => attributes ++ [a]
        | None => attributes
        end in
      attributes_loop fuel data (offset + attr_length) max_offset attributes.
Proof. reflexivity. Qed.

Lemma attributes_loop_total (fuel : nat) data offset max_offset attributes :
  0 <= offset -> (0 < fuel)%nat -> len data - offset < Z.of_nat fuel ->
  exists r, attributes_loop fuel data offset max_offset attributes = Ok r.
Proof.
  revert offset attributes.
  induction fuel as [|fuel IH]; intros offset attributes Hoff Hpos Hfuel; [lia|].
  rewrite attributes_loop_S.
  destruct (Z.leb_spec (offset + 4) (len data)); cbn [andb negb]; [|eauto].
  destruct (offset <? max_offset); cbn [negb]; [|eauto].
  unpack_ok. cbn [mbind res_bind].
  match goal with |- context [if ?c then _ else _] => destruct c end; [eauto|].
  destruct (Z.gtb_spec (offset + 8) (len data)); [eauto|].
  unpack_ok. cbn [mbind res_bind].
  pose proof (from_bytes_little_range (slice data (offset + 4) (offset + 8))) as Hr.
  set (attr_length := from_bytes_little (slice data (offset + 4) (offset + 8))) in *.
  destruct (Z.eqb_spec attr_length 0); cbn [orb]; [eauto|].
  destruct (Z.gtb_spec attr_length (len data - offset)); [eauto|].
  cbv zeta.
  destruct (_parse_attribute_total
              (from_bytes_little (slice data offset (offset + 4)))
              (slice data offset (offset + attr_length))) as [r ->].
  cbn [mbind res_bind].
  apply IH; lia.
Qed.

Lemma len_slice_assign {A} (l : list A) (a b : Z) (v : list A) :
  0 <= a -> a <= b -> b <= len l -> len v = b - a ->
  len (slice_assign l a b v) = len l.
Proof.
  unfold len, slice_assign. intros Ha Hab Hb Hv.
  rewrite !length_app, length_take, length_drop. lia.
Qed.

Lemma len_fixup_step offset data i :
  0 <= offset -> 1 <= i -> offset + i * 2 + 2 <= len data ->
  len (fixup_step offset data i) = len data.
Proof.
  intros Ho Hi Hfit. unfold fixup_step.
  destruct (Z.leb_spec (i * 512 - 2 + 2) (len data)); [|reflexivity].
  apply len_slice_assign; try lia.
  rewrite len_slice; lia.
Qed.

Lemma len_foldl_fixup offset (indices : list Z) data :
  0 <= offset ->
  Forall (fun i => 1 <= i /\ offset + i * 2 + 2 <= len data) indices ->
  len (foldl (fixup_step offset) data indices) = len data.
Proof.
  intros Ho. revert data.
  induction indices as [|i indices IH]; intros data Hall; [reflexivity|].
  cbn [foldl]. inversion Hall as [|? ? [Hi Hfit] Hrest]; subst.
  rewrite IH.
  - apply len_fixup_step; assumption.
  - rewrite len_fixup_step by assumption. exact Hrest.
Qed.

Lemma len_apply_fixup data offset count :
  0 <= offset -> offset + count * 2 <= len data ->
  len (_apply_fixup data offset count) = len data.
Proof.
  intros Ho Hfit. unfold _apply_fixup. cbv zeta.
  apply len_foldl_fixup; [assumption|].
  apply Forall_forall. intros i Hi.
  apply elem_of_seqZ in Hi. lia.
Qed.

Lemma parse_accepts (self : MFTEntry.t) :
  48 <= len (MFTEntry.data self) ->
  slice (MFTEntry.data self) 0 4 = MFT_SIGNATURE ->
  exists entry, MFTEntry.parse self = Ok (true, entry)
                /\ MFTEntry.is_valid entry = true
                /\ len (MFTEntry.data entry) = len (MFTEntry.data self).
Proof.
  intros Hlen Hsig. unfold MFTEntry.parse.
  destruct (Z.ltb_spec (len (MFTEntry.data self)) 48) as [|_]; [lia|].
  cbv zeta. rewrite Hsig.
  replace (bool_decide (MFT_SIGNATURE ∈ [MFT_SIGNATURE; MFT_SIGNATURE_BAD]))
    with true by (vm_compute; reflexivity).
  replace (bool_decide (MFT_SIGNATURE = MFT_SIGNATURE_BAD))
    with false by (vm_compute; reflexivity).
  cbn [negb].
  unpack_ok. cbn [mbind res_bind].
  pose proof (from_bytes_little_range (slice (MFTEntry.data self) 4 6)) as Ho.
  set (fixup_offset := from_bytes_little (slice (MFTEntry.data self) 4 6)) in *.
  set (fixup_count := from_bytes_little (slice (MFTEntry.data self) 6 8)) in *.
  match goal with |- context [unpack_u 2 (slice ?d 16 18)] => set (data1 := d) end.
  assert (Hlen1 : len data1 = len (MFTEntry.data self)).
  { unfold data1.
    destruct (Z.gtb_spec fixup_count 0); cbn [andb]; [|reflexivity].
    destruct (Z.leb_spec (fixup_offset + fixup_count * 2) (len (MFTEntry.data self)));
      [|reflexivity].
    apply len_apply_fixup; lia. }
  clearbody data1.
  unpack_ok. cbn [mbind res_bind].
  unfold _parse_attributes.
  match goal with |- context [attributes_loop ?f ?d ?o ?m ?a] =>
    destruct (attributes_loop_total f d o m a) as [attrs ->]
  end.
  - apply from_bytes_little_range.
  - lia.
  - pose proof (from_bytes_little_range (slice data1 20 22)) as [H0 _].
    unfold len in *. lia.
  - cbn [mbind res_bind]. eexists. split; [reflexivity|]. split; [reflexivity|].
    exact Hlen1.
Qed.

Lemma parse_total (self : MFTEntry.t) :
  exists b entry, MFTEntry.parse self = Ok (b, entry).
Proof.
  destruct (Z_lt_ge_dec (len (MFTEntry.data self)) 48) as [Hlt|Hge].
  { exists false, self. unfold MFTEntry.parse.
    destruct (Z.ltb_spec (len (MFTEntry.data self)) 48); [reflexivity|lia]. }
  destruct (decide (slice (MFTEntry.data self) 0 4 = MFT_SIGNATURE)) as [Hs|Hs].
  { destruct (parse_accepts self ltac:(lia) Hs) as (e & -> & _). eauto. }
  exists false, self. unfold MFTEntry.parse.
  destruct (Z.ltb_spec (len (MFTEntry.data self)) 48) as [|_]; [lia|].
  cbv zeta.
  destruct (bool_decide (slice (MFTEntry.data self) 0 4 ∈ [MFT_SIGNATURE; MFT_SIGNATURE_BAD])) eqn:Hin;
    cbn [negb]; [|reflexivity].
  apply bool_decide_eq_true in Hin.
  rewrite bool_decide_eq_true_2; [reflexivity|].
  apply elem_of_cons in Hin as [Hin|Hin]; [contradiction|].
  apply list_elem_of_singleton in Hin. exact Hin.
Qed.

(** ** The fixup check that is not made *)

(** C1 does not hold of the code. [torn_entry] has the fixup count 3 and
    the update sequence number 01 00, and the words at the tails of both of
    its sectors are 00 00; [parse] accepts it all the same, and [to_record]
    makes a record of it. By [parse_accepts] every entry of 48 bytes or more
    that starts with FILE is accepted, whatever its sector tails hold. *)
Theorem C1_torn_entry_is_accepted :
  unpack_H (slice torn_entry 6 8) = Ok 3
  /\ slice torn_entry 48 50 = [x01; x00]
  /\ slice torn_entry 510 512 = [x00; x00]
  /\ slice torn_entry 1022 1024 = [x00; x00]
  /\ exists entry,
       MFTEntry.parse (MFTEntry.__init__ torn_entry 0) = Ok (true, entry)
       /\ forall D : PyDatetime, is_Some (MFTEntry.to_record entry).
Proof.
  repeat (split; [vm_compute; reflexivity|]).
  destruct (parse_accepts (MFTEntry.__init__ torn_entry 0))
    as (entry & Hp & Hv & _); [vm_compute; discriminate|reflexivity|].
  exists entry. split; [exact Hp|].
  intros D. unfold MFTEntry.to_record. rewrite Hv. cbn [negb]. eauto.
Qed.

(** ** The choice of the file name *)

(** A [$FILE_NAME] attribute in the Win32 or the Win32-and-DOS namespace *)
Definition is_win32_name (attr : dict) : bool :=
  MFTEntry.has_type AttrType.FILE_NAME attr
  && bool_decide (get_int attr "fn_namespace" 0
                  ∈ [FileNamespace.WIN32; FileNamespace.WIN32_AND_DOS]).

Lemma select_best_filename_Some (attributes : list dict) (best : dict) :
  MFTEntry.select_best_filename attributes (Some best)
  = Some (default best (List.find is_win32_name attributes)).
Proof.
  induction attributes as [|attr rest IH]; [reflexivity|].
  cbn [MFTEntry.select_best_filename List.find]. unfold is_win32_name at 1.
  destruct (MFTEntry.has_type AttrType.FILE_NAME attr); cbn [andb]; [|exact IH].
  destruct (bool_decide _); [reflexivity|].
  cbn [MFTEntry.is_none]. rewrite andb_false_r. exact IH.
Qed.

(** What the loop of [to_record] picks: the first Win32 or Win32-and-DOS
    name when there is one, and otherwise the first [$FILE_NAME] attribute,
    whatever its namespace. *)
Lemma select_best_filename_None (attributes : list dict) :
  MFTEntry.select_best_filename attributes None
  = match List.find is_win32_name attributes with
    | Some attr => Some attr
    | None => List.find (MFTEntry.has_type AttrType.FILE_NAME) attributes
    end.
Proof.
  induction attributes as [|attr rest IH]; [reflexivity|].
  cbn [MFTEntry.select_best_filename List.find]. unfold is_win32_name at 1.
  destruct (MFTEntry.has_type AttrType.FILE_NAME attr); cbn [andb]; [|exact IH].
  destruct (bool_decide _); [reflexivity|].
  cbn [MFTEntry.is_none]. rewrite andb_true_r.
  assert (Hs : MFTEntry.select_best_filename rest (Some attr)
               = match List.find is_win32_name rest with
                 | Some a => Some a
                 | None => Some attr
                 end).
  { rewrite select_best_filename_Some. destruct (List.find _ rest); reflexivity. }
  destruct (_ =? FileNamespace.POSIX); exact Hs.
Qed.

(** C2 does not hold of the code. [dos_then_posix_entry] parses to a DOS
    name A~1 followed by a POSIX name abc, with no Win32 name, and
    [to_record] names the record A~1: the POSIX name reaches the loop when
    [best_filename] is already set, and the loop keeps what it has. *)
Theorem C2_dos_name_kept_before_posix (D : PyDatetime) :
  exists entry,
    MFTEntry.parse (MFTEntry.__init__ dos_then_posix_entry 0) = Ok (true, entry)
    /\ map (fun attr => (get_int attr "type" 0, get_int attr "fn_namespace" 0,
                         get_str attr "filename" []))
           (MFTEntry.attributes entry)
       = [(AttrType.FILE_NAME, FileNamespace.DOS, lit "A~1");
          (AttrType.FILE_NAME, FileNamespace.POSIX, lit "abc")]
    /\ MFTRecord.filename <$> MFTEntry.to_record entry = Some (lit "A~1").
Proof.
  eexists. split; [vm_compute; reflexivity|].
  split; vm_compute; reflexivity.
Qed.

(** ** File references and the path cache *)

(** Every path the cache holds begins with a backslash. *)
Definition good_cache (c : gmap Z str) : Prop :=
  forall k p, c !! k = Some p -> Spec.begins_with_backslash p.

Section paths.
Context `{PyDatetime} `{PyRecursion}.
Variable entry_size : Z.

Lemma get_path_S fuel name_map parent_map entry_num visited path_cache :
  MFTParser.get_path (S fuel) name_map parent_map entry_num visited path_cache =
      match path_cache !! entry_num with
      | Some p => Ok (p, path_cache)
      | None =>
          match name_map !! entry_num with
          | None => Ok ([], path_cache)
          | Some name =>
              if bool_decide (entry_num ∈ visited) then Ok ([], path_cache) else
              let visited := {[entry_num]} ∪ visited in
              let parent := default 0 (parent_map !! entry_num) in
              r ←
                (if entry_num =? 5 then Ok (lit "\", path_cache)
                 else if (parent =? 5) || (parent =? entry_num)
                 then Ok (lit "\" ++ name, path_cache)
                 else
                   r ←
                     MFTParser.get_path fuel name_map parent_map parent visited path_cache;
                   let '(parent_path, path_cache) := r in
                   Ok (match parent_path with
                       | [] => lit "\" ++ name
                       | _ => parent_path ++ lit "\" ++ name
                       end, path_cache));
              let '(path, path_cache) := r in
              Ok (path, <[entry_num := path]> path_cache)
          end
      end.
Proof. reflexivity. Qed.

Lemma good_cache_insert c k p :
  good_cache c -> Spec.begins_with_backslash p -> good_cache (<[k := p]> c).
Proof.
  intros Hc Hp k' p' Hl.
  destruct (decide (k = k')) as [->|Hne].
  - rewrite lookup_insert_eq in Hl. injection Hl as <-. exact Hp.
  - rewrite lookup_insert_ne in Hl by done. eauto.
Qed.

Lemma get_path_good fuel name_map parent_map entry_num visited c p c' :
  good_cache c ->
  MFTParser.get_path fuel name_map parent_map entry_num visited c = Ok (p, c') ->
  good_cache c' /\ (p = [] \/ Spec.begins_with_backslash p).
Proof.
  revert entry_num visited c p c'.
  induction fuel as [|fuel IH]; intros entry_num visited c p c' Hc Hg; [discriminate|].
  rewrite get_path_S in Hg.
  destruct (c !! entry_num) as [p0|] eqn:Hl.
  { injection Hg as <- <-. split; [assumption|]. right. eauto. }
  destruct (name_map !! entry_num) as [name|]; [|injection Hg as <- <-; auto].
  destruct (bool_decide (entry_num ∈ visited)); [injection Hg as <- <-; auto|].
  cbv zeta in Hg.
  destruct (entry_num =? 5).
  { cbn [mbind res_bind] in Hg. injection Hg as <- <-.
    split; [|right; reflexivity]. apply good_cache_insert; [assumption|reflexivity]. }
  destruct ((default 0 (parent_map !! entry_num) =? 5)
            || (default 0 (parent_map !! entry_num) =? entry_num)).
  { cbn [mbind res_bind] in Hg. injection Hg as <- <-.
    split; [|right; reflexivity]. apply good_cache_insert; [assumption|reflexivity]. }
  destruct (MFTParser.get_path fuel name_map parent_map
              (default 0 (parent_map !! entry_num))
              ({[entry_num]} ∪ visited) c) as [[pp c1]| |] eqn:E;
    cbn [mbind res_bind] in Hg; try discriminate.
  destruct (IH _ _ _ _ _ Hc E) as [Hc1 Hpp].
  injection Hg as <- <-.
  assert (Hb : Spec.begins_with_backslash
                 match pp with
                 | [] => lit "\" ++ name
                 | _ :: _ => pp ++ lit "\" ++ name
                 end).
  { destruct pp as [|x pp]; [reflexivity|].
    destruct Hpp as [Hpp|Hpp]; [discriminate|]. exact Hpp. }
  split; [|right; exact Hb]. apply good_cache_insert; assumption.
Qed.

Lemma get_path_total fuel name_map parent_map entry_num (visited : gset Z) c :
  (size (dom name_map ∖ visited) < fuel)%nat ->
  exists p c', MFTParser.get_path fuel name_map parent_map entry_num visited c = Ok (p, c').
Proof.
  revert entry_num visited c.
  induction fuel as [|fuel IH]; intros entry_num visited c Hf; [lia|].
  rewrite get_path_S.
  destruct (c !! entry_num) as [p0|]; [eauto|].
  destruct (name_map !! entry_num) as [name|] eqn:Hn; [|eauto].
  destruct (bool_decide (entry_num ∈ visited)) eqn:Hv; [eauto|].
  apply bool_decide_eq_false in Hv.
  cbv zeta.
  destruct (entry_num =? 5); [cbn [mbind res_bind]; eauto|].
  destruct (_ || _); [cbn [mbind res_bind]; eauto|].
  destruct (IH (default 0 (parent_map !! entry_num)) ({[entry_num]} ∪ visited) c)
    as (pp & c1 & ->).
  - assert (Hsub : dom name_map ∖ ({[entry_num]} ∪ visited) ⊂ dom name_map ∖ visited).
    { apply (strict_spec_alt _ _). split.
      - intros x Hx. apply elem_of_difference in Hx as [Hd Hx].
        apply elem_of_difference. split; [exact Hd|].
        intros Hxv. apply Hx. apply elem_of_union. right. exact Hxv.
      - intros Heq. assert (Hin : entry_num ∈ dom name_map ∖ visited).
        { apply elem_of_difference. split; [|assumption].
          apply elem_of_dom. eauto. }
        rewrite <- Heq in Hin. apply elem_of_difference in Hin as [_ Hin].
        apply Hin. apply elem_of_union. left. apply elem_of_singleton.
        reflexivity. }
    apply subset_size in Hsub. lia.
  - cbn [mbind res_bind]. eauto.
Qed.

Lemma first_pass_S fuel f entry_number parent_map name_map name_order :
  MFTParser.first_pass entry_size (S fuel) f entry_number parent_map name_map name_order =
      let '(data, f) := MFTParser.read entry_size f in
      if len data <? entry_size then Ok (parent_map, name_map, name_order) else
      let entry := MFTEntry.__init__ data entry_number in
      r ← MFTEntry.parse entry;
      let '(parsed, entry) := (r : bool * MFTEntry.t) in
      let '(parent_map, name_map, name_order) :=
        if parsed then
          match MFTEntry.to_record entry with
          | Some record =>
              if MFTRecord.in_use record then
                let '(parent_entry, _) :=
                  parse_file_reference (MFTRecord.parent_ref record) in
                (<[entry_number := parent_entry]> parent_map,
                 <[entry_number := MFTRecord.filename record]> name_map,
                 name_order ++ [entry_number])
              else (parent_map, name_map, name_order)
          | None => (parent_map, name_map, name_order)
          end
        else (parent_map, name_map, name_order) in
      MFTParser.first_pass entry_size fuel f (entry_number + 1) parent_map name_map name_order.
Proof. reflexivity. Qed.

Lemma first_pass_total fuel f entry_number parent_map name_map name_order :
  0 < entry_size -> (length f < fuel)%nat ->
  exists r, MFTParser.first_pass entry_size fuel f entry_number
              parent_map name_map name_order = Ok r.
Proof.
  intros Hpos. revert f entry_number parent_map name_map name_order.
  induction fuel as [|fuel IH];
    intros f entry_number parent_map name_map name_order Hf; [lia|].
  rewrite first_pass_S. unfold MFTParser.read.
  destruct (Z.ltb_spec (len (take (Z.to_nat entry_size) f)) entry_size) as [|Hfull];
    [eauto|].
  cbv zeta.
  destruct (parse_total (MFTEntry.__init__ (take (Z.to_nat entry_size) f) entry_number))
    as (parsed & entry & ->).
  cbn [mbind res_bind].
  assert (Hd : (length (drop (Z.to_nat entry_size) f) < fuel)%nat).
  { unfold len in Hfull. rewrite length_take in Hfull. rewrite length_drop. lia. }
  destruct parsed; [|apply IH; exact Hd].
  destruct (MFTEntry.to_record entry) as [record|]; [|apply IH; exact Hd].
  destruct (MFTRecord.in_use record); [|apply IH; exact Hd].
  destruct (parse_file_reference (MFTRecord.parent_ref record)) as [parent_entry s].
  apply IH; exact Hd.
Qed.

(** The first pass names at most one entry for each whole entry of the
    file. *)
Lemma first_pass_size (fuel : nat) :
  0 < entry_size ->
  forall f entry_number parent_map name_map name_order pm nm no,
    MFTParser.first_pass entry_size fuel f entry_number
      parent_map name_map name_order = Ok (pm, nm, no) ->
    Z.of_nat (size nm) <= Z.of_nat (size name_map) + len f / entry_size.
Proof.
  intros Hpos. induction fuel as [|fuel IH];
    intros f entry_number parent_map name_map name_order pm nm no E;
    [discriminate|].
  rewrite first_pass_S in E. unfold MFTParser.read in E.
  pose proof (len_nonneg f) as Hlen.
  destruct (Z.ltb_spec (len (take (Z.to_nat entry_size) f)) entry_size)
    as [|Hfull].
  { injection E as <- <- <-.
    pose proof (Z.div_pos (len f) entry_size Hlen Hpos). lia. }
  cbv zeta in E.
  assert (Hd : len f / entry_size
               = len (drop (Z.to_nat entry_size) f) / entry_size + 1).
  { unfold len in *. rewrite length_take in Hfull. rewrite length_drop.
    replace (Z.of_nat (length f))
      with (Z.of_nat (length f - Z.to_nat entry_size) + 1 * entry_size) by lia.
    rewrite Z.div_add by lia. reflexivity. }
  assert (Hins : forall (k : Z) (v : str),
            (size (<[k := v]> name_map) <= S (size name_map))%nat).
  { intros k v. rewrite map_size_insert.
    destruct (name_map !! k); unfold id; lia. }
  destruct (MFTEntry.parse _) as [[parsed entry]| |];
    cbn [mbind res_bind] in E; try discriminate.
  destruct parsed; [|apply IH in E; lia].
  destruct (MFTEntry.to_record entry) as [record|]; [|apply IH in E; lia].
  destruct (MFTRecord.in_use record); [|apply IH in E; lia].
  destruct (parse_file_reference (MFTRecord.parent_ref record))
    as [parent_entry sq].
  apply IH in E. specialize (Hins entry_number (MFTRecord.filename record)).
  lia.
Qed.

Lemma get_path_all_keeps_good name_map parent_map name_order c c' :
  good_cache c ->
  MFTParser.get_path_all name_map parent_map name_order c = Ok c' ->
  good_cache c'.
Proof.
  revert c. induction name_order as [|entry_num rest IH]; intros c Hc Hg.
  - injection Hg as <-. exact Hc.
  - cbn [MFTParser.get_path_all] in Hg.
    destruct (MFTParser.get_path call_depth name_map parent_map entry_num ∅ c)
      as [[p c1]| |] eqn:E; cbn [mbind res_bind] in Hg; try discriminate.
    destruct (get_path_good _ _ _ _ _ _ _ _ Hc E) as [Hc1 _].
    exact (IH c1 Hc1 Hg).
Qed.

(** With more nested calls allowed than entries are named, no call of
    [get_path] runs out of them. *)
Lemma get_path_all_total name_map parent_map name_order c :
  (size name_map < call_depth)%nat ->
  exists c', MFTParser.get_path_all name_map parent_map name_order c = Ok c'.
Proof.
  intros Hd. revert c. induction name_order as [|entry_num rest IH]; intros c.
  - exists c. reflexivity.
  - cbn [MFTParser.get_path_all].
    destruct (get_path_total call_depth name_map parent_map entry_num ∅ c)
      as (p & c1 & Hg).
    { rewrite difference_empty_L, size_dom. exact Hd. }
    rewrite Hg. cbn [mbind res_bind]. apply IH.
Qed.

Lemma build_path_cache_good file c c' :
  good_cache c ->
  MFTParser.build_path_cache entry_size file c = Ok c' -> good_cache c'.
Proof.
  intros Hc. unfold MFTParser.build_path_cache.
  destruct (MFTParser.first_pass _ _ _ _ _ _ _)
    as [[[parent_map name_map] name_order]| |];
    cbn [mbind res_bind]; try discriminate.
  apply get_path_all_keeps_good. exact Hc.
Qed.

Lemma build_path_cache_total file c :
  0 < entry_size -> len file / entry_size < Z.of_nat call_depth ->
  exists c', MFTParser.build_path_cache entry_size file c = Ok c'.
Proof.
  intros Hpos Hd. unfold MFTParser.build_path_cache.
  destruct (first_pass_total (S (length file)) file 0 ∅ ∅ [] Hpos ltac:(lia))
    as ([[parent_map name_map] name_order] & E).
  rewrite E. cbn [mbind res_bind]. apply get_path_all_total.
  pose proof (first_pass_size _ Hpos _ _ _ _ _ _ _ _ E) as Hs.
  rewrite map_size_empty in Hs. lia.
Qed.

Lemma parse_file_reference_entry_range (ref : Z) :
  0 <= fst (parse_file_reference ref) < 2 ^ 48.
Proof.
  unfold parse_file_reference. cbn [fst].
  change 0x0000FFFFFFFFFFFF with (Z.ones 48).
  rewrite Z.land_ones by lia. apply Z.mod_pos_bound. lia.
Qed.
End paths.

(** C5, amended. The entry number [parse_file_reference] returns is the low
    48 bits of the reference, so it is below 2^48. After [build_path_cache]
    of a fresh parser has completed, every path it has stored begins with a
    backslash. It completes, for a positive entry size, whenever the file
    holds fewer entries than the interpreter allows nested calls of
    [get_path]. *)
Theorem C5_reference_and_path_invariants :
  (forall ref, 0 <= fst (parse_file_reference ref) < 2 ^ 48)
  /\ (forall (D : PyDatetime) (R : PyRecursion) (entry_size : Z) (file : bytes)
             (cache : gmap Z str),
        MFTParser.build_path_cache entry_size file ∅ = Ok cache ->
        forall entry_num path,
          cache !! entry_num = Some path -> Spec.begins_with_backslash path)
  /\ (forall (D : PyDatetime) (R : PyRecursion) (entry_size : Z) (file : bytes),
        0 < entry_size -> len file / entry_size < Z.of_nat call_depth ->
        exists cache, MFTParser.build_path_cache entry_size file ∅ = Ok cache).
Proof.
  split; [exact parse_file_reference_entry_range|]. split.
  - intros D R entry_size file cache E.
    apply (build_path_cache_good entry_size file ∅ cache); [|exact E].
    intros k p Hl. rewrite lookup_empty in Hl. discriminate.
  - intros D R entry_size file Hpos Hd.
    apply build_path_cache_total; assumption.
Qed.

(** C5 as stated fails: the reference 2^40 is a 64-bit value, and its entry
    number is 2^40, which is not below 2^40. *)
Lemma C5_counterexample :
  0 <= 2 ^ 40 < 2 ^ 64 /\ ~ fst (parse_file_reference (2 ^ 40)) < 2 ^ 40.
Proof. split; [lia|]. vm_compute. discriminate. Qed.

(** The path part of C5 on [small_mft] with 1024-byte entries. *)
Lemma C5_reference_and_path_invariants_witness :
  exists cache,
    MFTParser.build_path_cache (H := ticks_datetime) (H0 := python_recursion)
      1024 small_mft ∅ = Ok cache
    /\ forall entry_num path,
         cache !! entry_num = Some path -> Spec.begins_with_backslash path.
Proof.
  destruct (proj2 (proj2 C5_reference_and_path_invariants)
              ticks_datetime python_recursion 1024 small_mft
              ltac:(lia) ltac:(vm_compute; reflexivity)) as [cache E].
  exists cache. split; [exact E|].
  exact (proj1 (proj2 C5_reference_and_path_invariants)
           ticks_datetime python_recursion 1024 small_mft cache E).
Defined.

(** With a single call allowed, the builder raises on [small_mft]: its
    entry 1 has the entry 0 for parent, which takes a nested call. *)
Example build_path_cache_can_raise :
  MFTParser.build_path_cache (H := ticks_datetime) (H0 := {| call_depth := 1 |})
    1024 small_mft ∅
  = Raise RecursionError.
Proof. vm_compute. reflexivity. Qed.

(** ** Partition discovery *)

Import ImageHandler.

Lemma len_slice_gen {A} (l : list A) (a b : Z) :
  0 <= a -> len (slice l a b) = Z.max 0 (Z.min b (len l) - a).
Proof.
  unfold len, slice. intros Ha. rewrite length_take, length_drop. lia.
Qed.

(** The geometry [parse_boot_sector] reads off the boot sector [sector] of
    the partition at [offset]. *)
Definition boot_fields (p : NTFSPartition.t) (offset : Z) (sector : bytes) : Prop :=
  NTFSPartition.offset p = offset
  /\ NTFSPartition.bytes_per_sector p = from_bytes_little (slice sector 0x0B 0x0D)
  /\ NTFSPartition.sectors_per_cluster p = from_bytes_little (slice sector 0x0D 0x0E)
  /\ NTFSPartition.cluster_size p
     = NTFSPartition.bytes_per_sector p * NTFSPartition.sectors_per_cluster p
  /\ NTFSPartition.mft_offset p
     = offset + from_bytes_little (slice sector 0x30 0x38) * NTFSPartition.cluster_size p
  /\ NTFSPartition.mft_entry_size p
     = let raw := Spec.sign_extend 1 (from_bytes_little (slice sector 0x40 0x41)) in
       if raw >? 0 then raw * NTFSPartition.cluster_size p else 2 ^ (- raw).

Lemma index_slice_1 (data : bytes) (i : Z) (b : byte) :
  0 <= i -> index data i = Ok b -> from_bytes_little (slice data i (i + 1)) = u8 b.
Proof.
  intros Hi Hidx. unfold index in Hidx. unfold slice.
  destruct (_ !! _) as [x|] eqn:E in Hidx; [|discriminate].
  injection Hidx as ->. replace (Z.to_nat (i + 1 - i)) with 1%nat by lia.
  rewrite (drop_S _ _ _ E). cbn [take from_bytes_little].
  rewrite take_0. cbn [from_bytes_little]. lia.
Qed.

(** A read at an offset the file can be positioned at returns the bytes
    there. *)
Lemma read_at `{PyFile} (image : bytes) (offset size : Z) log :
  0 <= offset <= max_seek -> 0 <= size <= max_read ->
  read image offset size log
  = (Ok (slice image offset (offset + size)), log ++ [(offset, size)]).
Proof.
  intros Ho Hs. unfold read, seek, read_at_handle.
  pose proof max_seek_range. pose proof max_read_range.
  destruct (Z.ltb_spec offset (- 2 ^ 63)); [lia|].
  destruct (Z.leb_spec (2 ^ 63) offset); [lia|].
  destruct (Z.ltb_spec offset 0); [lia|].
  destruct (Z.ltb_spec max_seek offset); [lia|].
  destruct (Z.ltb_spec size (- 2 ^ 63)); [lia|].
  destruct (Z.ltb_spec (2 ^ 63 - 34) size); [lia|].
  destruct (Z.ltb_spec size (-1)); [lia|].
  destruct (Z.eqb_spec size (-1)); [lia|].
  destruct (Z.ltb_spec max_read size); [lia|]. reflexivity.
Qed.

Lemma io_bind_read `{PyFile} {B} (image : bytes) (offset size : Z)
    (k : bytes -> IO B) log :
  0 <= offset <= max_seek -> 0 <= size <= max_read ->
  (read image offset size ≫= k) log
  = k (slice image offset (offset + size)) (log ++ [(offset, size)]).
Proof.
  intros Ho Hs. unfold mbind, io_bind. rewrite read_at by assumption. reflexivity.
Qed.

Lemma seek_0 `{PyFile} : 0 <= 0 <= max_seek.
Proof. pose proof max_seek_range. lia. Qed.

Lemma read_512 `{PyFile} : 0 <= 512 <= max_read.
Proof. pose proof max_read_range. lia. Qed.

Lemma io_bind_pure {A B} (v : A) (k : A -> IO B) log :
  (pure (Ok v) ≫= k) log = k v log.
Proof. reflexivity. Qed.

Lemma io_bind_mret {A B} (v : A) (k : A -> IO B) log :
  (mret v ≫= k) log = k v log.
Proof. reflexivity. Qed.

Lemma parse_boot_sector_at `{PyFile} (image : bytes) (offset : Z)
    (log : list (Z * Z)) :
  0 <= offset <= max_seek ->
  let sector := slice image offset (offset + 512) in
  (slice sector 3 11 <> blit "NTFS    " ->
   NTFSPartition.parse_boot_sector image (NTFSPartition.__init__ offset) log
   = (Ok (false, NTFSPartition.__init__ offset), log ++ [(offset, 512)]))
  /\ (slice sector 3 11 = blit "NTFS    " -> 65 <= len sector ->
      exists p,
        NTFSPartition.parse_boot_sector image (NTFSPartition.__init__ offset) log
        = (Ok (true, p), log ++ [(offset, 512)])
        /\ boot_fields p offset sector).
Proof.
  intros Ho sector. unfold NTFSPartition.parse_boot_sector.
  cbn [NTFSPartition.offset NTFSPartition.__init__].
  rewrite io_bind_read by (exact Ho || exact read_512). fold sector.
  split.
  - intros Hsig. rewrite bool_decide_eq_false_2 by exact Hsig. reflexivity.
  - intros Hsig Hs. rewrite bool_decide_eq_true_2 by exact Hsig. cbn [negb].
    unfold unpack_b. unpack_ok.
    destruct (index_total sector 13 ltac:(lia)) as [spc Hspc]. rewrite Hspc.
    cbn [fmap res_fmap mbind res_bind]. rewrite !io_bind_pure.
    eexists. split; [reflexivity|].
    unfold boot_fields.
    cbn [NTFSPartition.offset NTFSPartition.bytes_per_sector
         NTFSPartition.sectors_per_cluster NTFSPartition.cluster_size
         NTFSPartition.mft_offset NTFSPartition.mft_entry_size].
    pose proof (index_slice_1 sector 13 spc ltac:(lia) Hspc) as Hspc1.
    change (13 + 1) with 14 in Hspc1. rewrite Hspc1.
    repeat (split; [reflexivity|]).
    pose proof (from_bytes_little_range (slice sector 64 65)) as Hr.
    rewrite len_slice in Hr by lia.
    rewrite sign_extend_cases by (change (2 ^ (8 * 1)) with 256; lia).
    change (2 ^ (8 * 1 - 1)) with 128. change (2 ^ (8 * 1)) with 256.
    cbv zeta.
    destruct (from_bytes_little (slice sector 64 65) <? 128);
      (destruct (_ >? 0); [reflexivity|]); apply Z.shiftl_1_l.
Qed.

Lemma probe_at `{PyFile} (image : bytes) (offset : Z)
    (partitions : list NTFSPartition.t) (log : list (Z * Z)) :
  0 <= offset <= max_seek ->
  let sector := slice image offset (offset + 512) in
  (slice sector 3 11 <> blit "NTFS    " ->
   probe image offset partitions log = (Ok partitions, log ++ [(offset, 512)]))
  /\ (slice sector 3 11 = blit "NTFS    " -> 65 <= len sector ->
      exists p,
        probe image offset partitions log
        = (Ok (partitions ++ [p]), log ++ [(offset, 512)])
        /\ boot_fields p offset sector).
Proof.
  intros Ho sector.
  destruct (parse_boot_sector_at image offset log Ho) as [Hno Hyes].
  fold sector in Hno, Hyes.
  unfold probe, mbind, io_bind. split.
  - intros Hsig. rewrite (Hno Hsig). reflexivity.
  - intros Hsig Hlen. destruct (Hyes Hsig Hlen) as (p & -> & Hf).
    exists p. split; [reflexivity|exact Hf].
Qed.

Lemma parse_boot_sector_short `{PyFile} (image : bytes) (offset : Z)
    (log : list (Z * Z)) :
  0 <= offset <= max_seek ->
  let sector := slice image offset (offset + 512) in
  slice sector 3 11 = blit "NTFS    " -> len sector < 65 ->
  exists e,
    NTFSPartition.parse_boot_sector image (NTFSPartition.__init__ offset) log
    = (Raise e, log ++ [(offset, 512)])
    /\ (e = StructError \/ e = IndexError).
Proof.
  intros Ho sector Hsig Hlen. unfold NTFSPartition.parse_boot_sector.
  cbn [NTFSPartition.offset NTFSPartition.__init__].
  rewrite io_bind_read by (exact Ho || exact read_512). fold sector.
  rewrite bool_decide_eq_true_2 by exact Hsig. cbn [negb].
  clearbody sector.
  unfold unpack_H, unpack_Q, unpack_b, unpack_u, pure.
  unfold mbind at 1, io_bind.
  destruct (decide (length (slice sector 11 13) = 2%nat)); [|eauto].
  unfold mbind at 1, io_bind.
  destruct (index sector 13) as [b| |] eqn:Hi; cbn [fmap res_fmap];
    [|unfold index in Hi; destruct (_ !! _); [discriminate|];
      injection Hi as <-; eauto|unfold index in Hi; destruct (_ !! _); discriminate].
  unfold mbind at 1, io_bind.
  destruct (decide (length (slice sector 48 56) = 8%nat)); [|eauto].
  unfold mbind at 1, io_bind.
  destruct (decide (length (slice sector 64 65) = 1%nat)) as [Hl|]; [|cbn; eauto].
  exfalso. pose proof (len_slice_gen sector 64 65 ltac:(lia)) as Hs.
  unfold len in Hs, Hlen. rewrite Hl in Hs. lia.
Qed.

Lemma probe_short `{PyFile} (image : bytes) (offset : Z)
    (partitions : list NTFSPartition.t) (log : list (Z * Z)) :
  0 <= offset <= max_seek ->
  let sector := slice image offset (offset + 512) in
  slice sector 3 11 = blit "NTFS    " -> len sector < 65 ->
  exists e,
    probe image offset partitions log = (Raise e, log ++ [(offset, 512)])
    /\ (e = StructError \/ e = IndexError).
Proof.
  intros Ho sector Hsig Hlen.
  destruct (parse_boot_sector_short image offset log Ho Hsig Hlen)
    as (e & He & Hwhich).
  exists e. split; [|exact Hwhich].
  unfold probe, mbind, io_bind. rewrite He. reflexivity.
Qed.

(** C9, amended. When the first sector of the image does not end with
    55 AA, [find_ntfs_partitions] reads the first sector twice and nothing
    else: once as the MBR and once as the boot sector of a partition at
    offset 0. When bytes 3..11 of the sector are not 'NTFS    ' it returns
    the empty list. When they are and the image has at least 65 bytes, it
    returns one partition, at offset 0, with the geometry of that boot
    sector. When they are and the image is shorter, it raises
    [struct.error] or [IndexError] and returns no list. The second sector,
    where a GPT header would be, is never read. *)
Theorem C9_probe_without_mbr `{PyFile} (image : bytes) (log : list (Z * Z)) :
  let sector := slice image 0 512 in
  slice sector 510 512 <> [x55; xaa] ->
  (slice sector 3 11 <> blit "NTFS    " ->
   find_ntfs_partitions image log = (Ok [], log ++ [(0, 512); (0, 512)]))
  /\ (slice sector 3 11 = blit "NTFS    " -> 65 <= len image ->
      exists p,
        find_ntfs_partitions image log = (Ok [p], log ++ [(0, 512); (0, 512)])
        /\ boot_fields p 0 sector)
  /\ (slice sector 3 11 = blit "NTFS    " -> len image < 65 ->
      exists e,
        find_ntfs_partitions image log = (Raise e, log ++ [(0, 512); (0, 512)])
        /\ (e = StructError \/ e = IndexError)).
Proof.
  intros sector Hmbr.
  assert (Hfind : find_ntfs_partitions image log
                  = probe image 0 [] (log ++ [(0, 512)])).
  { unfold find_ntfs_partitions. cbv zeta.
    rewrite io_bind_read by (exact seek_0 || exact read_512).
    change (slice image 0 (0 + 512)) with sector.
    rewrite bool_decide_eq_false_2 by exact Hmbr. reflexivity. }
  rewrite Hfind.
  destruct (probe_at image 0 [] (log ++ [(0, 512)]) seek_0) as [Hno Hyes].
  change (slice image 0 (0 + 512)) with sector in Hno, Hyes.
  split; [|split].
  - intros Hsig. rewrite (Hno Hsig). rewrite <- app_assoc. reflexivity.
  - intros Hsig Hlen.
    destruct (Hyes Hsig) as (p & -> & Hf).
    { unfold sector. rewrite len_slice_gen by lia. lia. }
    exists p. rewrite <- app_assoc. split; [reflexivity|exact Hf].
  - intros Hsig Hlen.
    destruct (probe_short image 0 [] (log ++ [(0, 512)]) seek_0 Hsig)
      as (e & -> & Hwhich).
    { unfold sector. rewrite len_slice_gen by lia.
      pose proof (len_nonneg image). lia. }
    exists e. rewrite <- app_assoc. split; [reflexivity|exact Hwhich].
Qed.

(** C9 as stated fails: an image of 64 bytes has the NTFS mark in its bytes
    3..11 and no 55 AA, and [find_ntfs_partitions] raises [struct.error] on
    it, at the entry size of the boot sector (byte 64), instead of
    returning a list of one partition. *)
Lemma C9_counterexample :
  let sector := slice short_ntfs_image 0 512 in
  slice sector 510 512 <> [x55; xaa]
  /\ slice sector 3 11 = blit "NTFS    "
  /\ fst (find_ntfs_partitions (H := image_file) short_ntfs_image [])
     = Raise StructError.
Proof.
  cbv zeta. split; [vm_compute; discriminate|].
  split; vm_compute; reflexivity.
Qed.

(** C9 on an image that is one NTFS boot sector without the 55 AA mark. *)
Lemma C9_probe_without_mbr_witness :
  exists p,
    find_ntfs_partitions (H := image_file) ntfs_boot_image []
    = (Ok [p], [(0, 512); (0, 512)])
    /\ boot_fields p 0 (slice ntfs_boot_image 0 512).
Proof.
  exact (proj1 (proj2 (C9_probe_without_mbr (H := image_file) ntfs_boot_image []
                         ltac:(vm_compute; discriminate)))
           ltac:(reflexivity) ltac:(vm_compute; discriminate)).
Defined.

(** ** Extraction along a run list *)

(** Writing [chunk] to a file that holds [out], of which [written] bytes
    count, without going past [real_size]. *)
Definition write_upto (real_size : Z) (chunk : bytes) (s : bytes * Z) : bytes * Z :=
  let '(out, written) := s in
  (out ++ take (Z.to_nat (real_size - written)) chunk,
   written + len (take (Z.to_nat (real_size - written)) chunk)).

Lemma write_upto_full real_size chunk out written :
  real_size <= written -> write_upto real_size chunk (out, written) = (out, written).
Proof.
  intros Hf. unfold write_upto.
  replace (Z.to_nat (real_size - written)) with 0%nat by lia.
  rewrite take_0, app_nil_r. unfold len. cbn [length]. rewrite Z.add_0_r. reflexivity.
Qed.

Lemma write_upto_nil real_size s : write_upto real_size [] s = s.
Proof.
  destruct s as [out written]. unfold write_upto.
  rewrite take_nil, app_nil_r. unfold len. cbn [length]. rewrite Z.add_0_r. reflexivity.
Qed.

Lemma write_upto_app real_size c1 c2 s :
  write_upto real_size (c1 ++ c2) s
  = write_upto real_size c2 (write_upto real_size c1 s).
Proof.
  destruct s as [out written]. unfold write_upto.
  rewrite take_app, len_app, app_assoc.
  assert (Hn : (Z.to_nat (real_size - written) - length c1)%nat
               = Z.to_nat (real_size - (written + len (take (Z.to_nat (real_size - written)) c1)))).
  { unfold len. rewrite length_take. lia. }
  rewrite Hn. f_equal. lia.
Qed.

Lemma write_upto_short real_size chunk out written :
  0 < real_size - written -> real_size - written < len chunk ->
  write_upto real_size chunk (out, written)
  = (out ++ slice chunk 0 (real_size - written), written + (real_size - written)).
Proof.
  intros Hp Hs. unfold write_upto, slice. rewrite Z.sub_0_r, drop_0.
  f_equal. f_equal. unfold len in *. rewrite length_take. lia.
Qed.

Lemma write_upto_whole real_size chunk out written :
  len chunk <= real_size - written ->
  write_upto real_size chunk (out, written) = (out ++ chunk, written + len chunk).
Proof.
  intros Hs. unfold write_upto. unfold len in *. rewrite take_ge by lia. reflexivity.
Qed.

(** The image file can be positioned at [offset]. *)
Definition seekable `{PyFile} (offset : Z) : Prop :=
  0 <= offset <= max_seek.

(** A cluster of the partition is no more than the image file can read at
    a time. *)
Definition cluster_fits `{PyFile} (partition : NTFSPartition.t) : Prop :=
  0 <= NTFSPartition.cluster_size partition <= max_read.

(** Every cluster of the run lies at an offset the image file can be
    positioned at. *)
Definition readable `{PyFile} (partition : NTFSPartition.t) (run : DataRun) : Prop :=
  forall i, 0 <= i < run_length run ->
    seekable (NTFSPartition.offset partition
              + (start_cluster run + i) * NTFSPartition.cluster_size partition).

Section proofs.
Context `{PyFile}.
Variable image : bytes.
Variable partition : NTFSPartition.t.

Lemma zero_fill_spec (n : nat) (real_size : Z) (zc out : bytes) (written : Z) :
  0 < real_size ->
  NTFSExtractor.zero_fill n real_size zc out written
  = write_upto real_size (concat (replicate n zc)) (out, written).
Proof.
  intros Hr. revert out written.
  induction n as [|n IH]; intros out written;
    cbn [NTFSExtractor.zero_fill replicate concat].
  - rewrite write_upto_nil. reflexivity.
  - destruct (Z.gtb_spec real_size 0) as [_|]; [|lia].
    rewrite write_upto_app.
    destruct (Z.leb_spec (real_size - written) 0) as [Hle|Hgt].
    { rewrite (write_upto_full _ zc out written) by lia.
      rewrite write_upto_full by lia. reflexivity. }
    destruct (Z.ltb_spec (real_size - written) (len zc)) as [Hlt|Hge].
    + rewrite IH, (write_upto_short _ zc out written) by lia. reflexivity.
    + rewrite IH, (write_upto_whole _ zc out written) by lia. reflexivity.
Qed.

Lemma read_cluster_ok (n : Z) log :
  cluster_fits partition ->
  seekable (NTFSPartition.offset partition
            + n * NTFSPartition.cluster_size partition) ->
  NTFSPartition.read_cluster image partition n log
  = (Ok (Spec.cluster_bytes image partition n),
     log ++ [(NTFSPartition.offset partition + n * NTFSPartition.cluster_size partition,
              NTFSPartition.cluster_size partition)]).
Proof.
  intros Hc Ho. unfold NTFSPartition.read_cluster, Spec.cluster_bytes.
  apply read_at; assumption.
Qed.

Lemma copy_clusters_spec (n : nat) (cluster i real_size : Z) out written log :
  0 < real_size -> cluster_fits partition ->
  (forall j, i <= j < i + Z.of_nat n ->
     seekable (NTFSPartition.offset partition
               + (cluster + j) * NTFSPartition.cluster_size partition)) ->
  exists log',
    NTFSExtractor.copy_clusters image partition n cluster i real_size out written log
    = (Ok (write_upto real_size
             (concat (map (fun j => Spec.cluster_bytes image partition (cluster + j))
                          (seqZ i (Z.of_nat n))))
             (out, written)), log').
Proof.
  intros Hr Hc. revert i out written log.
  induction n as [|n IH]; intros i out written log Hi.
  - cbn [NTFSExtractor.copy_clusters]. exists log.
    change (seqZ i (Z.of_nat 0)) with (@nil Z). cbn [map concat].
    rewrite write_upto_nil. reflexivity.
  - cbn [NTFSExtractor.copy_clusters].
    rewrite Nat2Z.inj_succ, seqZ_cons by lia. cbn [map concat].
    replace (Z.pred (Z.succ (Z.of_nat n))) with (Z.of_nat n) by lia.
    rewrite write_upto_app.
    destruct (Z.gtb_spec real_size 0) as [_|]; [|lia]. cbn [andb].
    destruct (Z.geb_spec written real_size) as [Hfull|Hroom].
    { exists log.
      rewrite (write_upto_full _ (Spec.cluster_bytes image partition (cluster + i)) out written) by lia.
      rewrite write_upto_full by lia. reflexivity. }
    unfold mbind, io_bind.
    rewrite read_cluster_ok by (exact Hc || (apply Hi; lia)).
    assert (Hi' : forall j, i + 1 <= j < i + 1 + Z.of_nat n ->
              seekable (NTFSPartition.offset partition
                        + (cluster + j) * NTFSPartition.cluster_size partition))
      by (intros j Hj; apply Hi; lia).
    destruct (Z.ltb_spec (real_size - written)
                (len (Spec.cluster_bytes image partition (cluster + i)))) as [Hlt|Hge].
    + rewrite (write_upto_short _ (Spec.cluster_bytes image partition (cluster + i)) out written) by lia.
      destruct (IH (i + 1) (out ++ slice (Spec.cluster_bytes image partition (cluster + i)) 0 (real_size - written))
                  (written + (real_size - written))
                  (log ++ [(NTFSPartition.offset partition + (cluster + i) * NTFSPartition.cluster_size partition,
              NTFSPartition.cluster_size partition)]) Hi') as [log' ->].
      exists log'. replace (Z.succ i) with (i + 1) by lia. reflexivity.
    + rewrite (write_upto_whole _ (Spec.cluster_bytes image partition (cluster + i)) out written) by lia.
      destruct (IH (i + 1) (out ++ Spec.cluster_bytes image partition (cluster + i))
                  (written + len (Spec.cluster_bytes image partition (cluster + i)))
                  (log ++ [(NTFSPartition.offset partition + (cluster + i) * NTFSPartition.cluster_size partition,
              NTFSPartition.cluster_size partition)]) Hi') as [log' ->].
      exists log'. replace (Z.succ i) with (i + 1) by lia. reflexivity.
Qed.

Lemma concat_replicate_zeros (n m : nat) :
  concat (replicate n (zeros m)) = zeros (n * m).
Proof.
  unfold zeros. induction n as [|n IH]; [reflexivity|].
  cbn [replicate concat]. rewrite IH, <- replicate_add. reflexivity.
Qed.

Lemma extract_runs_spec (data_runs : list DataRun) (real_size : Z) out written log :
  0 < real_size -> cluster_fits partition ->
  Forall (fun run => Spec.treated_as_sparse run = false -> readable partition run)
         data_runs ->
  exists log',
    NTFSExtractor.extract_runs image partition data_runs real_size out written false log
    = (Ok (write_upto real_size
             (concat (map (Spec.contribution image partition) data_runs))
             (out, written)), log').
Proof.
  intros Hr Hc Hall. revert out written log.
  induction Hall as [|run rest Hrun Hall IH]; intros out written log.
  - exists log. cbn [NTFSExtractor.extract_runs map concat].
    rewrite write_upto_nil. reflexivity.
  - cbn [NTFSExtractor.extract_runs map concat]. rewrite write_upto_app.
    destruct (Z.gtb_spec real_size 0) as [_|]; [|lia]. cbn [andb].
    destruct (Z.geb_spec written real_size) as [Hfull|Hroom].
    { exists log.
      rewrite (write_upto_full _ (Spec.contribution image partition run) out written) by lia.
      rewrite write_upto_full by lia. reflexivity. }
    fold (Spec.treated_as_sparse run).
    destruct (Spec.treated_as_sparse run) eqn:Hs.
    + assert (Hk : Spec.contribution image partition run
                   = zeros (Z.to_nat (run_length run)
                            * Z.to_nat (NTFSPartition.cluster_size partition))).
      { unfold Spec.contribution. rewrite Hs. reflexivity. }
      rewrite Hk, zero_fill_spec by exact Hr. rewrite concat_replicate_zeros.
      destruct (write_upto real_size _ (out, written)) as [out1 written1].
      apply IH.
    + assert (Hk : Spec.contribution image partition run
                   = concat (map (fun i => Spec.cluster_bytes image partition (start_cluster run + i))
                                 (seqZ 0 (run_length run)))).
      { unfold Spec.contribution. rewrite Hs. reflexivity. }
      rewrite Hk.
      destruct (copy_clusters_spec (Z.to_nat (run_length run)) (start_cluster run) 0
                  real_size out written log Hr Hc)
        as [log1 Hcopy].
      { intros j Hj. apply (Hrun eq_refl). lia. }
      unfold mbind, io_bind. rewrite Hcopy.
      replace (Z.of_nat (Z.to_nat (run_length run))) with (Z.max 0 (run_length run)) by lia.
      replace (seqZ 0 (Z.max 0 (run_length run))) with (seqZ 0 (run_length run)).
      2:{ destruct (Z_le_gt_dec 0 (run_length run)).
          - rewrite Z.max_r by lia. reflexivity.
          - rewrite Z.max_l by lia. unfold seqZ.
            replace (Z.to_nat (run_length run)) with 0%nat by lia. reflexivity. }
      destruct (write_upto real_size _ (out, written)) as [out1 written1].
      apply IH.
Qed.

End proofs.



(** ** Decoding with errors ignored *)

Import UsnJrnl LogFile Analyzer.

Lemma decode_units_ignore_total (n : nat) :
  forall odd us, (length us <= n)%nat -> is_Some (decode_units Ignore odd us).
Proof.
  induction n as [|n IH]; intros odd us Hn.
  - destruct us; [|cbn in Hn; lia]. cbn. destruct odd; eauto.
  - destruct us as [|u rest]; [cbn; destruct odd; eauto|].
    cbn [decode_units]. cbn [length] in Hn.
    destruct (is_high_surrogate u).
    + destruct rest as [|u2 rest2]; [cbn; eauto|].
      cbn [length] in Hn.
      destruct (is_low_surrogate u2).
      * destruct (IH odd rest2 ltac:(lia)) as [s ->]. cbn. eauto.
      * cbn [on_error]. apply IH. cbn [length]. lia.
    + destruct (is_low_surrogate u).
      * cbn [on_error]. apply IH. lia.
      * destruct (IH odd rest ltac:(lia)) as [s ->]. cbn. eauto.
Qed.

Lemma decode_ignore_total (bs : bytes) : is_Some (decode_utf16le Ignore bs).
Proof.
  unfold decode_utf16le. destruct (units bs) as [us odd].
  apply (decode_units_ignore_total (length us)). lia.
Qed.

Lemma index_byte_at (data : list byte) (i : Z) :
  0 <= i < len data ->
  exists b, index data i = Ok b /\ u8 b = Spec.byte_at data i.
Proof.
  intros Hi.
  destruct (lookup_lt_is_Some_2 data (Z.to_nat i)) as [b E];
    [unfold len in Hi; lia|].
  exists b. unfold index, Spec.byte_at. rewrite E. auto.
Qed.

(** ** The fallback scan of the $LogFile heuristic (C7) *)
Section fallback_scan.
Context `{PyDatetime} `{PyUnicode}.

Lemma scan_at_spec (record : LogRecord.t) (data : bytes) (offset : Z) :
  0 <= offset -> offset + 0x44 < len data ->
  if Spec.acceptable (2 ^ 36) data offset then
    exists r, scan_at record data offset = Ok (Some r)
              /\ LogRecord.filename r = Spec.fn_name data offset
              /\ LogRecord.parent_reference r = Spec.fn_parent data offset
  else scan_at record data offset = Ok None.
Proof.
  intros Ho Hfit. unfold scan_at, Spec.acceptable.
  destruct (index_byte_at data (offset + 0x40) ltac:(lia)) as (b1 & -> & Hn).
  destruct (index_byte_at data (offset + 0x41) ltac:(lia)) as (b2 & -> & Hs).
  cbn [fmap res_fmap mbind res_bind]. rewrite Hn, Hs. cbv zeta.
  set (name_len := Spec.byte_at data (offset + 0x40)).
  set (namespace := Spec.byte_at data (offset + 0x41)).
  destruct ((1 <=? name_len) && (name_len <=? 255) && (namespace <=? 3));
    cbn [andb]; [|reflexivity].
  destruct (offset + 0x42 + name_len * 2 <=? len data); cbn [andb]; [|reflexivity].
  unfold Spec.fn_name. fold name_len.
  destruct (decode_ignore_total (slice data (offset + 0x42) (offset + 0x42 + name_len * 2)))
    as [filename ->].
  cbv beta iota.
  destruct (bool_decide (filename = [])) eqn:He; cbn [negb andb]; [reflexivity|].
  assert (Hl : (len filename >=? 1) = true).
  { apply bool_decide_eq_false in He. destruct filename; [contradiction|].
    unfold len. cbn [length]. apply Z.geb_le. lia. }
  rewrite Hl.
  destruct (forallb printable_or_blank filename); cbn [andb]; [|reflexivity].
  unpack_ok. cbn [mbind res_bind]. unfold Spec.fn_parent.
  change (2 ^ 36) with 0x1000000000.
  destruct (Z.land _ _ <? 0x1000000000); [|reflexivity].
  cbn [except_continue]. eexists. split; [reflexivity|]. split; reflexivity.
Qed.

Lemma scan_loop_spec (record : LogRecord.t) (data : bytes) (offsets : list Z) :
  Forall (fun offset => 0 <= offset /\ offset + 0x44 < len data) offsets ->
  match List.find (Spec.acceptable (2 ^ 36) data) offsets with
  | Some offset =>
      exists r, scan_loop record data offsets = Ok r
                /\ LogRecord.filename r = Spec.fn_name data offset
                /\ LogRecord.parent_reference r = Spec.fn_parent data offset
  | None => scan_loop record data offsets = Ok record
  end.
Proof.
  induction 1 as [|offset rest [Ho Hfit] Hall IH]; [reflexivity|].
  cbn [List.find scan_loop].
  pose proof (scan_at_spec record data offset Ho Hfit) as Hat.
  destruct (Spec.acceptable (2 ^ 36) data offset).
  - destruct Hat as (r & -> & Hr). cbn [mbind res_bind]. eauto.
  - rewrite Hat. cbn [mbind res_bind]. exact IH.
Qed.

Lemma elem_of_range (start stop step o : Z) :
  0 < step ->
  o ∈ range start stop step <-> start <= o < stop /\ (o - start) mod step = 0.
Proof.
  intros Hstep. unfold range. rewrite list_elem_of_fmap. split.
  - intros (k & -> & Hk). apply elem_of_seqZ in Hk.
    replace (start + step * k - start) with (k * step) by lia.
    rewrite Z.mod_mul by lia. split; [|reflexivity].
    assert (k * step < stop - start); [|nia].
    assert (Hd : k + 1 <= (stop - start + step - 1) / step) by lia.
    pose proof (Z.mul_div_le (stop - start + step - 1) step Hstep).
    nia.
  - intros [Hr Hm]. exists ((o - start) / step). split.
    + pose proof (Z.div_mod (o - start) step ltac:(lia)). lia.
    + apply elem_of_seqZ. split; [apply Z.div_pos; lia|].
      cbn [Z.add]. apply Z.div_lt_upper_bound; [lia|].
      pose proof (Z.div_mod (o - start) step ltac:(lia)) as Hdm.
      pose proof (Z.mod_pos_bound (stop - start + step - 1) step Hstep).
      pose proof (Z.div_mod (stop - start + step - 1) step ltac:(lia)).
      nia.
Qed.

Lemma range_nil (start stop step : Z) :
  0 < step -> stop <= start -> range start stop step = [].
Proof.
  intros Hstep Hle. destruct (range start stop step) as [|x l] eqn:E; [reflexivity|].
  assert (Hx : x ∈ range start stop step) by (rewrite E; left).
  apply elem_of_range in Hx; lia.
Qed.

(** C7, amended: [_scan_for_filename] probes the offsets 0, 8, 16, ...
    below [len data - 0x44] in order and stops at the first one that is
    acceptable with the bound 2^36 on the parent entry number: name length
    1..255, namespace at most 3, the name inside the payload, its decoding
    (errors ignored) non-empty and made of printable characters, spaces,
    dots and tabs.  The record takes that candidate's name and parent
    reference; when no offset is acceptable the record is left as it was. *)
Theorem C7_fallback_scan (record : LogRecord.t) (data : bytes) :
  match List.find (Spec.acceptable (2 ^ 36) data) (range 0 (len data - 0x44) 8) with
  | Some offset =>
      exists r, _scan_for_filename record data = Ok r
                /\ LogRecord.filename r = Spec.fn_name data offset
                /\ LogRecord.parent_reference r = Spec.fn_parent data offset
  | None => _scan_for_filename record data = Ok record
  end
  /\ forall offset,
       offset ∈ range 0 (len data - 0x44) 8
       <-> 0 <= offset < len data - 0x44 /\ offset mod 8 = 0.
Proof.
  split.
  - unfold _scan_for_filename.
    destruct (Z.ltb_spec (len data) 0x44) as [Hshort|Hlong].
    + rewrite range_nil by lia. reflexivity.
    + apply scan_loop_spec. apply Forall_forall. intros o Ho.
      apply elem_of_range in Ho; lia.
  - intros offset. rewrite elem_of_range by lia. rewrite Z.sub_0_r. reflexivity.
Qed.
End fallback_scan.


(** C7, as claimed, fails: the only candidate of this payload has
    namespace 1, name length 1, the printable name "A" and the parent entry
    number 2^36 < 2^40, and the scan does not accept it. *)
Lemma C7_counterexample :
  range 0 (len scan_payload_parent_2_36 - 0x44) 8 = [0]
  /\ Spec.claimed_acceptable (H := ascii_unicode) scan_payload_parent_2_36 0 = true
  /\ _scan_for_filename (H := ticks_datetime) (H0 := ascii_unicode)
       LogRecord.__init__ scan_payload_parent_2_36
     = Ok LogRecord.__init__.
Proof. repeat split; vm_compute; reflexivity. Qed.

Example scan_takes_first_acceptable :
  List.find (Spec.acceptable (H := ascii_unicode) (2 ^ 36) scan_payload_ok)
    (range 0 (len scan_payload_ok - 0x44) 8) = Some 8
  /\ (LogRecord.filename <$>
       _scan_for_filename (H := ticks_datetime) (H0 := ascii_unicode)
         LogRecord.__init__ scan_payload_ok) = Ok (lit "a.txt").
Proof. split; vm_compute; reflexivity. Qed.

(** ** The $UsnJrnl scanner (C6) *)

Lemma slice_inside {A} (pre b rest : list A) (p n : Z) :
  len pre = p -> 0 <= n <= len b ->
  slice (pre ++ b ++ rest) p (p + n) = slice b 0 n.
Proof.
  intros Hp Hn. unfold slice, len in *.
  rewrite drop_app_length' by lia.
  replace (p + n - p) with (n - 0) by lia. cbn [Z.to_nat drop].
  rewrite take_app_le by lia. reflexivity.
Qed.

Lemma slice_from_split {A} (b : list A) (n : Z) :
  0 <= n <= len b ->
  b = take (Z.to_nat n) b ++ slice_from b n /\ len (take (Z.to_nat n) b) = n.
Proof.
  intros Hn. unfold slice_from, len in *. rewrite take_drop, length_take.
  split; [reflexivity|lia].
Qed.

Lemma slice_last_split {A} (b : list A) (k : Z) :
  0 <= k <= len b ->
  b = take (length b - Z.to_nat k) b ++ slice_last b k
  /\ len (take (length b - Z.to_nat k) b) = len b - k.
Proof.
  intros Hn. unfold slice_last, len in *. rewrite take_drop, length_take.
  split; [reflexivity|lia].
Qed.

Lemma zero_end_bounds (b : bytes) :
  slice b 0 8 = zeros8 -> 60 <= len b ->
  let zero_end := find_zero_end b `div` 8 * 8 in
  0 < zero_end <= len b.
Proof.
  intros Hz Hlen. cbv zeta. unfold find_zero_end.
  destruct (List.find _ _) as [i|] eqn:E.
  - apply find_some in E as [Hin Hi].
    apply list_elem_of_In, elem_of_range in Hin; [|lia].
    destruct Hin as [Hr Hm]. rewrite Z.sub_0_r in Hm.
    assert (i <> 0).
    { intros ->. apply negb_true_iff, bool_decide_eq_false in Hi.
      apply Hi. exact Hz. }
    pose proof (Z.div_mod i 8 ltac:(lia)). lia.
  - pose proof (Z.div_mod (len b) 8 ltac:(lia)).
    pose proof (Z.mod_pos_bound (len b) 8 ltac:(lia)). lia.
Qed.

Lemma plausible_header_total (b : bytes) (i : Z) :
  0 <= i -> i + 8 <= len b -> exists hit, plausible_header b i = Ok hit.
Proof.
  intros Hi Hfit. unfold plausible_header. unpack_ok. cbn [mbind res_bind].
  destruct (_ && _); eauto.
Qed.

Lemma resync_search_spec (b : bytes) (candidates : list Z) :
  Forall (fun i => 0 <= i /\ i + 8 <= len b) candidates ->
  resync_search b candidates = Ok None
  \/ exists i, resync_search b candidates = Ok (Some i) /\ i ∈ candidates.
Proof.
  induction 1 as [|i rest [Hi Hfit] Hall IH]; [left; reflexivity|].
  cbn [resync_search].
  destruct (plausible_header_total b i Hi Hfit) as [hit ->].
  cbn [mbind res_bind]. destruct hit.
  - right. exists i. split; [reflexivity|left].
  - destruct IH as [->|(j & -> & Hj)]; [left; reflexivity|].
    right. exists j. split; [reflexivity|right; exact Hj].
Qed.

Section usn_positions.
Context `{PyDatetime}.

Lemma _parse_v2_record_total data rl major minor :
  exists o, _parse_v2_record data rl major minor = Ok o.
Proof.
  unfold _parse_v2_record, MIN_RECORD_SIZE_V2.
  destruct (Z.ltb_spec (len data) 60); [eauto|].
  unpack_ok. cbn. eauto.
Qed.

Lemma _parse_v3_record_total data rl major minor :
  exists o, _parse_v3_record data rl major minor = Ok o.
Proof.
  unfold _parse_v3_record, MIN_RECORD_SIZE_V3.
  destruct (Z.ltb_spec (len data) 76); [eauto|].
  unpack_ok. cbn. eauto.
Qed.

Lemma _parse_record_total data : exists o, _parse_record data = Ok o.
Proof.
  unfold _parse_record, MIN_RECORD_SIZE_V2.
  destruct (Z.ltb_spec (len data) 60); [eauto|].
  unpack_ok. cbn [mbind res_bind].
  repeat match goal with |- context [if ?c then _ else _] => destruct c end;
    eauto using _parse_v2_record_total, _parse_v3_record_total.
Qed.

Lemma _parse_record_length data r :
  _parse_record data = Ok (Some r) ->
  UsnRecord.record_length r = from_bytes_little (slice data 0 4).
Proof.
  unfold _parse_record, _parse_v4_record, _parse_v3_record, _parse_v2_record,
    MIN_RECORD_SIZE_V2, MIN_RECORD_SIZE_V3.
  destruct (Z.ltb_spec (len data) 60); [discriminate|].
  unpack_ok. cbn [mbind res_bind].
  destruct (_ =? 2).
  { unpack_ok. cbn. intros [= <-]. reflexivity. }
  destruct (Z.ltb_spec (len data) 76);
    [repeat match goal with |- context [if ?c then _ else _] => destruct c end;
     discriminate|].
  repeat match goal with |- context [if ?c then _ else _] => destruct c end;
    try discriminate; unpack_ok; cbn; intros [= <-]; reflexivity.
Qed.

Lemma slice_slice_0 {A} (l : list A) (n k : Z) :
  0 <= k <= n -> slice (slice l 0 n) 0 k = slice l 0 k.
Proof.
  intros Hk. unfold slice. change (Z.to_nat 0) with 0%nat.
  rewrite !drop_0, take_take. f_equal. lia.
Qed.

Record scanner_inv (file f : bytes) (s : state) : Prop := {
  inv_pos : exists pre, file = pre ++ buffer s ++ f /\ len pre = processed_bytes s;
  inv_yielded : Forall (Spec.at_position file) (yielded s);
  inv_aligned :
    Forall Spec.aligned (moves s) ->
    processed_bytes s mod 8 = 0 /\ Forall (fun y => y.1 mod 8 = 0) (yielded s)
}.

Lemma inv_advance file f s m n dropped rest :
  scanner_inv file f s -> buffer s = dropped ++ rest -> len dropped = n ->
  (Spec.aligned m -> n mod 8 = 0) ->
  scanner_inv file f (advance s m n rest).
Proof.
  intros [(pre & Hfile & Hpre) Hy Ha] Hb Hn Hm. split; cbn.
  - exists (pre ++ dropped). rewrite Hfile, Hb, len_app, <- !app_assoc. split; [reflexivity|lia].
  - exact Hy.
  - intros Hall. apply Forall_app in Hall as [Hall Hlast].
    rewrite Forall_singleton in Hlast.
    destruct (Ha Hall) as [Hp Hys]. split; [|exact Hys].
    rewrite Z.add_mod, Hp, (Hm Hlast) by lia. reflexivity.
Qed.

Lemma inv_yield file f s r :
  scanner_inv file f s -> Spec.at_position file (processed_bytes s, r) -> scanner_inv file f (yield s r).
Proof.
  intros [Hp Hy Ha] Hat. split; cbn.
  - exact Hp.
  - apply Forall_app. split; [exact Hy|]. rewrite Forall_singleton. exact Hat.
  - intros Hall. destruct (Ha Hall) as [Hm Hys]. split; [exact Hm|].
    apply Forall_app. split; [exact Hys|]. rewrite Forall_singleton. exact Hm.
Qed.

Lemma inv_extend file chunk f s :
  scanner_inv file (chunk ++ f) s -> scanner_inv file f (extend s chunk).
Proof.
  intros [(pre & Hfile & Hpre) Hy Ha]. split; cbn; [|exact Hy|exact Ha].
  exists pre. rewrite <- app_assoc. auto.
Qed.

Lemma inner_body_inv skip file f s :
  60 <= len (buffer s) -> scanner_inv file f s ->
  match inner_body skip s with
  | Ok (Continue s') | Ok (Break s') => scanner_inv file f s'
  | Raise _ | OutOfFuel => False
  end.
Proof.
  intros Hlen Hinv. unfold inner_body, MIN_RECORD_SIZE_V2.
  destruct (skip && bool_decide (slice (buffer s) 0 8 = zeros8)) eqn:Hz.
  - apply andb_true_iff in Hz as [_ Hz]. apply bool_decide_eq_true in Hz.
    pose proof (zero_end_bounds _ Hz Hlen) as Hb. cbv zeta in Hb |- *.
    destruct (Z.gtb_spec (find_zero_end (buffer s) `div` 8 * 8) 0); [|lia].
    destruct (slice_from_split (buffer s) _ ltac:(exact (conj (Z.lt_le_incl _ _ (proj1 Hb)) (proj2 Hb)))) as [Hs Hl].
    eapply inv_advance; [exact Hinv|exact Hs|exact Hl|].
    intros _. apply Z.mod_mul. lia.
  - unpack_ok. cbn [mbind res_bind].
    set (record_length := from_bytes_little (slice (buffer s) 0 4)).
    destruct ((record_length <? 60) || (record_length >? 65536)) eqn:Hbad.
    + destruct (resync_search_spec (buffer s) (range 8 (len (buffer s) - 8) 8))
        as [->|(i & -> & Hi)].
      { apply Forall_forall. intros i Hi. apply elem_of_range in Hi; lia. }
      * cbn [mbind res_bind].
        destruct (slice_last_split (buffer s) 60 ltac:(lia)) as [Hs Hl].
        eapply inv_advance; [exact Hinv|exact Hs|exact Hl|].
        cbn. auto.
      * cbn [mbind res_bind]. apply elem_of_range in Hi; [|lia].
        destruct (slice_from_split (buffer s) i ltac:(lia)) as [Hs Hl].
        eapply inv_advance; [exact Hinv|exact Hs|exact Hl|].
        intros _. destruct Hi as [_ Hi].
        replace i with ((i - 8) + 1 * 8) by lia. rewrite Z.mod_add by lia. exact Hi.
    + apply orb_false_iff in Hbad as [Hlo Hhi].
      apply Z.ltb_ge in Hlo. 
      destruct (Z.ltb_spec (len (buffer s)) record_length) as [|Hfit]; [exact Hinv|].
      destruct (_parse_record_total (slice (buffer s) 0 record_length)) as [o Ho].
      rewrite Ho. cbn [mbind res_bind].
      destruct (slice_from_split (buffer s) record_length ltac:(lia)) as [Hs Hl].
      assert (Hinv' : scanner_inv file f match o with Some r => yield s r | None => s end).
      { destruct o as [r|]; [|exact Hinv]. apply inv_yield; [exact Hinv|].
        destruct Hinv as [(pre & Hfile & Hpre) _ _].
        unfold Spec.at_position. cbn [fst snd].
        rewrite (_parse_record_length _ _ Ho), slice_slice_0 by lia.
        fold record_length.
        pose proof (len_nonneg pre). pose proof (len_nonneg f).
        split; [lia|]. split.
        - rewrite Hfile, !len_app. lia.
        - rewrite Hfile, (slice_inside pre (buffer s) f) by (auto; lia).
          exact Ho. }
      destruct o as [r|]; (eapply inv_advance; [exact Hinv'|exact Hs|exact Hl|cbn; auto]).
Qed.

Lemma inner_loop_inv skip file f (fuel : nat) : forall s,
  scanner_inv file f s ->
  match inner_loop fuel skip s with
  | Finished s' | Unfinished s' => scanner_inv file f s'
  | Raised _ => False
  end.
Proof.
  induction fuel as [|fuel IH]; intros s Hinv; [exact Hinv|].
  cbn [inner_loop]. unfold MIN_RECORD_SIZE_V2.
  destruct (Z.geb_spec (len (buffer s)) 60) as [Hlen|]; [|exact Hinv].
  pose proof (inner_body_inv skip file f s ltac:(lia) Hinv) as Hb.
  destruct (inner_body skip s) as [[s'|s']| |]; try contradiction.
  - apply IH. exact Hb.
  - exact Hb.
Qed.

Lemma outer_loop_inv skip file (fuel : nat) : forall f s,
  scanner_inv file f s ->
  match outer_loop fuel skip f s with
  | Finished s' | Unfinished s' => exists f', scanner_inv file f' s'
  | Raised _ => False
  end.
Proof.
  induction fuel as [|fuel IH]; intros f s Hinv; [exists f; exact Hinv|].
  cbn [outer_loop]. unfold read. cbv beta iota.
  match goal with |- context [bool_decide ?P] => destruct (bool_decide P) end;
    [exists f; exact Hinv|].
  assert (Hext : scanner_inv file (drop (Z.to_nat BUFFER_SIZE) f)
                   (extend s (take (Z.to_nat BUFFER_SIZE) f))).
  { apply inv_extend. rewrite take_drop. exact Hinv. }
  pose proof (inner_loop_inv skip file _ fuel _ Hext) as Hin.
  destruct (inner_loop fuel skip _) as [s'|s'|e]; [|eexists; exact Hin|contradiction].
  apply IH. exact Hin.
Qed.

(** C6, amended: whatever the stream and however long [iter_records] has
    run (to its end or not), it has not raised, every record it yielded is
    the one [_parse_record] reads at the file position recorded for it, and
    if every record length it consumed and every byte count it dropped at a
    resynchronisation without a hit is a multiple of 8, then every one of
    these positions is a multiple of 8. *)
Theorem C6_positions_and_alignment (fuel : nat) (file : bytes) (skip_zeros : bool) :
  match iter_records fuel file skip_zeros with
  | Finished s | Unfinished s =>
      Forall (Spec.at_position file) (yielded s)
      /\ (Forall Spec.aligned (moves s) -> Forall (fun y => y.1 mod 8 = 0) (yielded s))
  | Raised _ => False
  end.
Proof.
  unfold iter_records.
  match goal with |- context [outer_loop _ _ _ ?s0] => set (s0' := s0) end.
  assert (Hinit : scanner_inv file file s0').
  { split; cbn.
    - exists []. split; reflexivity.
    - constructor.
    - intros _. split; [reflexivity|constructor]. }
  pose proof (outer_loop_inv skip_zeros file fuel file s0' Hinit) as Hout.
  destruct (outer_loop _ _ _ _) as [s|s|e]; [| |exact Hout];
    destruct Hout as (f' & [_ Hy Ha]); (split; [exact Hy|intros Hall; apply (Ha Hall)]).
Qed.
End usn_positions.

(** C6, as claimed, fails: of two 60-byte records back to back, the
    second one is yielded at position 60, which is not a multiple of 8. *)
Lemma C6_counterexample :
  exists s,
    iter_records (H := ticks_datetime) 4 two_short_records true = Finished s
    /\ map fst (yielded s) = [0; 60]
    /\ Forall (Spec.at_position (H := ticks_datetime) two_short_records) (yielded s)
    /\ ~ Forall (fun y => y.1 mod 8 = 0) (yielded s).
Proof.
  eexists. split; [vm_compute; reflexivity|].
  split; [reflexivity|]. split.
  - repeat constructor; vm_compute; congruence.
  - intros Hall. apply Forall_cons in Hall as [_ Hall].
    apply Forall_cons in Hall as [Hall _]. vm_compute in Hall. discriminate.
Qed.

(** The amended C6 at a journal with a zero run, two 64-byte records and
    eight bytes of garbage between them. *)
Lemma C6_positions_and_alignment_witness :
  match iter_records (H := ticks_datetime) 6 aligned_journal true with
  | Finished s =>
      moves s = [ZeroSkip 16; Consumed 64; ResyncHit 8; Consumed 64]
      /\ map fst (yielded s) = [16; 88]
      /\ Forall (fun y => y.1 mod 8 = 0) (yielded s)
  | _ => False
  end.
Proof.
  pose proof (C6_positions_and_alignment (H := ticks_datetime) 6 aligned_journal true) as Hc.
  destruct (iter_records 6 aligned_journal true) as [s|s|e] eqn:E;
    [|vm_compute in E; discriminate|exact Hc].
  assert (Hm : moves s = [ZeroSkip 16; Consumed 64; ResyncHit 8; Consumed 64]).
  { vm_compute in E. injection E as <-. reflexivity. }
  split; [exact Hm|]. split.
  - vm_compute in E. injection E as <-. reflexivity.
  - apply Hc. rewrite Hm. repeat constructor.
Defined.

(** A run that never ends: on 100 bytes of [0xFF] the resynchronisation
    finds no header, keeps the last 60 bytes and starts over on them, for
    ever. *)
Lemma inner_body_resync_miss skip s :
  buffer s = all_ff 60 ->
  inner_body (H := ticks_datetime) skip s
  = Ok (Continue (advance s (ResyncMiss 0) 0 (all_ff 60))).
Proof.
  destruct s as [b p t y m]. cbn [buffer]. intros ->.
  destruct skip; vm_compute; reflexivity.
Qed.

Lemma inner_loop_resync_miss skip (fuel : nat) : forall s,
  buffer s = all_ff 60 ->
  exists s', inner_loop (H := ticks_datetime) fuel skip s = Unfinished s'.
Proof.
  induction fuel as [|fuel IH]; intros s Hb; [eexists; reflexivity|].
  cbn [inner_loop]. rewrite (inner_body_resync_miss skip s Hb), Hb.
  change (len (all_ff 60) >=? MIN_RECORD_SIZE_V2) with true. cbv iota.
  apply IH. reflexivity.
Qed.

Lemma iter_records_never_ends (fuel : nat) (skip : bool) :
  exists s, iter_records (H := ticks_datetime) fuel (all_ff 100) skip = Unfinished s.
Proof.
  destruct fuel as [|fuel]; [eexists; reflexivity|].
  unfold iter_records. cbn [outer_loop].
  change (read BUFFER_SIZE (all_ff 100)) with (all_ff 100, @nil byte).
  cbv beta iota.
  change (bool_decide (all_ff 100 = [])) with false. cbv iota.
  destruct fuel as [|fuel]; [eexists; reflexivity|].
  cbn [inner_loop].
  match goal with |- context [inner_body ?k ?s] =>
    replace (inner_body k s)
      with (Ok (Continue (advance s (ResyncMiss 40) 40 (all_ff 60))))
      by (destruct skip; vm_compute; reflexivity)
  end.
  match goal with |- context [len ?b >=? ?m] =>
    change (len b >=? m) with true end.
  cbv iota.
  destruct (inner_loop_resync_miss skip fuel
              (advance (extend {| buffer := []; processed_bytes := 0; total_records := 0;
       yielded := []; moves := [] |} (all_ff 100)) (ResyncMiss 40) 40 (all_ff 60)) eq_refl) as [s' ->].
  eexists; reflexivity.
Qed.

(** ** File references and flag names (src/constants.py) *)

(** X1. [parse_file_reference] splits a 64-bit reference into the entry
    number (its low 48 bits) and the sequence number (its high 16 bits)
    without losing anything: the two parts put together give the reference
    back, and a reference made of an entry number below 2^48 and a sequence
    number below 2^16 is split into exactly these two. *)
Theorem X1_file_reference_round_trip :
  (forall ref, 0 <= ref < 2 ^ 64 ->
     let '(entry, seq) := parse_file_reference ref in
     0 <= entry < 2 ^ 48 /\ 0 <= seq < 2 ^ 16 /\ entry + seq * 2 ^ 48 = ref)
  /\ (forall entry seq, 0 <= entry < 2 ^ 48 -> 0 <= seq < 2 ^ 16 ->
        parse_file_reference (entry + seq * 2 ^ 48) = (entry, seq)).
Proof.
  assert (Hparse : forall ref, 0 <= ref ->
            parse_file_reference ref = (ref mod 2 ^ 48, (ref / 2 ^ 48) mod 2 ^ 16)).
  { intros ref Href. unfold parse_file_reference. cbv zeta.
    change 0x0000FFFFFFFFFFFF with (Z.ones 48). change 0xFFFF with (Z.ones 16).
    rewrite !Z.land_ones, Z.shiftr_div_pow2 by lia. reflexivity. }
  split.
  - intros ref Href. rewrite Hparse by lia.
    pose proof (Z.mod_pos_bound ref (2 ^ 48) ltac:(lia)).
    pose proof (Z.div_mod ref (2 ^ 48) ltac:(lia)).
    assert (0 <= ref / 2 ^ 48 < 2 ^ 16).
    { split; [apply Z.div_pos; lia|apply Z.div_lt_upper_bound; lia]. }
    rewrite (Z.mod_small (ref / 2 ^ 48)) by lia. lia.
  - intros entry seq He Hs. rewrite Hparse by lia.
    rewrite Z.div_add, Z.mod_add by lia.
    rewrite (Z.div_small entry), (Z.mod_small entry), Z.add_0_l, Z.mod_small by lia.
    reflexivity.
Qed.

(** X1 at the reference of entry 5 with sequence number 3. *)
Lemma X1_file_reference_round_trip_witness :
  parse_file_reference (5 + 3 * 2 ^ 48) = (5, 3)
  /\ (let '(entry, seq) := parse_file_reference 0x0003000000000005 in
      0 <= entry < 2 ^ 48 /\ 0 <= seq < 2 ^ 16 /\ entry + seq * 2 ^ 48 = 0x0003000000000005).
Proof.
  split.
  - apply (proj2 X1_file_reference_round_trip); lia.
  - apply (proj1 X1_file_reference_round_trip 0x0003000000000005); lia.
Defined.

(** The chain of [if flags & mask: names.append(name)] statements over a
    table of masks and names. *)
Definition named_flags (flags : Z) (table : list (Z * string)) : list str :=
  foldl (fun names '(mask, name) => append_if flags mask name names) [] table.

Lemma foldl_append_if flags table : forall names,
  foldl (fun names '(mask, name) => append_if flags mask name names) names table
  = names ++ map (fun e => lit e.2)
               (List.filter (fun e => negb (Z.land flags e.1 =? 0)) table).
Proof.
  induction table as [|[mask name] table IH]; intros names; cbn [foldl].
  - cbn. rewrite app_nil_r. reflexivity.
  - rewrite IH. unfold append_if. cbn [List.filter fst snd].
    destruct (Z.land flags mask =? 0); cbn [negb map]; [reflexivity|].
    rewrite <- app_assoc. reflexivity.
Qed.

Lemma named_flags_filter flags table :
  named_flags flags table
  = map (fun e => lit e.2)
        (List.filter (fun e => negb (Z.land flags e.1 =? 0)) table).
Proof. unfold named_flags. rewrite foldl_append_if. reflexivity. Qed.

Lemma named_flags_nil flags table :
  named_flags flags table = [] <-> Forall (fun e => Z.land flags e.1 = 0) table.
Proof.
  rewrite named_flags_filter. induction table as [|[mask name] table IH].
  - cbn. split; [constructor|reflexivity].
  - cbn [List.filter fst]. destruct (Z.eqb_spec (Z.land flags mask) 0) as [E|E];
      cbn [negb map].
    + rewrite IH. split; [intros; constructor; assumption|].
      intros Hall. inversion Hall; assumption.
    + split; [discriminate|]. intros Hall. inversion Hall; subst. contradiction.
Qed.

(** The first character of a joined list is the first character of its
    first part, when that part is not empty. *)
Lemma head_join sep (parts : list str) c p rest :
  parts = (c :: p) :: rest -> head (join sep parts) = Some c.
Proof. intros ->. destruct rest; reflexivity. Qed.

Lemma head_named_flags (P : Z -> Prop) flags table :
  Forall (fun e => exists c p, lit e.2 = c :: p /\ P c) table ->
  named_flags flags table <> [] ->
  exists c, head (join (lit "|") (named_flags flags table)) = Some c /\ P c.
Proof.
  rewrite named_flags_filter. intros Hall Hne.
  induction Hall as [|e table (c & p & El & Hc) Hall IH]; [contradiction|].
  cbn [List.filter] in *. destruct (negb _).
  - cbn [map]. rewrite El. exists c. split; [|exact Hc].
    match goal with |- head (join _ (_ :: ?r)) = _ => destruct r; reflexivity end.
  - exact (IH Hne).
Qed.

Definition file_attr_names : list (Z * string) :=
  [(FileAttrFlags.READ_ONLY, "ReadOnly"); (FileAttrFlags.HIDDEN, "Hidden");
   (FileAttrFlags.SYSTEM, "System"); (FileAttrFlags.DIRECTORY, "Directory");
   (FileAttrFlags.ARCHIVE, "Archive"); (FileAttrFlags.COMPRESSED, "Compressed");
   (FileAttrFlags.ENCRYPTED, "Encrypted"); (FileAttrFlags.SPARSE_FILE, "Sparse");
   (FileAttrFlags.REPARSE_POINT, "ReparsePoint")]%string.

Definition usn_reason_names : list (Z * string) :=
  [(UsnReason.DATA_OVERWRITE, "DataOverwrite"); (UsnReason.DATA_EXTEND, "DataExtend");
   (UsnReason.DATA_TRUNCATION, "DataTruncation"); (UsnReason.FILE_CREATE, "FileCreate");
   (UsnReason.FILE_DELETE, "FileDelete"); (UsnReason.RENAME_OLD_NAME, "RenameOldName");
   (UsnReason.RENAME_NEW_NAME, "RenameNewName");
   (UsnReason.SECURITY_CHANGE, "SecurityChange");
   (UsnReason.BASIC_INFO_CHANGE, "BasicInfoChange");
   (UsnReason.HARD_LINK_CHANGE, "HardLinkChange"); (UsnReason.CLOSE, "Close")]%string.

Lemma format_file_attr_table flags :
  format_file_attr flags
  = match named_flags flags file_attr_names with
    | [] => lit "Normal"
    | _ => join (lit "|") (named_flags flags file_attr_names)
    end.
Proof. reflexivity. Qed.

Lemma format_usn_reason_table reason :
  format_usn_reason reason
  = match named_flags reason usn_reason_names with
    | [] => format_0x08X reason
    | _ => join (lit "|") (named_flags reason usn_reason_names)
    end.
Proof. reflexivity. Qed.

Lemma named_flags_masked flags mask table :
  Forall (fun e => Z.land mask e.1 = e.1) table ->
  named_flags (Z.land flags mask) table = named_flags flags table.
Proof.
  intros Hall. rewrite !named_flags_filter. f_equal.
  induction Hall as [|e table He Hall IH]; [reflexivity|].
  cbn [List.filter]. rewrite <- Z.land_assoc, He, IH. reflexivity.
Qed.

(** X2. [format_file_attr] answers "Normal" exactly when none of the nine
    flags it has a name for is set, and it looks at no other bit: the
    flags DEVICE, NORMAL, TEMPORARY, OFFLINE and NOT_CONTENT_INDEXED of the
    enumeration (and every bit above them) never change its answer. *)
Theorem X2_format_file_attr_names (flags : Z) :
  (format_file_attr flags = lit "Normal"
   <-> Forall (fun mask => Z.land flags mask = 0)
         [0x0001; 0x0002; 0x0004; 0x0010; 0x0020; 0x0800; 0x4000; 0x0200; 0x0400])
  /\ format_file_attr (Z.land flags 0x4E37) = format_file_attr flags.
Proof.
  split.
  - rewrite format_file_attr_table.
    change [1; 2; 4; 16; 32; 2048; 16384; 512; 1024] with (map fst file_attr_names).
    rewrite Forall_map, <- named_flags_nil.
    destruct (named_flags flags file_attr_names) as [|n names] eqn:E.
    + split; reflexivity.
    + split; [|discriminate]. intros Hj.
      destruct (head_named_flags (fun c => c <> 78) flags file_attr_names)
        as (c & Hh & Hc).
      * repeat constructor; eexists _, _; (split; [reflexivity|discriminate]).
      * rewrite E. discriminate.
      * rewrite E, Hj in Hh. injection Hh as <-. contradiction.
  - rewrite !format_file_attr_table, named_flags_masked; [reflexivity|].
    repeat constructor.
Qed.

(** X3. [format_usn_reason] falls back to the hexadecimal form exactly when
    none of the eleven reasons it has a name for is set; as soon as one of
    them is set, every other bit of the reason (NAMED_DATA_OVERWRITE,
    EA_CHANGE, STREAM_CHANGE, ...) is dropped from the answer. *)
Theorem X3_format_usn_reason_names (reason : Z) :
  (format_usn_reason reason = format_0x08X reason
   <-> Forall (fun mask => Z.land reason mask = 0)
         [0x1; 0x2; 0x4; 0x100; 0x200; 0x1000; 0x2000; 0x800; 0x8000; 0x10000;
          0x80000000])
  /\ (Z.land reason 0x8001BB07 <> 0 ->
      format_usn_reason (Z.land reason 0x8001BB07) = format_usn_reason reason).
Proof.
  split.
  - rewrite format_usn_reason_table.
    change [1; 2; 4; 256; 512; 4096; 8192; 2048; 32768; 65536; 2147483648]
      with (map fst usn_reason_names).
    rewrite Forall_map, <- named_flags_nil.
    destruct (named_flags reason usn_reason_names) as [|n names] eqn:E.
    + split; reflexivity.
    + split; [|discriminate]. intros Hj.
      destruct (head_named_flags (fun c => c <> 48) reason usn_reason_names)
        as (c & Hh & Hc).
      * repeat constructor; eexists _, _; (split; [reflexivity|discriminate]).
      * rewrite E. discriminate.
      * rewrite E, Hj in Hh. injection Hh as <-. contradiction.
  - intros Hne. rewrite !format_usn_reason_table.
    rewrite named_flags_masked by (repeat constructor).
    destruct (named_flags reason usn_reason_names) as [|n names] eqn:E; [|reflexivity].
    exfalso. apply Hne. apply named_flags_nil in E.
    unfold usn_reason_names in E.
    change 0x8001BB07 with
      (Z.lor 0x1 (Z.lor 0x2 (Z.lor 0x4 (Z.lor 0x100 (Z.lor 0x200 (Z.lor 0x1000
        (Z.lor 0x2000 (Z.lor 0x800 (Z.lor 0x8000 (Z.lor 0x10000 0x80000000)))))))))).
    repeat match goal with
           | H : Forall _ (_ :: _) |- _ => inversion H; clear H; subst
           end.
    cbn [fst] in *. unfold UsnReason.DATA_OVERWRITE, UsnReason.DATA_EXTEND,
      UsnReason.DATA_TRUNCATION, UsnReason.FILE_CREATE, UsnReason.FILE_DELETE,
      UsnReason.RENAME_OLD_NAME, UsnReason.RENAME_NEW_NAME, UsnReason.SECURITY_CHANGE,
      UsnReason.BASIC_INFO_CHANGE, UsnReason.HARD_LINK_CHANGE, UsnReason.CLOSE in *.
    rewrite !Z.land_lor_distr_r.
    repeat match goal with H : Z.land reason _ = 0 |- _ => rewrite H; clear H end.
    reflexivity.
Qed.

(** X3 at FILE_CREATE with NAMED_DATA_OVERWRITE: the answer is "FileCreate". *)
Lemma X3_format_usn_reason_names_witness :
  format_usn_reason (Z.land 0x00000110 0x8001BB07) = format_usn_reason 0x00000110
  /\ format_usn_reason 0x00000110 = lit "FileCreate".
Proof.
  split; [|reflexivity].
  apply (proj2 (X3_format_usn_reason_names 0x00000110)). discriminate.
Defined.

(** ** [MFTEntry.parse]: which entries it accepts *)

Ltac bind_cases :=
  repeat match goal with
  | |- context [mbind _ ?m] =>
      destruct m; cbn [mbind res_bind]; try discriminate
  end.

Lemma parse_true_shape (self entry : MFTEntry.t) :
  MFTEntry.parse self = Ok (true, entry) ->
  MFTEntry.is_valid entry = true
  /\ MFTEntry.entry_number entry = MFTEntry.entry_number self.
Proof.
  unfold MFTEntry.parse.
  destruct (len (MFTEntry.data self) <? 48); [discriminate|]. cbv zeta.
  match goal with |- context [negb ?c] => destruct (negb c) end; [discriminate|].
  match goal with |- context [bool_decide (?x = MFT_SIGNATURE_BAD)] =>
    destruct (bool_decide (x = MFT_SIGNATURE_BAD)) end; [discriminate|].
  bind_cases. intros [= <-]. split; reflexivity.
Qed.

Lemma parse_false_shape (self entry : MFTEntry.t) :
  MFTEntry.parse self = Ok (false, entry) ->
  entry = self
  /\ (len (MFTEntry.data self) < 48
      \/ slice (MFTEntry.data self) 0 4 <> MFT_SIGNATURE).
Proof.
  unfold MFTEntry.parse.
  destruct (Z.ltb_spec (len (MFTEntry.data self)) 48);
    [intros [= <-]; split; [reflexivity|left; assumption]|].
  cbv zeta.
  match goal with |- context [negb (bool_decide ?P)] =>
    destruct (bool_decide P) eqn:Hin end; cbn [negb].
  2:{ intros [= <-]. split; [reflexivity|]. right. intros Hs.
      apply bool_decide_eq_false in Hin. apply Hin. rewrite Hs. left. }
  match goal with |- context [bool_decide (?x = MFT_SIGNATURE_BAD)] =>
    destruct (bool_decide (x = MFT_SIGNATURE_BAD)) eqn:Hbad end.
  { intros [= <-]. split; [reflexivity|]. right.
    apply bool_decide_eq_true in Hbad. rewrite Hbad. discriminate. }
  bind_cases.
Qed.

(** X4. [MFTEntry.parse] never raises. It answers [True] exactly when the
    entry has at least 48 bytes and starts with FILE; the entry is then
    valid, keeps its number and the length of its data. When it answers
    [False] (a short entry, BAAD or any other signature) it leaves the
    object as it was, so [to_record] has nothing to return. *)
Theorem X4_parse_accepts_exactly (self : MFTEntry.t) :
  exists b entry,
    MFTEntry.parse self = Ok (b, entry)
    /\ (b = true <-> 48 <= len (MFTEntry.data self)
                     /\ slice (MFTEntry.data self) 0 4 = blit "FILE")
    /\ (b = true ->
        MFTEntry.is_valid entry = true
        /\ MFTEntry.entry_number entry = MFTEntry.entry_number self
        /\ len (MFTEntry.data entry) = len (MFTEntry.data self))
    /\ (b = false -> entry = self).
Proof.
  destruct (parse_total self) as (b & entry & Hp). exists b, entry.
  split; [exact Hp|]. destruct b.
  - destruct (parse_true_shape self entry Hp) as [Hv Hn].
    assert (Hacc : 48 <= len (MFTEntry.data self)
                   /\ slice (MFTEntry.data self) 0 4 = blit "FILE").
    { destruct (Z_lt_ge_dec (len (MFTEntry.data self)) 48) as [Hlt|Hge].
      - exfalso. unfold MFTEntry.parse in Hp.
        destruct (Z.ltb_spec (len (MFTEntry.data self)) 48); [discriminate|lia].
      - split; [lia|].
        destruct (decide (slice (MFTEntry.data self) 0 4 = MFT_SIGNATURE)) as [Hs|Hs];
          [exact Hs|].
        exfalso. unfold MFTEntry.parse in Hp.
        destruct (Z.ltb_spec (len (MFTEntry.data self)) 48); [lia|].
        cbv zeta in Hp.
        match type of Hp with context [negb (bool_decide ?P)] =>
          destruct (bool_decide P) eqn:Hin end; cbn [negb] in Hp; [|discriminate].
        apply bool_decide_eq_true in Hin.
        apply elem_of_cons in Hin as [Hin|Hin]; [contradiction|].
        apply list_elem_of_singleton in Hin.
        rewrite bool_decide_eq_true_2 in Hp by exact Hin. discriminate. }
    split; [split; [intros _; exact Hacc|reflexivity]|].
    split; [|discriminate]. intros _.
    destruct (parse_accepts self (proj1 Hacc) (proj2 Hacc)) as (e & He & _ & Hl).
    rewrite Hp in He. injection He as <-. auto.
  - destruct (parse_false_shape self entry Hp) as [-> Hwhy].
    split; [|split; [discriminate|reflexivity]].
    split; [discriminate|]. intros [Hl Hs]. destruct Hwhy; [lia|contradiction].
Qed.

(** ** What the fixup writes *)

Lemma lookup_slice {A} (l : list A) (a b : Z) (k : nat) :
  0 <= a -> Z.of_nat k < b - a ->
  slice l a b !! k = l !! (Z.to_nat a + k)%nat.
Proof.
  intros Ha Hk. unfold slice. rewrite lookup_take_lt by lia.
  apply lookup_drop.
Qed.

Lemma lookup_slice_assign_out {A} (l : list A) (a b : Z) (v : list A) (j : nat) :
  0 <= a -> a <= b -> b <= len l -> len v = b - a ->
  ~ (a <= Z.of_nat j < b) ->
  slice_assign l a b v !! j = l !! j.
Proof.
  unfold slice_assign, len. intros Ha Hab Hb Hv Hj.
  destruct (Z_lt_ge_dec (Z.of_nat j) a) as [Hlt|Hge].
  - rewrite lookup_app_l by (rewrite length_take; lia).
    apply lookup_take_lt. lia.
  - rewrite lookup_app_r by (rewrite length_take; lia).
    rewrite lookup_app_r by (rewrite length_take; lia).
    rewrite lookup_drop, length_take. f_equal. lia.
Qed.

Lemma lookup_slice_assign_in {A} (l : list A) (a b : Z) (v : list A) (j : nat) :
  0 <= a -> a <= b -> b <= len l -> len v = b - a ->
  a <= Z.of_nat j < b ->
  slice_assign l a b v !! j = v !! (j - Z.to_nat a)%nat.
Proof.
  unfold slice_assign, len. intros Ha Hab Hb Hv Hj.
  rewrite lookup_app_r by (rewrite length_take; lia).
  rewrite length_take. rewrite lookup_app_l by lia. f_equal. lia.
Qed.

Lemma fixup_step_out offset data i (j : nat) :
  0 <= offset -> 1 <= i -> offset + i * 2 + 2 <= len data ->
  (i * 512 <= len data -> ~ (i * 512 - 2 <= Z.of_nat j < i * 512)) ->
  fixup_step offset data i !! j = data !! j.
Proof.
  intros Ho Hi Hfit Hj. unfold fixup_step. cbv zeta.
  destruct (Z.leb_spec (i * 512 - 2 + 2) (len data)); [|reflexivity].
  apply lookup_slice_assign_out; try lia.
  rewrite len_slice; lia.
Qed.

Lemma fixup_step_in offset data i (k : nat) :
  0 <= offset -> 1 <= i -> offset + i * 2 + 2 <= len data ->
  i * 512 <= len data -> (k < 2)%nat ->
  fixup_step offset data i !! (Z.to_nat (i * 512 - 2) + k)%nat
  = data !! (Z.to_nat (offset + i * 2) + k)%nat.
Proof.
  intros Ho Hi Hfit Hs Hk. unfold fixup_step. cbv zeta.
  destruct (Z.leb_spec (i * 512 - 2 + 2) (len data)); [|lia].
  etrans; [apply lookup_slice_assign_in; try lia; rewrite len_slice; lia|].
  etrans; [apply lookup_slice; lia|]. f_equal. lia.
Qed.

Lemma foldl_fixup_out offset (indices : list Z) (j : nat) : forall data,
  0 <= offset ->
  Forall (fun i => 1 <= i /\ offset + i * 2 + 2 <= len data
                   /\ (i * 512 <= len data
                       -> ~ (i * 512 - 2 <= Z.of_nat j < i * 512))) indices ->
  foldl (fixup_step offset) data indices !! j = data !! j.
Proof.
  induction indices as [|i indices IH]; intros data Ho Hall; [reflexivity|].
  cbn [foldl]. inversion Hall as [|? ? (Hi & Hfit & Hj) Hrest]; subst.
  rewrite IH.
  - apply fixup_step_out; assumption.
  - assumption.
  - rewrite len_fixup_step by assumption. exact Hrest.
Qed.

Lemma foldl_fixup_in offset (indices : list Z) (i : Z) (k : nat) : forall data,
  0 <= offset -> NoDup indices -> i ∈ indices -> (k < 2)%nat ->
  i * 512 <= len data ->
  Forall (fun i' => 1 <= i' /\ offset + i' * 2 + 2 <= len data
                    /\ offset + i' * 2 + 2 <= 510) indices ->
  foldl (fixup_step offset) data indices !! (Z.to_nat (i * 512 - 2) + k)%nat
  = data !! (Z.to_nat (offset + i * 2) + k)%nat.
Proof.
  induction indices as [|i0 indices IH]; intros data Ho Hnd Hin Hk Hs Hall.
  - inversion Hin.
  - cbn [foldl]. inversion Hall as [|? ? (Hi0 & Hfit0 & Hlow0) Hrest]; subst.
    inversion Hnd as [|? ? Hnotin Hnd']; subst.
    assert (Hrest1 : Forall (fun i' => 1 <= i' /\ offset + i' * 2 + 2
                               <= len (fixup_step offset data i0)
                             /\ offset + i' * 2 + 2 <= 510) indices).
    { rewrite len_fixup_step by assumption. exact Hrest. }
    apply elem_of_cons in Hin as [->|Hin].
    + rewrite foldl_fixup_out.
      * apply fixup_step_in; assumption.
      * assumption.
      * rewrite Forall_forall in Hrest1 |- *. intros i' Hi'.
        destruct (Hrest1 i' Hi') as (H1 & H2 & H3).
        split; [exact H1|]. split; [exact H2|].
        assert (i' <> i0) by (intros ->; contradiction). lia.
    + rewrite IH; try assumption.
      * rewrite Forall_forall in Hrest. destruct (Hrest i Hin) as (H1 & H2 & H3).
        apply fixup_step_out; try assumption. lia.
      * rewrite len_fixup_step by assumption. exact Hs.
Qed.

(** X5. [_apply_fixup], called as [parse] calls it (the update sequence
    array lies inside the data), keeps the length of the data and changes
    no byte outside the last two bytes of the sectors 1 .. count-1 that fit
    in the data. When the array ends before the first sector tail, these
    two bytes become the two bytes of the array entry of their sector. *)
Theorem X5_apply_fixup_writes_sector_tails (data : bytes) (offset count : Z) :
  0 <= offset -> 0 < count -> offset + count * 2 <= len data ->
  let fixed := _apply_fixup data offset count in
  len fixed = len data
  /\ (forall j, 0 <= j ->
        (forall i, 1 <= i < count -> i * 512 <= len data ->
                   ~ (i * 512 - 2 <= j < i * 512)) ->
        fixed !! Z.to_nat j = data !! Z.to_nat j)
  /\ (offset + count * 2 <= 510 ->
      forall i k, 1 <= i < count -> i * 512 <= len data -> 0 <= k < 2 ->
        fixed !! Z.to_nat (i * 512 - 2 + k) = data !! Z.to_nat (offset + i * 2 + k)).
Proof.
  intros Ho Hc Hfit fixed. split; [apply len_apply_fixup; lia|]. split.
  - intros j Hj Hout. unfold fixed, _apply_fixup. cbv zeta.
    apply foldl_fixup_out; [assumption|].
    apply Forall_forall. intros i Hi. apply elem_of_seqZ in Hi.
    split; [lia|]. split; [lia|].
    intros Hs. specialize (Hout i ltac:(lia) Hs). lia.
  - intros Hlow i k Hi Hs Hk. unfold fixed, _apply_fixup. cbv zeta.
    replace (Z.to_nat (i * 512 - 2 + k)) with (Z.to_nat (i * 512 - 2) + Z.to_nat k)%nat by lia.
    replace (Z.to_nat (offset + i * 2 + k)) with (Z.to_nat (offset + i * 2) + Z.to_nat k)%nat by lia.
    apply foldl_fixup_in; try lia.
    + apply NoDup_seqZ.
    + apply elem_of_seqZ. lia.
    + apply Forall_forall. intros i' Hi'. apply elem_of_seqZ in Hi'. lia.
Qed.

(** X5 at the torn entry of C1: the saved words AA BB and CC DD land at the
    tails of the two sectors. *)
Lemma X5_apply_fixup_writes_sector_tails_witness :
  let fixed := _apply_fixup torn_entry 48 3 in
  len fixed = 1024
  /\ fixed !! 510%nat = Some xaa /\ fixed !! 511%nat = Some xbb
  /\ fixed !! 1022%nat = Some xcc /\ fixed !! 1023%nat = Some xdd
  /\ fixed !! 100%nat = torn_entry !! 100%nat.
Proof.
  pose proof (X5_apply_fixup_writes_sector_tails torn_entry 48 3
                ltac:(lia) ltac:(lia) ltac:(vm_compute; discriminate))
    as (Hl & Hout & Hin).
  cbv zeta. split; [exact Hl|].
  specialize (Hin ltac:(lia)).
  split; [exact (Hin 1 0 ltac:(lia) ltac:(vm_compute; discriminate) ltac:(lia))|].
  split; [exact (Hin 1 1 ltac:(lia) ltac:(vm_compute; discriminate) ltac:(lia))|].
  split; [exact (Hin 2 0 ltac:(lia) ltac:(vm_compute; discriminate) ltac:(lia))|].
  split; [exact (Hin 2 1 ltac:(lia) ltac:(vm_compute; discriminate) ltac:(lia))|].
  apply (Hout 100); lia.
Defined.

(** ** The header keys of an attribute dict *)

(** The keys [_parse_attribute] sets from the attribute header. *)
Definition header_keys : list string :=
  ["type"; "length"; "non_resident"; "name_length"; "name_offset"; "flags";
   "id"; "name"]%string.

Ltac header_key_cases H :=
  unfold header_keys in H;
  repeat (apply elem_of_cons in H as [->|H]);
  [..|inversion H].

Ltac through_parser :=
  repeat (match goal with
          | |- context [if ?c then _ else _] => destruct c; cbn [mbind res_bind]
          | |- context [mbind _ ?m] =>
              lazymatch m with
              | mbind _ _ => fail
              | Ok _ => fail
              | _ => destruct m; cbn [mbind res_bind]
              end
          end; try discriminate);
  intros [= <-]; rewrite ?lookup_insert_ne by discriminate; reflexivity.

Lemma _parse_resident_attr_keeps attr data attr' k :
  _parse_resident_attr attr data = Ok attr' -> k ∈ header_keys ->
  attr' !! k = attr !! k.
Proof.
  intros Hp Hk. revert Hp. unfold _parse_resident_attr.
  header_key_cases Hk; through_parser.
Qed.

Lemma _parse_non_resident_attr_keeps attr data attr' k :
  _parse_non_resident_attr attr data = Ok attr' -> k ∈ header_keys ->
  attr' !! k = attr !! k.
Proof.
  intros Hp Hk. revert Hp. unfold _parse_non_resident_attr.
  header_key_cases Hk; through_parser.
Qed.

Lemma _parse_standard_info_keeps attr attr' k :
  _parse_standard_info attr = Ok attr' -> k ∈ header_keys ->
  attr' !! k = attr !! k.
Proof.
  intros Hp Hk. revert Hp. unfold _parse_standard_info.
  header_key_cases Hk; through_parser.
Qed.

Lemma _parse_filename_keeps attr attr' k :
  _parse_filename attr = Ok attr' -> k ∈ header_keys ->
  attr' !! k = attr !! k.
Proof.
  intros Hp Hk. revert Hp. unfold _parse_filename.
  header_key_cases Hk; through_parser.
Qed.

Ltac dict_lookup :=
  repeat first [rewrite lookup_insert_eq | rewrite lookup_insert_ne by discriminate].

(** What [attr] holds under the keys of the attribute header. *)
Definition has_header (attr_type : Z) (data : bytes) (attr : dict) : Prop :=
  attr !! "type" = Some (VInt attr_type)
  /\ attr !! "length" = Some (VInt (len data))
  /\ (exists b, data !! 8%nat = Some b
                /\ attr !! "non_resident" = Some (VBool (truthy (u8 b))))
  /\ (exists b, data !! 9%nat = Some b
                /\ attr !! "name_length" = Some (VInt (u8 b)))
  /\ attr !! "name_offset" = Some (VInt (from_bytes_little (slice data 10 12)))
  /\ attr !! "flags" = Some (VInt (from_bytes_little (slice data 12 14)))
  /\ attr !! "id" = Some (VInt (from_bytes_little (slice data 14 16))).

Lemma _parse_attribute_header attr_type data :
  16 <= len data ->
  exists attr, _parse_attribute attr_type data = Ok (Some attr)
               /\ has_header attr_type data attr.
Proof.
  intros Hlen. unfold _parse_attribute.
  destruct (Z.ltb_spec (len data) 16); [lia|].
  destruct (lookup_lt_is_Some_2 data 8%nat) as [b8 E8]; [unfold len in Hlen; lia|].
  destruct (lookup_lt_is_Some_2 data 9%nat) as [b9 E9]; [unfold len in Hlen; lia|].
  rewrite (index_Ok data 8 b8 E8), (index_Ok data 9 b9 E9).
  cbn [fmap res_fmap mbind res_bind]. unpack_ok. cbn [mbind res_bind]. cbv zeta.
  match goal with |- context [get_bool ?a "non_resident" false] => set (attr1 := a) end.
  assert (H1 : has_header attr_type data attr1).
  { unfold attr1, has_header.
    destruct (u8 b9 >? 0);
      [destruct (_ <=? len data)|];
      (repeat split; try (eexists; split; [eassumption|]); dict_lookup; reflexivity). }
  clearbody attr1.
  assert (Hsub : exists attr2,
             (if get_bool attr1 "non_resident" false
              then _parse_non_resident_attr attr1 data
              else _parse_resident_attr attr1 data) = Ok attr2
             /\ forall k, k ∈ header_keys -> attr2 !! k = attr1 !! k).
  { destruct (get_bool attr1 "non_resident" false).
    - destruct (_parse_non_resident_attr_total attr1 data) as [a Ha].
      exists a. split; [exact Ha|]. intros k. apply _parse_non_resident_attr_keeps with data. exact Ha.
    - destruct (_parse_resident_attr_total attr1 data) as [a Ha].
      exists a. split; [exact Ha|]. intros k. apply _parse_resident_attr_keeps with data. exact Ha. }
  destruct Hsub as (attr2 & -> & H2). cbn [mbind res_bind].
  assert (Hsub : exists attr3,
             (if attr_type =? AttrType.STANDARD_INFORMATION then _parse_standard_info attr2
              else if attr_type =? AttrType.FILE_NAME then _parse_filename attr2
              else Ok attr2) = Ok attr3
             /\ forall k, k ∈ header_keys -> attr3 !! k = attr2 !! k).
  { destruct (attr_type =? AttrType.STANDARD_INFORMATION).
    - destruct (_parse_standard_info_total attr2) as [a Ha].
      exists a. split; [exact Ha|]. intros k. apply _parse_standard_info_keeps. exact Ha.
    - destruct (attr_type =? AttrType.FILE_NAME).
      + destruct (_parse_filename_total attr2) as [a Ha].
        exists a. split; [exact Ha|]. intros k. apply _parse_filename_keeps. exact Ha.
      + exists attr2. split; reflexivity. }
  destruct Hsub as (attr3 & -> & H3). cbn [mbind res_bind].
  exists attr3. split; [reflexivity|].
  assert (Hk : forall k, k ∈ header_keys -> attr3 !! k = attr1 !! k).
  { intros k Hk. rewrite H3, H2 by exact Hk. reflexivity. }
  unfold has_header in *.
  rewrite !Hk by (unfold header_keys; repeat constructor).
  exact H1.
Qed.

Lemma _parse_attribute_short attr_type data :
  len data < 16 -> _parse_attribute attr_type data = Ok None.
Proof.
  intros Hlen. unfold _parse_attribute.
  destruct (Z.ltb_spec (len data) 16); [reflexivity|lia].
Qed.

Lemma _parse_attribute_Some attr_type data attr :
  _parse_attribute attr_type data = Ok (Some attr) ->
  16 <= len data /\ has_header attr_type data attr.
Proof.
  intros Hp. destruct (Z_lt_ge_dec (len data) 16) as [Hlt|Hge].
  - rewrite _parse_attribute_short in Hp by exact Hlt. discriminate.
  - split; [lia|]. destruct (_parse_attribute_header attr_type data ltac:(lia))
      as (a & Ha & Hh). rewrite Hp in Ha. injection Ha as <-. exact Hh.
Qed.

Lemma attributes_loop_Forall (P : dict -> Prop) data max_offset (fuel : nat) :
  (forall ty d a, _parse_attribute ty d = Ok (Some a) -> len d <= len data -> P a) ->
  forall offset attributes r,
    0 <= offset ->
    Forall P attributes ->
    attributes_loop fuel data offset max_offset attributes = Ok r ->
    Forall P r.
Proof.
  intros HP. induction fuel as [|fuel IH]; intros offset attributes r Ho Hall;
    [discriminate|].
  rewrite attributes_loop_S.
  destruct (negb _); [intros [= ?]; subst; exact Hall|].
  destruct (unpack_I (slice data offset (offset + 4))) as [attr_type| |];
    cbn [mbind res_bind]; try discriminate.
  destruct (attr_type =? 0xFFFFFFFF); [intros [= ?]; subst; exact Hall|].
  destruct (_ >? len data); [intros [= ?]; subst; exact Hall|].
  destruct (unpack_I (slice data (offset + 4) (offset + 8))) as [attr_length| |] eqn:El;
    cbn [mbind res_bind]; try discriminate.
  destruct (Z.eqb_spec attr_length 0); cbn [orb]; [intros [= ?]; subst; exact Hall|].
  destruct (Z.gtb_spec attr_length (len data - offset)); [intros [= ?]; subst; exact Hall|].
  cbv zeta.
  destruct (_parse_attribute attr_type _) as [[a|]| |] eqn:Ea; cbn [mbind res_bind];
    try discriminate.
  - apply IH.
    + unfold unpack_I, unpack_u in El. destruct (decide _); [|discriminate].
      injection El as <-.
      pose proof (from_bytes_little_range (slice data (offset + 4) (offset + 8))). lia.
    + apply Forall_app. split; [exact Hall|]. constructor; [|constructor].
      apply (HP _ _ _ Ea).
      unfold unpack_I, unpack_u in El. destruct (decide _); [|discriminate].
      injection El as <-.
      pose proof (from_bytes_little_range (slice data (offset + 4) (offset + 8))).
      rewrite len_slice; lia.
  - apply IH; [|exact Hall].
    unfold unpack_I, unpack_u in El. destruct (decide _); [|discriminate].
    injection El as <-.
    pose proof (from_bytes_little_range (slice data (offset + 4) (offset + 8))). lia.
Qed.

Lemma unpack_u_nonneg (n : nat) (s : bytes) (v : Z) : unpack_u n s = Ok v -> 0 <= v.
Proof.
  unfold unpack_u. destruct (decide _); [|discriminate]. intros [= <-].
  apply from_bytes_little_range.
Qed.

Lemma parse_attributes_of (self entry : MFTEntry.t) :
  MFTEntry.parse self = Ok (true, entry) ->
  exists data1 start_offset max_offset,
    len data1 = len (MFTEntry.data self) /\ 0 <= start_offset
    /\ _parse_attributes data1 (MFTEntry.attributes self) start_offset max_offset
       = Ok (MFTEntry.attributes entry).
Proof.
  intros Hp.
  revert Hp. unfold MFTEntry.parse.
  destruct (len (MFTEntry.data self) <? 48); [discriminate|]. cbv zeta.
  match goal with |- context [negb ?c] => destruct (negb c) end; [discriminate|].
  match goal with |- context [bool_decide (?x = MFT_SIGNATURE_BAD)] =>
    destruct (bool_decide (x = MFT_SIGNATURE_BAD)) end; [discriminate|].
  destruct (unpack_H (slice (MFTEntry.data self) 4 6)) as [fixup_offset| |] eqn:Eo;
    cbn [mbind res_bind]; try discriminate.
  destruct (unpack_H (slice (MFTEntry.data self) 6 8)) as [fixup_count| |] eqn:Ec;
    cbn [mbind res_bind]; try discriminate.
  match goal with |- context [unpack_H (slice ?d 16 18)] => set (data1 := d) end.
  assert (Hlen1 : len data1 = len (MFTEntry.data self)).
  { unfold data1.
    destruct (Z.gtb_spec fixup_count 0); cbn [andb]; [|reflexivity].
    destruct (Z.leb_spec (fixup_offset + fixup_count * 2) (len (MFTEntry.data self)));
      [|reflexivity].
    apply len_apply_fixup; [|lia]. exact (unpack_u_nonneg _ _ _ Eo). }
  clearbody data1.
  destruct (unpack_H (slice data1 16 18)); cbn [mbind res_bind]; try discriminate.
  destruct (unpack_H (slice data1 22 24)); cbn [mbind res_bind]; try discriminate.
  destruct (unpack_H (slice data1 20 22)) as [attr_offset| |] eqn:Ea;
    cbn [mbind res_bind]; try discriminate.
  destruct (unpack_I (slice data1 24 28)) as [used_size| |];
    cbn [mbind res_bind]; try discriminate.
  destruct (_parse_attributes data1 _ attr_offset used_size) as [attrs| |] eqn:Eattrs;
    cbn [mbind res_bind]; try discriminate.
  intros [= <-]. exists data1, attr_offset, used_size.
  split; [exact Hlen1|]. split; [exact (unpack_u_nonneg _ _ _ Ea)|exact Eattrs].
Qed.

(** X6. [_parse_attribute] answers [None] for fewer than 16 bytes and never
    raises; otherwise it answers a dict that holds, under the keys type,
    length, non_resident, name_length, name_offset, flags and id, the
    fields of the attribute header, whatever the later parsing steps add.
    So every attribute of a parsed entry has the keys ['type'], ['length']
    and ['non_resident'] that [to_record] and the extractors index without
    a default. *)
Theorem X6_attribute_header_keys :
  (forall attr_type data,
     len data < 16 -> _parse_attribute attr_type data = Ok None)
  /\ (forall attr_type data,
        16 <= len data ->
        exists attr, _parse_attribute attr_type data = Ok (Some attr)
                     /\ has_header attr_type data attr)
  /\ (forall self entry,
        MFTEntry.attributes self = [] ->
        MFTEntry.parse self = Ok (true, entry) ->
        Forall (fun attr =>
                  exists ty l nr,
                    attr !! "type" = Some (VInt ty)
                    /\ attr !! "length" = Some (VInt l)
                    /\ 16 <= l <= len (MFTEntry.data self)
                    /\ attr !! "non_resident" = Some (VBool nr))
               (MFTEntry.attributes entry)).
Proof.
  split; [exact _parse_attribute_short|]. split; [exact _parse_attribute_header|].
  intros self entry Hnil Hp.
  destruct (parse_attributes_of self entry Hp) as (data1 & o & m & Hl & Ho & Ha).
  rewrite Hnil in Ha. rewrite <- Hl.
  unfold _parse_attributes in Ha.
  refine (attributes_loop_Forall _ data1 m _ _ o [] _ Ho (Forall_nil_2 _) Ha).
  intros ty d a Hd Hfit.
  destruct (_parse_attribute_Some ty d a Hd) as (H16 & Hty & Hlen & (b & _ & Hnr) & _).
  exists ty, (len d), (truthy (u8 b)). auto.
Qed.

(** X6 at an entry with two [$FILE_NAME] attributes. *)
Lemma X6_attribute_header_keys_witness :
  exists entry,
    MFTEntry.parse (MFTEntry.__init__ dos_then_posix_entry 0) = Ok (true, entry)
    /\ Forall (fun attr =>
                 exists ty l nr,
                   attr !! "type" = Some (VInt ty)
                   /\ attr !! "length" = Some (VInt l)
                   /\ 16 <= l <= len dos_then_posix_entry
                   /\ attr !! "non_resident" = Some (VBool nr))
              (MFTEntry.attributes entry).
Proof.
  destruct (parse_accepts (MFTEntry.__init__ dos_then_posix_entry 0))
    as (entry & Hp & _); [vm_compute; discriminate|reflexivity|].
  exists entry. split; [exact Hp|].
  exact (proj2 (proj2 X6_attribute_header_keys)
           (MFTEntry.__init__ dos_then_posix_entry 0) entry eq_refl Hp).
Defined.

(** ** What every decoded run list looks like *)

(** A run as [_parse_data_runs] makes them: the length is an unsigned field
    of at most 15 bytes, and a sparse run starts at cluster 0. *)
Definition decoded_run (run : DataRun) : Prop :=
  0 <= run_length run < 2 ^ 120
  /\ (sparse run = true -> start_cluster run = 0).

Lemma run_length_range data a L :
  0 <= a -> 0 <= L < 16 ->
  0 <= from_bytes_little (slice data a (a + L)) < 2 ^ 120.
Proof.
  intros Ha HL.
  pose proof (from_bytes_little_range (slice data a (a + L))) as [H0 H1].
  split; [exact H0|].
  eapply Z.lt_le_trans; [exact H1|].
  pose proof (len_slice_le data a (a + L) ltac:(lia)).
  pose proof (len_nonneg (slice data a (a + L))).
  rewrite pow256 by lia. apply Z.pow_le_mono_r; lia.
Qed.

Lemma data_runs_loop_decoded data (fuel : nat) : forall offset cur runs r,
  0 <= offset <= len data ->
  2 * len runs <= offset ->
  Forall decoded_run runs ->
  data_runs_loop fuel data offset cur runs = Ok r ->
  2 * len r <= len data /\ Forall decoded_run r.
Proof.
  induction fuel as [|fuel IH]; intros offset cur runs r Hoff Hcount Hall;
    [discriminate|].
  assert (Hdone : Ok runs = Ok r -> 2 * len r <= len data /\ Forall decoded_run r).
  { intros [= <-]. split; [lia|exact Hall]. }
  destruct (Z.ltb_spec offset (len data)) as [Hlt|Hge].
  2:{ rewrite data_runs_loop_S.
      destruct (Z.ltb_spec offset (len data)); [lia|]. exact Hdone. }
  destruct (data !! Z.to_nat offset) as [hb|] eqn:Hhb.
  2:{ apply lookup_ge_None in Hhb. unfold len in Hlt. lia. }
  destruct (Z.eq_dec (u8 hb) 0) as [Hz|Hnz].
  { rewrite data_runs_loop_S.
    destruct (Z.ltb_spec offset (len data)); [|lia]. cbn [negb].
    rewrite (index_Ok _ _ _ Hhb). cbn [fmap res_fmap mbind res_bind].
    rewrite Hz. exact Hdone. }
  destruct (Z.eq_dec (Z.land (u8 hb) 0x0F) 0) as [HL|HL].
  { rewrite data_runs_loop_S.
    destruct (Z.ltb_spec offset (len data)); [|lia]. cbn [negb].
    rewrite (index_Ok _ _ _ Hhb). cbn [fmap res_fmap mbind res_bind].
    destruct (Z.eqb_spec (u8 hb) 0); [contradiction|].
    cbv zeta. rewrite HL. exact Hdone. }
  destruct (Z_le_gt_dec
              (offset + 1 + Z.land (u8 hb) 0x0F + Z.land (Z.shiftr (u8 hb) 4) 0x0F)
              (len data)) as [Hfit|Hfit].
  2:{ rewrite data_runs_loop_S.
      destruct (Z.ltb_spec offset (len data)); [|lia]. cbn [negb].
      rewrite (index_Ok _ _ _ Hhb). cbn [fmap res_fmap mbind res_bind].
      destruct (Z.eqb_spec (u8 hb) 0); [contradiction|].
      cbv zeta.
      destruct (Z.eqb_spec (Z.land (u8 hb) 15) 0); [contradiction|].
      destruct (Z.gtb_spec
                  (offset + 1 + Z.land (u8 hb) 15 + Z.land (Z.shiftr (u8 hb) 4) 15)
                  (len data)); [|lia].
      exact Hdone. }
  rewrite (data_run_turn fuel data offset cur runs hb (proj1 Hoff) Hhb Hnz HL Hfit).
  pose proof (nibble_range (u8 hb)) as HLr.
  pose proof (nibble_range (Z.shiftr (u8 hb) 4)) as HOr.
  pose proof (run_length_range data (offset + 1) _ ltac:(lia) HLr) as Hrun.
  destruct (Z.land (Z.shiftr (u8 hb) 4) 15 =? 0); apply IH;
    try lia; try (rewrite len_app; unfold len at 2; cbn [length]; lia);
    (apply Forall_app; split; [exact Hall|]; constructor; [|constructor];
     split; cbn [run_length sparse start_cluster]; [exact Hrun|]; congruence).
Qed.

(** X7. [_parse_data_runs] returns on every input, and what it returns has
    at most one run for every two bytes of the input; no run has a negative
    length (the length is an unsigned field of at most 15 bytes), and every
    sparse run has the start cluster 0. *)
Theorem X7_decoded_runs (data : bytes) :
  exists runs,
    _parse_data_runs data = Ok runs
    /\ 2 * len runs <= len data
    /\ Forall (fun run => 0 <= run_length run < 2 ^ 120
                          /\ (sparse run = true -> start_cluster run = 0)) runs.
Proof.
  destruct (_parse_data_runs_total data) as [runs Hr]. exists runs.
  split; [exact Hr|].
  apply (data_runs_loop_decoded data (S (length data)) 0 0 [] runs); try exact Hr.
  - pose proof (len_nonneg data). lia.
  - reflexivity.
  - constructor.
Qed.

(** ** [MFTParser.iter_entries], slot by slot *)

Section slots.
Context `{PyDatetime}.
Variable entry_size : Z.

(** The [n]-th entry of the file, and the record [iter_entries] makes of it. *)
Definition slot (file : bytes) (n : Z) : bytes :=
  slice file (n * entry_size) ((n + 1) * entry_size).

Definition slot_record (file : bytes) (n : Z) : option MFTRecord.t :=
  match MFTEntry.parse (MFTEntry.__init__ (slot file n) n) with
  | Ok (true, entry) => MFTEntry.to_record entry
  | _ => None
  end.

Definition wanted (include_deleted : bool) (record : MFTRecord.t) : bool :=
  include_deleted || MFTRecord.in_use record.

Lemma iter_entries_loop_S fuel f entry_number include_deleted out :
  MFTParser.iter_entries_loop entry_size (S fuel) f entry_number include_deleted out =
      let '(data, f) := MFTParser.read entry_size f in
      if len data <? entry_size then Ok out else
      let entry := MFTEntry.__init__ data entry_number in
      r ← MFTEntry.parse entry;
      let '(parsed, entry) := (r : bool * MFTEntry.t) in
      let out :=
        if parsed then
          match MFTEntry.to_record entry with
          | Some record =>
              if include_deleted || MFTRecord.in_use record
              then out ++ [record] else out
          | None => out
          end
        else out in
      MFTParser.iter_entries_loop entry_size fuel f (entry_number + 1) include_deleted out.
Proof. reflexivity. Qed.

Lemma take_is_slot (pre f : bytes) (n : Z) :
  0 < entry_size -> 0 <= n -> len pre = n * entry_size ->
  take (Z.to_nat entry_size) f = slot (pre ++ f) n.
Proof.
  intros Hpos Hn Hpre. unfold slot, slice, len in *.
  rewrite drop_app_length' by lia. f_equal. lia.
Qed.

Lemma seqZ_cons_succ (n k : Z) : 0 < k -> seqZ n k = n :: seqZ (n + 1) (k - 1).
Proof.
  intros Hk. rewrite (seqZ_cons n k) by lia. reflexivity.
Qed.

Lemma iter_entries_loop_spec file include_deleted (fuel : nat) :
  0 < entry_size ->
  forall f n out pre,
    file = pre ++ f -> len pre = n * entry_size -> 0 <= n ->
    (length f < fuel)%nat ->
    MFTParser.iter_entries_loop entry_size fuel f n include_deleted out
    = Ok (out ++ List.filter (wanted include_deleted)
                   (omap (slot_record file) (seqZ n (len f `div` entry_size)))).
Proof.
  intros Hpos. induction fuel as [|fuel IH]; intros f n out pre Hfile Hpre Hn Hf; [lia|].
  rewrite iter_entries_loop_S. unfold MFTParser.read.
  destruct (Z.ltb_spec (len (take (Z.to_nat entry_size) f)) entry_size) as [Hshort|Hfull].
  - unfold len in Hshort. rewrite length_take in Hshort.
    rewrite Z.div_small by (unfold len; lia).
    cbn. rewrite app_nil_r. reflexivity.
  - unfold len in Hfull. rewrite length_take in Hfull.
    cbv zeta.
    rewrite (take_is_slot pre f n Hpos Hn Hpre), <- Hfile.
    assert (Hk : 0 < len f `div` entry_size).
    { apply Z.div_str_pos. unfold len. lia. }
    rewrite (seqZ_cons_succ n _ Hk). cbn [omap list_omap].
    unfold slot_record at 1.
    destruct (parse_total (MFTEntry.__init__ (slot file n) n)) as (parsed & entry & ->).
    cbn [mbind res_bind].
    assert (Hdiv : len (drop (Z.to_nat entry_size) f) `div` entry_size
                   = len f `div` entry_size - 1).
    { unfold len. rewrite length_drop.
      replace (Z.of_nat (length f - Z.to_nat entry_size))
        with (Z.of_nat (length f) + (-1) * entry_size) by lia.
      rewrite Z.div_add by lia. lia. }
    rewrite (IH (drop (Z.to_nat entry_size) f) (n + 1) _
               (pre ++ take (Z.to_nat entry_size) f)).
    + rewrite Hdiv.
      destruct parsed; [|reflexivity].
      destruct (MFTEntry.to_record entry) as [record|]; [|reflexivity].
      cbn [List.filter]. unfold wanted at 2.
      destruct (include_deleted || MFTRecord.in_use record); [|reflexivity].
      rewrite <- app_assoc. reflexivity.
    + rewrite <- app_assoc, take_drop. exact Hfile.
    + rewrite len_app. unfold len at 2. rewrite length_take. lia.
    + lia.
    + rewrite length_drop. lia.
Qed.

(** X8. For a positive entry size [iter_entries] returns on every file, and
    what it yields is, in order, the records of the entries 0, 1, ... that
    fit in the file whole: entry [n] is the bytes from [n * entry_size] on,
    it is numbered [n], it gives a record when [parse] accepts it, and the
    record is yielded when deleted entries are asked for or it is in use.
    Bytes left after the last whole entry are ignored. *)
Theorem X8_iter_entries_by_slot (file : bytes) (include_deleted : bool) :
  0 < entry_size ->
  MFTParser.iter_entries entry_size file include_deleted
  = Ok (List.filter (wanted include_deleted)
          (omap (slot_record file) (seqZ 0 (len file `div` entry_size)))).
Proof.
  intros Hpos. unfold MFTParser.iter_entries.
  rewrite (iter_entries_loop_spec file include_deleted _ Hpos file 0 [] []);
    [reflexivity|reflexivity|reflexivity|lia|lia].
Qed.
End slots.

(** X8 on [small_mft] with 1024-byte entries. *)
Lemma X8_iter_entries_by_slot_witness :
  MFTParser.iter_entries (H := ticks_datetime) 1024 small_mft false
  = Ok (List.filter (wanted false)
          (omap (slot_record (H := ticks_datetime) 1024 small_mft)
             (seqZ 0 (len small_mft `div` 1024)))).
Proof. apply X8_iter_entries_by_slot. lia. Defined.

(** ** The paths [iter_entries_with_paths] attaches *)

Section path_cache.
Context `{PyDatetime} `{PyRecursion}.
Variable entry_size : Z.

Lemma slot_record_number file n record :
  slot_record entry_size file n = Some record -> MFTRecord.entry_number record = n.
Proof.
  unfold slot_record.
  destruct (MFTEntry.parse _) as [[[|] entry]| |] eqn:Hp; try discriminate.
  destruct (parse_true_shape _ _ Hp) as [Hv Hn].
  unfold MFTEntry.to_record. rewrite Hv. cbn [negb]. intros [= <-].
  cbn [MFTRecord.entry_number]. exact Hn.
Qed.

(** What the first pass of [build_path_cache] has collected when it has seen
    the entries below [n]: the names and the parents of those that are in
    use, and the order in which they came. *)
Record collected (file : bytes) (n : Z)
    (parent_map : gmap Z Z) (name_map : gmap Z str) (name_order : list Z) : Prop := {
  collected_order : forall k, k ∈ name_order <-> is_Some (name_map !! k);
  collected_name : forall k name,
    name_map !! k = Some name
    <-> 0 <= k < n
        /\ exists record, slot_record entry_size file k = Some record
                          /\ MFTRecord.in_use record = true
                          /\ MFTRecord.filename record = name;
  collected_parent : forall k parent,
    parent_map !! k = Some parent
    <-> 0 <= k < n
        /\ exists record, slot_record entry_size file k = Some record
                          /\ MFTRecord.in_use record = true
                          /\ (parse_file_reference (MFTRecord.parent_ref record)).1 = parent
}.

Lemma collected_skip file n pm nm no :
  0 <= n ->
  (forall record, slot_record entry_size file n = Some record ->
                  MFTRecord.in_use record = false) ->
  collected file n pm nm no -> collected file (n + 1) pm nm no.
Proof.
  intros Hn Hnone [Ho Hname Hpar]. split; [exact Ho| |].
  - intros k name. rewrite Hname. split.
    + intros [Hk Hr]. split; [lia|exact Hr].
    + intros [Hk (r & Hs & Hu & Hf)]. split; [|eauto].
      destruct (decide (k = n)) as [->|]; [|lia].
      rewrite (Hnone r Hs) in Hu. discriminate.
  - intros k parent. rewrite Hpar. split.
    + intros [Hk Hr]. split; [lia|exact Hr].
    + intros [Hk (r & Hs & Hu & Hf)]. split; [|eauto].
      destruct (decide (k = n)) as [->|]; [|lia].
      rewrite (Hnone r Hs) in Hu. discriminate.
Qed.

Lemma collected_add file n pm nm no record :
  0 <= n ->
  slot_record entry_size file n = Some record ->
  MFTRecord.in_use record = true ->
  collected file n pm nm no ->
  collected file (n + 1)
    (<[n := (parse_file_reference (MFTRecord.parent_ref record)).1]> pm)
    (<[n := MFTRecord.filename record]> nm) (no ++ [n]).
Proof.
  intros Hn Hs Hu [Ho Hname Hpar]. split.
  - intros k. rewrite elem_of_app, list_elem_of_singleton, Ho.
    destruct (decide (k = n)) as [->|Hne].
    + rewrite lookup_insert_eq. split; [eauto|auto].
    + rewrite lookup_insert_ne by done. split; [intros [?|?]; [assumption|contradiction]|auto].
  - intros k name. destruct (decide (k = n)) as [->|Hne].
    + rewrite lookup_insert_eq. split.
      * intros [= <-]. split; [lia|eauto].
      * intros [_ (r & Hs' & _ & Hf)]. rewrite Hs in Hs'. injection Hs' as <-.
        rewrite Hf. reflexivity.
    + rewrite lookup_insert_ne by done. rewrite Hname.
      split; (intros [Hk Hr]; split; [lia|exact Hr]).
  - intros k parent. destruct (decide (k = n)) as [->|Hne].
    + rewrite lookup_insert_eq. split.
      * intros [= <-]. split; [lia|eauto].
      * intros [_ (r & Hs' & _ & Hf)]. rewrite Hs in Hs'. injection Hs' as <-.
        rewrite Hf. reflexivity.
    + rewrite lookup_insert_ne by done. rewrite Hpar.
      split; (intros [Hk Hr]; split; [lia|exact Hr]).
Qed.

Lemma first_pass_collected file (fuel : nat) :
  0 < entry_size ->
  forall f n pm nm no pre,
    file = pre ++ f -> len pre = n * entry_size -> 0 <= n ->
    (length f < fuel)%nat ->
    collected file n pm nm no ->
    exists pm' nm' no',
      MFTParser.first_pass entry_size fuel f n pm nm no = Ok (pm', nm', no')
      /\ collected file (n + len f `div` entry_size) pm' nm' no'.
Proof.
  intros Hpos. induction fuel as [|fuel IH];
    intros f n pm nm no pre Hfile Hpre Hn Hf Hc; [lia|].
  rewrite first_pass_S. unfold MFTParser.read.
  destruct (Z.ltb_spec (len (take (Z.to_nat entry_size) f)) entry_size) as [Hshort|Hfull].
  - unfold len in Hshort. rewrite length_take in Hshort.
    rewrite Z.div_small by (unfold len; lia). rewrite Z.add_0_r. eauto.
  - unfold len in Hfull. rewrite length_take in Hfull. cbv zeta.
    rewrite (take_is_slot entry_size pre f n Hpos Hn Hpre), <- Hfile.
    assert (Hdiv : n + len f `div` entry_size
                   = n + 1 + len (drop (Z.to_nat entry_size) f) `div` entry_size).
    { unfold len. rewrite length_drop.
      replace (Z.of_nat (length f - Z.to_nat entry_size))
        with (Z.of_nat (length f) + (-1) * entry_size) by lia.
      rewrite Z.div_add by lia. lia. }
    rewrite Hdiv.
    assert (Hnext : forall pm1 nm1 no1,
              collected file (n + 1) pm1 nm1 no1 ->
              exists pm' nm' no',
                MFTParser.first_pass entry_size fuel (drop (Z.to_nat entry_size) f)
                  (n + 1) pm1 nm1 no1 = Ok (pm', nm', no')
                /\ collected file
                     (n + 1 + len (drop (Z.to_nat entry_size) f) `div` entry_size)
                     pm' nm' no').
    { intros pm1 nm1 no1 Hc1.
      apply (IH _ _ _ _ _ (pre ++ take (Z.to_nat entry_size) f)).
      - rewrite <- app_assoc, take_drop. exact Hfile.
      - rewrite len_app. unfold len at 2. rewrite length_take. lia.
      - lia.
      - rewrite length_drop. lia.
      - exact Hc1. }
    pose proof (eq_refl (slot_record entry_size file n)) as Hs.
    unfold slot_record at 2 in Hs.
    destruct (parse_total (MFTEntry.__init__ (slot entry_size file n) n))
      as (parsed & entry & Hp).
    rewrite Hp in Hs |- *. cbn [mbind res_bind].
    destruct parsed.
    2:{ apply Hnext, collected_skip; [lia| |exact Hc].
        intros r. rewrite Hs. discriminate. }
    destruct (MFTEntry.to_record entry) as [record|].
    2:{ apply Hnext, collected_skip; [lia| |exact Hc].
        intros r. rewrite Hs. discriminate. }
    destruct (MFTRecord.in_use record) eqn:Hu.
    2:{ apply Hnext, collected_skip; [lia| |exact Hc].
        intros r. rewrite Hs. intros [= <-]. exact Hu. }
    destruct (parse_file_reference (MFTRecord.parent_ref record)) as [parent s] eqn:Hr.
    apply Hnext.
    replace parent with (parse_file_reference (MFTRecord.parent_ref record)).1
      by (rewrite Hr; reflexivity).
    apply collected_add; [lia|exact Hs|exact Hu|exact Hc].
Qed.

(** What a cached path looks like for the entry [k] of the two maps: the
    root is a backslash; any other path ends with a backslash and the name
    of the entry, after nothing or after a path that begins with a
    backslash, and it is the backslash and the name alone when the parent
    is the root, the entry itself or an entry without a name. *)
Definition entry_path_ok (name_map : gmap Z str) (parent_map : gmap Z Z)
    (k : Z) (p : str) : Prop :=
  exists name,
    name_map !! k = Some name
    /\ (k = 5 -> p = lit "\")
    /\ (k <> 5 ->
        (exists pre, p = pre ++ lit "\" ++ name /\ (pre = [] \/ head pre = Some 92))
        /\ (default 0 (parent_map !! k) = 5 \/ default 0 (parent_map !! k) = k
            \/ name_map !! default 0 (parent_map !! k) = None ->
            p = lit "\" ++ name)).

Definition cache_ok (name_map : gmap Z str) (parent_map : gmap Z Z)
    (c : gmap Z str) : Prop :=
  forall k p, c !! k = Some p -> entry_path_ok name_map parent_map k p.

Lemma entry_path_ok_head name_map parent_map k p :
  entry_path_ok name_map parent_map k p -> head p = Some 92.
Proof.
  intros (name & _ & Hroot & Hother).
  destruct (decide (k = 5)) as [Hk|Hk]; [rewrite (Hroot Hk); reflexivity|].
  destruct (Hother Hk) as [(pre & -> & [->|Hpre]) _]; [reflexivity|].
  destruct pre; [discriminate|exact Hpre].
Qed.

Lemma cache_ok_insert name_map parent_map c k p :
  cache_ok name_map parent_map c -> entry_path_ok name_map parent_map k p ->
  cache_ok name_map parent_map (<[k := p]> c).
Proof.
  intros Hc Hp k' p' Hl. destruct (decide (k = k')) as [->|Hne].
  - rewrite lookup_insert_eq in Hl. injection Hl as <-. exact Hp.
  - rewrite lookup_insert_ne in Hl by done. eauto.
Qed.

Lemma get_path_ok name_map parent_map (fuel : nat) :
  forall entry_num (visited : gset Z) c p c',
    cache_ok name_map parent_map c ->
    MFTParser.get_path fuel name_map parent_map entry_num visited c = Ok (p, c') ->
    cache_ok name_map parent_map c'
    /\ (forall k q, c !! k = Some q -> c' !! k = Some q)
    /\ (forall k, k ∈ visited -> c' !! k = c !! k)
    /\ (p = [] \/ head p = Some 92)
    /\ (is_Some (name_map !! entry_num) -> entry_num ∉ visited ->
        c' !! entry_num = Some p)
    /\ (name_map !! entry_num = None -> p = []).
Proof.
  induction fuel as [|fuel IH]; intros entry_num visited c p c' Hc Hg; [discriminate|].
  rewrite get_path_S in Hg.
  destruct (c !! entry_num) as [p0|] eqn:Hl.
  { injection Hg as <- <-. repeat split; auto.
    - right. exact (entry_path_ok_head _ _ _ _ (Hc _ _ Hl)).
    - intros Hnone. destruct (Hc _ _ Hl) as (name & Hname & _).
      unfold str in *. congruence. }
  destruct (name_map !! entry_num) as [name|] eqn:Hname.
  2:{ injection Hg as <- <-. repeat split; auto. intros [? ?]. discriminate. }
  destruct (bool_decide (entry_num ∈ visited)) eqn:Hv.
  { injection Hg as <- <-. apply bool_decide_eq_true in Hv.
    repeat split; auto. intros _ Hn. contradiction. }
  apply bool_decide_eq_false in Hv. cbv zeta in Hg.
  assert (Hfinish : forall path c1,
            cache_ok name_map parent_map c1 ->
            (forall k q, c !! k = Some q -> c1 !! k = Some q) ->
            (forall k, k ∈ visited -> c1 !! k = c !! k) ->
            entry_path_ok name_map parent_map entry_num path ->
            cache_ok name_map parent_map (<[entry_num := path]> c1)
            /\ (forall k q, c !! k = Some q -> <[entry_num := path]> c1 !! k = Some q)
            /\ (forall k, k ∈ visited -> <[entry_num := path]> c1 !! k = c !! k)
            /\ (path = [] \/ head path = Some 92)
            /\ (is_Some (Some name) -> entry_num ∉ visited ->
                <[entry_num := path]> c1 !! entry_num = Some path)
            /\ (Some name = None -> path = [])).
  { intros path c1 Hc1 Hsub Hvis Hok. split; [apply cache_ok_insert; assumption|].
    split.
    { intros k q Hk. rewrite lookup_insert_ne; [auto|].
      intros <-. rewrite Hl in Hk. discriminate. }
    split.
    { intros k Hk. rewrite lookup_insert_ne; [auto|]. intros <-. contradiction. }
    split; [right; exact (entry_path_ok_head _ _ _ _ Hok)|].
    split; [|discriminate].
    intros _ _. apply lookup_insert_eq. }
  destruct (Z.eqb_spec entry_num 5) as [H5|H5].
  { cbn [mbind res_bind] in Hg. injection Hg as <- <-.
    apply Hfinish; auto.
    exists name. split; [exact Hname|]. split; [reflexivity|contradiction]. }
  destruct ((default 0 (parent_map !! entry_num) =? 5)
            || (default 0 (parent_map !! entry_num) =? entry_num)) eqn:Hpar.
  { cbn [mbind res_bind] in Hg. injection Hg as <- <-.
    apply Hfinish; auto.
    exists name. split; [exact Hname|]. split; [contradiction|]. intros _.
    split; [exists []; auto|reflexivity]. }
  destruct (MFTParser.get_path fuel name_map parent_map
              (default 0 (parent_map !! entry_num))
              ({[entry_num]} ∪ visited) c) as [[pp c1]| |] eqn:E;
    cbn [mbind res_bind] in Hg; try discriminate.
  destruct (IH _ _ _ _ _ Hc E) as (Hc1 & Hsub & Hvis & Hpp & _ & Hnone).
  injection Hg as <- <-.
  apply Hfinish; auto.
  { intros k Hk. apply Hvis. apply elem_of_union. right. exact Hk. }
  exists name. split; [exact Hname|]. split; [contradiction|]. intros _.
  split.
  - destruct pp as [|x pp]; [exists []; auto|].
    exists (x :: pp). split; [reflexivity|].
    destruct Hpp as [Hpp|Hpp]; [discriminate|auto].
  - intros Hp. apply orb_false_iff in Hpar as [Hp5 Hpe].
    apply Z.eqb_neq in Hp5, Hpe.
    destruct Hp as [Hp|[Hp|Hp]]; [contradiction|contradiction|].
    rewrite (Hnone Hp). reflexivity.
Qed.

Lemma get_path_all_ok name_map parent_map (name_order : list Z) :
  forall c c',
    cache_ok name_map parent_map c ->
    MFTParser.get_path_all name_map parent_map name_order c = Ok c' ->
    cache_ok name_map parent_map c'
    /\ (forall k q, c !! k = Some q -> c' !! k = Some q)
    /\ (forall k, k ∈ name_order -> is_Some (name_map !! k) -> is_Some (c' !! k)).
Proof.
  induction name_order as [|entry_num rest IH]; intros c c' Hc Hg.
  - injection Hg as <-. repeat split; auto. intros k Hk. inversion Hk.
  - cbn [MFTParser.get_path_all] in Hg.
    destruct (MFTParser.get_path _ _ _ entry_num ∅ c) as [[p c1]| |] eqn:E;
      cbn [mbind res_bind] in Hg; try discriminate.
    destruct (get_path_ok _ _ _ _ _ _ _ _ Hc E) as (Hc1 & Hsub1 & _ & _ & Hin & _).
    destruct (IH _ _ Hc1 Hg) as (Hc' & Hsub & Hall).
    split; [exact Hc'|]. split; [auto|].
    intros k Hk Hn. apply elem_of_cons in Hk as [->|Hk]; [|auto].
    exists p. apply Hsub, Hin; [exact Hn|]. apply not_elem_of_empty.
Qed.
End path_cache.

(** The path a record of [iter_entries_with_paths] carries; [named k] says
    that the entry [k] of the file gave a record that is in use. *)
Definition path_of_record (named : Z -> Prop) (record : MFTRecord.t) : Prop :=
  if MFTRecord.in_use record then
    (MFTRecord.entry_number record = 5 -> MFTRecord.full_path record = lit "\")
    /\ (MFTRecord.entry_number record <> 5 ->
        (exists pre,
           MFTRecord.full_path record = pre ++ lit "\" ++ MFTRecord.filename record
           /\ (pre = [] \/ head pre = Some 92))
        /\ ((parse_file_reference (MFTRecord.parent_ref record)).1 = 5
            \/ (parse_file_reference (MFTRecord.parent_ref record)).1
               = MFTRecord.entry_number record
            \/ ~ named (parse_file_reference (MFTRecord.parent_ref record)).1 ->
            MFTRecord.full_path record = lit "\" ++ MFTRecord.filename record))
  else MFTRecord.full_path record = [].

Section paths_of_records.
Context `{PyDatetime} `{PyRecursion}.
Variable entry_size : Z.

(** The entry [k] of the file is whole and gives a record that is in use. *)
Definition in_use_entry (file : bytes) (k : Z) : Prop :=
  0 <= k < len file `div` entry_size
  /\ exists record, slot_record entry_size file k = Some record
                    /\ MFTRecord.in_use record = true.

Lemma slot_record_no_path file n record :
  slot_record entry_size file n = Some record ->
  MFTRecord.set_full_path record [] = record.
Proof.
  unfold slot_record.
  destruct (MFTEntry.parse _) as [[[|] entry]| |]; try discriminate.
  unfold MFTEntry.to_record. destruct (negb _); [discriminate|].
  intros [= <-]. reflexivity.
Qed.

Lemma collected_nothing file : collected entry_size file 0 ∅ ∅ [].
Proof.
  split.
  - intros k. split; [intros Hk; inversion Hk|].
    rewrite lookup_empty. intros [? ?]. discriminate.
  - intros k name. rewrite lookup_empty. split; [discriminate|lia].
  - intros k parent. rewrite lookup_empty. split; [discriminate|lia].
Qed.

(** X9. For a positive entry size, [iter_entries_with_paths] of a fresh
    parser returns on every file that holds fewer entries than the
    interpreter allows nested calls of [get_path]. Whenever it returns, its
    records are those of [iter_entries] with a path put in. A record that is
    not in use has the empty path. A record that is in use has a path: the
    root (entry 5) has a single backslash; every other one has a path that
    ends with a backslash and its own file name, after nothing or after a
    path that begins with a backslash, and that is the backslash and the
    name alone when its parent is the root, the entry itself, or no entry of
    the file that is in use (a deleted or missing parent puts the record
    right under the root). *)
Theorem X9_paths_of_records (file : bytes) (include_deleted : bool) :
  0 < entry_size ->
  (len file `div` entry_size < Z.of_nat call_depth ->
   exists records,
     MFTParser.iter_entries_with_paths entry_size file include_deleted = Ok records)
  /\ (forall records,
        MFTParser.iter_entries_with_paths entry_size file include_deleted = Ok records ->
        Forall (path_of_record (in_use_entry file)) records
        /\ map (fun record => MFTRecord.set_full_path record []) records
           = List.filter (wanted include_deleted)
               (omap (slot_record entry_size file)
                  (seqZ 0 (len file `div` entry_size)))).
Proof.
  intros Hpos. unfold MFTParser.iter_entries_with_paths, MFTParser.build_path_cache.
  destruct (first_pass_collected entry_size file (S (length file)) Hpos
              file 0 ∅ ∅ [] [] eq_refl eq_refl ltac:(lia) ltac:(lia)
              (collected_nothing file))
    as (pm & nm & no & E & [Horder Hname Hparent]).
  pose proof (first_pass_size _ _ Hpos _ _ _ _ _ _ _ _ E) as Hsize.
  rewrite map_size_empty in Hsize.
  rewrite E. cbn [mbind res_bind]. clear E.
  unfold MFTParser.iter_entries.
  rewrite (iter_entries_loop_spec entry_size file include_deleted _ Hpos file 0 [] []);
    [|reflexivity|reflexivity|lia|lia].
  split.
  { intros Hd. destruct (get_path_all_total nm pm no ∅) as [cache ->]; [lia|].
    cbn [mbind res_bind]. eexists. reflexivity. }
  intros records.
  destruct (MFTParser.get_path_all nm pm no ∅) as [cache| |] eqn:Hg;
    cbn [mbind res_bind]; try discriminate.
  destruct (get_path_all_ok nm pm no ∅ cache) as (Hok & _ & Hall); [|exact Hg|].
  { intros k p Hl. rewrite lookup_empty in Hl. discriminate. }
  cbn [app]. intros [= <-].
  set (rs := List.filter _ _).
  assert (Hrs : Forall (fun record =>
                   exists k, 0 <= k < 0 + len file `div` entry_size
                             /\ slot_record entry_size file k = Some record) rs).
  { apply Forall_forall. intros record Hin. unfold rs in Hin.
    apply list_elem_of_In, filter_In in Hin as [Hin _].
    apply list_elem_of_In, list_elem_of_omap in Hin as (k & Hk & Hs).
    apply elem_of_seqZ in Hk. exists k. split; [lia|exact Hs]. }
  clearbody rs. split.
  - rewrite Forall_map. eapply Forall_impl; [exact Hrs|].
    intros record (k & Hk & Hs). cbn beta.
    rewrite (slot_record_number entry_size file k record Hs).
    unfold path_of_record.
    destruct record as [en sq fl iu isd sc sm smm sa sf fname pref fc fm fmm fa ff fas frs ds ir fp].
    cbn [MFTRecord.set_full_path MFTRecord.in_use MFTRecord.entry_number
         MFTRecord.full_path MFTRecord.filename MFTRecord.parent_ref].
    pose proof (slot_record_number entry_size file k _ Hs) as Hen.
    cbn [MFTRecord.entry_number] in Hen. subst en.
    destruct iu.
    + assert (Hn : nm !! k = Some fname).
      { apply Hname. split; [exact Hk|]. eexists. split; [exact Hs|]. split; reflexivity. }
      assert (Hp : pm !! k = Some (parse_file_reference pref).1).
      { apply Hparent. split; [exact Hk|]. eexists. split; [exact Hs|]. split; reflexivity. }
      destruct (Hall k) as [p Hc]; [apply Horder; eauto|eauto|].
      unfold str in *. rewrite Hc. cbn [default from_option id].
      destruct (Hok k p Hc) as (name & Hn' & Hroot & Hother).
      unfold str in *. rewrite Hn in Hn'. injection Hn' as <-.
      rewrite Hp in Hother. cbn [default from_option id] in Hother.
      split; [exact Hroot|]. intros H5. destruct (Hother H5) as [Hpre Hshort].
      split; [exact Hpre|]. intros [Hq|[Hq|Hq]]; apply Hshort; auto.
      right. right. destruct (nm !! (parse_file_reference pref).1) as [pname|] eqn:Hpn;
        [|reflexivity].
      exfalso. apply Hq. apply Hname in Hpn as [Hr (r & Hs' & Hu & _)].
      split; [lia|eauto].
    + destruct (cache !! k) as [p|] eqn:Hc; [|reflexivity]. exfalso.
      destruct (Hok k p Hc) as (name & Hn & _).
      apply Hname in Hn as [_ (r & Hs' & Hu & _)].
      rewrite Hs in Hs'. injection Hs' as <-. discriminate.
  - rewrite map_map. rewrite <- (map_id rs) at 2. apply map_ext_Forall.
    eapply Forall_impl; [exact Hrs|]. intros record (k & _ & Hs).
    cbn beta. etrans; [|exact (slot_record_no_path file k record Hs)].
    destruct record; reflexivity.
Qed.
End paths_of_records.

(** X9 on [small_mft], which has a root, a child of a child, two entries
    that point at each other and one that points at itself. *)
Lemma X9_paths_of_records_witness :
  exists records,
    MFTParser.iter_entries_with_paths (H := ticks_datetime)
      (H0 := python_recursion) 1024 small_mft true
    = Ok records
    /\ Forall (path_of_record (in_use_entry (H := ticks_datetime) 1024 small_mft))
         records
    /\ map (fun record => MFTRecord.set_full_path record []) records
       = List.filter (wanted true)
           (omap (slot_record (H := ticks_datetime) 1024 small_mft)
              (seqZ 0 (len small_mft `div` 1024))).
Proof.
  destruct (X9_paths_of_records (H := ticks_datetime) (H0 := python_recursion)
              1024 small_mft true ltac:(lia)) as [Hreturns Hrecords].
  destruct (Hreturns ltac:(vm_compute; reflexivity)) as [records E].
  exists records. split; [exact E|exact (Hrecords records E)].
Defined.

(** ** [UsnJrnlParser._parse_record]: which records it accepts *)

Section usn_records.
Context `{PyDatetime}.

Lemma _parse_v2_record_Some data rl major minor :
  60 <= len data ->
  exists r, _parse_v2_record data rl major minor = Ok (Some r)
            /\ UsnRecord.record_length r = rl
            /\ UsnRecord.major_version r = major
            /\ UsnRecord.minor_version r = minor.
Proof.
  intros Hlen. unfold _parse_v2_record, MIN_RECORD_SIZE_V2.
  destruct (Z.ltb_spec (len data) 60); [lia|].
  unpack_ok. cbn. eexists. split; [reflexivity|]. repeat split.
Qed.

Lemma _parse_v3_record_Some data rl major minor :
  76 <= len data ->
  exists r, _parse_v3_record data rl major minor = Ok (Some r)
            /\ UsnRecord.record_length r = rl
            /\ UsnRecord.major_version r = major
            /\ UsnRecord.minor_version r = minor.
Proof.
  intros Hlen. unfold _parse_v3_record, MIN_RECORD_SIZE_V3.
  destruct (Z.ltb_spec (len data) 76); [lia|].
  unpack_ok. cbn. eexists. split; [reflexivity|]. repeat split.
Qed.

Lemma _parse_v3_record_short data rl major minor :
  len data < 76 -> _parse_v3_record data rl major minor = Ok None.
Proof.
  intros Hlen. unfold _parse_v3_record, MIN_RECORD_SIZE_V3.
  destruct (Z.ltb_spec (len data) 76); [reflexivity|lia].
Qed.

(** The record [_parse_record] makes of [data] starts with the three header
    fields as they stand in the data. *)
Definition header_of (data : bytes) (o : option UsnRecord.t) : Prop :=
  match o with
  | Some r =>
      UsnRecord.record_length r = from_bytes_little (slice data 0 4)
      /\ UsnRecord.major_version r = from_bytes_little (slice data 4 6)
      /\ UsnRecord.minor_version r = from_bytes_little (slice data 6 8)
  | None => True
  end.

(** X10. [_parse_record] never raises. It makes a record exactly of the data
    of at least 60 bytes whose major version is 2, and of the data of at
    least 76 bytes whose major version is 3 or 4; everything else (shorter
    data, any other version) gives [None]. The record it makes carries the
    record length and the two version numbers of the header. *)
Theorem X10_parse_record_accepts_exactly (data : bytes) :
  let major := from_bytes_little (slice data 4 6) in
  exists o,
    _parse_record data = Ok o
    /\ (is_Some o <-> 60 <= len data
                      /\ (major = 2 \/ ((major = 3 \/ major = 4) /\ 76 <= len data)))
    /\ header_of data o.
Proof.
  cbv zeta. unfold _parse_record, _parse_v4_record, MIN_RECORD_SIZE_V2.
  destruct (Z.ltb_spec (len data) 60) as [Hshort|Hlen].
  { exists None. split; [reflexivity|]. split; [|exact I].
    split; [intros [? ?]; discriminate|lia]. }
  unpack_ok. cbn [mbind res_bind].
  set (major := from_bytes_little (slice data 4 6)).
  destruct (Z.eqb_spec major 2) as [H2|H2].
  { destruct (_parse_v2_record_Some data (from_bytes_little (slice data 0 4)) major
                (from_bytes_little (slice data 6 8)) Hlen) as (r & -> & Hl & Hma & Hmi).
    exists (Some r). split; [reflexivity|]. split; [|cbn; auto].
    split; [intros _; split; [lia|auto]|eauto]. }
  assert (Hv3 : major = 3 \/ major = 4 ->
            exists o,
              _parse_v3_record data (from_bytes_little (slice data 0 4)) major
                (from_bytes_little (slice data 6 8)) = Ok o
              /\ (is_Some o <-> 60 <= len data
                   /\ (major = 2 \/ (major = 3 \/ major = 4) /\ 76 <= len data))
              /\ header_of data o).
  { intros H34. destruct (Z_lt_ge_dec (len data) 76) as [Hlt|Hge].
    - rewrite _parse_v3_record_short by exact Hlt. exists None.
      split; [reflexivity|]. split; [|exact I].
      split; [intros [? ?]; discriminate|lia].
    - destruct (_parse_v3_record_Some data (from_bytes_little (slice data 0 4)) major
                  (from_bytes_little (slice data 6 8)) ltac:(lia))
        as (r & -> & Hl & Hma & Hmi).
      exists (Some r). split; [reflexivity|]. split; [|cbn; auto].
      split; [intros _; split; [lia|right; split; [exact H34|lia]]|eauto]. }
  destruct (Z.eqb_spec major 3) as [H3|H3]; [apply Hv3; auto|].
  destruct (Z.eqb_spec major 4) as [H4|H4]; [apply Hv3; auto|].
  exists None. split; [reflexivity|]. split; [|exact I].
  split; [intros [? ?]; discriminate|lia].
Qed.
End usn_records.

(** ** The books [iter_records] keeps *)

Section usn_books.
Context `{PyDatetime}.

(** How one turn of the inner loop can end, on a buffer of 60 bytes or more:
    the scanner moved on without a record, it waits for the rest of a
    record, or it yielded a record and moved past it. *)
Inductive body_outcome (s : state) : flow -> Prop :=
| Moved m n dropped rest :
    buffer s = dropped ++ rest -> len dropped = n -> 0 <= n ->
    body_outcome s (Continue (advance s m n rest))
| Waiting :
    len (buffer s) < from_bytes_little (slice (buffer s) 0 4) <= 65536 ->
    body_outcome s (Break s)
| Yielded r n dropped rest :
    buffer s = dropped ++ rest -> len dropped = n -> 60 <= n <= 65536 ->
    _parse_record (slice (buffer s) 0 n) = Ok (Some r) ->
    UsnRecord.record_length r = n ->
    body_outcome s (Continue (advance (yield s r) (Consumed n) n rest)).

Lemma inner_body_outcome skip s :
  60 <= len (buffer s) ->
  exists fl, inner_body skip s = Ok fl /\ body_outcome s fl.
Proof.
  intros Hlen. unfold inner_body, MIN_RECORD_SIZE_V2.
  destruct (skip && bool_decide (slice (buffer s) 0 8 = zeros8)) eqn:Hz.
  - apply andb_true_iff in Hz as [_ Hz]. apply bool_decide_eq_true in Hz.
    pose proof (zero_end_bounds _ Hz Hlen) as Hb. cbv zeta in Hb |- *.
    destruct (Z.gtb_spec (find_zero_end (buffer s) `div` 8 * 8) 0); [|lia].
    destruct (slice_from_split (buffer s) (find_zero_end (buffer s) `div` 8 * 8)
                ltac:(lia)) as [Hs Hl].
    eexists. split; [reflexivity|]. eapply Moved; [exact Hs|exact Hl|lia].
  - unpack_ok. cbn [mbind res_bind].
    set (record_length := from_bytes_little (slice (buffer s) 0 4)).
    destruct ((record_length <? 60) || (record_length >? 65536)) eqn:Hbad.
    + destruct (resync_search_spec (buffer s) (range 8 (len (buffer s) - 8) 8))
        as [->|(i & -> & Hi)].
      { apply Forall_forall. intros i Hi. apply elem_of_range in Hi; lia. }
      * cbn [mbind res_bind].
        destruct (slice_last_split (buffer s) 60 ltac:(lia)) as [Hs Hl].
        eexists. split; [reflexivity|]. eapply Moved; [exact Hs|exact Hl|lia].
      * cbn [mbind res_bind]. apply elem_of_range in Hi; [|lia].
        destruct (slice_from_split (buffer s) i ltac:(lia)) as [Hs Hl].
        eexists. split; [reflexivity|]. eapply Moved; [exact Hs|exact Hl|lia].
    + apply orb_false_iff in Hbad as [Hlo Hhi].
      apply Z.ltb_ge in Hlo.
      assert (Hup : record_length <= 65536).
      { destruct (Z.gtb_spec record_length 65536); [discriminate|lia]. }
      destruct (Z.ltb_spec (len (buffer s)) record_length) as [Hwait|Hfit].
      { eexists. split; [reflexivity|]. apply Waiting. fold record_length. lia. }
      destruct (_parse_record_total (slice (buffer s) 0 record_length)) as [o Ho].
      rewrite Ho. cbn [mbind res_bind].
      destruct (slice_from_split (buffer s) record_length ltac:(lia)) as [Hs Hl].
      destruct o as [r|]; (eexists; split; [reflexivity|]).
      * eapply Yielded; [exact Hs|exact Hl|lia|exact Ho|].
        rewrite (_parse_record_length _ _ Ho), slice_slice_0 by lia. reflexivity.
      * eapply Moved; [exact Hs|exact Hl|lia].
Qed.

(** Two records of the file, the first one ending before the second starts. *)
Definition before (y1 y2 : Z * UsnRecord.t) : Prop :=
  y1.1 + UsnRecord.record_length y1.2 <= y2.1.

(** The books of the scanner, with [f] the part of the file not yet read:
    the counter counts the yielded records, [processed_bytes] is the file
    position of the buffer, and the yielded records lie one after the other
    in the part of the file that was processed. *)
Record books (file f : bytes) (s : state) : Prop := {
  books_position :
    exists pre, file = pre ++ buffer s ++ f /\ len pre = processed_bytes s;
  books_count : total_records s = len (yielded s);
  books_order : StronglySorted before (yielded s);
  books_done :
    Forall (fun y => 0 <= y.1
                     /\ 60 <= UsnRecord.record_length y.2 <= 65536
                     /\ y.1 + UsnRecord.record_length y.2 <= processed_bytes s)
           (yielded s)
}.

(** What the scanner leaves in the buffer when the inner loop ends: fewer
    than 60 bytes, or the start of a record that is not there in full. *)
Definition leftover (s : state) : Prop :=
  len (buffer s) < 60
  \/ len (buffer s) < from_bytes_little (slice (buffer s) 0 4) <= 65536.

Lemma StronglySorted_snoc {A} (R : A -> A -> Prop) (l : list A) (x : A) :
  StronglySorted R l -> Forall (fun y => R y x) l -> StronglySorted R (l ++ [x]).
Proof.
  induction 1 as [|y l Hl IH Hy]; intros Hall; cbn.
  - repeat constructor.
  - inversion Hall as [|? ? Hyx Hrest]; subst. constructor; [auto|].
    apply Forall_app. split; [exact Hy|]. constructor; [exact Hyx|constructor].
Qed.

Lemma books_outcome file f s fl :
  books file f s -> body_outcome s fl ->
  match fl with
  | Continue s' => books file f s'
  | Break s' => books file f s' /\ leftover s'
  end.
Proof.
  intros [(pre & Hfile & Hpre) Hcount Horder Hdone] Hout.
  destruct Hout as [m n dropped rest Hb Hn Hpos|Hwait|r n dropped rest Hb Hn Hr Hp Hrl].
  - split; cbn.
    + exists (pre ++ dropped). rewrite Hfile, Hb, len_app, <- !app_assoc.
      split; [reflexivity|lia].
    + exact Hcount.
    + exact Horder.
    + eapply Forall_impl; [exact Hdone|]. cbn. intros y Hy. lia.
  - split; [split; eauto|]. right. exact Hwait.
  - assert (Hp0 : 0 <= processed_bytes s).
    { rewrite <- Hpre. apply len_nonneg. }
    split; cbn.
    + exists (pre ++ dropped). rewrite Hfile, Hb, len_app, <- !app_assoc.
      split; [reflexivity|lia].
    + rewrite len_app, Hcount. reflexivity.
    + apply StronglySorted_snoc; [exact Horder|].
      eapply Forall_impl; [exact Hdone|]. unfold before. cbn. intros y Hy. lia.
    + apply Forall_app. split.
      * eapply Forall_impl; [exact Hdone|]. cbn. intros y Hy. lia.
      * constructor; [|constructor]. cbn. lia.
Qed.

Lemma books_extend file chunk f s :
  books file (chunk ++ f) s -> books file f (extend s chunk).
Proof.
  intros [(pre & Hfile & Hpre) Hcount Horder Hdone]. split; cbn; auto.
  exists pre. rewrite <- app_assoc. auto.
Qed.

Lemma inner_loop_books skip file f (fuel : nat) : forall s,
  books file f s ->
  match inner_loop fuel skip s with
  | Finished s' => books file f s' /\ leftover s'
  | Unfinished s' => books file f s'
  | Raised _ => False
  end.
Proof.
  induction fuel as [|fuel IH]; intros s Hb; [exact Hb|].
  cbn [inner_loop]. unfold MIN_RECORD_SIZE_V2.
  destruct (Z.geb_spec (len (buffer s)) 60) as [Hlen|Hshort].
  2:{ split; [exact Hb|]. left. lia. }
  destruct (inner_body_outcome skip s ltac:(lia)) as (fl & -> & Hout).
  pose proof (books_outcome file f s fl Hb Hout) as Hnext.
  destruct fl as [s'|s']; [apply IH; exact Hnext|exact Hnext].
Qed.

Lemma outer_loop_books skip file (fuel : nat) : forall f s,
  books file f s -> leftover s ->
  match outer_loop fuel skip f s with
  | Finished s' => books file [] s' /\ leftover s'
  | Unfinished s' => exists f', books file f' s'
  | Raised _ => False
  end.
Proof.
  induction fuel as [|fuel IH]; intros f s Hb Hleft; [exists f; exact Hb|].
  cbn [outer_loop]. unfold read. cbv beta iota.
  match goal with |- context [bool_decide ?P] => destruct (bool_decide P) eqn:Hc end.
  - apply bool_decide_eq_true in Hc.
    assert (f = []) as ->.
    { destruct f; [reflexivity|]. revert Hc. unfold BUFFER_SIZE.
      destruct (Z.to_nat (1024 * 1024)) eqn:E; [lia|]. discriminate. }
    split; assumption.
  - assert (Hext : books file (drop (Z.to_nat BUFFER_SIZE) f)
                     (extend s (take (Z.to_nat BUFFER_SIZE) f))).
    { apply books_extend. rewrite take_drop. exact Hb. }
    pose proof (inner_loop_books skip file _ fuel _ Hext) as Hin.
    destruct (inner_loop fuel skip _) as [s'|s'|e]; [|eauto|contradiction].
    destruct Hin as [Hb' Hl']. apply IH; assumption.
Qed.

(** X11. At every point of a run of [iter_records], and whatever the
    stream: [total_records] is the number of records yielded; the yielded
    records lie in the file one after the other without overlap, each 60 to
    65536 bytes long, and all of them before [processed_bytes]; and
    [processed_bytes] plus the buffer never goes past the end of the file
    (so [progress] stays at most 1). When the run ends, [processed_bytes]
    plus the buffer is the whole file, and the buffer holds fewer than 60
    bytes or the start of a record of which the file has not all the
    bytes. The run never raises. *)
Theorem X11_iter_records_books (fuel : nat) (file : bytes) (skip_zeros : bool) :
  let kept (s : state) :=
    total_records s = len (yielded s)
    /\ StronglySorted before (yielded s)
    /\ Forall (fun y => 0 <= y.1
                        /\ 60 <= UsnRecord.record_length y.2 <= 65536
                        /\ y.1 + UsnRecord.record_length y.2 <= processed_bytes s)
              (yielded s) in
  match iter_records fuel file skip_zeros with
  | Finished s =>
      kept s
      /\ processed_bytes s + len (buffer s) = len file
      /\ (len (buffer s) < 60
          \/ len (buffer s) < from_bytes_little (slice (buffer s) 0 4) <= 65536)
  | Unfinished s => kept s /\ processed_bytes s + len (buffer s) <= len file
  | Raised _ => False
  end.
Proof.
  cbv zeta. unfold iter_records.
  match goal with |- context [outer_loop _ _ _ ?s0] => set (s0' := s0) end.
  assert (Hinit : books file file s0').
  { split; cbn.
    - exists []. split; reflexivity.
    - reflexivity.
    - constructor.
    - constructor. }
  assert (Hleft : leftover s0') by (left; reflexivity).
  pose proof (outer_loop_books skip_zeros file fuel file s0' Hinit Hleft) as Hout.
  destruct (outer_loop _ _ _ _) as [s|s|e]; [| |exact Hout].
  - destruct Hout as [[(pre & Hfile & Hpre) Hcount Horder Hdone] Hl].
    split; [auto|]. split; [|exact Hl].
    rewrite Hfile, app_nil_r, len_app. lia.
  - destruct Hout as (f' & [(pre & Hfile & Hpre) Hcount Horder Hdone]).
    split; [auto|]. rewrite Hfile, !len_app. pose proof (len_nonneg f'). lia.
Qed.
End usn_books.

(** ** A journal of zero bytes *)

Lemma len_zeros (n : nat) : len (zeros n) = Z.of_nat n.
Proof. unfold len, zeros. rewrite length_replicate. reflexivity. Qed.

Lemma slice_zeros (n : nat) (a b : Z) :
  0 <= a -> slice (zeros n) a b = zeros (Z.to_nat (b - a) `min` (n - Z.to_nat a)).
Proof.
  intros Ha. unfold slice, zeros. rewrite drop_replicate, take_replicate. reflexivity.
Qed.

Lemma from_bytes_little_zeros (n : nat) : from_bytes_little (zeros n) = 0.
Proof.
  induction n as [|n IH]; [reflexivity|].
  change (zeros (S n)) with (x00 :: zeros n). cbn [from_bytes_little].
  rewrite IH. reflexivity.
Qed.

Lemma zeros_app (n m : nat) : zeros n ++ zeros m = zeros (n + m).
Proof. unfold zeros. symmetry. apply replicate_add. Qed.

Lemma find_nothing {A} (f : A -> bool) (l : list A) :
  (forall x, x ∈ l -> f x = false) -> List.find f l = None.
Proof.
  induction l as [|x l IH]; intros Hall; [reflexivity|].
  cbn [List.find]. rewrite (Hall x) by left. apply IH.
  intros y Hy. apply Hall. right. exact Hy.
Qed.

Lemma find_zero_end_zeros (n : nat) : find_zero_end (zeros n) = Z.of_nat n.
Proof.
  unfold find_zero_end. rewrite find_nothing; [apply len_zeros|].
  intros i Hi. apply elem_of_range in Hi; [|lia].
  rewrite len_zeros in Hi. rewrite slice_zeros by lia.
  apply negb_false_iff, bool_decide_eq_true. unfold zeros8. f_equal. lia.
Qed.

Lemma resync_search_zeros (n : nat) (candidates : list Z) :
  Forall (fun i => 0 <= i /\ i + 8 <= Z.of_nat n) candidates ->
  resync_search (zeros n) candidates = Ok None.
Proof.
  induction 1 as [|i rest [Hi Hfit] Hall IH]; [reflexivity|].
  cbn [resync_search]. unfold plausible_header.
  unfold unpack_I at 1. rewrite unpack_u_slice by (rewrite ?len_zeros; lia).
  cbn [mbind res_bind]. rewrite slice_zeros, from_bytes_little_zeros by lia.
  cbn [mbind res_bind]. exact IH.
Qed.

Section zero_journal.
Context `{PyDatetime}.

Lemma inner_body_zeros_skip (s : state) (n : nat) :
  buffer s = zeros n -> (60 <= n)%nat ->
  inner_body true s
  = Ok (Continue (advance s (ZeroSkip (Z.of_nat n `div` 8 * 8))
                    (Z.of_nat n `div` 8 * 8) (zeros (n `mod` 8)))).
Proof.
  intros Hb Hn. unfold inner_body. rewrite Hb.
  rewrite bool_decide_eq_true_2.
  2:{ rewrite slice_zeros by lia. unfold zeros8. f_equal. lia. }
  cbn [andb]. cbv zeta. rewrite find_zero_end_zeros.
  pose proof (Z.div_mod (Z.of_nat n) 8 ltac:(lia)) as Hdm.
  pose proof (Z.mod_pos_bound (Z.of_nat n) 8 ltac:(lia)) as Hm.
  destruct (Z.gtb_spec (Z.of_nat n `div` 8 * 8) 0); [|lia].
  do 3 f_equal. unfold slice_from, zeros. rewrite drop_replicate. f_equal.
  apply Nat2Z.inj. rewrite Nat2Z.inj_sub by lia. rewrite Nat2Z.inj_mod.
  rewrite Z2Nat.id by lia. change (Z.of_nat 8) with 8. lia.
Qed.

Lemma inner_body_zeros_no_skip (s : state) (n : nat) :
  buffer s = zeros n -> (60 <= n)%nat ->
  inner_body false s
  = Ok (Continue (advance s (ResyncMiss (Z.of_nat n - 60)) (Z.of_nat n - 60)
                    (zeros 60))).
Proof.
  intros Hb Hn. unfold inner_body. rewrite Hb. cbn [andb].
  unfold unpack_I at 1. rewrite unpack_u_slice by (rewrite ?len_zeros; lia).
  cbn [mbind res_bind]. rewrite slice_zeros, from_bytes_little_zeros by lia.
  unfold MIN_RECORD_SIZE_V2. cbn [Z.ltb Z.compare orb].
  rewrite resync_search_zeros.
  2:{ apply Forall_forall. intros i Hi. apply elem_of_range in Hi; [|lia].
      rewrite len_zeros in Hi. lia. }
  cbn [mbind res_bind]. rewrite len_zeros. do 3 f_equal.
  unfold slice_last, zeros. rewrite drop_replicate, length_replicate. f_equal. lia.
Qed.

Lemma inner_loop_zeros_no_skip (fuel : nat) : forall (s : state) (n : nat),
  buffer s = zeros n -> (60 <= n)%nat ->
  exists s', inner_loop fuel false s = Unfinished s' /\ yielded s' = yielded s.
Proof.
  induction fuel as [|fuel IH]; intros s n Hb Hn; [eexists; split; reflexivity|].
  cbn [inner_loop]. rewrite (inner_body_zeros_no_skip s n Hb Hn), Hb, len_zeros.
  unfold MIN_RECORD_SIZE_V2.
  destruct (Z.geb_spec (Z.of_nat n) 60); [|lia].
  destruct (IH (advance s (ResyncMiss (Z.of_nat n - 60)) (Z.of_nat n - 60) (zeros 60))
              60%nat eq_refl ltac:(lia)) as (s' & -> & Hy).
  exists s'. split; [reflexivity|exact Hy].
Qed.

Lemma take_zeros (k n : nat) : take k (zeros n) = zeros (k `min` n).
Proof. apply take_replicate. Qed.

Lemma drop_zeros (k n : nat) : drop k (zeros n) = zeros (n - k).
Proof. apply drop_replicate. Qed.

Lemma outer_loop_zeros_skip (fuel : nat) : forall (k j : nat) (s : state),
  buffer s = zeros j -> (j < 60)%nat -> yielded s = [] -> total_records s = 0 ->
  (k + 3 <= fuel)%nat ->
  exists s', outer_loop fuel true (zeros k) s = Finished s'
             /\ yielded s' = [] /\ total_records s' = 0.
Proof.
  induction fuel as [|fuel IH]; intros k j s Hb Hj Hy Ht Hf; [lia|].
  cbn [outer_loop]. unfold read. cbv beta iota.
  rewrite take_zeros, drop_zeros.
  destruct k as [|k'].
  { rewrite Nat.min_0_r. cbn [zeros replicate].
    rewrite bool_decide_eq_true_2 by reflexivity. eauto. }
  set (k := S k') in *.
  set (c := (Z.to_nat BUFFER_SIZE `min` k)%nat).
  assert (Hc : (1 <= c <= k)%nat).
  { unfold c, BUFFER_SIZE. lia. }
  clearbody c.
  rewrite bool_decide_eq_false_2.
  2:{ destruct c; [lia|]. discriminate. }
  set (s1 := extend s (zeros c)).
  assert (Hb1 : buffer s1 = zeros (j + c)).
  { unfold s1. cbn [extend buffer]. rewrite Hb. apply zeros_app. }
  assert (Hin : exists s2 j2,
             inner_loop fuel true s1 = Finished s2
             /\ buffer s2 = zeros j2 /\ (j2 < 60)%nat
             /\ yielded s2 = [] /\ total_records s2 = 0).
  { destruct fuel as [|fuel']; [lia|]. cbn [inner_loop].
    rewrite Hb1, len_zeros. unfold MIN_RECORD_SIZE_V2.
    destruct (Z.geb_spec (Z.of_nat (j + c)) 60) as [Hge|Hlt].
    2:{ exists s1, (j + c)%nat. split; [reflexivity|].
        split; [exact Hb1|]. split; [lia|]. split; assumption. }
    fold MIN_RECORD_SIZE_V2.
    rewrite (inner_body_zeros_skip s1 (j + c) Hb1 ltac:(lia)).
    destruct fuel' as [|fuel'']; [lia|]. cbn [inner_loop advance buffer].
    rewrite len_zeros. unfold MIN_RECORD_SIZE_V2.
    pose proof (Nat.mod_upper_bound (j + c) 8 ltac:(lia)).
    destruct (Z.geb_spec (Z.of_nat ((j + c) `mod` 8)) 60); [lia|].
    eexists _, ((j + c) `mod` 8)%nat. split; [reflexivity|].
    cbn. split; [reflexivity|]. split; [lia|]. split; assumption. }
  destruct Hin as (s2 & j2 & -> & Hb2 & Hj2 & Hy2 & Ht2).
  apply (IH (k - Z.to_nat BUFFER_SIZE)%nat j2 s2); try assumption.
  unfold BUFFER_SIZE. lia.
Qed.

Lemma iter_records_zeros_skip (n : nat) :
  exists s, iter_records (n + 3) (zeros n) true = Finished s
            /\ yielded s = [] /\ total_records s = 0.
Proof.
  unfold iter_records.
  apply (outer_loop_zeros_skip (n + 3) n 0%nat); [reflexivity|lia|reflexivity|reflexivity|lia].
Qed.

Lemma outer_loop_zeros_no_skip (fuel : nat) (f : bytes) (s : state) (c : nat) :
  buffer s = [] -> (60 <= c)%nat -> take (Z.to_nat BUFFER_SIZE) f = zeros c ->
  exists s', outer_loop fuel false f s = Unfinished s' /\ yielded s' = yielded s.
Proof.
  intros Hb Hc Htake.
  destruct fuel as [|fuel]; [eexists; split; reflexivity|].
  cbn [outer_loop]. unfold read. cbv beta iota. rewrite Htake.
  rewrite bool_decide_eq_false_2.
  2:{ destruct c; [lia|]. discriminate. }
  destruct (inner_loop_zeros_no_skip fuel (extend s (zeros c)) c) as (s' & -> & Hy);
    [cbn [extend buffer]; rewrite Hb; reflexivity|exact Hc|].
  exists s'. split; [reflexivity|exact Hy].
Qed.

Lemma iter_records_zeros_no_skip (n : nat) (fuel : nat) :
  (60 <= n)%nat ->
  exists s, iter_records fuel (zeros n) false = Unfinished s /\ yielded s = [].
Proof.
  intros Hn. unfold iter_records.
  apply (outer_loop_zeros_no_skip fuel (zeros n)
           {| buffer := []; processed_bytes := 0; total_records := 0;
              yielded := []; moves := [] |}
           (Z.to_nat BUFFER_SIZE `min` n)%nat).
  - reflexivity.
  - unfold BUFFER_SIZE. lia.
  - apply take_zeros.
Qed.

(** X12. On a journal of [n] zero bytes [iter_records] with [skip_zeros]
    ends (the fuel [n + 3] is enough) without a record. Without
    [skip_zeros], and with 60 bytes or more, it never ends: it takes the
    zeros for a broken record, finds no header to start again from, keeps
    the last 60 bytes and starts over on them. *)
Theorem X12_zero_journal (n : nat) :
  (exists s, iter_records (n + 3) (zeros n) true = Finished s
             /\ yielded s = [] /\ total_records s = 0)
  /\ ((60 <= n)%nat ->
      forall fuel, exists s, iter_records fuel (zeros n) false = Unfinished s
                             /\ yielded s = []).
Proof.
  split; [apply iter_records_zeros_skip|].
  intros Hn fuel. apply iter_records_zeros_no_skip. exact Hn.
Qed.
End zero_journal.

(** X12 without [skip_zeros] on 64 zero bytes, after 1000 turns. *)
Lemma X12_zero_journal_witness :
  exists s, iter_records (H := ticks_datetime) 1000 (zeros 64) false = Unfinished s
            /\ yielded s = [].
Proof. exact (proj2 (X12_zero_journal (H := ticks_datetime) 64) ltac:(lia) 1000%nat). Defined.

(** ** What [find_ntfs_partitions] returns, on every path *)

Lemma io_bind_Ok {A B} (m : IO A) (k : A -> IO B) log v log' :
  (m ≫= k) log = (Ok v, log') ->
  exists a log1, m log = (Ok a, log1) /\ k a log1 = (Ok v, log').
Proof.
  unfold mbind, io_bind. destruct (m log) as [[a| |] log1]; try discriminate.
  eauto.
Qed.

Lemma pure_Ok {A} (r : res A) log (v : A) log' :
  pure r log = (Ok v, log') -> r = Ok v /\ log' = log.
Proof. unfold pure. intros [= -> ->]. auto. Qed.

Lemma mret_Ok {A} (a v : A) (log log' : list (Z * Z)) :
  (mret a : IO A) log = (Ok v, log') -> v = a /\ log' = log.
Proof. intros [= -> ->]. auto. Qed.

Lemma read_Ok `{PyFile} image offset size log data log' :
  0 <= size ->
  ImageHandler.read image offset size log = (Ok data, log') ->
  0 <= offset <= max_seek /\ data = slice image offset (offset + size)
  /\ log' = log ++ [(offset, size)].
Proof.
  intros Hs. unfold ImageHandler.read, seek, read_at_handle.
  destruct (Z.ltb_spec offset (- 2 ^ 63)); [discriminate|].
  destruct (Z.leb_spec (2 ^ 63) offset); [discriminate|].
  destruct (Z.ltb_spec offset 0); [discriminate|].
  destruct (Z.ltb_spec max_seek offset); [discriminate|].
  cbn [orb mbind res_bind].
  destruct (_ || _); [discriminate|].
  destruct (Z.ltb_spec size (-1)); [discriminate|].
  destruct (Z.eqb_spec size (-1)); [lia|].
  destruct (Z.ltb_spec max_read size); [discriminate|].
  intros [= <- <-]. repeat split; auto; lia.
Qed.

(** A partition as [find_ntfs_partitions] lists them: it lies at a multiple
    of 512, the sector there has the NTFS mark, and the geometry is the one
    of that boot sector. *)
Definition listed (image : bytes) (p : NTFSPartition.t) : Prop :=
  let offset := NTFSPartition.offset p in
  let sector := slice image offset (offset + 512) in
  0 <= offset /\ offset mod 512 = 0
  /\ slice sector 3 11 = blit "NTFS    "
  /\ boot_fields p offset sector.

Lemma unpack_u_Ok_len (n : nat) (s : bytes) (v : Z) :
  unpack_u n s = Ok v -> length s = n.
Proof. unfold unpack_u. destruct (decide _); [auto|discriminate]. Qed.

Lemma probe_listed `{PyFile} image offset partitions log partitions' log' :
  0 <= offset -> offset mod 512 = 0 ->
  Forall (listed image) partitions ->
  probe image offset partitions log = (Ok partitions', log') ->
  Forall (listed image) partitions'.
Proof.
  intros Ho Hm Hall Hp.
  assert (Hseek : 0 <= offset <= max_seek).
  { pose proof Hp as Hp'. unfold probe, NTFSPartition.parse_boot_sector in Hp'.
    cbn [NTFSPartition.offset NTFSPartition.__init__] in Hp'.
    apply io_bind_Ok in Hp' as ([b p] & log1 & Hp' & _).
    apply io_bind_Ok in Hp' as (data & log2 & Hr & _).
    apply read_Ok in Hr as (Hr & _); [exact Hr|lia]. }
  destruct (probe_at image offset partitions log Hseek) as [Hno Hyes].
  cbv zeta in Hno, Hyes.
  destruct (decide (slice (slice image offset (offset + 512)) 3 11 = blit "NTFS    "))
    as [Hsig|Hsig].
  2:{ rewrite (Hno Hsig) in Hp. injection Hp as <- <-. exact Hall. }
  destruct (Z_le_gt_dec 65 (len (slice image offset (offset + 512)))) as [Hlen|Hlen].
  - destruct (Hyes Hsig Hlen) as (p & Hpe & Hf). rewrite Hpe in Hp.
    injection Hp as <- <-. apply Forall_app. split; [exact Hall|].
    constructor; [|constructor].
    destruct Hf as (Hoff & Hrest). unfold listed. rewrite Hoff. cbv zeta.
    split; [exact Ho|]. split; [exact Hm|]. split; [exact Hsig|].
    split; [exact Hoff|exact Hrest].
  - exfalso. revert Hp. unfold probe, NTFSPartition.parse_boot_sector.
    cbn [NTFSPartition.offset NTFSPartition.__init__].
    intros Hp. apply io_bind_Ok in Hp as ([b p] & log1 & Hp & _).
    apply io_bind_Ok in Hp as (data & log2 & Hr & Hp).
    apply read_Ok in Hr as (_ & -> & _); [|lia].
    rewrite bool_decide_eq_true_2 in Hp by exact Hsig. cbn [negb] in Hp.
    apply io_bind_Ok in Hp as (v1 & l1 & _ & Hp).
    apply io_bind_Ok in Hp as (v2 & l2 & _ & Hp).
    apply io_bind_Ok in Hp as (v3 & l3 & _ & Hp).
    apply io_bind_Ok in Hp as (v4 & l4 & Hb & _).
    apply pure_Ok in Hb as [Hb _]. unfold unpack_b in Hb.
    destruct (unpack_u 1 _) as [v| |] eqn:Eu; cbn [mbind res_bind] in Hb; try discriminate.
    apply unpack_u_Ok_len in Eu.
    pose proof (len_slice_gen (slice image offset (offset + 512)) 0x40 0x41 ltac:(lia)) as Hl.
    unfold len in Hl, Hlen. rewrite Eu in Hl. lia.
Qed.

Lemma mbr_loop_listed `{PyFile} image mbr (indices : list Z) :
  forall partitions log partitions' log',
  Forall (listed image) partitions ->
  mbr_loop image mbr indices partitions log = (Ok partitions', log') ->
  Forall (listed image) partitions'.
Proof.
  induction indices as [|i indices IH]; intros partitions log partitions' log' Hall Hl.
  - apply mret_Ok in Hl as [-> _]. exact Hall.
  - cbn [mbr_loop] in Hl. cbv zeta in Hl.
    apply io_bind_Ok in Hl as (ty & l1 & _ & Hl).
    apply io_bind_Ok in Hl as (ps1 & l2 & Hprobe & Hl).
    refine (IH _ _ _ _ _ Hl).
    destruct (bool_decide (ty ∈ [0x07; 0x17; 0x27])).
    + apply io_bind_Ok in Hprobe as (lba & l3 & Hlba & Hprobe).
      apply pure_Ok in Hlba as [Hlba _]. apply unpack_u_nonneg in Hlba.
      apply (probe_listed image (lba * 512) partitions l3 ps1 l2);
        [lia|apply Z.mod_mul; lia|exact Hall|exact Hprobe].
    + apply mret_Ok in Hprobe as [-> _]. exact Hall.
Qed.

Lemma gpt_loop_listed `{PyFile} image lba entry_size (indices : list Z) :
  forall partitions log partitions' log',
    Forall (listed image) partitions ->
    gpt_loop image lba entry_size indices partitions log = (Ok partitions', log') ->
    Forall (listed image) partitions'.
Proof.
  induction indices as [|i indices IH]; intros partitions log partitions' log' Hall Hl.
  - apply mret_Ok in Hl as [-> _]. exact Hall.
  - cbn [gpt_loop] in Hl. cbv zeta in Hl.
    apply io_bind_Ok in Hl as (entry & l1 & _ & Hl).
    apply io_bind_Ok in Hl as (ps1 & l2 & Hprobe & Hl).
    refine (IH _ _ _ _ _ Hl).
    destruct (_ || _).
    + apply io_bind_Ok in Hprobe as (start_lba & l3 & Hlba & Hprobe).
      destruct (Z.gtb_spec start_lba 0).
      * apply (probe_listed image (start_lba * 512) partitions l3 ps1 l2);
          [lia|apply Z.mod_mul; lia|exact Hall|exact Hprobe].
      * apply mret_Ok in Hprobe as [-> _]. exact Hall.
    + apply mret_Ok in Hprobe as [-> _]. exact Hall.
Qed.

(** X13. Whatever the image holds and whichever way [find_ntfs_partitions]
    takes (no MBR, MBR entries, GPT entries), every partition in the list
    it returns lies at a non-negative multiple of 512, the sector at that
    offset has 'NTFS    ' in its bytes 3..11, and the partition carries the
    geometry read from that sector. *)
Theorem X13_listed_partitions `{PyFile} (image : bytes) (log : list (Z * Z)) :
  match find_ntfs_partitions image log with
  | (Ok partitions, _) =>
      Forall (fun p =>
                let offset := NTFSPartition.offset p in
                let sector := slice image offset (offset + 512) in
                0 <= offset /\ offset mod 512 = 0
                /\ slice sector 3 11 = blit "NTFS    "
                /\ boot_fields p offset sector) partitions
  | _ => True
  end.
Proof.
  destruct (find_ntfs_partitions image log) as [[partitions|e|] log'] eqn:Hf;
    [|exact I|exact I].
  - unfold find_ntfs_partitions in Hf. cbv zeta in Hf.
    apply io_bind_Ok in Hf as (mbr & l1 & _ & Hf).
    destruct (negb _).
    + apply (probe_listed image 0 [] l1 partitions log'); try assumption;
        [lia|reflexivity|constructor].
    + apply io_bind_Ok in Hf as (ps1 & l2 & Hmbr & Hf).
      apply mbr_loop_listed in Hmbr; [|constructor].
      apply io_bind_Ok in Hf as (gpt & l3 & _ & Hf).
      destruct (bool_decide (slice gpt 0 8 = blit "EFI PART")).
      * apply io_bind_Ok in Hf as (v1 & l4 & _ & Hf).
        apply io_bind_Ok in Hf as (v2 & l5 & _ & Hf).
        apply io_bind_Ok in Hf as (v3 & l6 & _ & Hf).
        exact (gpt_loop_listed _ _ _ _ _ _ _ _ Hmbr Hf).
      * apply mret_Ok in Hf as [-> _]. exact Hmbr.
Qed.

(** ** Extraction without a size to cut at *)

Section whole_runs.
Context `{PyFile}.
Variable image : bytes.
Variable partition : NTFSPartition.t.

Lemma zero_fill_whole (n : nat) (real_size : Z) (zc out : bytes) (written : Z) :
  real_size <= 0 ->
  NTFSExtractor.zero_fill n real_size zc out written
  = (out ++ concat (replicate n zc), written + Z.of_nat n * len zc).
Proof.
  intros Hr. revert out written.
  induction n as [|n IH]; intros out written;
    cbn [NTFSExtractor.zero_fill replicate concat].
  - rewrite app_nil_r. f_equal. lia.
  - destruct (Z.gtb_spec real_size 0); [lia|].
    rewrite IH, <- app_assoc. f_equal. lia.
Qed.

Lemma copy_clusters_whole (n : nat) (cluster i real_size : Z) out written log :
  real_size <= 0 -> cluster_fits partition ->
  (forall j, i <= j < i + Z.of_nat n ->
     seekable (NTFSPartition.offset partition
               + (cluster + j) * NTFSPartition.cluster_size partition)) ->
  exists written' log',
    NTFSExtractor.copy_clusters image partition n cluster i real_size out written log
    = (Ok (out ++ concat (map (fun j => Spec.cluster_bytes image partition (cluster + j))
                              (seqZ i (Z.of_nat n))),
           written'), log').
Proof.
  intros Hr Hc. revert i out written log.
  induction n as [|n IH]; intros i out written log Hi.
  - cbn [NTFSExtractor.copy_clusters]. exists written, log.
    change (seqZ i (Z.of_nat 0)) with (@nil Z). cbn [map concat].
    rewrite app_nil_r. reflexivity.
  - cbn [NTFSExtractor.copy_clusters].
    rewrite Nat2Z.inj_succ, seqZ_cons by lia. cbn [map concat].
    replace (Z.pred (Z.succ (Z.of_nat n))) with (Z.of_nat n) by lia.
    destruct (Z.gtb_spec real_size 0); [lia|]. cbn [andb].
    unfold mbind, io_bind.
    rewrite read_cluster_ok by (exact Hc || (apply Hi; lia)).
    destruct (IH (i + 1) (out ++ Spec.cluster_bytes image partition (cluster + i))
                (written + len (Spec.cluster_bytes image partition (cluster + i)))
                (log ++ [(NTFSPartition.offset partition
                          + (cluster + i) * NTFSPartition.cluster_size partition,
                          NTFSPartition.cluster_size partition)]))
      as (written' & log' & ->).
    { intros j Hj. apply Hi. lia. }
    exists written', log'. replace (Z.succ i) with (i + 1) by lia.
    rewrite <- app_assoc. reflexivity.
Qed.

(** The runs that are written when sparse runs are skipped, or not. *)
Definition written_runs (skip_sparse : bool) (data_runs : list DataRun) : list DataRun :=
  if skip_sparse
  then List.filter (fun run => negb (Spec.treated_as_sparse run)) data_runs
  else data_runs.

Lemma extract_runs_whole (data_runs : list DataRun) (real_size : Z) (skip_sparse : bool)
    out written log :
  real_size <= 0 -> cluster_fits partition ->
  Forall (fun run => Spec.treated_as_sparse run = false -> readable partition run)
         data_runs ->
  exists written' log',
    NTFSExtractor.extract_runs image partition data_runs real_size out written
      skip_sparse log
    = (Ok (out ++ concat (map (Spec.contribution image partition)
                              (written_runs skip_sparse data_runs)),
           written'), log').
Proof.
  intros Hr Hc Hall. revert out written log.
  induction Hall as [|run rest Hrun Hall IH]; intros out written log.
  - exists written, log. cbn [NTFSExtractor.extract_runs].
    unfold written_runs. destruct skip_sparse; cbn; rewrite app_nil_r; reflexivity.
  - cbn [NTFSExtractor.extract_runs].
    destruct (Z.gtb_spec real_size 0); [lia|]. cbn [andb].
    fold (Spec.treated_as_sparse run).
    destruct (Spec.treated_as_sparse run) eqn:Hs.
    + assert (Hk : Spec.contribution image partition run
                   = zeros (Z.to_nat (run_length run)
                            * Z.to_nat (NTFSPartition.cluster_size partition))).
      { unfold Spec.contribution. rewrite Hs. reflexivity. }
      destruct skip_sparse.
      * destruct (IH out (written + run_length run * NTFSPartition.cluster_size partition)
                    log) as (written' & log' & ->).
        exists written', log'. unfold written_runs. cbn [List.filter].
        rewrite Hs. reflexivity.
      * rewrite zero_fill_whole by exact Hr. rewrite concat_replicate_zeros.
        destruct (IH (out ++ zeros (Z.to_nat (run_length run)
                                    * Z.to_nat (NTFSPartition.cluster_size partition)))
                    (written + Z.of_nat (Z.to_nat (run_length run))
                               * len (zeros (Z.to_nat (NTFSPartition.cluster_size partition))))
                    log) as (written' & log' & ->).
        exists written', log'. unfold written_runs. cbn [map concat].
        rewrite Hk, <- app_assoc. reflexivity.
    + assert (Hk : Spec.contribution image partition run
                   = concat (map (fun i => Spec.cluster_bytes image partition
                                             (start_cluster run + i))
                                 (seqZ 0 (run_length run)))).
      { unfold Spec.contribution. rewrite Hs. reflexivity. }
      destruct (copy_clusters_whole (Z.to_nat (run_length run)) (start_cluster run) 0
                  real_size out written log Hr Hc)
        as (written1 & log1 & Hcopy).
      { intros j Hj. apply (Hrun eq_refl). lia. }
      unfold mbind, io_bind. rewrite Hcopy.
      replace (Z.of_nat (Z.to_nat (run_length run))) with (Z.max 0 (run_length run)) by lia.
      replace (seqZ 0 (Z.max 0 (run_length run))) with (seqZ 0 (run_length run)).
      2:{ destruct (Z_le_gt_dec 0 (run_length run)).
          - rewrite Z.max_r by lia. reflexivity.
          - rewrite Z.max_l by lia. unfold seqZ.
            replace (Z.to_nat (run_length run)) with 0%nat by lia. reflexivity. }
      rewrite <- Hk.
      destruct (IH (out ++ Spec.contribution image partition run) written1 log1)
        as (written' & log' & ->).
      exists written', log'.
      assert (Hw : written_runs skip_sparse (run :: rest)
                   = run :: written_runs skip_sparse rest).
      { unfold written_runs. destruct skip_sparse; [|reflexivity].
        cbn [List.filter]. rewrite Hs. reflexivity. }
      rewrite Hw. cbn [map concat]. rewrite <- app_assoc. reflexivity.
Qed.

End whole_runs.


(** ** [_extract_non_resident]: the clusters of the runs, cut at the size *)

Section non_resident.
Context `{PyFile}.
Variable image : bytes.
Variable partition : NTFSPartition.t.

(** The clusters a run names, whether it is sparse or not. *)
Definition run_clusters (run : DataRun) : bytes :=
  concat (map (fun i => Spec.cluster_bytes image partition (start_cluster run + i))
              (seqZ 0 (run_length run))).

Lemma copy_run_is_copy_clusters (n : nat) (cluster real_size : Z) :
  0 < real_size ->
  forall i out written log,
    NTFSExtractor.copy_run image partition n cluster i real_size out written log
    = NTFSExtractor.copy_clusters image partition n cluster i real_size out written log.
Proof.
  intros Hr. induction n as [|n IH]; intros i out written log; [reflexivity|].
  cbn [NTFSExtractor.copy_run NTFSExtractor.copy_clusters].
  destruct (Z.gtb_spec real_size 0); [|lia]. cbn [andb].
  destruct (written >=? real_size); [reflexivity|].
  unfold mbind, io_bind.
  destruct (NTFSPartition.read_cluster image partition (cluster + i) log)
    as [[cluster_data| |] log1]; try reflexivity.
  cbv zeta. destruct (_ <? len cluster_data); apply IH.
Qed.

Lemma copy_run_nothing (n : nat) (cluster i real_size : Z) out written log :
  real_size <= written ->
  NTFSExtractor.copy_run image partition n cluster i real_size out written log
  = (Ok (out, written), log).
Proof.
  intros Hr. destruct n as [|n]; [reflexivity|].
  cbn [NTFSExtractor.copy_run].
  destruct (Z.geb_spec written real_size); [reflexivity|lia].
Qed.

Lemma non_resident_runs_nothing (data_runs : list DataRun) (real_size : Z) out written log :
  real_size <= written ->
  NTFSExtractor.non_resident_runs image partition data_runs real_size out written log
  = (Ok (out, written), log).
Proof.
  intros Hr. induction data_runs as [|run rest IH]; [reflexivity|].
  cbn [NTFSExtractor.non_resident_runs]. cbv zeta.
  unfold mbind, io_bind. rewrite copy_run_nothing by exact Hr. exact IH.
Qed.

Lemma non_resident_runs_spec (data_runs : list DataRun) (real_size : Z) out written log :
  0 < real_size -> cluster_fits partition ->
  Forall (readable partition) data_runs ->
  exists log',
    NTFSExtractor.non_resident_runs image partition data_runs real_size out written log
    = (Ok (write_upto real_size (concat (map run_clusters data_runs)) (out, written)),
       log').
Proof.
  intros Hr Hc Hall. revert out written log.
  induction Hall as [|run rest Hrun Hall IH]; intros out written log.
  - exists log. cbn [NTFSExtractor.non_resident_runs map concat].
    rewrite write_upto_nil. reflexivity.
  - cbn [NTFSExtractor.non_resident_runs map concat]. cbv zeta.
    rewrite write_upto_app. unfold mbind, io_bind.
    rewrite copy_run_is_copy_clusters by exact Hr.
    destruct (copy_clusters_spec image partition (Z.to_nat (run_length run))
                (start_cluster run) 0 real_size out written log Hr Hc)
      as [log1 ->].
    { intros j Hj. apply Hrun. lia. }
    replace (Z.of_nat (Z.to_nat (run_length run))) with (Z.max 0 (run_length run)) by lia.
    replace (seqZ 0 (Z.max 0 (run_length run))) with (seqZ 0 (run_length run)).
    2:{ destruct (Z_le_gt_dec 0 (run_length run)).
        - rewrite Z.max_r by lia. reflexivity.
        - rewrite Z.max_l by lia. unfold seqZ.
          replace (Z.to_nat (run_length run)) with 0%nat by lia. reflexivity. }
    fold (run_clusters run).
    destruct (write_upto real_size (run_clusters run) (out, written)) as [out1 written1].
    apply IH.
Qed.

End non_resident.

(** A non-resident attribute of 10000 bytes over three clusters, the first
    run sparse. *)
Definition three_cluster_attr : dict :=
  <["real_size" := VInt 10000]> (<["data_runs" := VRuns sparse_then_two_clusters]> ∅).


(** ** The pages of a [$LogFile] *)

(** The unsigned little-endian field at [data[a:b]]. *)
Definition field (data : bytes) (a b : Z) : Z := from_bytes_little (slice data a b).

(** The data of a page once [parse] has applied the update sequence array
    that its header names. *)
Definition fixed_up (data : bytes) : bytes :=
  if (field data 0x06 0x08 >? 1) && (field data 0x04 0x06 >? 0)
  then apply_fixup_to data (field data 0x04 0x06) (field data 0x06 0x08)
  else data.

Lemma len_apply_fixup_to data offset count :
  0 <= offset -> len (apply_fixup_to data offset count) = len data.
Proof.
  intros Ho. unfold apply_fixup_to.
  destruct (Z.gtb_spec (offset + count * 2) (len data)); [reflexivity|].
  apply len_foldl_fixup; [assumption|].
  apply Forall_forall. intros i Hi. apply elem_of_seqZ in Hi. lia.
Qed.

Lemma field_nonneg data a b : 0 <= field data a b.
Proof. apply from_bytes_little_range. Qed.

Lemma len_fixed_up data : len (fixed_up data) = len data.
Proof.
  unfold fixed_up.
  destruct (_ && _); [|reflexivity].
  apply len_apply_fixup_to, field_nonneg.
Qed.

(** The record page [parse] leaves when it accepts. *)
Definition parsed_record_page (self : RecordPage.t) : RecordPage.t :=
  let data := fixed_up (RecordPage.data self) in
  {| RecordPage.data := data;
     RecordPage.page_offset := RecordPage.page_offset self;
     RecordPage.is_valid := true;
     RecordPage.last_lsn := field data 0x08 0x10;
     RecordPage.flags := field data 0x10 0x14;
     RecordPage.page_count := field data 0x14 0x16;
     RecordPage.page_position := field data 0x16 0x18;
     RecordPage.next_record_offset := field data 0x18 0x1A;
     RecordPage.last_end_lsn := field data 0x20 0x28 |}.

Definition is_record_page (data : bytes) : bool :=
  (0x30 <=? len data) && bool_decide (slice data 0 4 = blit "RCRD").

Lemma record_page_parse (self : RecordPage.t) :
  RecordPage.parse self =
    if is_record_page (RecordPage.data self)
    then (Ok true, parsed_record_page self)
    else (Ok false, self).
Proof.
  unfold RecordPage.parse, is_record_page, RecordPage.HEADER_SIZE.
  destruct (Z.ltb_spec (len (RecordPage.data self)) 0x30) as [Hs|Hs].
  { rewrite (proj2 (Z.leb_gt _ _)) by lia. reflexivity. }
  rewrite (proj2 (Z.leb_le _ _)) by lia. cbn [andb].
  destruct (bool_decide _); cbn [negb]; [|reflexivity].
  pose proof (len_fixed_up (RecordPage.data self)) as Hlen.
  unfold parsed_record_page.
  unfold try_struct_error, RecordPage.read_field, RecordPage._apply_fixup.
  unfold mbind, mut_bind, mret, mut_ret, expr, assign.
  unpack_ok. fold (field (RecordPage.data self) 4 6) (field (RecordPage.data self) 6 8).
  unfold fixed_up in *.
  destruct (_ && _); cbn [RecordPage.data RecordPage.set_data];
    repeat (progress (cbn [RecordPage.data RecordPage.set_data
         RecordPage.set_last_lsn
         RecordPage.set_flags RecordPage.set_page_count
         RecordPage.set_page_position RecordPage.set_next_record_offset
         RecordPage.set_last_end_lsn RecordPage.set_is_valid
         RecordPage.page_offset RecordPage.is_valid RecordPage.last_lsn
         RecordPage.flags RecordPage.page_count RecordPage.page_position
         RecordPage.next_record_offset RecordPage.last_end_lsn]; unpack_ok));
    reflexivity.
Qed.

(** X16. [RecordPage.parse] never raises. It accepts exactly the pages of
    at least 0x30 bytes that begin with [RCRD]; it then leaves the page
    valid, with its data fixed up (at the same length) and its header
    fields read from the fixed-up data. A page it refuses is left as it
    was. *)
Theorem X16_record_page_parse (self : RecordPage.t) :
  let data := RecordPage.data self in
  let fixed := fixed_up data in
  len fixed = len data
  /\ RecordPage.parse self =
       if (0x30 <=? len data) && bool_decide (slice data 0 4 = blit "RCRD")
       then (Ok true,
             {| RecordPage.data := fixed;
                RecordPage.page_offset := RecordPage.page_offset self;
                RecordPage.is_valid := true;
                RecordPage.last_lsn := field fixed 0x08 0x10;
                RecordPage.flags := field fixed 0x10 0x14;
                RecordPage.page_count := field fixed 0x14 0x16;
                RecordPage.page_position := field fixed 0x16 0x18;
                RecordPage.next_record_offset := field fixed 0x18 0x1A;
                RecordPage.last_end_lsn := field fixed 0x20 0x28 |})
       else (Ok false, self).
Proof.
  cbv zeta. split; [apply len_fixed_up|]. apply record_page_parse.
Qed.

(** The restart page [parse] leaves when it accepts. *)
Definition parsed_restart_page (data : bytes) : RestartPage.t :=
  let fixed := fixed_up data in
  {| RestartPage.data := fixed;
     RestartPage.is_valid := true;
     RestartPage.system_page_size := field fixed 0x10 0x14;
     RestartPage.log_page_size := field fixed 0x14 0x18;
     RestartPage.restart_offset := field fixed 0x18 0x1A;
     RestartPage.major_version := field fixed 0x1C 0x1E;
     RestartPage.minor_version := field fixed 0x1A 0x1C;
     RestartPage.current_lsn := field fixed 0x30 0x38;
     RestartPage.log_clients := field fixed 0x38 0x3A |}.

Definition is_restart_page (data : bytes) : bool :=
  (0x40 <=? len data) && bool_decide (slice data 0 4 = blit "RSTR").

Lemma restart_page_parse (self : RestartPage.t) :
  RestartPage.parse self =
    if is_restart_page (RestartPage.data self)
    then (Ok true, parsed_restart_page (RestartPage.data self))
    else (Ok false, self).
Proof.
  unfold RestartPage.parse, is_restart_page.
  destruct (Z.ltb_spec (len (RestartPage.data self)) 0x40) as [Hs|Hs].
  { rewrite (proj2 (Z.leb_gt _ _)) by lia. reflexivity. }
  rewrite (proj2 (Z.leb_le _ _)) by lia. cbn [andb].
  destruct (bool_decide _); cbn [negb]; [|reflexivity].
  pose proof (len_fixed_up (RestartPage.data self)) as Hlen.
  unfold parsed_restart_page.
  unfold try_struct_error, RestartPage.read_field, RestartPage._apply_fixup.
  unfold mbind, mut_bind, mret, mut_ret, expr, assign.
  unpack_ok.
  fold (field (RestartPage.data self) 4 6) (field (RestartPage.data self) 6 8).
  unfold fixed_up in *.
  destruct (_ && _); cbn [RestartPage.data RestartPage.set_data];
    repeat (progress (cbn [RestartPage.data RestartPage.set_data
         RestartPage.set_system_page_size RestartPage.set_log_page_size
         RestartPage.set_restart_offset RestartPage.set_minor_version
         RestartPage.set_major_version RestartPage.set_current_lsn
         RestartPage.set_log_clients RestartPage.set_is_valid
         RestartPage.is_valid RestartPage.system_page_size
         RestartPage.log_page_size RestartPage.restart_offset
         RestartPage.major_version RestartPage.minor_version
         RestartPage.current_lsn RestartPage.log_clients]; unpack_ok));
    reflexivity.
Qed.

(** The parser that has taken the page size and the current LSN over from
    the restart page [page]. *)
Definition parser_of (page : RestartPage.t) : LogFileParser.t :=
  {| LogFileParser.restart_page := Some page;
     LogFileParser.page_size :=
       (if RestartPage.log_page_size page =? 0 then 4096
        else RestartPage.log_page_size page);
     LogFileParser.current_lsn := RestartPage.current_lsn page |}.

Lemma parse_restart_area_spec (file : bytes) (self : LogFileParser.t) :
  let first := slice file 0 4096 in
  let second := slice file 4096 8192 in
  LogFileParser.parse_restart_area file self =
    if is_restart_page first then (Ok true, parser_of (parsed_restart_page first))
    else if is_restart_page second
    then (Ok true, parser_of (parsed_restart_page second))
    else (Ok false,
          {| LogFileParser.restart_page := Some (RestartPage.__init__ second);
             LogFileParser.page_size := LogFileParser.page_size self;
             LogFileParser.current_lsn := LogFileParser.current_lsn self |}).
Proof.
  cbv zeta. unfold LogFileParser.parse_restart_area, LogFileParser.read.
  unfold LogFileParser.parse_page, LogFileParser.take_over.
  unfold mbind, mut_bind, mret, mut_ret, assign, DEFAULT_PAGE_SIZE.
  replace (slice file 0 4096) with (take (Z.to_nat 4096) file)
    by (unfold slice; rewrite drop_0; reflexivity).
  replace (slice file 4096 8192)
    with (take (Z.to_nat 4096) (drop (Z.to_nat 4096) file)) by reflexivity.
  rewrite !restart_page_parse. cbn [RestartPage.data RestartPage.__init__].
  destruct (is_restart_page (take _ file)); cbn [negb]; [reflexivity|].
  destruct (is_restart_page (take _ (drop _ file))); reflexivity.
Qed.

Lemma field_bound (data : bytes) (a b : Z) :
  a <= b -> 0 <= field data a b < 256 ^ (b - a).
Proof.
  intros Hab. unfold field.
  pose proof (from_bytes_little_range (slice data a b)) as Hr.
  pose proof (len_slice_le data a b Hab) as Hl.
  pose proof (len_nonneg (slice data a b)) as Hn.
  split; [lia|].
  eapply Z.lt_le_trans; [apply Hr|].
  apply Z.pow_le_mono_r; lia.
Qed.

Lemma page_size_of_parser (page : RestartPage.t) :
  0 <= RestartPage.log_page_size page ->
  0 < LogFileParser.page_size (parser_of page).
Proof.
  intros Hp. cbn [parser_of LogFileParser.page_size].
  destruct (Z.eqb_spec (RestartPage.log_page_size page) 0); lia.
Qed.

(** X17. [parse_restart_area] never raises. It reads the first 4096 bytes
    of the file, and the next 4096 only when the first are no restart page
    (at least 0x40 bytes that begin with [RSTR]); it answers [True] exactly
    when one of the two is one. The parser then holds that page, parsed
    from its fixed-up data, its current LSN, and as page size the log page
    size of the page, or 4096 when that is 0: a page size that is never 0.
    When neither is a restart page the parser keeps its page size and its
    current LSN. *)
Theorem X17_parse_restart_area (file : bytes) (self : LogFileParser.t) :
  let first := slice file 0 4096 in
  let second := slice file 4096 8192 in
  let taken_from page :=
    {| LogFileParser.restart_page := Some page;
       LogFileParser.page_size :=
         (if RestartPage.log_page_size page =? 0 then 4096
          else RestartPage.log_page_size page);
       LogFileParser.current_lsn := RestartPage.current_lsn page |} in
  LogFileParser.parse_restart_area file self =
    (if is_restart_page first
     then (Ok true, taken_from (parsed_restart_page first))
     else if is_restart_page second
     then (Ok true, taken_from (parsed_restart_page second))
     else (Ok false,
           {| LogFileParser.restart_page := Some (RestartPage.__init__ second);
              LogFileParser.page_size := LogFileParser.page_size self;
              LogFileParser.current_lsn := LogFileParser.current_lsn self |}))
  /\ forall self',
       LogFileParser.parse_restart_area file self = (Ok true, self') ->
       0 < LogFileParser.page_size self' < 2 ^ 32.
Proof.
  cbv zeta. split; [apply parse_restart_area_spec|].
  intros self'. rewrite parse_restart_area_spec. cbv zeta.
  assert (Hp : forall data,
    0 < LogFileParser.page_size (parser_of (parsed_restart_page data)) < 2 ^ 32).
  { intros data. cbn [parser_of parsed_restart_page LogFileParser.page_size
                      RestartPage.log_page_size].
    pose proof (field_bound (fixed_up data) 0x14 0x18 ltac:(lia)) as Hb.
    change (256 ^ (0x18 - 0x14)) with (2 ^ 32) in Hb.
    destruct (Z.eqb_spec (field (fixed_up data) 0x14 0x18) 0); lia. }
  destruct (is_restart_page (slice file 0 4096)).
  { intros [= <-]. apply Hp. }
  destruct (is_restart_page (slice file 4096 8192)).
  { intros [= <-]. apply Hp. }
  intros [=].
Qed.

(** ** The names a [$LogFile] record is given *)

Lemma units_length (n : nat) : forall bs us odd,
  (length bs <= n)%nat -> units bs = (us, odd) -> (2 * length us <= length bs)%nat.
Proof.
  induction n as [|n IH]; intros bs us odd Hn E.
  - destruct bs; [|cbn in Hn; lia]. cbn in E. injection E as <- <-. cbn. lia.
  - destruct bs as [|lo [|hi rest]].
    + cbn in E. injection E as <- <-. cbn. lia.
    + cbn in E. injection E as <- <-. cbn. lia.
    + cbn [units] in E. destruct (units rest) as [us' odd'] eqn:E'.
      injection E as <- <-. cbn [length] in *.
      pose proof (IH rest us' odd' ltac:(lia) E'). lia.
Qed.

Lemma decode_units_ignore_length (n : nat) : forall odd us s,
  (length us <= n)%nat -> decode_units Ignore odd us = Some s ->
  (length s <= length us)%nat.
Proof.
  induction n as [|n IH]; intros odd us s Hn E.
  - destruct us; [|cbn in Hn; lia]. cbn in E.
    destruct odd; injection E as <-; cbn; lia.
  - destruct us as [|u rest].
    { cbn in E. destruct odd; injection E as <-; cbn; lia. }
    cbn [decode_units] in E. cbn [length] in *.
    destruct (is_high_surrogate u).
    + destruct rest as [|u2 rest2].
      { cbn in E. injection E as <-. cbn. lia. }
      cbn [length] in *.
      destruct (is_low_surrogate u2).
      * destruct (decode_units Ignore odd rest2) as [s'|] eqn:E'; [|discriminate].
        cbn in E. injection E as <-. cbn [length].
        pose proof (IH odd rest2 s' ltac:(lia) E'). lia.
      * cbn [on_error] in E.
        pose proof (IH odd (u2 :: rest2) s ltac:(cbn [length]; lia) E) as Hl.
        cbn [length] in Hl. lia.
    + destruct (is_low_surrogate u).
      * cbn [on_error] in E. pose proof (IH odd rest s ltac:(lia) E). lia.
      * destruct (decode_units Ignore odd rest) as [s'|] eqn:E'; [|discriminate].
        cbn in E. injection E as <-. cbn [length].
        pose proof (IH odd rest s' ltac:(lia) E'). lia.
Qed.

(** With [errors='ignore'] a name has at most one character per two bytes. *)
Lemma decode_ignore_length (bs : bytes) (s : str) :
  decode_utf16le Ignore bs = Some s -> 2 * len s <= len bs.
Proof.
  unfold decode_utf16le. destruct (units bs) as [us odd] eqn:E. intros Hd.
  pose proof (units_length (length bs) bs us odd ltac:(lia) E).
  pose proof (decode_units_ignore_length (length us) odd us s ltac:(lia) Hd).
  unfold len. lia.
Qed.

Section names.
Context `{PyDatetime} `{PyUnicode}.

(** A name the parser accepts: not empty, at most 255 characters, each
    printable or a space, a dot or a tab. *)
Definition valid_name (name : str) : Prop :=
  name <> [] /\ len name <= 255 /\ forallb printable_or_blank name = true.

(** The [$FILE_NAME] content at [data[offset:]] is one
    [_parse_filename_attribute] accepts. *)
Definition names_a_file (data : bytes) (offset : Z) : bool :=
  let name_len := Spec.byte_at data (offset + 0x40) in
  let namespace := Spec.byte_at data (offset + 0x41) in
  (offset + 0x44 <=? len data)
  && (1 <=? name_len) && (name_len <=? 255) && (namespace <=? 3)
  && (offset + 0x42 + name_len * 2 <=? len data)
  && negb (bool_decide (Spec.fn_name data offset = []))
  && forallb printable_or_blank (Spec.fn_name data offset).

(** The record once it has taken its name from the [$FILE_NAME] content at
    [data[offset:]]: the timestamp is the creation time when it is not 0
    and the library can convert it, and is left as it was otherwise. *)
Definition named_from (data : bytes) (offset : Z) (record : LogRecord.t)
    : LogRecord.t :=
  LogRecord.set_name record
    (Spec.fn_name data offset)
    (field data offset (offset + 0x08))
    (match filetime_to_datetime (field data (offset + 0x08) (offset + 0x10)) with
     | Some dt => strftime dt
     | None => LogRecord.timestamp record
     end)
    (field data (offset + 0x38) (offset + 0x3C)).

Lemma fn_name_valid (data : bytes) (offset : Z) :
  0 <= offset -> names_a_file data offset = true ->
  valid_name (Spec.fn_name data offset).
Proof.
  intros Ho. unfold names_a_file. cbv zeta.
  rewrite !andb_true_iff, negb_true_iff, bool_decide_eq_false.
  intros [[[[[[Hfit H1] H255] Hns] Hend] Hne] Hp].
  split; [exact Hne|]. split; [|exact Hp].
  unfold Spec.fn_name in *.
  destruct (decode_utf16le Ignore _) as [name|] eqn:E; [|contradiction].
  apply decode_ignore_length in E.
  rewrite len_slice in E by lia. lia.
Qed.

Lemma filetime_positive (ct : Z) :
  (ct >? 0) = false -> filetime_to_datetime ct = None.
Proof.
  intros Hct. unfold filetime_to_datetime.
  destruct (Z.gtb_spec ct 0); [discriminate|].
  destruct (Z.eqb_spec ct 0); [reflexivity|].
  cbn [orb]. rewrite (proj2 (Z.ltb_lt _ _)) by lia. reflexivity.
Qed.

Lemma _parse_filename_attribute_spec (data : bytes) (offset : Z)
    (record : LogRecord.t) :
  0 <= offset ->
  _parse_filename_attribute data offset record =
    (Ok tt, if names_a_file data offset then named_from data offset record
            else record).
Proof.
  intros Ho. unfold _parse_filename_attribute, names_a_file. cbv zeta.
  destruct (Z.gtb_spec (offset + 0x44) (len data)) as [Hshort|Hfit].
  { rewrite (proj2 (Z.leb_gt _ _)) by lia. reflexivity. }
  rewrite (proj2 (Z.leb_le _ _)) by lia. cbn [andb].
  unfold try_struct_error, mbind, mut_bind, mret, mut_ret, expr, assign.
  destruct (index_byte_at data (offset + 0x40) ltac:(lia)) as (b1 & -> & Hn).
  destruct (index_byte_at data (offset + 0x41) ltac:(lia)) as (b2 & -> & Hs).
  cbn [fmap res_fmap]. rewrite Hn, Hs.
  set (name_len := Spec.byte_at data (offset + 0x40)).
  set (namespace := Spec.byte_at data (offset + 0x41)).
  destruct (Z.ltb_spec name_len 1) as [H1|H1].
  { rewrite (proj2 (Z.leb_gt 1 name_len)) by lia. reflexivity. }
  rewrite (proj2 (Z.leb_le 1 name_len)) by lia. cbn [orb andb].
  destruct (Z.gtb_spec name_len 255) as [H255|H255].
  { rewrite (proj2 (Z.leb_gt name_len 255)) by lia. reflexivity. }
  rewrite (proj2 (Z.leb_le name_len 255)) by lia. cbn [orb andb].
  destruct (Z.gtb_spec namespace 3) as [Hns|Hns].
  { rewrite (proj2 (Z.leb_gt namespace 3)) by lia. reflexivity. }
  rewrite (proj2 (Z.leb_le namespace 3)) by lia. cbn [orb andb].
  destruct (Z.gtb_spec (offset + 0x42 + name_len * 2) (len data)) as [He|He].
  { rewrite (proj2 (Z.leb_gt _ _)) by lia. reflexivity. }
  rewrite (proj2 (Z.leb_le _ _)) by lia. cbn [andb].
  unfold named_from, Spec.fn_name. fold name_len.
  destruct (decode_ignore_total
              (slice data (offset + 0x42) (offset + 0x42 + name_len * 2)))
    as [filename ->].
  destruct (bool_decide (filename = [])); cbn [negb andb]; [reflexivity|].
  destruct (forallb printable_or_blank filename); cbn [negb]; [|reflexivity].
  unpack_ok. rewrite Z.add_0_r.
  fold (field data offset (offset + 8))
       (field data (offset + 8) (offset + 16))
       (field data (offset + 56) (offset + 60)).
  destruct (field data (offset + 8) (offset + 16) >? 0) eqn:Hct.
  - destruct (filetime_to_datetime _); reflexivity.
  - rewrite (filetime_positive _ Hct). reflexivity.
Qed.

(** X18. [_parse_filename_attribute] never raises, and it names the record
    or leaves it as it was: when the content at the offset has its 0x44
    bytes, a name length of 1 to 255, a namespace of at most 3, the name
    inside the data and decoded (errors ignored) to a non-empty string of
    printable characters, spaces, dots and tabs, the record takes that
    name, the whole 64-bit parent reference, the attribute flags and, when
    it can be converted, the creation time; the other fields stay. *)
Theorem X18_parse_filename_attribute (data : bytes) (offset : Z)
    (record : LogRecord.t) :
  0 <= offset ->
  _parse_filename_attribute data offset record =
    (Ok tt, if names_a_file data offset then named_from data offset record
            else record)
  /\ (names_a_file data offset = true -> valid_name (Spec.fn_name data offset)).
Proof.
  intros Ho. split.
  - apply _parse_filename_attribute_spec, Ho.
  - apply fn_name_valid, Ho.
Qed.

(** *** What the parsers of the client data keep *)

(** The record without the five fields the client data can give it. *)
Definition header (r : LogRecord.t) : LogRecord.t :=
  with_file_reference 0 (LogRecord.set_name r [] 0 [] 0).

(** From [record] to [r] the header fields and the event stayed, and the
    name stayed or became a valid one. *)
Definition step_ok (record r : LogRecord.t) : Prop :=
  header r = header record
  /\ (LogRecord.filename r = LogRecord.filename record
      \/ valid_name (LogRecord.filename r)).

(** A call that returns, and keeps the record in that way. *)
Definition keeps {A} (m : Mut LogRecord.t A) : Prop :=
  forall record, exists a r, m record = (Ok a, r) /\ step_ok record r.

Lemma step_ok_refl record : step_ok record record.
Proof. split; [reflexivity|left; reflexivity]. Qed.

Lemma step_ok_trans r1 r2 r3 : step_ok r1 r2 -> step_ok r2 r3 -> step_ok r1 r3.
Proof.
  intros [Hh1 Hn1] [Hh2 Hn2]. split; [congruence|].
  destruct Hn2 as [Hn2|Hn2]; [|right; exact Hn2].
  rewrite Hn2. exact Hn1.
Qed.

Lemma keeps_ret {A} (a : A) : keeps (@mret (Mut LogRecord.t) mut_ret A a).
Proof. intros record. exists a, record. split; [reflexivity|apply step_ok_refl]. Qed.

Lemma keeps_bind {A B} (m : Mut LogRecord.t A) (k : A -> Mut LogRecord.t B) :
  keeps m -> (forall a, keeps (k a)) ->
  keeps (@mbind (Mut LogRecord.t) mut_bind A B k m).
Proof.
  intros Hm Hk record. destruct (Hm record) as (a & r & E & Hs).
  destruct (Hk a r) as (b & r' & E' & Hs').
  exists b, r'. unfold mbind, mut_bind. rewrite E, E'.
  split; [reflexivity|]. eapply step_ok_trans; eassumption.
Qed.

Lemma keeps_expr {A} (e : LogRecord.t -> res A) :
  (forall record, exists v, e record = Ok v) -> keeps (expr e).
Proof.
  intros He record. destruct (He record) as [v Hv].
  exists v, record. unfold expr. rewrite Hv.
  split; [reflexivity|apply step_ok_refl].
Qed.

Lemma keeps_try {A} (body handler : Mut LogRecord.t A) :
  keeps body -> keeps (try_struct_error body handler).
Proof.
  intros Hb record. destruct (Hb record) as (a & r & E & Hs).
  exists a, r. unfold try_struct_error. rewrite E. split; [reflexivity|exact Hs].
Qed.

Lemma keeps_when (cond : LogRecord.t -> bool) (body : Mut LogRecord.t unit) :
  keeps body -> keeps (when cond body).
Proof.
  intros Hb. unfold when. apply keeps_bind.
  - apply keeps_expr. eauto.
  - intros [|]; [exact Hb|apply keeps_ret].
Qed.

Lemma keeps_on_part offset length data (f : bytes -> Mut LogRecord.t unit) :
  (forall part, keeps (f part)) -> keeps (on_part offset length data f).
Proof. intros Hf record. unfold on_part. apply Hf. Qed.

Lemma keeps_file_reference (v : Z) : keeps (assign (with_file_reference v)).
Proof.
  intros record. exists tt, (with_file_reference v record).
  split; [reflexivity|]. split; [reflexivity|left; reflexivity].
Qed.

Lemma keeps_parse_filename_attribute (data : bytes) (offset : Z) :
  0 <= offset -> keeps (_parse_filename_attribute data offset).
Proof.
  intros Ho record. rewrite _parse_filename_attribute_spec by exact Ho.
  eexists _, _. split; [reflexivity|].
  destruct (names_a_file data offset) eqn:E; [|apply step_ok_refl].
  split; [reflexivity|]. right. apply fn_name_valid; assumption.
Qed.

(** One turn of the fallback scan names the record or goes on. *)
Lemma scan_at_named (record : LogRecord.t) (data : bytes) (offset : Z) :
  0 <= offset -> offset + 0x44 < len data ->
  scan_at record data offset = Ok None
  \/ exists name parent timestamp file_attr,
       scan_at record data offset
       = Ok (Some (LogRecord.set_name record name parent timestamp file_attr))
       /\ valid_name name.
Proof.
  intros Ho Hfit. unfold scan_at.
  destruct (index_byte_at data (offset + 0x40) ltac:(lia)) as (b1 & -> & Hn).
  destruct (index_byte_at data (offset + 0x41) ltac:(lia)) as (b2 & -> & Hs).
  cbn [fmap res_fmap mbind res_bind]. cbv zeta.
  destruct (Z.leb_spec 1 (u8 b1)); cbn [andb]; [|left; reflexivity].
  destruct (Z.leb_spec (u8 b1) 255); cbn [andb]; [|left; reflexivity].
  destruct (u8 b2 <=? 3); cbn [andb]; [|left; reflexivity].
  destruct (Z.leb_spec (offset + 0x42 + u8 b1 * 2) (len data));
    [|left; reflexivity].
  destruct (decode_utf16le Ignore _) as [filename|] eqn:E; [|left; reflexivity].
  destruct (bool_decide (filename = [])) eqn:He; cbn [negb andb];
    [left; reflexivity|].
  destruct (len filename >=? 1); [|left; reflexivity].
  destruct (forallb printable_or_blank filename) eqn:Hp; [|left; reflexivity].
  unpack_ok. cbn [mbind res_bind].
  destruct (Z.land _ _ <? 0x1000000000); [|left; reflexivity].
  right. cbn [except_continue]. eexists _, _, _, _. split; [reflexivity|].
  apply bool_decide_eq_false in He. split; [exact He|]. split; [|exact Hp].
  apply decode_ignore_length in E. rewrite len_slice in E by lia. lia.
Qed.

Lemma scan_loop_named (record : LogRecord.t) (data : bytes) (offsets : list Z) :
  Forall (fun offset => 0 <= offset /\ offset + 0x44 < len data) offsets ->
  exists r, scan_loop record data offsets = Ok r /\ step_ok record r.
Proof.
  induction 1 as [|offset rest [Ho Hfit] Hall IH].
  { exists record. split; [reflexivity|apply step_ok_refl]. }
  cbn [scan_loop].
  destruct (scan_at_named record data offset Ho Hfit)
    as [->|(name & parent & timestamp & file_attr & -> & Hv)];
    cbn [mbind res_bind].
  - exact IH.
  - eexists. split; [reflexivity|]. split; [reflexivity|right; exact Hv].
Qed.

Lemma _scan_for_filename_named (record : LogRecord.t) (data : bytes) :
  exists r, _scan_for_filename record data = Ok r /\ step_ok record r.
Proof.
  unfold _scan_for_filename.
  destruct (Z.ltb_spec (len data) 0x44) as [Hshort|Hlong].
  { exists record. split; [reflexivity|apply step_ok_refl]. }
  apply scan_loop_named. apply Forall_forall. intros o Hin.
  apply elem_of_range in Hin; lia.
Qed.

Lemma keeps_scan_for_filename (data : bytes) : keeps (scan_for_filename data).
Proof.
  intros record. unfold scan_for_filename.
  destruct (_scan_for_filename_named record data) as (r & -> & Hs).
  exists tt, r. split; [reflexivity|exact Hs].
Qed.

Ltac unpacked :=
  apply keeps_expr; intros _; unpack_ok; eauto.

Lemma keeps_extract_filename_from_index_entry (data : bytes) :
  keeps (_extract_filename_from_index_entry data).
Proof.
  unfold _extract_filename_from_index_entry.
  destruct (Z.ltb_spec (len data) 0x52) as [Hshort|Hlong].
  { apply keeps_parse_filename_attribute. lia. }
  apply keeps_try.
  apply keeps_bind; [unpacked|]. intros file_ref.
  apply keeps_bind; [unpacked|]. intros entry_len.
  apply keeps_bind; [unpacked|]. intros filename_attr_len.
  cbv zeta. apply keeps_bind.
  - destruct (_ && _); [|apply keeps_ret].
    apply keeps_bind; [apply keeps_file_reference|]. intros _.
    destruct (len data >=? 0x10 + 0x44); [|apply keeps_ret].
    apply keeps_bind; [apply keeps_parse_filename_attribute; lia|]. intros _.
    apply keeps_expr. eauto.
  - intros [|]; [apply keeps_ret|apply keeps_parse_filename_attribute; lia].
Qed.

Lemma keeps_parse_attribute_for_filename (data : bytes) :
  keeps (_parse_attribute_for_filename data).
Proof.
  unfold _parse_attribute_for_filename.
  destruct (Z.ltb_spec (len data) 0x18) as [Hshort|Hlong]; [apply keeps_ret|].
  apply keeps_try.
  apply keeps_bind; [unpacked|]. intros attr_type.
  destruct (attr_type =? 0x30); [|apply keeps_scan_for_filename].
  apply keeps_bind; [unpacked|]. intros attr_length.
  destruct (_ && _); [|apply keeps_ret].
  apply keeps_parse_filename_attribute. lia.
Qed.

Lemma keeps_parse_client_data (data : bytes) : keeps (_parse_client_data data).
Proof.
  unfold _parse_client_data.
  destruct (len data =? 0); [apply keeps_ret|].
  repeat first
    [ apply keeps_bind; [|intros _]
    | apply keeps_when
    | apply keeps_on_part; intros ?
    | apply keeps_extract_filename_from_index_entry
    | apply keeps_parse_attribute_for_filename
    | apply keeps_scan_for_filename ].
Qed.

(** *** Client data that leaves the record alone *)

Definition idle (m : Mut LogRecord.t unit) : Prop :=
  forall record, m record = (Ok tt, record).

Lemma idle_ret : idle (@mret (Mut LogRecord.t) mut_ret unit tt).
Proof. intros record. reflexivity. Qed.

Lemma idle_bind (m : Mut LogRecord.t unit) (k : unit -> Mut LogRecord.t unit) :
  idle m -> idle (k tt) -> idle (@mbind (Mut LogRecord.t) mut_bind unit unit k m).
Proof.
  intros Hm Hk record. unfold mbind, mut_bind. rewrite Hm. apply Hk.
Qed.

Lemma idle_when cond (body : Mut LogRecord.t unit) :
  idle body -> idle (when cond body).
Proof.
  intros Hb record. unfold when, mbind, mut_bind, expr.
  destruct (cond record); [apply Hb|reflexivity].
Qed.

Lemma when_false cond (body : Mut LogRecord.t unit) record :
  cond record = false -> when cond body record = (Ok tt, record).
Proof.
  intros Hc. unfold when, mbind, mut_bind, expr. rewrite Hc. reflexivity.
Qed.

Lemma idle_on_part offset length data (f : bytes -> Mut LogRecord.t unit) :
  (forall part, len part < 0x44 -> idle (f part)) ->
  len data < 0x44 -> idle (on_part offset length data f).
Proof.
  intros Hf Hd record. unfold on_part. apply Hf. unfold part, slice.
  unfold len in *. rewrite length_take, length_drop. lia.
Qed.

Lemma idle_parse_filename_attribute (data : bytes) (offset : Z) :
  0 <= offset -> len data < 0x44 -> idle (_parse_filename_attribute data offset).
Proof.
  intros Ho Hd record. unfold _parse_filename_attribute.
  rewrite (proj2 (Z.gtb_lt _ _)) by lia. reflexivity.
Qed.

Lemma idle_scan_for_filename (data : bytes) :
  len data < 0x44 -> idle (scan_for_filename data).
Proof.
  intros Hd record. unfold scan_for_filename, _scan_for_filename.
  rewrite (proj2 (Z.ltb_lt _ _)) by lia. reflexivity.
Qed.

Lemma idle_extract_filename_from_index_entry (data : bytes) :
  len data < 0x44 -> idle (_extract_filename_from_index_entry data).
Proof.
  intros Hd. unfold _extract_filename_from_index_entry.
  rewrite (proj2 (Z.ltb_lt _ _)) by lia.
  apply idle_parse_filename_attribute; lia.
Qed.

Lemma idle_parse_attribute_for_filename (data : bytes) :
  len data < 0x44 -> idle (_parse_attribute_for_filename data).
Proof.
  intros Hd record. unfold _parse_attribute_for_filename.
  destruct (Z.ltb_spec (len data) 0x18) as [Hshort|Hlong]; [reflexivity|].
  unfold try_struct_error, mbind, mut_bind, expr. unpack_ok.
  destruct (_ =? 0x30).
  - unpack_ok. destruct (_ && _); [|reflexivity].
    rewrite idle_parse_filename_attribute by lia. reflexivity.
  - rewrite idle_scan_for_filename by lia. reflexivity.
Qed.

Lemma idle_parse_client_data (data : bytes) :
  len data < 0x44 -> idle (_parse_client_data data).
Proof.
  intros Hd. unfold _parse_client_data.
  destruct (len data =? 0); [apply idle_ret|].
  repeat first
    [ apply idle_bind
    | apply idle_when
    | apply idle_on_part; [intros ? ?|exact Hd]
    | apply idle_extract_filename_from_index_entry; assumption
    | apply idle_parse_attribute_for_filename; assumption
    | apply idle_scan_for_filename; assumption ].
Qed.

Lemma named_parse_client_data (data : bytes) (record : LogRecord.t) :
  LogRecord.filename record <> [] ->
  LogRecord.redo_op record ∉ filename_ops ->
  _parse_client_data data record = (Ok tt, record).
Proof.
  intros Hname Hop. unfold _parse_client_data.
  destruct (len data =? 0); [reflexivity|].
  assert (Hno : no_filename record = false).
  { unfold no_filename, is_set. rewrite bool_decide_eq_false_2 by exact Hname.
    reflexivity. }
  unfold mbind, mut_bind.
  rewrite when_false by (apply bool_decide_eq_false_2; exact Hop).
  rewrite when_false by (rewrite Hno; reflexivity).
  rewrite when_false by (rewrite Hno; reflexivity).
  rewrite when_false by (rewrite Hno; reflexivity).
  rewrite when_false by (rewrite Hno; reflexivity).
  reflexivity.
Qed.

(** X19. [_parse_client_data], with [_extract_filename_from_index_entry],
    [_parse_attribute_for_filename] and the fallback scan under it, never
    raises. It leaves the header fields and the event of the record as
    they were; the name it leaves is the one the record had, or a valid
    one: not empty, at most 255 characters, all printable or spaces, dots
    and tabs. Client data of less than 0x44 bytes changes nothing, and
    neither does any client data on a record that has a name and whose redo
    operation is none of the six index operations. *)
Theorem X19_parse_client_data (data : bytes) (record : LogRecord.t) :
  exists r,
    _parse_client_data data record = (Ok tt, r)
    /\ header r = header record
    /\ (LogRecord.filename r = LogRecord.filename record
        \/ valid_name (LogRecord.filename r))
    /\ (len data < 0x44 -> r = record)
    /\ (LogRecord.filename record <> [] ->
        LogRecord.redo_op record ∉ [0x0C; 0x0D; 0x0E; 0x0F; 0x10; 0x12] ->
        r = record).
Proof.
  destruct (keeps_parse_client_data data record) as ([] & r & E & Hh & Hn).
  exists r. split; [exact E|]. split; [exact Hh|]. split; [exact Hn|]. split.
  - intros Hd. rewrite idle_parse_client_data in E by exact Hd. congruence.
  - intros Hname Hop. rewrite named_parse_client_data in E by assumption.
    congruence.
Qed.

End names.

Lemma X18_parse_filename_attribute_witness :
  0 <= 8
  /\ _parse_filename_attribute (H := ticks_datetime) (H0 := ascii_unicode)
       scan_payload_ok 8 LogRecord.__init__ =
       (Ok tt,
        if names_a_file (H0 := ascii_unicode) scan_payload_ok 8
        then named_from (H := ticks_datetime) scan_payload_ok 8 LogRecord.__init__
        else LogRecord.__init__)
  /\ (names_a_file (H0 := ascii_unicode) scan_payload_ok 8 = true ->
      valid_name (H0 := ascii_unicode) (Spec.fn_name scan_payload_ok 8)).
Proof.
  split; [lia|].
  apply (X18_parse_filename_attribute (H := ticks_datetime) (H0 := ascii_unicode)
           scan_payload_ok 8 LogRecord.__init__).
  lia.
Defined.

(** ** The records of a [$LogFile] page *)

Section log_records.
Context `{PyDatetime} `{PyUnicode}.

(** The record that the 0x58 bytes of header at [data[offset:]] describe,
    before any client data is looked at. *)
Definition log_header (data : bytes) (offset : Z) : LogRecord.t :=
  {| LogRecord.this_lsn := field data offset (offset + 0x08);
     LogRecord.previous_lsn := field data (offset + 0x08) (offset + 0x10);
     LogRecord.client_undo_lsn := field data (offset + 0x10) (offset + 0x18);
     LogRecord.client_data_length := field data (offset + 0x18) (offset + 0x1C);
     LogRecord.client_id := field data (offset + 0x1C) (offset + 0x20);
     LogRecord.record_type := field data (offset + 0x20) (offset + 0x24);
     LogRecord.transaction_id := field data (offset + 0x24) (offset + 0x28);
     LogRecord.flags := field data (offset + 0x28) (offset + 0x2A);
     LogRecord.redo_op := field data (offset + 0x30) (offset + 0x32);
     LogRecord.undo_op := field data (offset + 0x32) (offset + 0x34);
     LogRecord.redo_offset := field data (offset + 0x34) (offset + 0x36);
     LogRecord.redo_length := field data (offset + 0x36) (offset + 0x38);
     LogRecord.undo_offset := field data (offset + 0x38) (offset + 0x3A);
     LogRecord.undo_length := field data (offset + 0x3A) (offset + 0x3C);
     LogRecord.target_attribute := field data (offset + 0x3C) (offset + 0x3E);
     LogRecord.lcns_to_follow := field data (offset + 0x3E) (offset + 0x40);
     LogRecord.record_offset := field data (offset + 0x40) (offset + 0x42);
     LogRecord.attribute_offset := field data (offset + 0x42) (offset + 0x44);
     LogRecord.target_vcn := field data (offset + 0x48) (offset + 0x50);
     LogRecord.target_lcn := field data (offset + 0x50) (offset + 0x54);
     LogRecord.filename := [];
     LogRecord.file_reference := 0;
     LogRecord.parent_reference := 0;
     LogRecord.timestamp := [];
     LogRecord.event := opcode_name (field data (offset + 0x30) (offset + 0x32));
     LogRecord.file_attr := 0 |}.

(** The header at [data[offset:]] is one [_parse_log_record] accepts. *)
Definition is_log_record (data : bytes) (offset : Z) : bool :=
  (offset + 0x58 <=? len data)
  && negb (field data offset (offset + 0x08) =? 0)
  && (field data (offset + 0x18) (offset + 0x1C) <=? 0x10000).

(** The client data of the record at [data[offset:]], when it has some and
    all of it is in [data]. *)
Definition client_data_of (data : bytes) (offset : Z) : option bytes :=
  let length := field data (offset + 0x18) (offset + 0x1C) in
  if (length >? 0) && (offset + 0x58 + length <=? len data)
  then Some (slice data (offset + 0x58) (offset + 0x58 + length))
  else None.

Lemma _parse_log_record_spec (data : bytes) (offset : Z) :
  0 <= offset ->
  _parse_log_record data offset =
    if is_log_record data offset then
      match client_data_of data offset with
      | Some client_data =>
          Ok (Some (snd (_parse_client_data client_data (log_header data offset))))
      | None => Ok (Some (log_header data offset))
      end
    else Ok None.
Proof.
  intros Ho. unfold _parse_log_record, is_log_record, LOG_RECORD_HEADER_SIZE.
  destruct (Z.gtb_spec (offset + 0x58) (len data)) as [Hshort|Hfit].
  { rewrite (proj2 (Z.leb_gt _ _)) by lia. reflexivity. }
  rewrite (proj2 (Z.leb_le _ _)) by lia. cbn [andb].
  unpack_ok. cbn [mbind res_bind]. rewrite Z.add_0_r.
  fold (field data offset (offset + 8)).
  destruct (field data offset (offset + 8) =? 0); cbn [negb andb];
    [reflexivity|].
  unpack_ok. cbn [mbind res_bind].
  fold (field data (offset + 24) (offset + 28)).
  destruct (Z.gtb_spec (field data (offset + 24) (offset + 28)) 0x10000)
    as [Hbig|Hsmall].
  { rewrite (proj2 (Z.leb_gt (field data (offset + 24) (offset + 28)) 0x10000))
      by lia. reflexivity. }
  rewrite (proj2 (Z.leb_le (field data (offset + 24) (offset + 28)) 0x10000))
    by lia.
  unpack_ok. cbn [mbind res_bind]. cbv zeta.
  unfold client_data_of. cbv zeta.
  destruct (_ && _); [|reflexivity].
  destruct (keeps_parse_client_data
              (slice data (offset + 88)
                 (offset + 88 + field data (offset + 24) (offset + 28)))
              (log_header data offset)) as ([] & r & E & _).
  unfold log_header, field in E |- *. cbn [LogRecord.filename
    LogRecord.file_reference LogRecord.parent_reference LogRecord.timestamp
    LogRecord.file_attr LogRecord.__init__].
  rewrite E. reflexivity.
Qed.

Lemma _parse_log_record_shape (data : bytes) (offset : Z) :
  0 <= offset ->
  if is_log_record data offset then
    exists r, _parse_log_record data offset = Ok (Some r)
              /\ header r = log_header data offset
  else _parse_log_record data offset = Ok None.
Proof.
  intros Ho. rewrite _parse_log_record_spec by exact Ho.
  destruct (is_log_record data offset); [|reflexivity].
  destruct (client_data_of data offset) as [client_data|].
  - destruct (keeps_parse_client_data client_data (log_header data offset))
      as ([] & r & E & Hh & _).
    rewrite E. exists r. split; [reflexivity|exact Hh].
  - eexists. split; reflexivity.
Qed.

(** What holds of every record the parser returns. *)
Definition record_ok (r : LogRecord.t) : Prop :=
  LogRecord.this_lsn r <> 0
  /\ 0 <= LogRecord.client_data_length r <= 0x10000
  /\ LogRecord.event r = opcode_name (LogRecord.redo_op r)
  /\ (LogRecord.filename r = [] \/ valid_name (LogRecord.filename r)).

Lemma _parse_log_record_ok (data : bytes) (offset : Z) (r : LogRecord.t) :
  0 <= offset -> _parse_log_record data offset = Ok (Some r) -> record_ok r.
Proof.
  intros Ho. rewrite _parse_log_record_spec by exact Ho.
  unfold is_log_record.
  destruct (offset + 0x58 <=? len data); cbn [andb]; [|discriminate].
  destruct (Z.eqb_spec (field data offset (offset + 0x08)) 0) as [|Hlsn];
    cbn [negb andb]; [discriminate|].
  destruct (Z.leb_spec (field data (offset + 0x18) (offset + 0x1C)) 0x10000)
    as [Hl|]; [|discriminate].
  pose proof (field_nonneg data (offset + 0x18) (offset + 0x1C)) as Hn.
  assert (Hok : forall r', header r' = log_header data offset ->
    (LogRecord.filename r' = [] \/ valid_name (LogRecord.filename r')) ->
    record_ok r').
  { intros r' Hh Hname. unfold record_ok.
    pose proof (f_equal LogRecord.this_lsn Hh) as H1.
    pose proof (f_equal LogRecord.client_data_length Hh) as H2.
    pose proof (f_equal LogRecord.event Hh) as H3.
    pose proof (f_equal LogRecord.redo_op Hh) as H4.
    cbn in H1, H2, H3, H4. rewrite H1, H2, H3, H4.
    repeat split; try assumption. }
  destruct (client_data_of data offset) as [client_data|].
  - destruct (keeps_parse_client_data client_data (log_header data offset))
      as ([] & r' & E & Hh & Hn').
    rewrite E. cbn [snd]. intros [= <-]. apply Hok; assumption.
  - intros [= <-]. apply Hok; [reflexivity|left; reflexivity].
Qed.

(** X20. [_parse_log_record] never raises. It returns a record exactly
    when the 0x58 bytes of the header are in the data, the LSN is not 0 and
    the client data length is at most 0x10000. The header fields of the
    record are the little-endian fields of the header, its event is the
    name of the redo operation, and its name is empty or valid. Without
    client data, with client data that runs over the end of the data or
    with less than 0x44 bytes of it, the record is the header alone. *)
Theorem X20_parse_log_record (data : bytes) (offset : Z) :
  0 <= offset ->
  if (offset + 0x58 <=? len data)
     && negb (field data offset (offset + 0x08) =? 0)
     && (field data (offset + 0x18) (offset + 0x1C) <=? 0x10000)
  then
    exists r,
      _parse_log_record data offset = Ok (Some r)
      /\ header r = log_header data offset
      /\ (LogRecord.filename r = [] \/ valid_name (LogRecord.filename r))
      /\ (field data (offset + 0x18) (offset + 0x1C) < 0x44
          \/ len data < offset + 0x58 + field data (offset + 0x18) (offset + 0x1C)
          -> r = log_header data offset)
  else _parse_log_record data offset = Ok None.
Proof.
  intros Ho. rewrite _parse_log_record_spec by exact Ho.
  fold (is_log_record data offset).
  destruct (is_log_record data offset); [|reflexivity].
  unfold client_data_of. cbv zeta.
  set (length := field data (offset + 0x18) (offset + 0x1C)).
  destruct (Z.gtb_spec length 0) as [Hpos|Hzero]; cbn [andb].
  2:{ eexists. split; [reflexivity|]. split; [reflexivity|].
      split; [left; reflexivity|]. reflexivity. }
  destruct (Z.leb_spec (offset + 0x58 + length) (len data)) as [Hin|Hout].
  2:{ eexists. split; [reflexivity|]. split; [reflexivity|].
      split; [left; reflexivity|]. reflexivity. }
  set (client_data := slice data (offset + 0x58) (offset + 0x58 + length)).
  destruct (keeps_parse_client_data client_data (log_header data offset))
    as ([] & r & E & Hh & Hn).
  rewrite E. cbn [snd]. exists r. split; [reflexivity|].
  split; [exact Hh|]. split; [exact Hn|].
  intros [Hshort|Hover]; [|lia].
  assert (Hl : len client_data < 0x44).
  { unfold client_data. rewrite len_slice by lia. lia. }
  rewrite (idle_parse_client_data client_data Hl) in E. congruence.
Qed.

End log_records.

(** A log record: the LSN, the client data length and the redo operation
    in a header of 0x58 bytes, and the client data after it. *)
Definition log_record_of (lsn redo_op : Z) (client_data : bytes) : bytes :=
  pack_u 8 lsn ++ zeros 16 ++ pack_u 4 (len client_data) ++ zeros 20
  ++ pack_u 2 redo_op ++ zeros 38 ++ client_data.

Definition named_log_record : bytes := log_record_of 7 0x02 scan_payload_ok.

Lemma X20_parse_log_record_witness :
  0 <= 0
  /\ if (0 + 0x58 <=? len named_log_record)
        && negb (field named_log_record 0 (0 + 0x08) =? 0)
        && (field named_log_record (0 + 0x18) (0 + 0x1C) <=? 0x10000)
     then
       exists r,
         _parse_log_record (H := ticks_datetime) (H0 := ascii_unicode)
           named_log_record 0 = Ok (Some r)
         /\ header r = log_header named_log_record 0
         /\ (LogRecord.filename r = []
             \/ valid_name (H0 := ascii_unicode) (LogRecord.filename r))
         /\ (field named_log_record (0 + 0x18) (0 + 0x1C) < 0x44
             \/ len named_log_record
                < 0 + 0x58 + field named_log_record (0 + 0x18) (0 + 0x1C)
             -> r = log_header named_log_record 0)
     else _parse_log_record (H := ticks_datetime) (H0 := ascii_unicode)
            named_log_record 0 = Ok None.
Proof.
  split; [lia|].
  apply (X20_parse_log_record (H := ticks_datetime) (H0 := ascii_unicode)
           named_log_record 0).
  lia.
Defined.

(** [(x + 7) & ~7] rounds up to a multiple of 8. *)
Lemma round_up_8 (x : Z) : Z.land (x + 7) (Z.lnot 7) = 8 * ((x + 7) / 8).
Proof.
  rewrite <- Z.ldiff_land. change 7 with (Z.ones 3) at 2.
  rewrite Z.ldiff_ones_r by lia.
  rewrite Z.shiftl_mul_pow2, Z.shiftr_div_pow2 by lia.
  change (2 ^ 3) with 8. lia.
Qed.

Lemma round_up_8_bounds (x : Z) :
  x <= Z.land (x + 7) (Z.lnot 7) /\ Z.land (x + 7) (Z.lnot 7) mod 8 = 0.
Proof.
  rewrite round_up_8. split.
  - pose proof (Z.div_mod (x + 7) 8 ltac:(lia)).
    pose proof (Z.mod_pos_bound (x + 7) 8 ltac:(lia)). lia.
  - rewrite Z.mul_comm. apply Z.mod_mul. lia.
Qed.

Section page_records.
Context `{PyDatetime} `{PyUnicode}.

(** The record at [offset] ends, client data included, at or before
    [next]. *)
Definition ends_before (data : bytes) (offset next : Z) : Prop :=
  offset + 0x58 + field data (offset + 0x18) (offset + 0x1C) <= next.

Lemma parsed_client_data_length (data : bytes) (offset : Z) (r : LogRecord.t) :
  0 <= offset -> _parse_log_record data offset = Ok (Some r) ->
  LogRecord.client_data_length r = field data (offset + 0x18) (offset + 0x1C).
Proof.
  intros Ho E. pose proof (_parse_log_record_shape data offset Ho) as Hs.
  rewrite E in Hs. destruct (is_log_record data offset); [|discriminate].
  destruct Hs as (r' & [= <-] & Hh).
  apply (f_equal LogRecord.client_data_length) in Hh. exact Hh.
Qed.

Lemma page_records_loop_spec (data : bytes) (fuel : nat) : forall offset out,
  0x30 <= offset -> offset mod 8 = 0 ->
  Z.max 0 (len data - offset) < Z.of_nat fuel ->
  exists offsets records,
    page_records_loop fuel data offset out = Ok (out ++ records)
    /\ Forall2 (fun o r => _parse_log_record data o = Ok (Some r)) offsets records
    /\ Forall (fun o => offset <= o /\ o mod 8 = 0 /\ o + 0x58 <= len data
                        /\ slice data o (o + 8) <> zeros 8) offsets
    /\ StronglySorted (ends_before data) offsets.
Proof.
  induction fuel as [|fuel IH]; intros offset out Ho Hal Hfuel; [lia|].
  cbn [page_records_loop]. unfold LOG_RECORD_HEADER_SIZE.
  destruct (Z.leb_spec (offset + 0x58) (len data)) as [Hfit|Hend].
  2:{ exists [], []. rewrite app_nil_r. repeat split; constructor. }
  destruct (bool_decide (slice data offset (offset + 8) = zeros 8)) eqn:Hz.
  { exists [], []. rewrite app_nil_r. repeat split; constructor. }
  apply bool_decide_eq_false in Hz.
  pose proof (_parse_log_record_shape data offset ltac:(lia)) as Hs.
  destruct (is_log_record data offset).
  - destruct Hs as (r & E & Hh). rewrite E. cbn [mbind res_bind]. cbv zeta.
    pose proof (parsed_client_data_length data offset r ltac:(lia) E) as Hl.
    rewrite Hl.
    set (length := field data (offset + 0x18) (offset + 0x1C)) in *.
    pose proof (field_nonneg data (offset + 0x18) (offset + 0x1C)) as Hn.
    fold length in Hn.
    pose proof (round_up_8_bounds (0x58 + length)) as [Hge Hmod].
    destruct (IH (offset + Z.land (0x58 + length + 7) (Z.lnot 7)) (out ++ [r]))
      as (offsets & records & E' & Hp & Hb & Hsorted).
    + lia.
    + rewrite Z.add_mod, Hal, Hmod by lia. reflexivity.
    + lia.
    + exists (offset :: offsets), (r :: records). rewrite E'.
      split; [rewrite <- app_assoc; reflexivity|].
      split; [constructor; assumption|]. split.
      * constructor; [repeat split; [lia|assumption|lia|assumption]|].
        eapply Forall_impl; [exact Hb|]. cbv beta.
        intros o (? & ? & ? & ?). repeat split; try lia; assumption.
      * constructor; [exact Hsorted|].
        eapply Forall_impl; [exact Hb|]. cbv beta. unfold ends_before.
        fold length. intros o (? & ? & ? & ?). lia.
  - rewrite Hs. cbn [mbind res_bind].
    destruct (IH (offset + 8) out) as (offsets & records & E' & Hp & Hb & Hsorted).
    + lia.
    + rewrite Z.add_mod, Hal by lia. reflexivity.
    + lia.
    + exists offsets, records. rewrite E'. split; [reflexivity|].
      split; [exact Hp|]. split; [|exact Hsorted].
      eapply Forall_impl; [exact Hb|]. cbv beta.
      intros o (? & ? & ? & ?). repeat split; try lia; assumption.
Qed.

Lemma _parse_page_records_spec (page : RecordPage.t) :
  exists offsets records,
    _parse_page_records page = Ok records
    /\ Forall2 (fun o r => _parse_log_record (RecordPage.data page) o = Ok (Some r))
         offsets records
    /\ Forall (fun o => 0x30 <= o /\ o mod 8 = 0
                        /\ o + 0x58 <= len (RecordPage.data page)
                        /\ slice (RecordPage.data page) o (o + 8) <> zeros 8)
         offsets
    /\ StronglySorted (ends_before (RecordPage.data page)) offsets.
Proof.
  unfold _parse_page_records. cbv zeta.
  apply (page_records_loop_spec (RecordPage.data page)
           (S (length (RecordPage.data page))) RecordPage.HEADER_SIZE []).
  - unfold RecordPage.HEADER_SIZE. lia.
  - reflexivity.
  - unfold RecordPage.HEADER_SIZE, len. lia.
Qed.

Lemma _parse_page_records_total (page : RecordPage.t) :
  exists records, _parse_page_records page = Ok records.
Proof.
  destruct (_parse_page_records_spec page) as (_ & records & E & _). eauto.
Qed.

(** X21. [_parse_page_records] ends on every page and never raises. Each
    record it yields is the one [_parse_log_record] returns at an offset of
    the page data that is a multiple of 8, at least 0x30, with the 0x58
    bytes of a header before the end of the data and not eight zero bytes
    at its start; the records are yielded in the order of their offsets
    and none begins before the one before it ends, client data included. *)
Theorem X21_parse_page_records (page : RecordPage.t) :
  let data := RecordPage.data page in
  exists offsets records,
    _parse_page_records page = Ok records
    /\ Forall2 (fun o r => _parse_log_record data o = Ok (Some r)) offsets records
    /\ Forall (fun o => 0x30 <= o /\ o mod 8 = 0 /\ o + 0x58 <= len data
                        /\ slice data o (o + 8) <> zeros 8) offsets
    /\ StronglySorted
         (fun o next => o + 0x58 + field data (o + 0x18) (o + 0x1C) <= next)
         offsets.
Proof. cbv zeta. apply _parse_page_records_spec. Qed.

End page_records.

(** ** The records of a [$LogFile] *)

(** The page size the parser takes from the restart area of the file, when
    one of its first two blocks of 4096 bytes is a restart page. *)
Definition page_size_of (file : bytes) : option Z :=
  let first := slice file 0 4096 in
  let second := slice file 4096 8192 in
  if is_restart_page first
  then Some (LogFileParser.page_size (parser_of (parsed_restart_page first)))
  else if is_restart_page second
  then Some (LogFileParser.page_size (parser_of (parsed_restart_page second)))
  else None.

Lemma restart_page_size_pos (data : bytes) :
  0 < LogFileParser.page_size (parser_of (parsed_restart_page data)).
Proof. apply page_size_of_parser. apply field_nonneg. Qed.

Section log_file.
Context `{PyDatetime} `{PyUnicode}.

(** The records of the page at [page_offset]: none unless it is a record
    page. *)
Definition records_of_page (page_data : bytes) (page_offset : Z)
    : list LogRecord.t :=
  if is_record_page page_data then
    match _parse_page_records
            (parsed_record_page (RecordPage.__init__ page_data page_offset)) with
    | Ok records => records
    | _ => []
    end
  else [].

(** The records of the page number [k], the pages being [page_size] long. *)
Definition records_of (file : bytes) (page_size k : Z) : list LogRecord.t :=
  records_of_page (slice file (k * page_size) (k * page_size + page_size))
    (k * page_size).

Lemma zero_page_is_no_record_page (page_data : bytes) :
  slice page_data 0 4 = zeros 4 -> is_record_page page_data = false.
Proof.
  intros Hz. unfold is_record_page. rewrite Hz.
  rewrite bool_decide_eq_false_2 by discriminate. apply andb_false_r.
Qed.

Lemma pages_loop_spec (file : bytes) (page_size : Z) (fuel : nat) :
  0 < page_size ->
  forall k out,
    0 <= k -> Z.max 0 (len file / page_size - k) < Z.of_nat fuel ->
    LogFileParser.pages_loop fuel file page_size (k * page_size) out
    = Ok (out ++ concat (records_of file page_size
                           <$> seqZ k (len file / page_size - k))).
Proof.
  intros Hps. induction fuel as [|fuel IH]; intros k out Hk Hfuel; [lia|].
  cbn [LogFileParser.pages_loop].
  pose proof (len_nonneg file) as Hlen.
  pose proof (Z.div_mod (len file) page_size ltac:(lia)) as Hdm.
  pose proof (Z.mod_pos_bound (len file) page_size Hps) as Hmod.
  set (n := len file / page_size) in *.
  assert (Hempty : n <= k -> seqZ k (n - k) = []).
  { intros Hle. unfold seqZ. replace (Z.to_nat (n - k)) with O by lia.
    reflexivity. }
  destruct (Z.ltb_spec (k * page_size) (len file)) as [Hin|Hout].
  2:{ rewrite Hempty by nia. cbn. rewrite app_nil_r. reflexivity. }
  cbv zeta.
  destruct (Z.ltb_spec
              (len (slice file (k * page_size) (k * page_size + page_size)))
              page_size) as [Hshort|Hfull].
  { rewrite Hempty; [cbn; rewrite app_nil_r; reflexivity|].
    destruct (Z.le_gt_cases n k) as [|Hgt]; [assumption|].
    rewrite len_slice in Hshort by nia. lia. }
  assert (Hfit : k * page_size + page_size <= len file).
  { destruct (Z.le_gt_cases (k * page_size + page_size) (len file))
      as [|Hover]; [assumption|].
    unfold slice, len in Hfull. rewrite length_take, length_drop in Hfull.
    unfold len in *. lia. }
  assert (Hn : k < n) by nia.
  rewrite (seqZ_cons_succ k (n - k)) by lia.
  cbn [fmap list_fmap concat].
  replace (n - k - 1) with (n - (k + 1)) by lia.
  replace (k * page_size + page_size) with ((k + 1) * page_size) in * by lia.
  unfold records_of at 1, records_of_page.
  replace (k * page_size + page_size) with ((k + 1) * page_size) by lia.
  set (page_data := slice file (k * page_size) ((k + 1) * page_size)) in *.
  destruct (bool_decide (slice page_data 0 4 = zeros 4)) eqn:Hz.
  { apply bool_decide_eq_true in Hz.
    rewrite (zero_page_is_no_record_page _ Hz). cbn [app].
    apply IH; lia. }
  rewrite record_page_parse. cbn [RecordPage.data RecordPage.__init__].
  destruct (is_record_page page_data); [|cbn [app]; apply IH; lia].
  destruct (_parse_page_records_total (parsed_record_page
                           (RecordPage.__init__ page_data (k * page_size))))
    as (records & ->).
  cbn [mbind res_bind]. rewrite IH by lia. rewrite <- app_assoc. reflexivity.
Qed.

Lemma pages_loop_from_start (file : bytes) (page_size : Z) :
  0 < page_size ->
  LogFileParser.pages_loop (S (length file)) file page_size (page_size * 2) []
  = Ok (concat (records_of file page_size
                  <$> seqZ 2 (len file / page_size - 2))).
Proof.
  intros Hps. rewrite (Z.mul_comm _ 2).
  rewrite (pages_loop_spec file page_size (S (length file)) Hps 2 []);
    [reflexivity|lia|].
  pose proof (len_nonneg file) as Hlen.
  pose proof (Z.div_le_upper_bound (len file) page_size (len file) Hps
                ltac:(nia)).
  unfold len in *. lia.
Qed.

Lemma iter_records_spec (file : bytes) :
  LogFileParser.iter_records file =
    match page_size_of file with
    | Some page_size =>
        Ok (concat (records_of file page_size
                      <$> seqZ 2 (len file / page_size - 2)))
    | None => Ok []
    end.
Proof.
  unfold LogFileParser.iter_records. rewrite parse_restart_area_spec.
  unfold page_size_of. cbv zeta.
  pose proof (restart_page_size_pos (slice file 0 4096)) as Hp1.
  pose proof (restart_page_size_pos (slice file 4096 8192)) as Hp2.
  set (first := slice file 0 4096) in *.
  set (second := slice file 4096 8192) in *.
  clearbody first second.
  set (self1 := parser_of (parsed_restart_page first)) in *.
  set (self2 := parser_of (parsed_restart_page second)) in *.
  clearbody self1 self2.
  destruct (is_restart_page first).
  { exact (pages_loop_from_start file (LogFileParser.page_size self1) Hp1). }
  destruct (is_restart_page second).
  { exact (pages_loop_from_start file (LogFileParser.page_size self2) Hp2). }
  reflexivity.
Qed.

Lemma records_of_page_ok (page_data : bytes) (page_offset : Z) :
  Forall record_ok (records_of_page page_data page_offset).
Proof.
  unfold records_of_page. destruct (is_record_page page_data); [|constructor].
  destruct (_parse_page_records_spec (parsed_record_page
                        (RecordPage.__init__ page_data page_offset)))
    as (offsets & records & -> & Hp & Hb & _).
  clear -Hp Hb. induction Hp as [|o r offsets records E Hp IH]; [constructor|].
  inversion Hb as [|? ? (Ho & _) Hb']; subst.
  constructor; [|apply IH, Hb'].
  eapply _parse_log_record_ok; [|exact E]. lia.
Qed.

(** X22. [iter_records] ends on every file and never raises. Without a
    restart page in the first two blocks of 4096 bytes it yields nothing.
    Otherwise, with the page size taken from the restart area, it yields
    the records of the pages number 2, 3, ... that are whole in the file,
    page after page, a page that is no record page giving none. Every
    record has an LSN that is not 0, a client data length of at most
    0x10000, the name of its redo operation as event and an empty or valid
    name. *)
Theorem X22_iter_records (file : bytes) :
  exists records,
    LogFileParser.iter_records file = Ok records
    /\ records =
         match page_size_of file with
         | Some page_size =>
             concat ((fun k =>
                        records_of_page
                          (slice file (k * page_size) (k * page_size + page_size))
                          (k * page_size))
                     <$> seqZ 2 (len file / page_size - 2))
         | None => []
         end
    /\ Forall record_ok records.
Proof.
  rewrite iter_records_spec.
  destruct (page_size_of file) as [page_size|].
  - eexists. split; [reflexivity|]. split; [reflexivity|].
    apply Forall_concat. apply Forall_fmap. apply Forall_forall.
    intros k _. apply records_of_page_ok.
  - exists []. split; [reflexivity|]. split; [reflexivity|constructor].
Qed.

End log_file.

(** ** The index of a directory and the attribute list *)

(** The index entry at [offset] names [target_name]: it is neither empty
    nor the last one, its [$FILE_NAME] content is in the data, and the name
    decodes (strictly) to [target_name]. *)
Definition names_target (data : bytes) (offset : Z) (target_name : str) : Prop :=
  let name_len := Spec.byte_at data (offset + 80) in
  offset + 82 + name_len * 2 <= len data
  /\ field data (offset + 8) (offset + 10) <> 0
  /\ Z.land (field data (offset + 12) (offset + 16)) 0x02 = 0
  /\ 66 <= field data (offset + 10) (offset + 12)
  /\ decode_utf16le Strict (slice data (offset + 82) (offset + 82 + name_len * 2))
     = Some target_name.

Lemma index_entries_loop_spec (data : bytes) (target_name : str) (fuel : nat) :
  forall offset,
    0 <= offset -> Z.max 0 (len data - offset) < Z.of_nat fuel ->
    exists r,
      NTFSExtractor.index_entries_loop fuel data offset target_name = Ok r
      /\ match r with
         | Some entry =>
             exists o, offset <= o /\ names_target data o target_name
                       /\ entry = Z.land (field data o (o + 8)) 0x0000FFFFFFFFFFFF
         | None => True
         end.
Proof.
  induction fuel as [|fuel IH]; intros offset Ho Hfuel; [lia|].
  cbn [NTFSExtractor.index_entries_loop].
  destruct (Z.leb_spec (offset + 16) (len data)) as [Hfit|Hend];
    [|exists None; split; [reflexivity|exact I]].
  destruct (Z.gtb_spec (offset + 16) (len data)) as [Hbad|_]; [lia|].
  unpack_ok. cbn [mbind res_bind].
  fold (field data offset (offset + 8)) (field data (offset + 8) (offset + 10))
       (field data (offset + 10) (offset + 12))
       (field data (offset + 12) (offset + 16)).
  pose proof (field_nonneg data (offset + 8) (offset + 10)) as Hlen.
  destruct (Z.eqb_spec (field data (offset + 8) (offset + 10)) 0) as [|Hnz];
    [exists None; split; [reflexivity|exact I]|].
  destruct (Z.eqb_spec (Z.land (field data (offset + 12) (offset + 16)) 2) 0)
    as [Hflag|]; cbn [negb]; [|exists None; split; [reflexivity|exact I]].
  cbv zeta.
  assert (Hnext : exists r,
    NTFSExtractor.index_entries_loop fuel data
      (offset + field data (offset + 8) (offset + 10)) target_name = Ok r
    /\ match r with
       | Some entry =>
           exists o, offset <= o /\ names_target data o target_name
                     /\ entry = Z.land (field data o (o + 8)) 0x0000FFFFFFFFFFFF
       | None => True
       end).
  { destruct (IH (offset + field data (offset + 8) (offset + 10)))
      as (r & E & Hr); [lia|lia|].
    exists r. split; [exact E|]. destruct r as [entry|]; [|exact I].
    destruct Hr as (o & Hle & Hr). exists o. split; [lia|exact Hr]. }
  destruct (Z.leb_spec (offset + 16 + 66) (len data)) as [Hfn|];
    cbn [andb mbind res_bind]; [|exact Hnext].
  destruct (Z.geb_spec (field data (offset + 10) (offset + 12)) 66) as [Hc|];
    cbn [mbind res_bind]; [|exact Hnext].
  destruct (index_byte_at data (offset + 16 + 64) ltac:(lia)) as (b & -> & Hb).
  cbn [fmap res_fmap mbind res_bind]. rewrite Hb.
  replace (offset + 16 + 64) with (offset + 80) in * by lia.
  replace (offset + 16 + 66) with (offset + 82) in * by lia.
  destruct (Z.leb_spec (offset + 82 + Spec.byte_at data (offset + 80) * 2)
              (len data)) as [Hname|]; cbn [mbind res_bind]; [|exact Hnext].
  destruct (decode_utf16le Strict _) as [name|] eqn:Hd;
    cbn [mbind res_bind]; [|exact Hnext].
  destruct (bool_decide (name = target_name)) eqn:Heq;
    cbn [mbind res_bind]; [|exact Hnext].
  apply bool_decide_eq_true in Heq. subst name.
  eexists. split; [reflexivity|]. exists offset. split; [lia|].
  split; [|reflexivity].
  unfold names_target. cbv zeta. repeat split; try assumption; lia.
Qed.

(** X23. [_parse_index_entries] ends and never raises for an offset that is
    not negative. What it returns is below 2^48, and it is the low 48 bits
    of the file reference of an index entry at or after the offset that is
    neither empty nor the last one, whose name lies in the data and decodes
    to the target name. Where not even the 16 bytes of an entry header are
    left, it returns [None]. *)
Theorem X23_parse_index_entries (data : bytes) (offset : Z) (target_name : str) :
  0 <= offset ->
  exists r,
    NTFSExtractor._parse_index_entries data offset target_name = Ok r
    /\ match r with
       | Some entry =>
           0 <= entry < 2 ^ 48
           /\ exists o, offset <= o /\ names_target data o target_name
                        /\ entry = Z.land (field data o (o + 8)) 0x0000FFFFFFFFFFFF
       | None => True
       end
    /\ (len data < offset + 16 -> r = None).
Proof.
  intros Ho. unfold NTFSExtractor._parse_index_entries.
  destruct (index_entries_loop_spec data target_name (S (length data)) offset Ho)
    as (r & E & Hr); [unfold len; lia|].
  exists r. split; [exact E|]. split.
  - destruct r as [entry|]; [|exact I]. split; [|exact Hr].
    destruct Hr as (o & _ & _ & ->).
    change 0x0000FFFFFFFFFFFF with (Z.ones 48). rewrite Z.land_ones by lia.
    apply Z.mod_pos_bound. lia.
  - intros Hshort. cbn [NTFSExtractor.index_entries_loop] in E.
    rewrite (proj2 (Z.leb_gt _ _)) in E by lia. congruence.
Qed.

(** An index entry for the file reference [ref] with the name [name], and
    the end entry after it. *)
Definition index_entry_of (ref : Z) (name : string) : bytes :=
  pack_u 8 ref ++ pack_u 2 (82 + len (utf16 name)) ++ pack_u 2 (66 + len (utf16 name))
  ++ pack_u 4 0 ++ zeros 64 ++ pack_u 1 (len (blit name)) ++ [x00] ++ utf16 name.

Definition small_index : bytes :=
  index_entry_of 7 "a" ++ index_entry_of (2 ^ 48 + 9) "$J"
  ++ pack_u 8 0 ++ pack_u 2 16 ++ pack_u 2 0 ++ pack_u 4 2.

Lemma X23_parse_index_entries_witness :
  0 <= 0
  /\ exists r,
       NTFSExtractor._parse_index_entries small_index 0 (lit "$J") = Ok r
       /\ match r with
          | Some entry =>
              0 <= entry < 2 ^ 48
              /\ exists o, 0 <= o /\ names_target small_index o (lit "$J")
                           /\ entry = Z.land (field small_index o (o + 8))
                                        0x0000FFFFFFFFFFFF
          | None => True
          end
       /\ (len small_index < 0 + 16 -> r = None).
Proof.
  split; [lia|].
  apply (X23_parse_index_entries small_index 0 (lit "$J")). lia.
Defined.

(** X24. [_apply_fixup_to_index] never raises and keeps the length of the
    data. It changes no byte outside the last two bytes of the sectors
    1 .. count-1 that fit in the data, [count] being the 16-bit field at
    offset 6; data of less than 48 bytes is returned as it is. *)
Theorem X24_apply_fixup_to_index (data : bytes) :
  exists fixed,
    NTFSExtractor._apply_fixup_to_index data = Ok fixed
    /\ len fixed = len data
    /\ (len data < 48 -> fixed = data)
    /\ forall j, 0 <= j ->
         (forall i, 1 <= i < field data 6 8 -> i * 512 <= len data ->
                    ~ (i * 512 - 2 <= j < i * 512)) ->
         fixed !! Z.to_nat j = data !! Z.to_nat j.
Proof.
  unfold NTFSExtractor._apply_fixup_to_index.
  destruct (Z.ltb_spec (len data) 48) as [Hshort|Hlong].
  { exists data. repeat split; reflexivity. }
  unpack_ok. cbn [mbind res_bind]. fold (field data 4 6) (field data 6 8).
  pose proof (field_nonneg data 4 6) as Ho.
  destruct (Z.eqb_spec (field data 6 8) 0) as [Hz|Hnz]; cbn [orb].
  { exists data. repeat split; intros; try reflexivity; try lia. }
  destruct (Z.gtb_spec (field data 4 6 + field data 6 8 * 2) (len data))
    as [Hover|Hfit].
  { exists data. repeat split; intros; try reflexivity; try lia. }
  eexists. split; [reflexivity|]. split; [|split; [intros; lia|]].
  - apply len_foldl_fixup; [assumption|].
    apply Forall_forall. intros i Hi. apply elem_of_seqZ in Hi. lia.
  - intros j Hj Hout.
    replace j with (Z.of_nat (Z.to_nat j)) in Hout by lia.
    apply foldl_fixup_out; [assumption|].
    apply Forall_forall. intros i Hi. apply elem_of_seqZ in Hi.
    split; [lia|]. split; [lia|].
    intros Hs. specialize (Hout i ltac:(lia) Hs). lia.
Qed.

(** The entry [e] of the attribute list is the one of the record at
    [data[o:]]. *)
(** The length of the record at [o] of an attribute list. *)
Definition listed_length (data : bytes) (o : Z) : Z := field data (o + 4) (o + 6).

(** The record at [o] is whole: its 26 bytes and its length, which is not
    0, lie inside the data. *)
Definition whole_record (data : bytes) (o : Z) : Prop :=
  o + 26 <= len data /\ 0 < listed_length data o
  /\ o + listed_length data o <= len data.

(** The offsets of the records from [o] on: each record starts where the
    one before it ends, and the chain stops at the first offset that has no
    whole record. *)
Inductive record_chain (data : bytes) : Z -> list Z -> Prop :=
| chain_stops (o : Z) :
    ~ whole_record data o -> record_chain data o []
| chain_goes_on (o : Z) (offsets : list Z) :
    whole_record data o ->
    record_chain data (o + listed_length data o) offsets ->
    record_chain data o (o :: offsets).

(** The name of the record at [o]: its [name_length] UTF-16 units at
    [name_offset], when there are some, they lie inside the data and they
    decode; the empty string otherwise. *)
Definition listed_name (data : bytes) (o : Z) : str :=
  let name_length := Spec.byte_at data (o + 6) in
  let name_offset := Spec.byte_at data (o + 7) in
  if (0 <? name_length) && (o + name_offset + 2 * name_length <=? len data)
  then default [] (decode_utf16le Strict
                     (slice data (o + name_offset)
                        (o + name_offset + 2 * name_length)))
  else [].

(** The entry of the record at [o]. *)
Definition listed_at (data : bytes) (o : Z) : dict :=
  <["mft_reference" := VInt (field data (o + 16) (o + 24))]>
    (<["start_vcn" := VInt (field data (o + 8) (o + 16))]>
       (<["name" := VStr (listed_name data o)]>
          (<["type" := VInt (field data o (o + 4))]> ∅))).

Lemma attribute_list_loop_spec (data : bytes) (fuel : nat) : forall offset entries,
  0 <= offset -> Z.max 0 (len data - offset) < Z.of_nat fuel ->
  exists offsets,
    NTFSExtractor.attribute_list_loop fuel data offset entries
    = Ok (entries ++ (listed_at data <$> offsets))
    /\ record_chain data offset offsets.
Proof.
  induction fuel as [|fuel IH]; intros offset entries Ho Hfuel; [lia|].
  cbn [NTFSExtractor.attribute_list_loop].
  destruct (Z.leb_spec (offset + 26) (len data)) as [Hfit|Hend].
  2:{ exists []. rewrite app_nil_r. split; [reflexivity|].
      constructor. unfold whole_record. lia. }
  unpack_ok. cbn [mbind res_bind].
  fold (field data offset (offset + 4)) (field data (offset + 4) (offset + 6)).
  fold (listed_length data offset).
  pose proof (field_nonneg data (offset + 4) (offset + 6)) as Hlen.
  fold (listed_length data offset) in Hlen.
  destruct (Z.eqb_spec (listed_length data offset) 0) as [Hz|Hnz]; cbn [orb].
  { exists []. rewrite app_nil_r. split; [reflexivity|].
    constructor. unfold whole_record. lia. }
  destruct (Z.gtb_spec (offset + listed_length data offset) (len data))
    as [Hout|Hin].
  { exists []. rewrite app_nil_r. split; [reflexivity|].
    constructor. unfold whole_record. lia. }
  destruct (index_byte_at data (offset + 6) ltac:(lia)) as (b1 & -> & Hb1).
  destruct (index_byte_at data (offset + 7) ltac:(lia)) as (b2 & -> & Hb2).
  cbn [fmap res_fmap mbind res_bind]. unpack_ok. cbn [mbind res_bind]. cbv zeta.
  fold (field data (offset + 8) (offset + 16))
       (field data (offset + 16) (offset + 24)).
  rewrite Hb1, Hb2.
  assert (Hname :
    (if (Spec.byte_at data (offset + 6) >? 0)
        && (offset + Spec.byte_at data (offset + 7)
            + Spec.byte_at data (offset + 6) * 2 <=? len data)
     then match decode_utf16le Strict
                  (slice data (offset + Spec.byte_at data (offset + 7))
                     (offset + Spec.byte_at data (offset + 7)
                      + Spec.byte_at data (offset + 6) * 2)) with
          | Some name => name
          | None => []
          end
     else []) = listed_name data offset).
  { unfold listed_name. cbv zeta.
    rewrite Z.gtb_ltb, (Z.mul_comm (Spec.byte_at data (offset + 6)) 2).
    destruct (_ && _); [|reflexivity].
    destruct (decode_utf16le _ _); reflexivity. }
  rewrite Hname. fold (listed_at data offset).
  destruct (IH (offset + listed_length data offset)
              (entries ++ [listed_at data offset])) as (offsets & E & Hc);
    [lia|lia|].
  exists (offset :: offsets). rewrite E. split.
  - rewrite <- app_assoc. reflexivity.
  - constructor; [|exact Hc]. unfold whole_record. lia.
Qed.

(** X25. [_parse_attribute_list] ends and never raises. For a non-resident
    attribute it returns no entry. Otherwise it returns one entry for each
    record of the chain that starts at offset 0 of the attribute data, in
    order, and nothing else: a record at [o] belongs to the chain when its
    26 bytes lie inside the data, its length (the word at [o + 4]) is not 0
    and the record ends inside the data; the next record starts at [o] plus
    that length, and the chain stops at the first offset where this fails.
    The entry of the record at [o] has the type (the four bytes at [o]),
    the start VCN (the eight bytes at [o + 8]), the file reference (the
    eight bytes at [o + 16]) and the name: the [name_length] (byte
    [o + 6]) UTF-16 units at [o + name_offset] (byte [o + 7]) when there
    are some, they lie inside the data and they decode, and the empty
    string otherwise. *)
Theorem X25_parse_attribute_list (attr : dict) (base_entry_num : Z) :
  let data := get_bytes attr "data" [] in
  exists offsets,
    record_chain data 0 offsets
    /\ NTFSExtractor._parse_attribute_list attr base_entry_num
       = Ok (if get_bool attr "non_resident" false then []
             else listed_at data <$> offsets).
Proof.
  cbv zeta. unfold NTFSExtractor._parse_attribute_list. cbv zeta.
  destruct (attribute_list_loop_spec (get_bytes attr "data" [])
              (S (length (get_bytes attr "data" []))) 0 [])
    as (offsets & E & Hc); [lia|unfold len; lia|].
  exists offsets. split; [exact Hc|].
  destruct (get_bool attr "non_resident" false); [reflexivity|exact E].
Qed.

(** The chain and the entries are the only ones. *)
Lemma record_chain_unique (data : bytes) (o : Z) (offsets offsets' : list Z) :
  record_chain data o offsets -> record_chain data o offsets' -> offsets = offsets'.
Proof.
  intros Hc. revert offsets'.
  induction Hc as [o Hn|o offsets Hw Hc IH]; intros offsets' Hc';
    inversion Hc'; subst; try contradiction; [reflexivity|].
  f_equal. apply IH. assumption.
Qed.

(** ** The unified timeline *)

Section timeline.
Context `{PyDatetime} `{PyUnicode} `{PyRecursion}.
Variable path_exists : str -> bool.
Variable content : str -> bytes.

Lemma nonempty_cons (c : Z) (s : str) : nonempty (c :: s) = true.
Proof. unfold nonempty. rewrite bool_decide_eq_false_2 by discriminate. reflexivity. Qed.

Lemma nonempty_nil : nonempty [] = false.
Proof. unfold nonempty. rewrite bool_decide_eq_true_2 by reflexivity. reflexivity. Qed.

Lemma foldl_mft_body (records : list MFTRecord.t) (out : list UnifiedRecord.t) :
  foldl mft_body out records = out ++ concat (map Spec.mft_events records).
Proof.
  revert out. induction records as [|record rest IH]; intros out.
  - cbn. rewrite app_nil_r. reflexivity.
  - cbn [foldl map concat]. rewrite IH. unfold mft_body, Spec.mft_events.
    cbv zeta.
    destruct (MFTRecord.si_created record) as [|c cs] eqn:Ec;
      destruct (MFTRecord.si_modified record) as [|m ms] eqn:Em;
      rewrite ?nonempty_cons, ?nonempty_nil; cbn [andb];
      repeat case_bool_decide; try discriminate; cbn [negb app];
      rewrite <- ?app_assoc; cbn [app]; rewrite ?app_nil_r;
      unfold mft_create_event, mft_modify_event, mft_event, Spec.mft_event_at;
      rewrite ?Ec, ?Em; reflexivity.
Qed.

Lemma get_full_path_mod (cache : gmap Z str) (file_ref : Z) :
  get_full_path cache file_ref
  = match cache !! (file_ref mod 2 ^ 48) with Some path => path | None => [] end.
Proof.
  unfold get_full_path, parse_file_reference.
  change 0x0000FFFFFFFFFFFF with (Z.ones 48). rewrite Z.land_ones by lia.
  destruct (cache !! _); reflexivity.
Qed.

Lemma usn_event_spec (mft_path : option str) (cache : gmap Z str)
    (record : UsnRecord.t) :
  (given mft_path = false -> cache = ∅) ->
  usn_event mft_path cache record = Spec.usn_event cache record.
Proof.
  intros Hc. unfold usn_event, Spec.usn_event. cbv zeta.
  destruct (given mft_path).
  - rewrite get_full_path_mod. reflexivity.
  - rewrite (Hc eq_refl), lookup_empty. reflexivity.
Qed.

Lemma foldl_usn_body mft_path cache (records : list UsnRecord.t)
    (out : list UnifiedRecord.t) :
  (given mft_path = false -> cache = ∅) ->
  foldl (usn_body mft_path cache) out records
  = out ++ map (Spec.usn_event cache) records.
Proof.
  intros Hc. revert out. induction records as [|record rest IH]; intros out.
  - cbn. rewrite app_nil_r. reflexivity.
  - cbn [foldl map]. rewrite IH. unfold usn_body.
    rewrite usn_event_spec by exact Hc. rewrite <- app_assoc. reflexivity.
Qed.

Lemma log_event_spec (record : LogRecord.t) :
  log_event record = Spec.log_event record.
Proof.
  unfold log_event, Spec.log_event, Spec.reference_label, truthy.
  destruct (LogRecord.file_reference record =? 0),
           (LogRecord.parent_reference record =? 0); reflexivity.
Qed.

Lemma foldl_log_body (records : list LogRecord.t) (out : list UnifiedRecord.t) :
  foldl log_body out records
  = out ++ map Spec.log_event (List.filter Spec.log_kept records).
Proof.
  revert out. induction records as [|record rest IH]; intros out.
  - cbn. rewrite app_nil_r. reflexivity.
  - cbn [foldl List.filter]. rewrite IH. unfold log_body, Spec.log_kept.
    destruct (LogRecord.filename record) as [|c cs];
      destruct (LogRecord.event record) as [|e es];
      rewrite ?nonempty_cons, ?nonempty_nil; cbn [orb]; try reflexivity;
      cbn [map]; rewrite log_event_spec, <- app_assoc; reflexivity.
Qed.

(** The log decoder returns on every file. *)
Lemma log_iter_records_total (file : bytes) :
  exists records, LogFileParser.iter_records file = Ok records.
Proof.
  rewrite iter_records_spec. destruct (page_size_of file); eauto.
Qed.

Lemma log_block_spec (logfile_path : option str) (out : list UnifiedRecord.t) :
  exists log,
    Spec.log_records path_exists content logfile_path = Ok log
    /\ log_block path_exists content logfile_path out
       = Returned (out ++ map Spec.log_event (List.filter Spec.log_kept log)).
Proof.
  unfold log_block, Spec.log_records, usable, Spec.present, nonempty.
  destruct logfile_path as [p|]; cbn [path_str default from_option id].
  2:{ exists []. cbn [map List.filter]. rewrite (app_nil_r out). auto. }
  destruct (_ && _).
  2:{ exists []. cbn [map List.filter]. rewrite (app_nil_r out). auto. }
  destruct (log_iter_records_total (content p)) as [log ->].
  exists log. rewrite foldl_log_body. auto.
Qed.

(** The cache the journal parser takes over is the one of the MFT
    decoder. *)
Lemma path_cache_spec (mft_path : option str) (mft : list MFTRecord.t) :
  Spec.mft_records path_exists content mft_path = Ok mft ->
  exists cache,
    Spec.path_cache path_exists content mft_path = Ok cache
    /\ (given mft_path = false -> cache = ∅)
    /\ (given mft_path = true ->
        build_path_cache_from_mft path_exists content (path_str mft_path) = Ok cache).
Proof.
  unfold Spec.mft_records, Spec.path_cache, build_path_cache_from_mft.
  destruct mft_path as [p|]; cbn [Spec.present given path_str default from_option id].
  2:{ intros _. exists ∅. repeat split; auto; discriminate. }
  fold (nonempty p).
  destruct (nonempty p); cbn [andb negb orb].
  2:{ intros _. exists ∅. repeat split; auto; discriminate. }
  destruct (path_exists p); cbn [negb].
  2:{ intros _. exists ∅. repeat split; auto; discriminate. }
  unfold MFTParser.iter_entries_with_paths, MFT_ENTRY_SIZE.
  destruct (MFTParser.build_path_cache 1024 (content p) ∅) as [cache| |];
    cbn [mbind res_bind]; try discriminate.
  intros _. exists cache. repeat split; auto; discriminate.
Qed.


End timeline.

(** A log of pages of 256 bytes: the restart area and one record page with
    the record [named_log_record]. *)
Definition small_logfile : bytes :=
  blit "RSTR" ++ zeros 16 ++ pack_u 4 256 ++ zeros 488
  ++ blit "RCRD" ++ zeros 44 ++ named_log_record ++ zeros 30.

(** A file system with an MFT at "mft", a journal at "j", of one record
    of the second 5, and a log anywhere else. *)
Definition timed_files (p : str) : bytes :=
  if bool_decide (p = lit "mft") then timed_mft
  else if bool_decide (p = lit "j") then usn_record_at 50000000 "ab"
  else small_logfile.

(** The same with a journal of 100 bytes 0xFF. *)
Definition stuck_files (p : str) : bytes :=
  if bool_decide (p = lit "j") then all_ff 100 else small_logfile.



(** End of the development. *)

